(** * CODa dataset layer of pcdet: a shallow embedding of
      [pcdet/datasets/coda/coda_dataset.py] and the properties of its
      info builder, FOV filter, ground-truth database builder, balanced
      resampler, prediction serializer and evaluation bridge, followed by
      the construction of the dataset object, the road planes, the data
      preparation and the samples served to the data pipeline.

    Conventions of the embedding.
    - numpy float arrays hold IEEE-754 numbers; they are modelled with the
      kernel's binary64 [float].  Every binary32 value is a binary64 value,
      so comparisons are the same in both widths; where the source stores
      the result of a binary64 computation into a float32 array the
      rounding is written out with [to_f32], and where the element type of
      the array is that of a collaborator the rounding is a parameter.
    - int32 arrays (image shape, difficulty, index, point counts) are
      modelled as [Z]; the counts stored there are bounded by the number of
      points of one frame.  The one int32 operation that can leave the
      range, the sum of an element of the image shape and the margin of the
      FOV filter, is written out with its wrap-around ([int32_add]).
    - a raised Python exception is a value [Err e] of the [result] type.
    - [calibration_kitti], [object3d_kitti], [box_utils], [roiaware_pool3d]
      and the KITTI evaluation are collaborators outside this file of the
      repository; they enter through the class [Externals], the files
      read at construction through [Storage] and the base class and the
      utilities of [__getitem__] through [Pipeline]. *)

From Stdlib Require Import ZArith List Ascii String Bool Lia.
From Stdlib Require Import DecimalString Floats.
From stdpp Require Import base option list strings gmap.

Import ListNotations.
Local Open Scope Z_scope.
Set Warnings "-inexact-float".

(* ===================================================================== *)
(** * Exceptions and the error monad *)
(* ===================================================================== *)

(** The exceptions the modelled code can raise.  An [assert] without a
    message raises [AssertionError None]. *)
Inductive exn : Type :=
| AssertionError (msg : option string)
| KeyError (key : string)
| IndexError
| ZeroDivisionError
| ValueError
| OverflowError
| TypeError
| AttributeError.

Inductive result (A : Type) : Type :=
| Ok (a : A)
| Err (e : exn).
Arguments Ok {A} a.
Arguments Err {A} e.

Definition rbind {A B : Type} (m : result A) (k : A -> result B) : result B :=
  match m with
  | Ok a => k a
  | Err e => Err e
  end.

Notation "x <-- m ;; k" := (rbind m (fun x => k))
  (at level 100, m at next level, right associativity).
(** [for x in l: body] threading an accumulator, aborting on the first
    exception. *)
Fixpoint rfold {A S : Type} (body : S -> A -> result S) (l : list A) (s : S)
  : result S :=
  match l with
  | [] => Ok s
  | x :: l' => s' <-- body s x ;; rfold body l' s'
  end.

(** [[f(x) for x in l]] where [f] may raise. *)
Fixpoint rmap {A B : Type} (f : A -> result B) (l : list A) : result (list B) :=
  match l with
  | [] => Ok []
  | x :: l' => y <-- f x ;; ys <-- rmap f l' ;; Ok (y :: ys)
  end.

Definition is_ok {A : Type} (r : result A) : bool :=
  match r with Ok _ => true | Err _ => false end.

(** [l[i]] for a non-negative index: [IndexError] when out of range. *)
Definition getitem {A : Type} (l : list A) (i : nat) : result A :=
  match l !! i with
  | Some x => Ok x
  | None => Err IndexError
  end.

(** [l[i] = v] on an array: [IndexError] when out of range. *)
Definition setitem {A : Type} (l : list A) (i : nat) (v : A) : result (list A) :=
  if decide (i < length l)%nat then Ok (<[i := v]> l) else Err IndexError.

(* ===================================================================== *)
(** * Numbers *)
(* ===================================================================== *)

(** The binary64 number an integer is converted to where it is compared
    or combined with floating-point numbers.  The definition goes through
    the 63-bit machine integers; it is used below [2^53] in magnitude,
    where the conversion is exact (lemma [Z2F_scaled]): on int32 values
    and on the lengths of lists. *)
Definition Z2F (z : Z) : float :=
  match z with
  | Z0 => 0%float
  | Zpos _ => of_uint63 (Uint63.of_Z z)
  | Zneg p => (- of_uint63 (Uint63.of_Z (Zpos p)))%float
  end.

(** The order between the number a float stands for and an integer,
    computed on integers: a finite float with sign [s], mantissa [m] and
    exponent [e] stands for [±m·2^e], a zero of either sign for 0; NaN is
    unordered. *)
Definition fcompare_Z (x : float) (z : Z) : option comparison :=
  match Prim2SF x with
  | S754_nan => None
  | S754_infinity s => Some (if s then Lt else Gt)
  | S754_zero _ => Some (0 ?= z)
  | S754_finite s m e =>
      let v := if s then Zneg m else Zpos m in
      Some (if 0 <=? e then v * 2 ^ e ?= z else v ?= z * 2 ^ (- e))
  end.

(** [z <= x], [x < z], [x = z] and [z < x] for a float [x] and an integer
    [z]. *)
Definition float_ge_Z (x : float) (z : Z) : Prop :=
  fcompare_Z x z = Some Gt \/ fcompare_Z x z = Some Eq.
Definition float_lt_Z (x : float) (z : Z) : Prop :=
  fcompare_Z x z = Some Lt.
Definition float_eq_Z (x : float) (z : Z) : Prop :=
  fcompare_Z x z = Some Eq.
Definition float_gt_Z (x : float) (z : Z) : Prop :=
  fcompare_Z x z = Some Gt.

(** The number a zero or finite binary64 stands for, in units of
    [2^-1074], the smallest positive binary64. *)
Definition SF_scaled (f : spec_float) : Z :=
  match f with
  | S754_finite s m e => (if s then Zneg m else Zpos m) * 2 ^ (e + 1074)
  | _ => 0
  end.

Definition SF_finite (f : spec_float) : bool :=
  match f with
  | S754_zero _ | S754_finite _ _ _ => true
  | _ => false
  end.

(** The range of int32 and the int32 the low 32 bits of an integer stand
    for. *)
Definition int32_min : Z := - 2 ^ 31.
Definition int32_max : Z := 2 ^ 31 - 1.
Definition is_int32 (z : Z) : bool := (int32_min <=? z) && (z <=? int32_max).
Definition wrap32 (z : Z) : Z := (z + 2 ^ 31) mod 2 ^ 32 - 2 ^ 31.

(** [a + m] for an element [a] of an int32 array and a Python integer
    [m], as numpy 2 evaluates it: the Python integer takes the type of the
    array element, with [OverflowError] when it is not an int32, and the
    sum is the int32 one, which wraps around (numpy warns and goes on). *)
Definition int32_add (a m : Z) : result Z :=
  if is_int32 m then Ok (wrap32 (a + m)) else Err OverflowError.

(** Rounding of a binary64 value to the nearest binary32 value (ties to
    even), what numpy does when a float64 result is written into a float32
    array. *)
Definition to_f32 (x : float) : float :=
  match Prim2SF x with
  | S754_finite s m e => SF2Prim (binary_round 24 128 s m e)
  | _ => x
  end.

Definition vec3 : Type := float * float * float.

Definition vec3_row (p : vec3) : list float :=
  let '(x, y, z) := p in [x; y; z].

(** numpy arrays as the modelled code uses them: one-dimensional arrays of
    strings, floats or integers, and two-dimensional float arrays with an
    explicit number of columns (so that an array of shape [(0, 4)] differs
    from one of shape [(0, 3)]). *)
Inductive ndarray : Type :=
| ArrStr (l : list string)
| ArrFloat (l : list float)
| ArrInt (l : list Z)
| ArrFloat2 (ncols : nat) (rows : list (list float)).

(** [len(a)]. *)
Definition len (a : ndarray) : nat :=
  match a with
  | ArrStr l => length l
  | ArrFloat l => length l
  | ArrInt l => length l
  | ArrFloat2 _ rows => length rows
  end.

(** [a.shape]. *)
Definition shape (a : ndarray) : list nat :=
  match a with
  | ArrStr l => [length l]
  | ArrFloat l => [length l]
  | ArrInt l => [length l]
  | ArrFloat2 c rows => [length rows; c]
  end.

(** [a[mask]] for a boolean mask of the same length. *)
Fixpoint mask_select {A : Type} (l : list A) (mask : list bool) : list A :=
  match l, mask with
  | x :: l', b :: mask' =>
      if b then x :: mask_select l' mask' else mask_select l' mask'
  | _, _ => []
  end.

(** [np.logical_and(a, b)] on two masks of equal length. *)
Fixpoint logical_and (a b : list bool) : list bool :=
  match a, b with
  | x :: a', y :: b' => (x && y) :: logical_and a' b'
  | _, _ => []
  end.

(** [a[index]] for an integer index array: the rows at the given
    positions, in the order of the index. *)
Definition fancy_index {A : Type} (l : list A) (index : list nat)
  : result (list A) :=
  rmap (getitem l) index.

(** [flag.sum()]: the number of [True] entries of a mask. *)
Definition mask_sum (flag : list bool) : Z :=
  Z.of_nat (length (List.filter (fun b => b) flag)).

(* ===================================================================== *)
(** * Strings, paths and number formatting *)
(* ===================================================================== *)

(** [p / q] on [pathlib.Path] values, read through [str]. *)
Definition path_join (p q : string) : string := p +:+ "/" +:+ q.

(** ['%d' % n] and [str(n)] for a non-negative integer. *)
Definition string_of_nat (n : nat) : string :=
  NilZero.string_of_uint (Nat.to_uint n).

Definition digit_char (d : Z) : ascii := ascii_of_nat (48 + Z.to_nat d).

(** The four decimals of [k], for [0 <= k < 10000]. *)
Definition pad4 (k : Z) : string :=
  String (digit_char (k / 1000 mod 10))
    (String (digit_char (k / 100 mod 10))
       (String (digit_char (k / 10 mod 10))
          (String (digit_char (k mod 10)) EmptyString))).

(** The integer nearest to [num / den] (for [den > 0], [num >= 0]), ties
    going to the even one. *)
Definition round_half_even (num den : Z) : Z :=
  let q := num / den in
  let r := num mod den in
  match 2 * r ?= den with
  | Lt => q
  | Gt => q + 1
  | Eq => if Z.even q then q else q + 1
  end.

(** The element types of the float arrays of the collaborators. *)
Inductive float_dtype : Type := Float32 | Float64.

(** The integer nearest to [z] among the numbers with 24 significant
    bits, ties going to the even one: the float32 an integer is converted
    to (every such number is an integer once [|z| >= 2^24], and the range
    of float32 is not left below [2^127]). *)
Definition round_to_24_bits (z : Z) : Z :=
  let k := Z.log2 (Z.abs z) + 1 - 24 in
  if k <=? 0 then z
  else Z.sgn z * (round_half_even (Z.abs z) (2 ^ k) * 2 ^ k).

(** A Python integer compared or combined with a float array takes the
    element type of the array (numpy 2): the integer it becomes.  The
    conversion to float64 is exact below [2^53]. *)
Definition int_as (t : float_dtype) (z : Z) : Z :=
  match t with
  | Float32 => round_to_24_bits z
  | Float64 => z
  end.

(** The magnitude [m * 2^e] of a finite float as a fraction. *)
Definition magnitude (m : positive) (e : Z) : Z * Z :=
  if 0 <=? e then (Zpos m * 2 ^ e, 1) else (Zpos m, 2 ^ (- e)).

(** ['%.4f' % x]: the correctly rounded decimal expansion of [x] with four
    digits after the point. *)
Definition format_4f (x : float) : string :=
  match Prim2SF x with
  | S754_nan => "nan"
  | S754_infinity s => if s then "-inf" else "inf"
  | S754_zero s => (if s then "-" else "") +:+ "0.0000"
  | S754_finite s m e =>
      let '(num, den) := magnitude m e in
      let n := round_half_even (num * 10000) den in
      (if s then "-" else "")
        +:+ NilZero.string_of_uint (N.to_uint (Z.to_N (n / 10000)))
        +:+ "." +:+ pad4 (n mod 10000)
  end.

(** [int(x)] on a Python float: truncation toward zero. *)
Definition py_int (x : float) : result Z :=
  match Prim2SF x with
  | S754_nan => Err ValueError
  | S754_infinity _ => Err OverflowError
  | S754_zero _ => Ok 0
  | S754_finite s m e =>
      let '(num, den) := magnitude m e in
      Ok (if s then - (num / den) else num / den)
  end.

(** [round(x)] on a Python float: the nearest integer, ties to even. *)
Definition py_round (x : float) : result Z :=
  match Prim2SF x with
  | S754_nan => Err ValueError
  | S754_infinity _ => Err OverflowError
  | S754_zero _ => Ok 0
  | S754_finite s m e =>
      let '(num, den) := magnitude m e in
      let n := round_half_even num den in
      Ok (if s then - n else n)
  end.

(** [a / b] on Python integers (true division). *)
Definition py_int_div (a b : Z) : result float :=
  if b =? 0 then Err ZeroDivisionError else Ok (Z2F a / Z2F b)%float.

(** [x / n] for a Python float and a Python integer. *)
Definition py_float_div_int (x : float) (n : Z) : result float :=
  if n =? 0 then Err ZeroDivisionError else Ok (x / Z2F n)%float.

(** [s.split(' ')]. *)
Fixpoint split_space (s : string) : list string :=
  match s with
  | EmptyString => [EmptyString]
  | String c s' =>
      if Ascii.eqb c " " then EmptyString :: split_space s'
      else match split_space s' with
           | t :: ts => String c t :: ts
           | [] => [String c EmptyString]
           end
  end.

(** [needle in hay] on strings. *)
Fixpoint contains (needle hay : string) : bool :=
  String.prefix needle hay
  || match hay with
     | EmptyString => false
     | String _ hay' => contains needle hay'
     end.

Fixpoint no_space (s : string) : bool :=
  match s with
  | EmptyString => true
  | String c s' => negb (Ascii.eqb c " ") && no_space s'
  end.

Definition is_digit (c : ascii) : bool :=
  ((48 <=? nat_of_ascii c) && (nat_of_ascii c <=? 57))%nat.

Fixpoint all_digits (s : string) : bool :=
  match s with
  | EmptyString => true
  | String c s' => is_digit c && all_digits s'
  end.

(** A decimal numeral with exactly four digits after the point. *)
Definition four_decimals (s : string) : Prop :=
  exists sign ip fp : string,
    s = sign +:+ ip +:+ "." +:+ fp
    /\ (sign = "" \/ sign = "-")
    /\ all_digits ip = true /\ ip <> ""
    /\ all_digits fp = true /\ String.length fp = 4%nat.

Definition is_finite (x : float) : bool :=
  match Prim2SF x with
  | S754_nan | S754_infinity _ => false
  | _ => true
  end.

(* ===================================================================== *)
(** * Data model *)
(* ===================================================================== *)

(** A raw lidar point: one row [(x, y, z, intensity)] of the float32 point
    cloud. *)
Record lidar_point : Type := LidarPoint {
  xyz : vec3;
  intensity : float
}.

(** [object3d_kitti.Object3d]: one labeled object as the label reader
    returns it. *)
Record Object3d : Type := {
  cls_type : string;
  truncation : float;
  occlusion : float;
  alpha : float;
  box2d : float * float * float * float;
  obj_h : float;
  obj_w : float;
  obj_l : float;
  loc : vec3;
  ry : float;
  score : float;
  level : Z
}.

Definition box2d_row (o : Object3d) : list float :=
  let '(x1, y1, x2, y2) := box2d o in [x1; y1; x2; y2].

(** A Python [dict] with string keys, in insertion order. *)
Definition odict (V : Type) : Type := list (string * V).

Fixpoint dict_find {V : Type} (d : odict V) (k : string) : option V :=
  match d with
  | [] => None
  | (k', v) :: d' => if String.eqb k k' then Some v else dict_find d' k
  end.

(** [d[k]]. *)
Definition dict_get {V : Type} (d : odict V) (k : string) : result V :=
  match dict_find d k with
  | Some v => Ok v
  | None => Err (KeyError k)
  end.

(** [d[k] = v]: an existing key keeps its place, a new one goes last. *)
Fixpoint dict_set {V : Type} (d : odict V) (k : string) (v : V) : odict V :=
  match d with
  | [] => [(k, v)]
  | (k', v') :: d' =>
      if String.eqb k k' then (k, v) :: d' else (k', v') :: dict_set d' k v
  end.

(** The annotation dictionary of a frame: field name to array. *)
Definition pydict : Type := odict ndarray.

Definition dict_keys {V : Type} (d : odict V) : list string := map fst d.
Definition dict_values {V : Type} (d : odict V) : list V := map snd d.

(** [a[i]] read at the element type the caller expects.  The records
    read back are the ones the info builder wrote; an element of another
    kind is reported as [TypeError]. *)
Definition str_at (a : ndarray) (i : nat) : result string :=
  match a with
  | ArrStr l => getitem l i
  | _ => if decide (i < len a)%nat then Err TypeError else Err IndexError
  end.
Definition float_at (a : ndarray) (i : nat) : result float :=
  match a with
  | ArrFloat l => getitem l i
  | _ => if decide (i < len a)%nat then Err TypeError else Err IndexError
  end.
Definition int_at (a : ndarray) (i : nat) : result Z :=
  match a with
  | ArrInt l => getitem l i
  | _ => if decide (i < len a)%nat then Err TypeError else Err IndexError
  end.
Definition row_at (a : ndarray) (i : nat) : result (list float) :=
  match a with
  | ArrFloat2 _ rows => getitem rows i
  | _ => if decide (i < len a)%nat then Err TypeError else Err IndexError
  end.
Definition as_rows (a : ndarray) : result (list (list float)) :=
  match a with ArrFloat2 _ rows => Ok rows | _ => Err TypeError end.

(** The Info Record of one frame.  [annos] is absent when the frame was
    built without labels. *)
Record Info : Type := {
  pc_num_features : Z;
  pc_lidar_idx : string;
  image_idx : string;
  image_shape : Z * Z;
  calib_P2 : list (list float);
  calib_R0_rect : list (list float);
  calib_Tr_velo_to_cam : list (list float);
  annos : option pydict
}.

(** One entry of the ground-truth database index. *)
Record DbInfo : Type := {
  db_name : string;
  db_path : string;
  db_image_idx : string;
  db_gt_idx : nat;
  db_box3d_lidar : list float;
  db_num_points_in_gt : nat;
  db_difficulty : Z;
  db_bbox : list float;
  db_score : float
}.

(** The annotation record built for the detections of one frame. *)
Record PredDict : Type := {
  pd_name : ndarray;
  pd_truncated : list float;
  pd_occluded : list float;
  pd_alpha : list float;
  pd_bbox : list (list float);
  pd_dimensions : list (list float);
  pd_location : list (list float);
  pd_rotation_y : list float;
  pd_score : list float;
  pd_boxes_lidar : list (list float);
  pd_frame_id : option string
}.

(** The fields of the dataset object the modelled methods read. *)
Record CODataset : Type := {
  root_path : string;
  root_split_path : string;
  use_sorted_imageset : bool;
  lidar_idx_subdir_map : gmap string string;
  class_names : option (list string);
  coda_infos : list Info;
  has_logger : bool;   (* [self.logger is not None] *)
  cfg_SHIFT_COOR : option vec3;
  cfg_FOV_FILTER : bool
}.

Definition DontCare : string := "DontCare".

(** The detections of one frame as the model returns them. *)
Record BoxDict : Type := {
  pred_scores : list float;
  pred_boxes : list (list float);
  pred_labels : list Z
}.

(* ===================================================================== *)
(** * The dataset operations *)
(* ===================================================================== *)

(** The collaborators of the dataset layer.

    - [calibration_kitti.Calibration]: the calibration object of a frame,
      its three matrices and its transforms.  The transforms are matrix
      products applied to every row of the point array, so each enters as a
      function of one point.
    - [box_utils.boxes_to_corners_3d] (per box), [box_utils.in_hull] (per
      point) and [roiaware_pool3d_utils.points_in_boxes_cpu] (per box and
      point, the entry of the [(nboxes, npoints)] mask).
    - [box_utils.boxes3d_lidar_to_kitti_camera] and
      [box_utils.boxes3d_kitti_camera_to_imageboxes] (per box), and
      [np.arctan2].
    - the file system and the readers of the per-frame files:
      [Path.exists], [np.fromfile(...).reshape(-1, 4)],
      [io.imread(...).shape[:2]], [object3d_kitti.get_objects_from_label]
      and the constructor of the calibration object.
    - [kitti_eval.get_official_eval_result].
    - the state of numpy's global random generator; [randint rng n] is one
      draw from [0, n).
    - the element types of the arrays the collaborators return, which
      decide how the results computed with them are rounded:
      [pixel_dtype] is the element type of the pixel array of
      [rect_to_img]; [loc_store] is the rounding to the element type of
      the array [rect_to_lidar] returns (the identity for a float64 array,
      [to_f32] for a float32 one), applied where the info builder updates
      that array in place; [pred_store] is the rounding to the element
      type of the [pred_boxes] array of a detection dictionary, and
      [alpha_store] the one to the element type of the sum of the
      [np.arctan2] array and the yaw column of the camera boxes.

    The text that is logged or printed is not modelled. *)
Class Externals : Type := {
  Calib : Type;
  P2 : Calib -> list (list float);
  R0 : Calib -> list (list float);
  V2C : Calib -> list (list float);
  rect_to_img : Calib -> vec3 -> (float * float) * float;
  pixel_dtype : float_dtype;
  rect_to_lidar : Calib -> vec3 -> vec3;
  loc_store : float -> float;
  lidar_to_rect : Calib -> vec3 -> vec3;
  Corners : Type;
  boxes_to_corners_3d : list float -> Corners;
  in_hull : vec3 -> Corners -> bool;
  points_in_boxes_cpu : list float -> vec3 -> Z;
  boxes3d_lidar_to_kitti_camera : list float -> Calib -> list float;
  boxes3d_kitti_camera_to_imageboxes :
    list float -> Calib -> Z * Z -> list float;
  arctan2 : float -> float -> float;
  pred_store : float -> float;
  alpha_store : float -> float;
  file_exists : string -> bool;
  fromfile : string -> list lidar_point;
  imread_shape : string -> Z * Z;
  get_objects_from_label : string -> list Object3d;
  Calibration : string -> Calib;
  get_official_eval_result :
    list pydict -> list PredDict -> list string -> string * odict float;
  Rng : Type;
  randint : Rng -> nat -> nat * Rng
}.

Section Operations.

Context {Ext : Externals}.

(** ** Per-frame accessors *)

(** The directory the files of frame [idx] are under. *)
Definition split_path_of (self : CODataset) (idx : string) : result string :=
  if use_sorted_imageset self then
    match lidar_idx_subdir_map self !! idx with
    | Some subdir => Ok (path_join (root_path self) subdir)
    | None => Err (KeyError idx)
    end
  else Ok (root_split_path self).

Definition lidar_file_of (root idx : string) : string :=
  path_join (path_join root "velodyne") (idx +:+ ".bin").
Definition img_file_of (root idx : string) : string :=
  path_join (path_join root "image_0") (idx +:+ ".jpg").
Definition label_file_of (root idx : string) : string :=
  path_join (path_join root "label_0") (idx +:+ ".txt").
Definition calib_file_of (root idx : string) : string :=
  path_join (path_join root "calib") (idx +:+ ".txt").

Definition get_lidar (self : CODataset) (idx : string)
  : result (list lidar_point) :=
  root <-- split_path_of self idx ;;
  let lidar_file := lidar_file_of root idx in
  if file_exists lidar_file then Ok (fromfile lidar_file)
  else Err (AssertionError (Some ("Lidar files " +:+ lidar_file +:+ " "))).

Definition get_image_shape (self : CODataset) (idx : string)
  : result (Z * Z) :=
  root <-- split_path_of self idx ;;
  let img_file := img_file_of root idx in
  if file_exists img_file then Ok (imread_shape img_file)
  else Err (AssertionError
              (Some ("Image file " +:+ img_file +:+ " does not exist"))).

Definition get_label (self : CODataset) (idx : string)
  : result (list Object3d) :=
  root <-- split_path_of self idx ;;
  let label_file := label_file_of root idx in
  if file_exists label_file then Ok (get_objects_from_label label_file)
  else Err (AssertionError
              (Some ("Label file " +:+ label_file +:+ " does not exist"))).

Definition get_calib (self : CODataset) (idx : string) : result Calib :=
  root <-- split_path_of self idx ;;
  let calib_file := calib_file_of root idx in
  if file_exists calib_file then Ok (Calibration calib_file)
  else Err (AssertionError None).

(** An exception reports a frame id and a resource when its message
    contains both. *)
Definition reports (e : exn) (idx resource : string) : bool :=
  match e with
  | AssertionError (Some msg) => contains idx msg && contains resource msg
  | _ => false
  end.

(** ** FOV filter *)

(** [CODataset.get_fov_flag(pts_rect, img_shape, calib, margin=0)];
    [img_shape] is [(height, width)], an int32 array (the one
    [get_image_shape] builds), and [margin] a Python integer.  The lower
    ends [0 - margin] are Python integers; the upper ends
    [img_shape[1] + margin] and [img_shape[0] + margin] are int32 sums
    ([int32_add]).  Compared with the pixel array, the Python integer
    takes the element type of the array ([int_as]) and the int32 scalar
    is converted exactly (the comparison is made in float64).  A margin
    that is too large for a float is not an int32 either, so the call
    raises [OverflowError] in both cases. *)
Definition get_fov_flag (pts_rect : list vec3) (img_shape : Z * Z)
    (calib : Calib) (margin : Z) : result (list bool) :=
  let proj := map (rect_to_img calib) pts_rect in
  let pts_img := map fst proj in
  let pts_rect_depth := map snd proj in
  let lower := Z2F (int_as pixel_dtype (0 - margin)) in
  width_m <-- int32_add (snd img_shape) margin ;;
  let val_flag_1 :=
    logical_and
      (map (fun uv => (lower <=? fst uv)%float) pts_img)
      (map (fun uv => (fst uv <? Z2F width_m)%float) pts_img) in
  height_m <-- int32_add (fst img_shape) margin ;;
  let val_flag_2 :=
    logical_and
      (map (fun uv => (lower <=? snd uv)%float) pts_img)
      (map (fun uv => (snd uv <? Z2F height_m)%float) pts_img) in
  let val_flag_merge := logical_and val_flag_1 val_flag_2 in
  let pts_valid_flag :=
    logical_and val_flag_merge
      (map (fun d => (0 <=? d)%float) pts_rect_depth) in
  Ok pts_valid_flag.

(** The test the mask applies to one point, for a margin that is an
    int32. *)
Definition in_fov (img_shape : Z * Z) (calib : Calib) (margin : Z)
    (p : vec3) : bool :=
  let uv := fst (rect_to_img calib p) in
  let d := snd (rect_to_img calib p) in
  let lower := Z2F (int_as pixel_dtype (0 - margin)) in
  ((lower <=? fst uv)
   && (fst uv <? Z2F (wrap32 (snd img_shape + margin)))
   && ((lower <=? snd uv)
       && (snd uv <? Z2F (wrap32 (fst img_shape + margin))))
   && (0 <=? d))%float.

(** ** Info builder *)

(** The ten per-object arrays, in the order the source assigns them. *)
Definition base_annotations (obj_list : list Object3d) : pydict :=
  if (0 <? length obj_list)%nat then
    [("name", ArrStr (map cls_type obj_list));
     ("truncated", ArrFloat (map truncation obj_list));
     ("occluded", ArrFloat (map occlusion obj_list));
     ("alpha", ArrFloat (map alpha obj_list));
     ("bbox", ArrFloat2 4 (map box2d_row obj_list));
     ("dimensions",
       ArrFloat2 3 (map (fun o => [obj_l o; obj_h o; obj_w o]) obj_list));
     ("location", ArrFloat2 3 (map (fun o => vec3_row (loc o)) obj_list));
     ("rotation_y", ArrFloat (map ry obj_list));
     ("score", ArrFloat (map score obj_list));
     ("difficulty", ArrInt (map level obj_list))]
  else
    [("name", ArrFloat []);
     ("truncated", ArrFloat []);
     ("occluded", ArrFloat []);
     ("alpha", ArrFloat []);
     ("bbox", ArrFloat2 4 []);
     ("dimensions", ArrFloat2 3 []);
     ("location", ArrFloat2 3 []);
     ("rotation_y", ArrFloat []);
     ("score", ArrFloat []);
     ("difficulty", ArrInt [])].

Definition not_dontcare (o : Object3d) : bool :=
  negb (String.eqb (cls_type o) DontCare).

(** [np.argwhere(mask).reshape(-1,)]: the positions of the [True]
    entries. *)
Fixpoint argwhere_from (i : nat) (mask : list bool) : list nat :=
  match mask with
  | [] => []
  | b :: mask' =>
      if b then i :: argwhere_from (S i) mask' else argwhere_from (S i) mask'
  end.
Definition argwhere (mask : list bool) : list nat := argwhere_from 0 mask.

Definition half_pi : float := (3.141592653589793 / 2)%float.

(** One row [[x, y, z, l, w, h, yaw]] of [gt_boxes_lidar], from the lidar
    location, the camera-format dimensions [(l, h, w)] and [rotation_y].
    [loc_lidar[:, 2] += h[:, 0] / 2] updates in place the array
    [rect_to_lidar] returned: the sum is computed in binary64 (the
    dimensions are a float64 array) and stored with the element type of
    that array ([loc_store]). *)
Definition lidar_box (loc_lidar : vec3) (dims : vec3) (rot : float)
  : list float :=
  let '(x, y, z) := loc_lidar in
  let '(l, h, w) := dims in
  [x; y; loc_store (z + h / 2)%float; l; w; h; (- (half_pi + rot))%float].

Fixpoint map3 {A B C D : Type} (f : A -> B -> C -> D)
    (la : list A) (lb : list B) (lc : list C) : list D :=
  match la, lb, lc with
  | a :: la', b :: lb', c :: lc' => f a b c :: map3 f la' lb' lc'
  | _, _, _ => []
  end.

Definition keys_mismatch_msg (key prev_key : string) : string :=
  "Keys " +:+ key +:+ " and " +:+ prev_key +:+ " do not "
  +:+ "                        match".

(** The loop checking that all fields besides [index] and
    [gt_boxes_lidar] have the same length. *)
Definition check_step (annotations : pydict) (prev_key : option string)
    (key : string) : result (option string) :=
  if String.eqb key "index" || String.eqb key "gt_boxes_lidar" then
    Ok prev_key
  else
    let prev_key := match prev_key with None => key | Some p => p end in
    a <-- dict_get annotations key ;;
    b <-- dict_get annotations prev_key ;;
    if (len a =? len b)%nat then Ok (Some key)
    else Err (AssertionError (Some (keys_mismatch_msg key prev_key))).

Definition check_equal_lengths (annotations : pydict)
  : result (option string) :=
  rfold (check_step annotations) (dict_keys annotations) None.

(** The loop filling [num_points_in_gt] for [k in range(num_objects)]. *)
Definition count_step (pts_fov : list lidar_point) (corners_lidar : list Corners)
    (num_points_in_gt : list Z) (k : nat) : result (list Z) :=
  c <-- getitem corners_lidar k ;;
  let flag := map (fun p => in_hull (xyz p) c) pts_fov in
  setitem num_points_in_gt k (mask_sum flag).

Definition with_annos (info : Info) (annotations : pydict) : Info :=
  {| pc_num_features := pc_num_features info;
     pc_lidar_idx := pc_lidar_idx info;
     image_idx := image_idx info;
     image_shape := image_shape info;
     calib_P2 := calib_P2 info;
     calib_R0_rect := calib_R0_rect info;
     calib_Tr_velo_to_cam := calib_Tr_velo_to_cam info;
     annos := Some annotations |}.

Definition hom_row : list float := [0; 0; 0; 1]%float.

(** [process_single_scene(sample_idx)] of [CODataset.get_infos].  The
    arrays read back from [annotations] for the lidar boxes are the
    [location], [dimensions] and [rotation_y] arrays just stored.  The
    dictionary put under [info['annos']] is the object later extended with
    [num_points_in_gt], so the record returned carries that field. *)
Definition process_single_scene (self : CODataset)
    (has_label count_inside_pts : bool) (sample_idx : string) : result Info :=
  img_shape <-- get_image_shape self sample_idx ;;
  calib <-- get_calib self sample_idx ;;
  let P2_4x4 := P2 calib ++ [hom_row] in
  let R0_4x4 := map (fun r => r ++ [0%float]) (R0 calib) ++ [hom_row] in
  let V2C_4x4 := V2C calib ++ [hom_row] in
  let info :=
    {| pc_num_features := 4;
       pc_lidar_idx := sample_idx;
       image_idx := sample_idx;
       image_shape := img_shape;
       calib_P2 := P2_4x4;
       calib_R0_rect := R0_4x4;
       calib_Tr_velo_to_cam := V2C_4x4;
       annos := None |} in
  if has_label then
    obj_list <-- get_label self sample_idx ;;
    let annotations := base_annotations obj_list in
    let num_objects := length (List.filter not_dontcare obj_list) in
    name_arr <-- dict_get annotations "name" ;;
    let num_gt := len name_arr in
    let index := argwhere (map not_dontcare obj_list) in
    let annotations := dict_set annotations "index" (ArrInt (map Z.of_nat index)) in
    loc_ <-- fancy_index (map loc obj_list) index ;;
    dims <-- fancy_index (map (fun o => (obj_l o, obj_h o, obj_w o)) obj_list) index ;;
    rots <-- fancy_index (map ry obj_list) index ;;
    let loc_lidar := map (rect_to_lidar calib) loc_ in
    let gt_boxes_lidar := map3 lidar_box loc_lidar dims rots in
    let annotations :=
      dict_set annotations "gt_boxes_lidar" (ArrFloat2 7 gt_boxes_lidar) in
    let info := with_annos info annotations in
    _ <-- check_equal_lengths annotations ;;
    if count_inside_pts then
      points <-- get_lidar self sample_idx ;;
      calib <-- get_calib self sample_idx ;;
      let pts_rect := map (fun p => lidar_to_rect calib (xyz p)) points in
      fov_flag <-- get_fov_flag pts_rect (image_shape info) calib 0 ;;
      let pts_fov := mask_select points fov_flag in
      let corners_lidar := map boxes_to_corners_3d gt_boxes_lidar in
      let num_points_in_gt := repeat (-1) num_gt in
      num_points_in_gt <--
        rfold (count_step pts_fov corners_lidar) (seq 0 num_objects)
          num_points_in_gt ;;
      Ok (with_annos info
            (dict_set annotations "num_points_in_gt" (ArrInt num_points_in_gt)))
    else Ok info
  else Ok info.

(** [CODataset.get_infos]: the worker pool maps [process_single_scene]
    over the ids and the results are collected in the order of the ids; an
    exception of a frame is raised when its result is collected. *)
Definition get_infos (self : CODataset) (has_label count_inside_pts : bool)
    (sample_id_list : list string) : result (list Info) :=
  rmap (process_single_scene self has_label count_inside_pts) sample_id_list.

(** The objects of a frame that are not of the ignore class, the lidar
    box of an object, the points of a frame that pass the FOV filter with
    margin 0, and the number of those inside a box: the terms the
    properties of the builder are stated with. *)
Definition non_ignored (obj_list : list Object3d) : list Object3d :=
  List.filter not_dontcare obj_list.

Definition gt_box_of (calib : Calib) (o : Object3d) : list float :=
  lidar_box (rect_to_lidar calib (loc o)) (obj_l o, obj_h o, obj_w o) (ry o).

Definition points_in_fov (calib : Calib) (img_shape : Z * Z)
    (points : list lidar_point) : list lidar_point :=
  let pts_rect := map (fun p => lidar_to_rect calib (xyz p)) points in
  match get_fov_flag pts_rect img_shape calib 0 with
  | Ok fov_flag => mask_select points fov_flag
  | Err _ => []   (* not reached: the margin 0 is an int32 *)
  end.

Definition count_in_box (pts : list lidar_point) (box : list float) : Z :=
  Z.of_nat
    (length (List.filter
               (fun p => in_hull (xyz p) (boxes_to_corners_3d box)) pts)).

(** The dictionary [process_single_scene] leaves under [info['annos']]
    for the objects [obj_list], in closed form; [points] is the point
    cloud when point counting is enabled. *)
Definition built_annotations (calib : Calib) (img_shape : Z * Z)
    (obj_list : list Object3d) (points : option (list lidar_point)) : pydict :=
  let gt_boxes_lidar := map (gt_box_of calib) (non_ignored obj_list) in
  base_annotations obj_list
  ++ [("index", ArrInt (map Z.of_nat (argwhere (map not_dontcare obj_list))));
      ("gt_boxes_lidar", ArrFloat2 7 gt_boxes_lidar)]
  ++ match points with
     | Some pts =>
         [("num_points_in_gt",
           ArrInt (map (count_in_box (points_in_fov calib img_shape pts))
                       gt_boxes_lidar
                   ++ repeat (-1) (length obj_list
                                   - length (non_ignored obj_list))))]
     | None => []
     end.

(** The record of a frame without its annotations. *)
Definition bare_info (sample_idx : string) (img_shape : Z * Z)
    (calib : Calib) : Info :=
  {| pc_num_features := 4;
     pc_lidar_idx := sample_idx;
     image_idx := sample_idx;
     image_shape := img_shape;
     calib_P2 := P2 calib ++ [hom_row];
     calib_R0_rect := map (fun r => r ++ [0%float]) (R0 calib) ++ [hom_row];
     calib_Tr_velo_to_cam := V2C calib ++ [hom_row];
     annos := None |}.

(** The shapes of the fields of a dictionary, in the order of its keys. *)
Definition dict_shapes (d : pydict) : list (string * list nat) :=
  map (fun kv => (fst kv, shape (snd kv))) d.

(** The names of the per-object fields of an Annotation Set. *)
Definition base_keys : list string :=
  ["name"; "truncated"; "occluded"; "alpha"; "bbox"; "dimensions";
   "location"; "rotation_y"; "score"; "difficulty"].

Definition per_object_keys : list string := base_keys ++ ["num_points_in_gt"].

(** ** Ground-truth database builder *)

(** The effects of the builder: the blob files written, in order, each
    with the rows it holds, and the class index accumulated so far. *)
Record DbState : Type := {
  written : list (string * list lidar_point);
  all_db_infos : gmap string (list DbInfo)
}.

(** [row[:3]] of a box or point row. *)
Definition row_xyz (row : list float) : result vec3 :=
  match row with
  | x :: y :: z :: _ => Ok (x, y, z)
  | _ => Err ValueError
  end.

(** [gt_points[:, :3] -= center] on one row of the float32 point array:
    the difference is computed in binary64 and stored as float32. *)
Definition recenter (center : vec3) (p : lidar_point) : lidar_point :=
  let '(cx, cy, cz) := center in
  let '(x, y, z) := xyz p in
  LidarPoint (to_f32 (x - cx), to_f32 (y - cy), to_f32 (z - cz))%float
             (intensity p).

Definition in_used_classes (used_classes : option (list string))
    (name : string) : bool :=
  match used_classes with
  | None => true
  | Some l => existsb (String.eqb name) l
  end.

Definition db_dir (split : string) : string :=
  if String.eqb split "train" then "gt_database" else "gt_database_" +:+ split.

Definition db_filename (sample_idx name : string) (i : nat) : string :=
  sample_idx +:+ "_" +:+ name +:+ "_" +:+ string_of_nat i +:+ ".bin".

(** The points of [points] whose entry in the mask row of a box is
    positive, translated to the box center. *)
Definition crop_points (points : list lidar_point) (flags : list Z)
    (center : vec3) : list lidar_point :=
  map (recenter center) (mask_select points (map (fun v => 0 <? v) flags)).

(** The body of [for i in range(num_obj)]. *)
Definition db_object_step (self : CODataset) (split : string)
    (used_classes : option (list string)) (sample_idx : string)
    (points : list lidar_point) (annos_ : pydict)
    (names difficulty bbox : ndarray) (gt_boxes : list (list float))
    (point_indices : list (list Z)) (st : DbState) (i : nat)
  : result DbState :=
  name_i <-- str_at names i ;;
  let filename := db_filename sample_idx name_i i in
  let filepath := path_join (path_join (root_path self) (db_dir split)) filename in
  flags <-- getitem point_indices i ;;
  box_i <-- getitem gt_boxes i ;;
  center <-- row_xyz box_i ;;
  let gt_points := crop_points points flags center in
  let written' := written st ++ [(filepath, gt_points)] in
  if in_used_classes used_classes name_i then
    let db_path_ := path_join (db_dir split) filename in
    difficulty_i <-- int_at difficulty i ;;
    bbox_i <-- row_at bbox i ;;
    score_arr <-- dict_get annos_ "score" ;;
    score_i <-- float_at score_arr i ;;
    let db_info :=
      {| db_name := name_i; db_path := db_path_; db_image_idx := sample_idx;
         db_gt_idx := i; db_box3d_lidar := box_i;
         db_num_points_in_gt := length gt_points;
         db_difficulty := difficulty_i; db_bbox := bbox_i;
         db_score := score_i |} in
    let entries :=
      match all_db_infos st !! name_i with
      | Some l => l ++ [db_info]
      | None => [db_info]
      end in
    Ok {| written := written';
          all_db_infos := <[name_i := entries]> (all_db_infos st) |}
  else
    Ok {| written := written'; all_db_infos := all_db_infos st |}.

(** The body of [for k in range(len(infos))]. *)
Definition db_frame_step (self : CODataset) (split : string)
    (used_classes : option (list string)) (st : DbState) (info : Info)
  : result DbState :=
  let sample_idx := pc_lidar_idx info in
  points <-- get_lidar self sample_idx ;;
  annos_ <-- match annos info with
             | Some a => Ok a
             | None => Err (KeyError "annos")
             end ;;
  names <-- dict_get annos_ "name" ;;
  difficulty <-- dict_get annos_ "difficulty" ;;
  bbox <-- dict_get annos_ "bbox" ;;
  gt_boxes_arr <-- dict_get annos_ "gt_boxes_lidar" ;;
  gt_boxes <-- as_rows gt_boxes_arr ;;
  let num_obj := length gt_boxes in
  let point_indices :=
    map (fun box => map (fun p => points_in_boxes_cpu box (xyz p)) points)
        gt_boxes in
  rfold (db_object_step self split used_classes sample_idx points annos_
           names difficulty bbox gt_boxes point_indices)
        (seq 0 num_obj) st.

(** [CODataset.create_groundtruth_database]; [infos] is the list loaded
    from [info_path].  The result holds the blobs written and the index
    that is dumped at the end. *)
Definition create_groundtruth_database (self : CODataset) (infos : list Info)
    (used_classes : option (list string)) (split : string) : result DbState :=
  rfold (db_frame_step self split used_classes) infos
        {| written := []; all_db_infos := ∅ |}.

(** What the builder reads from a record, object by object: the [i]-th
    object of a frame is the [i]-th row of [gt_boxes_lidar] taken with the
    [i]-th entries of [name], [difficulty], [bbox] and [score]. *)
Record DbObject : Type := {
  o_name : string;
  o_box : list float;
  o_center : vec3;
  o_difficulty : Z;
  o_bbox : list float;
  o_score : float
}.

Record Frame : Type := {
  f_idx : string;
  f_points : list lidar_point;
  f_objects : list DbObject
}.

(** [info] is a record of frame [fr]: its point cloud is on disk and its
    annotation arrays hold the objects of [fr]. *)
Definition frame_of_info (self : CODataset) (info : Info) (fr : Frame) : Prop :=
  pc_lidar_idx info = f_idx fr
  /\ get_lidar self (f_idx fr) = Ok (f_points fr)
  /\ exists (a : pydict) (names difficulty bbox score_arr : ndarray) (c : nat),
       annos info = Some a
       /\ dict_find a "name" = Some names
       /\ dict_find a "difficulty" = Some difficulty
       /\ dict_find a "bbox" = Some bbox
       /\ dict_find a "score" = Some score_arr
       /\ dict_find a "gt_boxes_lidar"
          = Some (ArrFloat2 c (map o_box (f_objects fr)))
       /\ forall (i : nat) (o : DbObject), f_objects fr !! i = Some o ->
            str_at names i = Ok (o_name o)
            /\ int_at difficulty i = Ok (o_difficulty o)
            /\ row_at bbox i = Ok (o_bbox o)
            /\ float_at score_arr i = Ok (o_score o)
            /\ row_xyz (o_box o) = Ok (o_center o).

(** [[f(i, x) for i, x in enumerate(l, j)]]. *)
Fixpoint imap_from {A B : Type} (j : nat) (f : nat -> A -> B) (l : list A)
  : list B :=
  match l with
  | [] => []
  | x :: l' => f j x :: imap_from (S j) f l'
  end.

(** The rows persisted for an object: the points of the raw cloud of its
    frame whose mask entry is positive, each translated by the center of
    the box. *)
Definition object_points (fr : Frame) (o : DbObject) : list lidar_point :=
  map (recenter (o_center o))
      (List.filter (fun p => 0 <? points_in_boxes_cpu (o_box o) (xyz p))
                   (f_points fr)).

Definition blob_path (self : CODataset) (split : string) (fr : Frame)
    (i : nat) (o : DbObject) : string :=
  path_join (path_join (root_path self) (db_dir split))
            (db_filename (f_idx fr) (o_name o) i).

Definition blob_of (self : CODataset) (split : string) (fr : Frame)
    (i : nat) (o : DbObject) : string * list lidar_point :=
  (blob_path self split fr i o, object_points fr o).

Definition entry_of (split : string) (fr : Frame) (i : nat) (o : DbObject)
  : DbInfo :=
  {| db_name := o_name o;
     db_path := path_join (db_dir split) (db_filename (f_idx fr) (o_name o) i);
     db_image_idx := f_idx fr;
     db_gt_idx := i;
     db_box3d_lidar := o_box o;
     db_num_points_in_gt := length (object_points fr o);
     db_difficulty := o_difficulty o;
     db_bbox := o_bbox o;
     db_score := o_score o |}.

Definition frame_blobs (self : CODataset) (split : string) (fr : Frame)
  : list (string * list lidar_point) :=
  imap_from 0 (blob_of self split fr) (f_objects fr).

Definition frame_entries (split : string) (used_classes : option (list string))
    (fr : Frame) : list DbInfo :=
  List.filter (fun e => in_used_classes used_classes (db_name e))
              (imap_from 0 (entry_of split fr) (f_objects fr)).

(** [all_db_infos[name].append(db_info)], creating the list when the
    class is new. *)
Definition add_entry (m : gmap string (list DbInfo)) (e : DbInfo)
  : gmap string (list DbInfo) :=
  <[db_name e := match m !! db_name e with
                 | Some l => l ++ [e]
                 | None => [e]
                 end]> m.

(** ** Balanced resampler *)

(** [set(info['annos']['name'])]: the distinct names of a record.  Only a
    string array can hold a class name. *)
Definition name_set (a : ndarray) : list string :=
  match a with
  | ArrStr l => remove_dups l
  | _ => []
  end.

Definition info_names (info : Info) : result (list string) :=
  match annos info with
  | None => Err (KeyError "annos")
  | Some a => arr <-- dict_get a "name" ;; Ok (name_set arr)
  end.

Definition in_class_names (cl : list string) (name : string) : bool :=
  existsb (String.eqb name) cl.

(** [if name in self.class_names: cls_infos[name].append(info)]. *)
Definition add_to_class (cl : list string) (info : Info)
    (cls_infos : odict (list Info)) (name : string)
  : result (odict (list Info)) :=
  if in_class_names cl name then
    l <-- dict_get cls_infos name ;;
    Ok (dict_set cls_infos name (l ++ [info]))
  else Ok cls_infos.

(** [{name: [] for name in self.class_names}] followed by the loop
    filling it from [infos]. *)
Definition group_by_class (cl : list string) (infos : list Info)
  : result (odict (list Info)) :=
  rfold (fun cls_infos info =>
           names <-- info_names info ;;
           rfold (add_to_class cl info) names cls_infos)
        infos
        (fold_left (fun d name => dict_set d name []) cl []).

(** [x / y] on Python floats. *)
Definition py_float_div (x y : float) : result float :=
  if (y =? 0)%float then Err ZeroDivisionError else Ok (x / y)%float.

Fixpoint draw_indices (rng : Rng) (pop_size size : nat) : list nat * Rng :=
  match size with
  | O => ([], rng)
  | S size' =>
      let '(i, rng1) := randint rng pop_size in
      let '(idx, rng2) := draw_indices rng1 pop_size size' in
      (i :: idx, rng2)
  end.

(** [np.random.choice(a, size)]: [size] draws with replacement. *)
Definition random_choice {A : Type} (rng : Rng) (a : list A) (size : Z)
  : result (list A * Rng) :=
  if size <? 0 then Err ValueError
  else if (length a =? 0)%nat && negb (size =? 0) then Err ValueError
  else
    let '(idx, rng') := draw_indices rng (length a) (Z.to_nat size) in
    xs <-- fancy_index a idx ;;
    Ok (xs, rng').

(** The body of the sampling loop, for a given conversion of the product
    to an integer. *)
Definition sample_class (to_int : float -> result Z) (st : list Info * Rng)
    (cur : list Info * float) : result (list Info * Rng) :=
  let '(sampled_infos, rng) := st in
  let '(cur_cls_infos, ratio) := cur in
  size <-- to_int (Z2F (Z.of_nat (length cur_cls_infos)) * ratio)%float ;;
  r <-- random_choice rng cur_cls_infos size ;;
  Ok (sampled_infos ++ fst r, snd r).

(** [sum([len(v) for v in ls])]. *)
Definition total_len {A : Type} (ls : list (list A)) : nat :=
  list_sum (map (@length A) ls).

(** [CODataset.balanced_infos_resampling]. *)
Definition balanced_infos_resampling (self : CODataset) (infos : list Info)
    (rng : Rng) : result (list Info * Rng) :=
  match class_names self with
  | None => Ok (infos, rng)
  | Some cl =>
      cls_infos <-- group_by_class cl infos ;;
      let duplicated_samples := total_len (dict_values cls_infos) in
      cls_dist <--
        rmap (fun v => py_int_div (Z.of_nat (length v))
                                  (Z.of_nat duplicated_samples))
             (dict_values cls_infos) ;;
      frac <-- py_float_div_int 1 (Z.of_nat (length cl)) ;;
      ratios <-- rmap (fun v => py_float_div frac (v + 0.001)) cls_dist ;;
      r <-- rfold (sample_class py_int) (zip (dict_values cls_infos) ratios)
                  ([], rng) ;;
      let sampled_infos := fst r in
      (* [self.logger.info(...)], not guarded by a test of the logger *)
      _ <-- (if has_logger self then Ok tt else Err AttributeError) ;;
      cls_infos_new <-- group_by_class cl sampled_infos ;;
      cls_dist_new <--
        rmap (fun v => py_int_div (Z.of_nat (length v))
                                  (Z.of_nat (length sampled_infos)))
             (dict_values cls_infos_new) ;;
      Ok (sampled_infos, snd r)
  end.

(** *** The resampling in the words of its description

    For a vocabulary [cl] of [N] classes: the record set of a class is the
    list of records containing an object of the class; its share is the
    size of its set over the sum of the sizes of all sets; its ratio is
    [(1 / N) / (share + 1e-3)]; [to_int (|set| * ratio)] records are drawn
    from the set with replacement, and the draws are concatenated in the
    order of the classes.  [to_int] is the conversion of the product to a
    number of draws. *)
Definition has_class (c : string) (info : Info) : bool :=
  match annos info with
  | Some a =>
      match dict_find a "name" with
      | Some (ArrStr l) => existsb (String.eqb c) l
      | _ => false
      end
  | None => false
  end.

Definition class_records (infos : list Info) (c : string) : list Info :=
  List.filter (has_class c) infos.

Definition class_ratio (N : nat) (share : float) : result float :=
  frac <-- py_float_div_int 1 (Z.of_nat N) ;;
  py_float_div frac (share + 0.001).

Definition class_ratio_of (N total : nat) (recs : list Info) : result float :=
  share <-- py_int_div (Z.of_nat (length recs)) (Z.of_nat total) ;;
  class_ratio N share.

Definition resample_spec (to_int : float -> result Z) (cl : list string)
    (infos : list Info) (rng : Rng) : result (list Info * Rng) :=
  let sets := map (class_records infos) cl in
  let total := total_len sets in
  rfold (fun st recs =>
           ratio <-- class_ratio_of (length cl) total recs ;;
           sample_class to_int st (recs, ratio))
        sets ([], rng).

(** What one round of the sampling loop appends. *)
Definition class_draw (to_int : float -> result Z) (N total : nat)
    (recs d : list Info) : Prop :=
  exists (share ratio : float) (k : Z),
    py_int_div (Z.of_nat (length recs)) (Z.of_nat total) = Ok share
    /\ class_ratio N share = Ok ratio
    /\ to_int (Z2F (Z.of_nat (length recs)) * ratio)%float = Ok k
    /\ Z.of_nat (length d) = k
    /\ forall x, In x d -> In x recs.

(** A record with a name array, as every record built with labels has. *)
Definition has_names (info : Info) : Prop :=
  exists a arr, annos info = Some a /\ dict_find a "name" = Some arr.

Definition result_map {A B : Type} (f : A -> B) (r : result A) : result B :=
  match r with
  | Ok a => Ok (f a)
  | Err e => Err e
  end.

(** ** Prediction serializer *)

(** The per-frame entries of [batch_dict] the serializer reads. *)
Record BatchDict : Type := {
  bd_frame_id : list string;
  bd_calib : list Calib;
  bd_image_shape : list (Z * Z)
}.

(** [get_template_prediction(num_samples)]: arrays of zeros.  The frame
    id is attached by the caller. *)
Definition get_template_prediction (num_samples : nat) : PredDict :=
  {| pd_name := ArrFloat (repeat 0%float num_samples);
     pd_truncated := repeat 0%float num_samples;
     pd_occluded := repeat 0%float num_samples;
     pd_alpha := repeat 0%float num_samples;
     pd_bbox := repeat (repeat 0%float 4) num_samples;
     pd_dimensions := repeat (repeat 0%float 3) num_samples;
     pd_location := repeat (repeat 0%float 3) num_samples;
     pd_rotation_y := repeat 0%float num_samples;
     pd_score := repeat 0%float num_samples;
     pd_boxes_lidar := repeat (repeat 0%float 7) num_samples;
     pd_frame_id := None |}.

(** [l[i]] for a Python integer index, negative ones counting from the
    end. *)
Definition py_getitem {A : Type} (l : list A) (i : Z) : result A :=
  if i <? 0 then
    if - i <=? Z.of_nat (length l) then
      getitem l (Z.to_nat (Z.of_nat (length l) + i))
    else Err IndexError
  else getitem l (Z.to_nat i).

(** [a[mask]] with the length check of numpy. *)
Definition bool_index {A : Type} (l : list A) (mask : list bool)
  : result (list A) :=
  if (length l =? length mask)%nat then Ok (mask_select l mask)
  else Err IndexError.

(** [pred_boxes[:, 0:3] -= SHIFT_COOR] on one row of the box array: the
    difference is computed in binary64 and stored with the element type
    of the array ([pred_store]). *)
Definition shift_box (shift : vec3) (row : list float)
  : result (list float) :=
  let '(sx, sy, sz) := shift in
  match row with
  | x :: y :: z :: rest =>
      Ok (pred_store (x - sx) :: pred_store (y - sy) :: pred_store (z - sz)
          :: rest)%float
  | _ => Err ValueError
  end.

(** [row[a:b]]. *)
Definition slice (a b : nat) (row : list float) : list float :=
  take (b - a) (drop a row).

(** [-np.arctan2(-pred_boxes[:, 1], pred_boxes[:, 0]) + pred_boxes_camera[:, 6]]
    on one detection; the sum has the element type the two arrays
    promote to ([alpha_store]). *)
Definition alpha_of (box box_camera : list float) : result float :=
  y <-- getitem box 1 ;;
  x <-- getitem box 0 ;;
  r <-- getitem box_camera 6 ;;
  Ok (alpha_store (- arctan2 (- y) x + r)%float).

Definition set_frame_id (pd : PredDict) (frame_id : string) : PredDict :=
  {| pd_name := pd_name pd; pd_truncated := pd_truncated pd;
     pd_occluded := pd_occluded pd; pd_alpha := pd_alpha pd;
     pd_bbox := pd_bbox pd; pd_dimensions := pd_dimensions pd;
     pd_location := pd_location pd; pd_rotation_y := pd_rotation_y pd;
     pd_score := pd_score pd; pd_boxes_lidar := pd_boxes_lidar pd;
     pd_frame_id := Some frame_id |}.

(** [generate_single_sample_dict(batch_index, box_dict)]. *)
Definition generate_single_sample_dict (self : CODataset)
    (batch_dict : BatchDict) (class_names_ : list string)
    (batch_index : nat) (box_dict : BoxDict) : result PredDict :=
  let pred_dict := get_template_prediction (length (pred_scores box_dict)) in
  if (length (pred_scores box_dict) =? 0)%nat then Ok pred_dict
  else
    calib <-- getitem (bd_calib batch_dict) batch_index ;;
    img_shape <-- getitem (bd_image_shape batch_dict) batch_index ;;
    boxes <-- match cfg_SHIFT_COOR self with
              | Some shift => rmap (shift_box shift) (pred_boxes box_dict)
              | None => Ok (pred_boxes box_dict)
              end ;;
    filtered <--
      (if cfg_FOV_FILTER self then
         box_preds_lidar_center <-- rmap row_xyz boxes ;;
         let pts_rect := map (lidar_to_rect calib) box_preds_lidar_center in
         fov_flag <-- get_fov_flag pts_rect img_shape calib 5 ;;
         b <-- bool_index boxes fov_flag ;;
         l <-- bool_index (pred_labels box_dict) fov_flag ;;
         s <-- bool_index (pred_scores box_dict) fov_flag ;;
         Ok (b, l, s)
       else Ok (boxes, pred_labels box_dict, pred_scores box_dict)) ;;
    let '(boxes, labels, scores) := filtered in
    let pred_boxes_camera :=
      map (fun b => boxes3d_lidar_to_kitti_camera b calib) boxes in
    let pred_boxes_img :=
      map (fun b => boxes3d_kitti_camera_to_imageboxes b calib img_shape)
          pred_boxes_camera in
    names <-- rmap (fun l => py_getitem class_names_ (l - 1)) labels ;;
    alphas <-- rmap (fun bc => alpha_of (fst bc) (snd bc))
                    (zip boxes pred_boxes_camera) ;;
    rotation_y <-- rmap (fun bc => getitem bc 6) pred_boxes_camera ;;
    Ok {| pd_name := ArrStr names;
          pd_truncated := pd_truncated pred_dict;
          pd_occluded := pd_occluded pred_dict;
          pd_alpha := alphas;
          pd_bbox := pred_boxes_img;
          pd_dimensions := map (slice 3 6) pred_boxes_camera;
          pd_location := map (slice 0 3) pred_boxes_camera;
          pd_rotation_y := rotation_y;
          pd_score := scores;
          pd_boxes_lidar := boxes;
          pd_frame_id := None |}.

(** The text the format string
    ['%s -1 -1 %.4f %.4f %.4f %.4f %.4f %.4f %.4f %.4f %.4f %.4f %.4f %.4f %.4f']
    produces for a name and thirteen numbers. *)
Definition format_line (name : string) (values : list float) : string :=
  name +:+ " -1 -1"
  +:+ fold_right (fun v rest => " " +:+ format_4f v +:+ rest) "" values.

(** The line printed for detection [idx]: the arguments of the format
    string, in the order the source lists them. *)
Definition detection_line (single_pred_dict : PredDict) (idx : nat)
  : result string :=
  let bbox := pd_bbox single_pred_dict in
  let loc_ := pd_location single_pred_dict in
  let dims := pd_dimensions single_pred_dict in
  name <-- str_at (pd_name single_pred_dict) idx ;;
  alpha_ <-- getitem (pd_alpha single_pred_dict) idx ;;
  b <-- getitem bbox idx ;;
  b0 <-- getitem b 0 ;; b1 <-- getitem b 1 ;;
  b2 <-- getitem b 2 ;; b3 <-- getitem b 3 ;;
  d <-- getitem dims idx ;;
  d1 <-- getitem d 1 ;; d2 <-- getitem d 2 ;; d0 <-- getitem d 0 ;;
  l <-- getitem loc_ idx ;;
  l0 <-- getitem l 0 ;; l1 <-- getitem l 1 ;; l2 <-- getitem l 2 ;;
  rotation_y <-- getitem (pd_rotation_y single_pred_dict) idx ;;
  score_ <-- getitem (pd_score single_pred_dict) idx ;;
  Ok (format_line name
        [alpha_; b0; b1; b2; b3; d1; d2; d0; l0; l1; l2; rotation_y; score_]).

(** The lines written to the detection file of a frame, one per row of
    [bbox]. *)
Definition detection_lines (single_pred_dict : PredDict)
  : result (list string) :=
  rmap (detection_line single_pred_dict)
       (seq 0 (length (pd_bbox single_pred_dict))).

(** The body of [for index, box_dict in enumerate(pred_dicts)]; the state
    is the list [annos] and the files written so far (path and lines). *)
Definition prediction_step (self : CODataset) (batch_dict : BatchDict)
    (class_names_ : list string) (output_path : option string)
    (st : list PredDict * list (string * list string))
    (ib : nat * BoxDict) : result (list PredDict * list (string * list string)) :=
  let '(annos_, files) := st in
  let '(index, box_dict) := ib in
  frame_id <-- getitem (bd_frame_id batch_dict) index ;;
  single <-- generate_single_sample_dict self batch_dict class_names_
               index box_dict ;;
  let single_pred_dict := set_frame_id single frame_id in
  match output_path with
  | Some out =>
      let cur_det_file := path_join out (frame_id +:+ ".txt") in
      lines <-- detection_lines single_pred_dict ;;
      Ok (annos_ ++ [single_pred_dict], files ++ [(cur_det_file, lines)])
  | None => Ok (annos_ ++ [single_pred_dict], files)
  end.

(** [CODataset.generate_prediction_dicts]. *)
Definition generate_prediction_dicts (self : CODataset)
    (batch_dict : BatchDict) (pred_dicts : list BoxDict)
    (class_names_ : list string) (output_path : option string)
  : result (list PredDict * list (string * list string)) :=
  rfold (prediction_step self batch_dict class_names_ output_path)
        (zip (seq 0 (length pred_dicts)) pred_dicts) ([], []).

(** A detection as the serializer reads it from the arrays of a record;
    the row of [dimensions] is [[l, h, w]] (camera format). *)
Record Detection : Type := {
  det_name : string;
  det_alpha : float;
  det_bbox : float * float * float * float;
  det_l : float;
  det_h : float;
  det_w : float;
  det_loc : vec3;
  det_ry : float;
  det_score : float
}.

Definition det_bbox_row (d : Detection) : list float :=
  let '(x1, y1, x2, y2) := det_bbox d in [x1; y1; x2; y2].

(** Detection [idx] of a record, as the loop writing the file reads it:
    entry [idx] of the one-dimensional arrays, the first four columns of
    row [idx] of [bbox] and the first three of the rows of [dimensions]
    (camera format, [[l, h, w]]) and [location]. *)
Definition detection_at (pd : PredDict) (idx : nat) (d : Detection) : Prop :=
  str_at (pd_name pd) idx = Ok (det_name d)
  /\ pd_alpha pd !! idx = Some (det_alpha d)
  /\ (exists row, pd_bbox pd !! idx = Some row
                  /\ take 4 row = det_bbox_row d)
  /\ (exists row, pd_dimensions pd !! idx = Some row
                  /\ take 3 row = [det_l d; det_h d; det_w d])
  /\ (exists row, pd_location pd !! idx = Some row
                  /\ take 3 row = vec3_row (det_loc d))
  /\ pd_rotation_y pd !! idx = Some (det_ry d)
  /\ pd_score pd !! idx = Some (det_score d).

(** The numbers of a detection in the order of the line: alpha, the 2D
    box, height, width, length, the location, yaw and score. *)
Definition det_values (d : Detection) : list float :=
  let '(x1, y1, x2, y2) := det_bbox d in
  let '(lx, ly, lz) := det_loc d in
  [det_alpha d; x1; y1; x2; y2; det_h d; det_w d; det_l d; lx; ly; lz;
   det_ry d; det_score d].

Definition det_line (d : Detection) : string :=
  format_line (det_name d) (det_values d).

(** ** Evaluation *)

(** [CODataset.evaluation]. *)
Definition evaluation (self : CODataset) (det_annos : list PredDict)
    (class_names_ : list string) : result (option string * odict float) :=
  first <-- getitem (coda_infos self) 0 ;;
  match annos first with
  | None => Ok (None, [])
  | Some _ =>
      eval_gt_annos <--
        rmap (fun info => match annos info with
                          | Some a => Ok a
                          | None => Err (KeyError "annos")
                          end)
             (coda_infos self) ;;
      let r := get_official_eval_result eval_gt_annos det_annos class_names_ in
      Ok (Some (fst r), snd r)
  end.


End Operations.

(* ===================================================================== *)
(** * Construction of the dataset, road planes and data preparation *)
(* ===================================================================== *)

(** Further collaborators of the dataset layer: the info files
    ([pickle.load] of a file holding a list of records), text files
    ([readlines]), the conversions of Python ([str.strip], [float] on the
    fields [s.split()] of a line, [int] on a string), [np.linalg.norm] and
    [np.argsort]. *)
Class Storage : Type := {
  pickle_load : string -> list Info;
  readlines : string -> list string;
  str_strip : string -> string;
  parse_floats : string -> result (list float);
  parse_int : string -> result Z;
  linalg_norm : list float -> float;
  argsort : list Z -> list nat
}.

(** The entries of [dataset_cfg] read at construction. *)
Record DatasetCfg : Type := {
  cfg_INFO_PATH : odict (list string);
  cfg_DATA_SPLIT : odict string;
  cfg_BALANCED_RESAMPLING : bool
}.

(** The dataset object: the fields the operations above read, and the
    ones construction and data preparation add. *)
Record Dataset : Type := {
  fields : CODataset;
  dataset_cfg : DatasetCfg;
  training : bool;
  mode : string;
  split : string;
  sample_id_list : option (list string);
  sorted_lidar_idx_map : list nat
}.

(** Opening a file that is not there, without a test first, raises
    [FileNotFoundError]. *)
Inductive error : Type :=
| Raised (e : exn)
| FileNotFoundError (path : string).

Inductive outcome (A : Type) : Type :=
| Done (a : A)
| Failed (e : error).
Arguments Done {A} a.
Arguments Failed {A} e.

Definition obind {A B : Type} (m : outcome A) (k : A -> outcome B)
  : outcome B :=
  match m with
  | Done a => k a
  | Failed e => Failed e
  end.

Notation "x <~~ m ;; k" := (obind m (fun x => k))
  (at level 100, m at next level, right associativity).

Definition lift {A : Type} (r : result A) : outcome A :=
  match r with
  | Ok a => Done a
  | Err e => Failed (Raised e)
  end.

Fixpoint ofold {A S : Type} (body : S -> A -> outcome S) (l : list A) (s : S)
  : outcome S :=
  match l with
  | [] => Done s
  | x :: l' => s' <~~ body s x ;; ofold body l' s'
  end.

(** ['training' if split != 'test' else 'testing']. *)
Definition subdir_of (split : string) : string :=
  if String.eqb split "test" then "testing" else "training".

Section Lifecycle.

Context {Ext : Externals} {Sto : Storage}.

(** Assignments to single attributes of the object. *)
Definition with_coda_infos (self : CODataset) (infos : list Info)
  : CODataset :=
  {| root_path := root_path self;
     root_split_path := root_split_path self;
     use_sorted_imageset := use_sorted_imageset self;
     lidar_idx_subdir_map := lidar_idx_subdir_map self;
     class_names := class_names self;
     coda_infos := infos;
     has_logger := has_logger self;
     cfg_SHIFT_COOR := cfg_SHIFT_COOR self;
     cfg_FOV_FILTER := cfg_FOV_FILTER self |}.

Definition with_subdir_map (self : CODataset) (m : gmap string string)
  : CODataset :=
  {| root_path := root_path self;
     root_split_path := root_split_path self;
     use_sorted_imageset := use_sorted_imageset self;
     lidar_idx_subdir_map := m;
     class_names := class_names self;
     coda_infos := coda_infos self;
     has_logger := has_logger self;
     cfg_SHIFT_COOR := cfg_SHIFT_COOR self;
     cfg_FOV_FILTER := cfg_FOV_FILTER self |}.

Definition with_split_path (self : CODataset) (sorted : bool) (path : string)
  : CODataset :=
  {| root_path := root_path self;
     root_split_path := path;
     use_sorted_imageset := sorted;
     lidar_idx_subdir_map := lidar_idx_subdir_map self;
     class_names := class_names self;
     coda_infos := coda_infos self;
     has_logger := has_logger self;
     cfg_SHIFT_COOR := cfg_SHIFT_COOR self;
     cfg_FOV_FILTER := cfg_FOV_FILTER self |}.

Definition with_fields (self : Dataset) (f : CODataset) : Dataset :=
  {| fields := f;
     dataset_cfg := dataset_cfg self;
     training := training self;
     mode := mode self;
     split := split self;
     sample_id_list := sample_id_list self;
     sorted_lidar_idx_map := sorted_lidar_idx_map self |}.

(** ** [set_sample_id_list], [set_split] *)

(** The value [CODataset.set_sample_id_list] assigns: the stripped lines
    of [ImageSets/<split>.txt], or [None] when the file is not there.  The
    method reads [self.split], not its argument. *)
Definition read_sample_id_list (root split_ : string)
  : option (list string) :=
  let split_dir := path_join (path_join root "ImageSets") (split_ +:+ ".txt") in
  if file_exists split_dir then Some (map str_strip (readlines split_dir))
  else None.

(** [CODataset.set_split].  The initialiser of the base class is run
    again with the values the object holds. *)
Definition set_split (self : Dataset) (split_ : string) : Dataset :=
  let root := root_path (fields self) in
  {| fields := with_split_path (fields self)
                 (use_sorted_imageset (fields self))
                 (path_join root (subdir_of split_));
     dataset_cfg := dataset_cfg self;
     training := training self;
     mode := mode self;
     split := split_;
     sample_id_list := read_sample_id_list root split_;
     sorted_lidar_idx_map := sorted_lidar_idx_map self |}.

(** [get_infos] called with its default [sample_id_list=None]: the ids
    of the split are used, and mapping over [None] is a [TypeError]. *)
Definition get_infos_of_split (self : Dataset)
    (has_label count_inside_pts : bool) (sample_id_list_ : option (list string))
  : result (list Info) :=
  let sample_id_list_ :=
    match sample_id_list_ with
    | Some l => Some l
    | None => sample_id_list self
    end in
  match sample_id_list_ with
  | Some l => get_infos (fields self) has_label count_inside_pts l
  | None => Err TypeError
  end.

(** ** [include_coda_data] *)

(** The body of [for info_path in self.dataset_cfg.INFO_PATH[mode]]. *)
Definition include_step (root : string) (loaded : list Info)
    (info_path : string) : list Info :=
  let info_path := path_join root info_path in
  if negb (file_exists info_path) then loaded
  else loaded ++ pickle_load info_path.

(** [CODataset.include_coda_data(mode)]. *)
Definition include_coda_data (self : Dataset) (mode_ : string)
  : result Dataset :=
  paths <-- dict_get (cfg_INFO_PATH (dataset_cfg self)) mode_ ;;
  let loaded := fold_left (include_step (root_path (fields self))) paths [] in
  Ok (with_fields self
        (with_coda_infos (fields self) (coda_infos (fields self) ++ loaded))).

(** ** [build_idx_to_imageset_map] *)

(** The state of the loops: the map under construction, the records and
    the lidar indices collected so far. *)
Record MapState : Type := {
  ms_map : gmap string string;
  ms_infos : list Info;
  ms_ids : list string
}.

(** The body of [for info_idx, info in enumerate(infos)]. *)
Definition map_record (subdir : string) (st : MapState) (info : Info)
  : MapState :=
  {| ms_map := <[pc_lidar_idx info := subdir]> (ms_map st);
     ms_infos := ms_infos st;
     ms_ids := ms_ids st ++ [pc_lidar_idx info] |}.

(** The body of [for info_path in self.dataset_cfg.INFO_PATH[split]]. *)
Definition map_file_step (self : Dataset) (split_ : string) (st : MapState)
    (info_path : string) : outcome MapState :=
  let info_path := path_join (root_path (fields self)) info_path in
  mode_ <~~ lift (dict_get (cfg_DATA_SPLIT (dataset_cfg self)) split_) ;;
  if file_exists info_path then
    let infos := pickle_load info_path in
    Done (fold_left (map_record (subdir_of mode_)) infos
            {| ms_map := ms_map st;
               ms_infos := ms_infos st ++ infos;
               ms_ids := ms_ids st |})
  else Failed (FileNotFoundError info_path).

(** The body of [for split in splits]. *)
Definition map_split_step (self : Dataset) (st : MapState) (split_ : string)
  : outcome MapState :=
  paths <~~ lift (dict_get (cfg_INFO_PATH (dataset_cfg self)) split_) ;;
  ofold (map_file_step self split_) paths st.

(** [CODataset.build_idx_to_imageset_map]. *)
Definition build_idx_to_imageset_map (self : Dataset) : outcome Dataset :=
  st <~~ ofold (map_split_step self) ["train"; "test"; "val"]
           {| ms_map := ∅; ms_infos := []; ms_ids := [] |} ;;
  infos_lidar_idx <~~ lift (rmap parse_int (ms_ids st)) ;;
  Done {| fields := with_coda_infos (with_subdir_map (fields self) (ms_map st))
                      (ms_infos st);
          dataset_cfg := dataset_cfg self;
          training := training self;
          mode := mode self;
          split := split self;
          sample_id_list := sample_id_list self;
          sorted_lidar_idx_map := argsort infos_lidar_idx |}.

(** The records of the info files [paths], in order, and the state of
    the loops once the records [infos] of a split kept under [subdir] have
    gone through them: the terms the properties of the map are stated
    with. *)
Definition loads (root : string) (paths : list string) : list Info :=
  concat (map (fun p => pickle_load (path_join root p)) paths).

Definition extend_map (st : MapState) (subdir : string) (infos : list Info)
  : MapState :=
  {| ms_map := fold_left (fun m info => <[pc_lidar_idx info := subdir]> m)
                 infos (ms_map st);
     ms_infos := ms_infos st ++ infos;
     ms_ids := ms_ids st ++ map pc_lidar_idx infos |}.

(** ** [__init__] *)

(** [CODataset.__init__] from the point where the initialiser of the base
    class returns; [self] is the object as that initialiser leaves it
    (configuration, class names, training flag and mode, root path and
    logger). *)
Definition init (self : Dataset) (use_sorted_imageset_ : bool) (rng : Rng)
  : outcome (Dataset * Rng) :=
  split_ <~~ lift (dict_get (cfg_DATA_SPLIT (dataset_cfg self)) (mode self)) ;;
  let root := root_path (fields self) in
  let self :=
    {| fields := with_coda_infos
                   (with_split_path (fields self) use_sorted_imageset_
                      (path_join root (subdir_of split_)))
                   [];
       dataset_cfg := dataset_cfg self;
       training := training self;
       mode := mode self;
       split := split_;
       sample_id_list := read_sample_id_list root split_;
       sorted_lidar_idx_map := sorted_lidar_idx_map self |} in
  self <~~ lift (include_coda_data self (mode self)) ;;
  r <~~ (if training self && cfg_BALANCED_RESAMPLING (dataset_cfg self) then
           r <~~ lift (balanced_infos_resampling (fields self)
                         (coda_infos (fields self)) rng) ;;
           Done (with_fields self (with_coda_infos (fields self) (fst r)),
                 snd r)
         else Done (self, rng)) ;;
  if use_sorted_imageset_ then
    self <~~ build_idx_to_imageset_map (fst r) ;;
    Done (self, snd r)
  else Done r.

(** ** [get_road_plane] *)

Definition plane_file_of (root idx : string) : string :=
  path_join (path_join root "planes") (idx +:+ ".txt").

(** [CODataset.get_road_plane]. *)
Definition get_road_plane (self : CODataset) (idx : string)
  : result (option (list float)) :=
  root <-- split_path_of self idx ;;
  let plane_file := plane_file_of root idx in
  if negb (file_exists plane_file) then Ok None
  else
    let lines := readlines plane_file in
    line <-- getitem lines 3 ;;
    values <-- parse_floats line ;;
    p1 <-- getitem values 1 ;;
    let plane := if (0 <? p1)%float then map PrimFloat.opp values else values in
    let norm := linalg_norm (take 3 plane) in
    Ok (Some (map (fun x => (x / norm)%float) plane)).

(** ** [create_coda_infos] *)

(** [create_coda_infos(dataset_cfg, class_names, data_path, save_path)].
    [obj] is the dataset object as the initialiser of the base class
    leaves it for [training=False] and [root_path=data_path].  The result
    holds the info files dumped, in order, and the effects of the
    database builder, which loads the train file just written. *)
Definition create_coda_infos (obj : Dataset) (save_path : string) (rng : Rng)
  : outcome (list (string * list Info) * DbState) :=
  r <~~ init obj false rng ;;
  let dataset := fst r in
  let train_filename := path_join save_path "coda_infos_train.pkl" in
  let val_filename := path_join save_path "coda_infos_val.pkl" in
  let trainval_filename := path_join save_path "coda_infos_trainval.pkl" in
  let test_filename := path_join save_path "coda_infos_test.pkl" in
  let dataset := set_split dataset "train" in
  coda_infos_train <~~ lift (get_infos_of_split dataset true true None) ;;
  let dataset := set_split dataset "val" in
  coda_infos_val <~~ lift (get_infos_of_split dataset true true None) ;;
  let dataset := set_split dataset "test" in
  coda_infos_test <~~ lift (get_infos_of_split dataset true true None) ;;
  let dataset := set_split dataset "train" in
  db <~~ lift (create_groundtruth_database (fields dataset) coda_infos_train
                 None "train") ;;
  Done ([(train_filename, coda_infos_train);
         (val_filename, coda_infos_val);
         (trainval_filename, coda_infos_train ++ coda_infos_val);
         (test_filename, coda_infos_test)],
        db).

End Lifecycle.

(* ===================================================================== *)
(** * Serving samples: [__len__] and [__getitem__] *)
(* ===================================================================== *)

Section Samples.

Context {Ext : Externals}.

(** The dictionary [__getitem__] builds for the data pipeline.  The keys
    [gt_names], [gt_boxes] and [road_plane] may be absent, and [gt_boxes]
    may be present with the value [None]. *)
Record InputDict : Type := {
  id_points : list lidar_point;
  id_frame_id : string;
  id_calib : Calib;
  id_image_shape : Z * Z;
  id_gt_names : option ndarray;
  id_gt_boxes : option (option (list (list float)));
  id_road_plane : option (list float)
}.

End Samples.

(** The collaborators of [__getitem__]: [common_utils.drop_info_with_name]
    (called with [gt_filtered=True]), [box_utils.boxes3d_kitti_camera_to_lidar]
    (per box) with the rounding of the element type of the array it
    returns, [box_utils.remove_points_in_boxes3d], and the methods
    [fill_pseudo_labels] and [prepare_data] of the base class. *)
Class Pipeline {Ext : Externals} : Type := {
  drop_info_with_name : pydict -> string -> pydict;
  boxes3d_kitti_camera_to_lidar : list float -> Calib -> list float;
  box_store : float -> float;
  remove_points_in_boxes3d :
    list lidar_point -> list (list float) -> list lidar_point;
  DataDict : Type;
  fill_pseudo_labels : InputDict -> result InputDict;
  prepare_data : InputDict -> result DataDict
}.

(** The dataset object with the attributes of the base class and the
    configuration entries that [__len__] and [__getitem__] read. *)
Record Loader : Type := {
  ds : Dataset;
  merge_all_iters_to_one_epoch : bool;
  total_epochs : Z;
  cfg_FOV_POINTS_ONLY : bool;
  cfg_REMOVE_ORIGIN_GTS : bool;
  cfg_USE_PSEUDO_LABEL : bool
}.

Section Getitem.

Context {Ext : Externals} {Sto : Storage} {Pipe : Pipeline}.

(** [CODataset.__len__]. *)
Definition dataset_len (self : Loader) : Z :=
  let n := Z.of_nat (length (coda_infos (fields (ds self)))) in
  if merge_all_iters_to_one_epoch self then n * total_epochs self else n.

(** [points[:, 0:3] += np.array(SHIFT_COOR, dtype=np.float32)] on one row
    of the float32 point array.  The sum of two binary32 numbers rounded
    to binary64 and then to binary32 is their binary32 sum. *)
Definition shift_point (shift : vec3) (p : lidar_point) : lidar_point :=
  let '(sx, sy, sz) := shift in
  let '(x, y, z) := xyz p in
  LidarPoint (to_f32 (x + to_f32 sx), to_f32 (y + to_f32 sy),
              to_f32 (z + to_f32 sz))%float
             (intensity p).

(** [gt_boxes_lidar[:, 0:3] += SHIFT_COOR] on one row. *)
Definition shift_gt_box (shift : vec3) (row : list float)
  : result (list float) :=
  let '(sx, sy, sz) := shift in
  match row with
  | x :: y :: z :: rest =>
      Ok (box_store (x + sx) :: box_store (y + sy) :: box_store (z + sz)
            :: rest)%float
  | _ => Err ValueError
  end.

Definition as_floats (a : ndarray) : result (list float) :=
  match a with ArrFloat l => Ok l | _ => Err TypeError end.

(** [np.concatenate([loc, dims, rots[..., np.newaxis]], axis=1)
       .astype(np.float32)]. *)
Definition camera_boxes (loc_ dims : list (list float)) (rots : list float)
  : result (list (list float)) :=
  if (length loc_ =? length dims)%nat && (length dims =? length rots)%nat then
    Ok (map3 (fun l d r => map to_f32 (l ++ d ++ [r])) loc_ dims rots)
  else Err ValueError.

(** [a[mask]] on an array of any element type. *)
Definition array_bool_index (a : ndarray) (mask : list bool)
  : result ndarray :=
  match a with
  | ArrStr l => r <-- bool_index l mask ;; Ok (ArrStr r)
  | ArrFloat l => r <-- bool_index l mask ;; Ok (ArrFloat r)
  | ArrInt l => r <-- bool_index l mask ;; Ok (ArrInt r)
  | ArrFloat2 c l => r <-- bool_index l mask ;; Ok (ArrFloat2 c r)
  end.

(** [CODataset.__getitem__] up to the dictionary it hands on. *)
Definition getitem_input_dict (self : Loader) (index : Z)
  : result InputDict :=
  let obj := fields (ds self) in
  let infos := coda_infos obj in
  index <-- (if merge_all_iters_to_one_epoch self then
               if (length infos =? 0)%nat then Err ZeroDivisionError
               else Ok (index mod Z.of_nat (length infos))
             else Ok index) ;;
  info <-- (if use_sorted_imageset obj then
              matching_lidar_idx <--
                py_getitem (sorted_lidar_idx_map (ds self)) index ;;
              py_getitem infos (Z.of_nat matching_lidar_idx)
            else py_getitem infos index) ;;
  let sample_idx := pc_lidar_idx info in
  points <-- get_lidar obj sample_idx ;;
  calib <-- get_calib obj sample_idx ;;
  let img_shape := image_shape info in
  points <-- (if cfg_FOV_POINTS_ONLY self then
                let pts_rect :=
                  map (fun p => lidar_to_rect calib (xyz p)) points in
                fov_flag <-- get_fov_flag pts_rect img_shape calib 0 ;;
                Ok (mask_select points fov_flag)
              else Ok points) ;;
  let points :=
    match cfg_SHIFT_COOR obj with
    | Some shift => map (shift_point shift) points
    | None => points
    end in
  let input_dict :=
    {| id_points := points; id_frame_id := sample_idx; id_calib := calib;
       id_image_shape := img_shape; id_gt_names := None;
       id_gt_boxes := None; id_road_plane := None |} in
  match annos info with
  | None => Ok input_dict
  | Some annos_ =>
      let annos_ := drop_info_with_name annos_ "DontCare" in
      loc_arr <-- dict_get annos_ "location" ;;
      dims_arr <-- dict_get annos_ "dimensions" ;;
      rots_arr <-- dict_get annos_ "rotation_y" ;;
      gt_names <-- dict_get annos_ "name" ;;
      loc_ <-- as_rows loc_arr ;;
      dims <-- as_rows dims_arr ;;
      rots <-- as_floats rots_arr ;;
      gt_boxes_camera <-- camera_boxes loc_ dims rots ;;
      let gt_boxes_lidar :=
        map (fun b => boxes3d_kitti_camera_to_lidar b calib) gt_boxes_camera in
      gt_boxes_lidar <--
        match cfg_SHIFT_COOR obj with
        | Some shift => rmap (shift_gt_box shift) gt_boxes_lidar
        | None => Ok gt_boxes_lidar
        end ;;
      removed <--
        (if cfg_REMOVE_ORIGIN_GTS self && training (ds self) then
           let points := remove_points_in_boxes3d points gt_boxes_lidar in
           let mask := repeat false (length gt_boxes_lidar) in
           boxes <-- bool_index gt_boxes_lidar mask ;;
           names <-- array_bool_index gt_names mask ;;
           Ok (points, boxes, names)
         else Ok (points, gt_boxes_lidar, gt_names)) ;;
      let '(points, gt_boxes, gt_names) := removed in
      let gt_boxes :=
        if cfg_USE_PSEUDO_LABEL self && training (ds self) then None
        else Some gt_boxes in
      road_plane <-- get_road_plane obj sample_idx ;;
      Ok {| id_points := points; id_frame_id := sample_idx; id_calib := calib;
            id_image_shape := img_shape; id_gt_names := Some gt_names;
            id_gt_boxes := Some gt_boxes; id_road_plane := road_plane |}
  end.

(** [CODataset.__getitem__]. *)
Definition getitem_sample (self : Loader) (index : Z) : result DataDict :=
  input_dict <-- getitem_input_dict self index ;;
  input_dict <-- (if cfg_USE_PSEUDO_LABEL self && training (ds self) then
                    fill_pseudo_labels input_dict
                  else Ok input_dict) ;;
  prepare_data input_dict.

End Getitem.

(* ===================================================================== *)
(** * A small dataset on which the statements are exercised *)
(* ===================================================================== *)

(** A pinhole-free stand-in for the calibration: the rect frame is the
    lidar frame, a pixel is [(x, y)] and the depth is [z]. *)
Definition sample_P2 (_ : unit) : list (list float) :=
  [[1; 0; 0; 0]; [0; 1; 0; 0]; [0; 0; 1; 0]]%float.
Definition sample_R0 (_ : unit) : list (list float) :=
  [[1; 0; 0]; [0; 1; 0]; [0; 0; 1]]%float.
Definition sample_rect_to_img (_ : unit) (p : vec3) : (float * float) * float :=
  let '(x, y, z) := p in ((x, y), z).
Definition sample_transform (_ : unit) (p : vec3) : vec3 := p.

(** Containment in an axis-aligned box; the boxes of the sample have a
    square footprint, so their yaw of -pi/2 leaves them unchanged. *)
Definition sample_inside (box : list float) (p : vec3) : bool :=
  match box with
  | [cx; cy; cz; l; w; h; _] =>
      let '(x, y, z) := p in
      ((abs (x - cx) <=? l / 2) && (abs (y - cy) <=? w / 2)
       && (abs (z - cz) <=? h / 2))%float
  | _ => false
  end.
Definition sample_corners (box : list float) : list float := box.
Definition sample_in_hull (p : vec3) (corners : list float) : bool :=
  sample_inside corners p.
Definition sample_points_in_boxes (box : list float) (p : vec3) : Z :=
  if sample_inside box p then 1 else 0.

Definition sample_files : list string :=
  ["/data/training/velodyne/000001.bin"; "/data/training/image_0/000001.jpg";
   "/data/training/label_0/000001.txt"; "/data/training/calib/000001.txt";
   "/data/training/velodyne/000002.bin"; "/data/training/image_0/000002.jpg";
   "/data/training/label_0/000002.txt"; "/data/training/calib/000002.txt";
   "/data/training/image_0/000003.jpg"].
Definition sample_exists (path : string) : bool :=
  existsb (String.eqb path) sample_files.

(** Frame 000001 holds three points: one in the car box and in view, one
    in the pedestrian box behind the image plane, one outside every box. *)
Definition sample_points (path : string) : list lidar_point :=
  if String.eqb path "/data/training/velodyne/000001.bin" then
    [LidarPoint (1, 1, 2)%float 0.5%float;
     LidarPoint (3, 3, (-2))%float 0.25%float;
     LidarPoint (8, 8, 8)%float 0.125%float]
  else [].
Definition sample_shape (_ : string) : Z * Z := (10, 10).

Definition sample_object (cls : string) (x y z : float) : Object3d :=
  {| cls_type := cls; truncation := 0; occlusion := 0; alpha := 0.5;
     box2d := (1, 2, 3, 4)%float; obj_h := 2; obj_w := 2; obj_l := 2;
     loc := (x, y, z); ry := 0; score := 1; level := 0 |}.

(** Frame 000001 has a car, a pedestrian and an ignored region; frame
    000002 has no object. *)
Definition sample_labels (path : string) : list Object3d :=
  if String.eqb path "/data/training/label_0/000001.txt" then
    [sample_object "Car" 1 1 1; sample_object "Pedestrian" 3 3 (-3);
     sample_object "DontCare" 5 5 5]
  else [].
Definition sample_calibration (_ : string) : unit := tt.

Definition sample_dataset (cl : option (list string)) (infos : list Info)
  : CODataset :=
  {| root_path := "/data"; root_split_path := "/data/training";
     use_sorted_imageset := false; lidar_idx_subdir_map := ∅;
     class_names := cl; coda_infos := infos;
     has_logger := true;
     cfg_SHIFT_COOR := None; cfg_FOV_FILTER := false |}.

(** Stand-ins for the box conversions of the serializer: the camera box
    of a lidar box [[x, y, z, dx, dy, dz, yaw]] is [[x, y, z, l, h, w, ry]]
    with [l = dx], [h = dz], [w = dy]; every box projects to the same
    image box. *)
Definition sample_lidar_to_camera (box : list float) (_ : unit) : list float :=
  match box with
  | [x; y; z; dx; dy; dz; yaw] => [x; y; z; dx; dz; dy; yaw]
  | _ => box
  end.
Definition sample_imageboxes (_ : list float) (_ : unit) (_ : Z * Z)
  : list float := [1; 2; 3; 4]%float.
(** [np.arctan2] where the samples call it: for a first argument that is
    a zero and a positive second argument the result is the first
    argument, with its sign.  The detections of the samples have [y = 0]
    and [x > 0]; elsewhere the stand-in gives NaN. *)
Definition sample_arctan2 (y x : float) : float :=
  if ((0 <? x) && (y =? 0))%float then y else nan.

Definition sample_eval (_ : list pydict) (_ : list PredDict) (_ : list string)
  : string * odict float := ("", []).

(** The random generator of the examples: the state is a counter and a
    draw from [0, n) is the counter modulo [n]. *)
Definition sample_randint (rng n : nat) : nat * nat := ((rng mod n)%nat, S rng).

Definition sample_externals : Externals :=
  {| Calib := unit;
     P2 := sample_P2; R0 := sample_R0; V2C := sample_P2;
     rect_to_img := sample_rect_to_img; pixel_dtype := Float32;
     rect_to_lidar := sample_transform; loc_store := to_f32;
     lidar_to_rect := sample_transform;
     Corners := list float;
     boxes_to_corners_3d := sample_corners;
     in_hull := sample_in_hull;
     points_in_boxes_cpu := sample_points_in_boxes;
     boxes3d_lidar_to_kitti_camera := sample_lidar_to_camera;
     boxes3d_kitti_camera_to_imageboxes := sample_imageboxes;
     arctan2 := sample_arctan2;
     pred_store := to_f32; alpha_store := to_f32;
     file_exists := sample_exists;
     fromfile := sample_points;
     imread_shape := sample_shape;
     get_objects_from_label := sample_labels;
     Calibration := sample_calibration;
     get_official_eval_result := sample_eval;
     Rng := nat;
     randint := sample_randint |}.

Definition sample_batch : BatchDict (Ext := sample_externals) :=
  {| bd_frame_id := ["000001"];
     bd_calib := [tt : @Calib sample_externals];
     bd_image_shape := [(10, 10)] |}.

(** One detection: a car of length 3.5, width 1.5 and height 1.75. *)
Definition sample_preds : list BoxDict :=
  [{| pred_scores := [0.875]%float;
      pred_boxes := [[1; 0; 10; 3.5; 1.5; 1.75; 0.25]%float];
      pred_labels := [1] |}].

Definition sample_detection : Detection :=
  {| det_name := "Car"; det_alpha := 0.25;
     det_bbox := (1, 2, 3, 4)%float;
     det_l := 3.5; det_h := 1.75; det_w := 1.5;
     det_loc := (1, 0, 10)%float; det_ry := 0.25; det_score := 0.875 |}.

(** A record holding [names] under ['name']. *)
Definition named_info (idx : string) (names : list string) : Info :=
  {| pc_num_features := 4; pc_lidar_idx := idx; image_idx := idx;
     image_shape := (10, 10); calib_P2 := []; calib_R0_rect := [];
     calib_Tr_velo_to_cam := [];
     annos := Some [("name", ArrStr names)] |}.

(** A corpus of three records with a car and one with a pedestrian. *)
Definition sample_corpus : list Info :=
  [named_info "000001" ["Car"]; named_info "000002" ["Car"; "Car"];
   named_info "000003" ["Car"]; named_info "000004" ["Pedestrian"]].

(** The info builder, the database builder, the serializer and the
    evaluation on the sample dataset. *)
Definition sample_scene (has_label count_inside_pts : bool) (idx : string)
  : result Info :=
  process_single_scene (Ext := sample_externals) (sample_dataset None [])
    has_label count_inside_pts idx.

Definition sample_database (infos : list Info)
    (used_classes : option (list string)) : result DbState :=
  create_groundtruth_database (Ext := sample_externals)
    (sample_dataset None []) infos used_classes "train".

Definition sample_serialize (output_path : option string)
  : result (list PredDict * list (string * list string)) :=
  generate_prediction_dicts (Ext := sample_externals)
    (sample_dataset None []) sample_batch sample_preds ["Car"; "Pedestrian"]
    output_path.

Definition sample_resample (to_int : option (float -> result Z))
  : result (list Info * nat) :=
  match to_int with
  | None =>
      balanced_infos_resampling (Ext := sample_externals)
        (sample_dataset (Some ["Car"; "Pedestrian"]) []) sample_corpus 0%nat
  | Some f =>
      resample_spec (Ext := sample_externals) f ["Car"; "Pedestrian"]
        sample_corpus 0%nat
  end.

(** The record of frame 000001, as the builder returns it. *)
Definition sample_record : Info :=
  {| pc_num_features := 4; pc_lidar_idx := "000001"; image_idx := "000001";
     image_shape := (10, 10);
     calib_P2 := sample_P2 tt ++ [hom_row];
     calib_R0_rect := map (fun r => r ++ [0%float]) (sample_R0 tt) ++ [hom_row];
     calib_Tr_velo_to_cam := sample_P2 tt ++ [hom_row];
     annos :=
       Some
         [("name", ArrStr ["Car"; "Pedestrian"; "DontCare"]);
          ("truncated", ArrFloat [0; 0; 0]%float);
          ("occluded", ArrFloat [0; 0; 0]%float);
          ("alpha", ArrFloat [0.5; 0.5; 0.5]%float);
          ("bbox", ArrFloat2 4 [[1; 2; 3; 4]; [1; 2; 3; 4]; [1; 2; 3; 4]]%float);
          ("dimensions", ArrFloat2 3 [[2; 2; 2]; [2; 2; 2]; [2; 2; 2]]%float);
          ("location", ArrFloat2 3 [[1; 1; 1]; [3; 3; -3]; [5; 5; 5]]%float);
          ("rotation_y", ArrFloat [0; 0; 0]%float);
          ("score", ArrFloat [1; 1; 1]%float);
          ("difficulty", ArrInt [0; 0; 0]);
          ("index", ArrInt [0; 1]);
          ("gt_boxes_lidar",
            ArrFloat2 7 [[1; 1; 2; 2; 2; 2; - (half_pi + 0)];
                         [3; 3; -2; 2; 2; 2; - (half_pi + 0)]]%float);
          ("num_points_in_gt", ArrInt [1; 0; -1])] |}.

(** What the database builder reads from that record. *)
Definition sample_frame : Frame :=
  {| f_idx := "000001";
     f_points := sample_points "/data/training/velodyne/000001.bin";
     f_objects :=
       [{| o_name := "Car";
           o_box := [1; 1; 2; 2; 2; 2; - (half_pi + 0)]%float;
           o_center := (1, 1, 2)%float; o_difficulty := 0;
           o_bbox := [1; 2; 3; 4]%float; o_score := 1 |};
        {| o_name := "Pedestrian";
           o_box := [3; 3; -2; 2; 2; 2; - (half_pi + 0)]%float;
           o_center := (3, 3, -2)%float; o_difficulty := 0;
           o_bbox := [1; 2; 3; 4]%float; o_score := 1 |}] |}.

(** The record and the file the serializer produces for the sample
    detection. *)
Definition sample_pred_dict : PredDict :=
  {| pd_name := ArrStr ["Car"];
     pd_truncated := [0%float]; pd_occluded := [0%float];
     pd_alpha := [0.25%float];
     pd_bbox := [[1; 2; 3; 4]%float];
     pd_dimensions := [[3.5; 1.75; 1.5]%float];
     pd_location := [[1; 0; 10]%float];
     pd_rotation_y := [0.25%float];
     pd_score := [0.875%float];
     pd_boxes_lidar := [[1; 0; 10; 3.5; 1.5; 1.75; 0.25]%float];
     pd_frame_id := Some "000001" |}.

Definition sample_line : string :=
  "Car -1 -1 0.2500 1.0000 2.0000 3.0000 4.0000 1.7500 1.5000 3.5000 1.0000 0.0000 10.0000 0.2500 0.8750".


(* ===================================================================== *)
(** * A second small dataset: image sets, info files and road planes *)
(* ===================================================================== *)

(** The collaborators of the first sample with another file tree and
    other labels. *)
Definition externals_with (exists_ : string -> bool)
    (labels : string -> list Object3d) : Externals :=
  {| Calib := unit;
     P2 := sample_P2; R0 := sample_R0; V2C := sample_P2;
     rect_to_img := sample_rect_to_img; pixel_dtype := Float32;
     rect_to_lidar := sample_transform; loc_store := to_f32;
     lidar_to_rect := sample_transform;
     Corners := list float;
     boxes_to_corners_3d := sample_corners;
     in_hull := sample_in_hull;
     points_in_boxes_cpu := sample_points_in_boxes;
     boxes3d_lidar_to_kitti_camera := sample_lidar_to_camera;
     boxes3d_kitti_camera_to_imageboxes := sample_imageboxes;
     arctan2 := sample_arctan2;
     pred_store := to_f32; alpha_store := to_f32;
     file_exists := exists_;
     fromfile := sample_points;
     imread_shape := sample_shape;
     get_objects_from_label := labels;
     Calibration := sample_calibration;
     get_official_eval_result := sample_eval;
     Rng := nat;
     randint := sample_randint |}.

(** A label file in which the ignored region comes first. *)
Definition ignored_first_labels (path : string) : list Object3d :=
  if String.eqb path "/data/training/label_0/000001.txt" then
    [sample_object "DontCare" 5 5 5; sample_object "Car" 1 1 1]
  else [].
Definition ignored_first_externals : Externals :=
  externals_with sample_exists ignored_first_labels.

(** The tree of a prepared dataset: three image sets, three info files,
    the frames 000001 (train) and 000002 (val) under [training], the frame
    000005 (test) under [testing], and a road plane for 000001. *)
Definition frame_files (dir idx : string) : list string :=
  [dir +:+ "/velodyne/" +:+ idx +:+ ".bin";
   dir +:+ "/image_0/" +:+ idx +:+ ".jpg";
   dir +:+ "/label_0/" +:+ idx +:+ ".txt";
   dir +:+ "/calib/" +:+ idx +:+ ".txt"].
Definition prep_files : list string :=
  ["/data/ImageSets/train.txt"; "/data/ImageSets/val.txt";
   "/data/ImageSets/test.txt";
   "/data/coda_infos_train.pkl"; "/data/coda_infos_val.pkl";
   "/data/coda_infos_test.pkl";
   "/data/training/planes/000001.txt"; "/data/training/planes/000002.txt"]
  ++ frame_files "/data/training" "000001"
  ++ frame_files "/data/training" "000002"
  ++ frame_files "/data/testing" "000005".
Definition prep_exists (path : string) : bool :=
  existsb (String.eqb path) prep_files.
Definition prep_externals : Externals :=
  externals_with prep_exists sample_labels.

Definition nl : string := String (ascii_of_nat 10) "".

Definition sample_pickle (path : string) : list Info :=
  if String.eqb path "/data/coda_infos_train.pkl" then
    [named_info "000001" ["Car"]; named_info "000002" ["Car"; "Car"]]
  else if String.eqb path "/data/coda_infos_val.pkl" then
    [named_info "000004" ["Pedestrian"]]
  else if String.eqb path "/data/coda_infos_test.pkl" then
    [named_info "000002" ["Car"]; named_info "000005" ["Car"]]
  else [].

Definition sample_readlines (path : string) : list string :=
  if String.eqb path "/data/ImageSets/train.txt" then ["000001" +:+ nl]
  else if String.eqb path "/data/ImageSets/val.txt" then ["000002" +:+ nl]
  else if String.eqb path "/data/ImageSets/test.txt" then ["000005" +:+ nl]
  else if String.eqb path "/data/training/planes/000001.txt" then
    ["# Plane" +:+ nl; "Width 4" +:+ nl; "Height 1" +:+ nl; "0 1 0 -1.7"]
  else if String.eqb path "/data/training/planes/000002.txt" then
    ["# Plane" +:+ nl; "Width 4" +:+ nl]
  else [].

(** [str.strip] on ASCII text. *)
Definition is_space (c : ascii) : bool :=
  let n := nat_of_ascii c in
  ((9 <=? n) && (n <=? 13) || (n =? 32))%nat.
Fixpoint lstrip (s : string) : string :=
  match s with
  | String c s' => if is_space c then lstrip s' else s
  | EmptyString => s
  end.
Fixpoint rstrip (s : string) : string :=
  match s with
  | String c s' =>
      match rstrip s' with
      | EmptyString => if is_space c then EmptyString else String c EmptyString
      | r => String c r
      end
  | EmptyString => s
  end.
Definition sample_strip (s : string) : string := rstrip (lstrip s).

Definition sample_parse_floats (line : string) : result (list float) :=
  if String.eqb line "0 1 0 -1.7" then Ok [0; 1; 0; -1.7]%float
  else Err ValueError.

Definition sample_parse_int (s : string) : result Z :=
  match NilZero.uint_of_string s with
  | Some u => Ok (Z.of_N (N.of_uint u))
  | None => Err ValueError
  end.

(** A stable argsort by insertion. *)
Fixpoint insert_by (x : Z * nat) (l : list (Z * nat)) : list (Z * nat) :=
  match l with
  | [] => [x]
  | y :: l' => if fst x <? fst y then x :: l else y :: insert_by x l'
  end.
Definition sample_argsort (l : list Z) : list nat :=
  map snd (fold_left (fun acc x => insert_by x acc)
                     (zip l (seq 0 (length l))) []).

Definition sample_storage : Storage :=
  {| pickle_load := sample_pickle;
     readlines := sample_readlines;
     str_strip := sample_strip;
     parse_floats := sample_parse_floats;
     parse_int := sample_parse_int;
     linalg_norm := fun _ => 1%float;
     argsort := sample_argsort |}.

(** Configurations: one lists the info file of each split, the other
    also lists, for [train], a file that is not there. *)
Definition sample_cfg (balanced : bool) : DatasetCfg :=
  {| cfg_INFO_PATH := [("train", ["coda_infos_train.pkl"]);
                       ("val", ["coda_infos_val.pkl"]);
                       ("test", ["coda_infos_test.pkl"])];
     cfg_DATA_SPLIT := [("train", "train"); ("val", "val"); ("test", "test")];
     cfg_BALANCED_RESAMPLING := balanced |}.
Definition sample_cfg_missing : DatasetCfg :=
  {| cfg_INFO_PATH := [("train", ["coda_infos_train.pkl"; "coda_infos_more.pkl"]);
                       ("val", ["coda_infos_val.pkl"]);
                       ("test", ["coda_infos_test.pkl"])];
     cfg_DATA_SPLIT := [("train", "train"); ("val", "val"); ("test", "test")];
     cfg_BALANCED_RESAMPLING := false |}.

(** The object the initialiser of the base class leaves. *)
Definition sample_obj (cfg : DatasetCfg) (training_ : bool) : Dataset :=
  {| fields := sample_dataset (Some ["Car"; "Pedestrian"]) [];
     dataset_cfg := cfg;
     training := training_;
     mode := if training_ then "train" else "test";
     split := "";
     sample_id_list := None;
     sorted_lidar_idx_map := [] |}.

(** The first sample dataset with the sorted image set, and with the FOV
    filter of the serializer. *)
Definition sorted_dataset : CODataset :=
  {| root_path := "/data"; root_split_path := "/data/testing";
     use_sorted_imageset := true;
     lidar_idx_subdir_map := {["000001" := "training"]};
     class_names := None; coda_infos := [];
     has_logger := true;
     cfg_SHIFT_COOR := None; cfg_FOV_FILTER := false |}.

Definition fov_dataset : CODataset :=
  {| root_path := "/data"; root_split_path := "/data/training";
     use_sorted_imageset := false; lidar_idx_subdir_map := ∅;
     class_names := None; coda_infos := [];
     has_logger := true;
     cfg_SHIFT_COOR := None; cfg_FOV_FILTER := true |}.

(** Two detections: the car of the first sample and a pedestrian whose
    box center projects outside the image and its margin. *)
Definition two_preds : BoxDict :=
  {| pred_scores := [0.875; 0.5]%float;
     pred_boxes := [[1; 0; 10; 3.5; 1.5; 1.75; 0.25];
                    [100; 0; 10; 0.75; 0.5; 1.75; 0]]%float;
     pred_labels := [1; 2] |}.

(** A detection with the label 0. *)
Definition zero_label_preds : BoxDict :=
  {| pred_scores := [0.875]%float;
     pred_boxes := [[1; 0; 10; 3.5; 1.5; 1.75; 0.25]%float];
     pred_labels := [0] |}.

(** A record built without labels. *)
Definition unlabelled_record : Info :=
  {| pc_num_features := 4; pc_lidar_idx := "000001"; image_idx := "000001";
     image_shape := (10, 10);
     calib_P2 := sample_P2 tt ++ [hom_row];
     calib_R0_rect := map (fun r => r ++ [0%float]) (sample_R0 tt) ++ [hom_row];
     calib_Tr_velo_to_cam := sample_P2 tt ++ [hom_row];
     annos := None |}.

(** Stand-ins for the collaborators of [__getitem__]: the records of the
    sample hold no ignored object, the lidar box of a camera box is the box
    itself, the points inside a box are found as in the first sample, and
    the data pipeline hands the dictionary on as it is. *)
Definition sample_pipeline : Pipeline (Ext := prep_externals) :=
  {| drop_info_with_name := fun a _ => a;
     boxes3d_kitti_camera_to_lidar := fun b _ => b;
     box_store := to_f32;
     remove_points_in_boxes3d :=
       fun pts boxes =>
         List.filter
           (fun p => negb (existsb (fun b => sample_inside b (xyz p)) boxes))
           pts;
     DataDict := InputDict (Ext := prep_externals);
     fill_pseudo_labels := fun d => Ok d;
     prepare_data := fun d => Ok d |}.

(** A record of frame 000001 holding one car. *)
Definition car_record : Info :=
  {| pc_num_features := 4; pc_lidar_idx := "000001"; image_idx := "000001";
     image_shape := (10, 10); calib_P2 := []; calib_R0_rect := [];
     calib_Tr_velo_to_cam := [];
     annos := Some [("name", ArrStr ["Car"]);
                    ("dimensions", ArrFloat2 3 [[2; 2; 2]%float]);
                    ("location", ArrFloat2 3 [[1; 1; 1]%float]);
                    ("rotation_y", ArrFloat [0%float])] |}.

(** A training dataset serving FOV points, with or without the removal
    of the original ground truth. *)
Definition sample_loader (remove : bool) (infos : list Info) : Loader :=
  {| ds := {| fields := sample_dataset None infos;
              dataset_cfg := sample_cfg false;
              training := true;
              mode := "train";
              split := "train";
              sample_id_list := None;
              sorted_lidar_idx_map := [] |};
     merge_all_iters_to_one_epoch := false;
     total_epochs := 0;
     cfg_FOV_POINTS_ONLY := true;
     cfg_REMOVE_ORIGIN_GTS := remove;
     cfg_USE_PSEUDO_LABEL := false |}.

(* ===================================================================== *)
(** * Properties *)
(* ===================================================================== *)

Section Properties.

Context {Ext : Externals}.

(** Propositional automation generalises over the whole context; the
    collaborators are dropped first where the goal does not mention
    them. *)
Ltac ptauto := try clear Ext; tauto.

(** ** The error monad and the array helpers *)

Lemma rbind_ok {A B : Type} (m : result A) (k : A -> result B) (b : B) :
  rbind m k = Ok b -> exists a, m = Ok a /\ k a = Ok b.
Proof. destruct m as [a|e]; simpl; [eauto | discriminate]. Qed.

Lemma getitem_lookup {A : Type} (l : list A) (i : nat) (x : A) :
  l !! i = Some x -> getitem l i = Ok x.
Proof. unfold getitem. intros ->. reflexivity. Qed.

Lemma getitem_ok {A : Type} (l : list A) (i : nat) (x : A) :
  getitem l i = Ok x -> l !! i = Some x.
Proof. unfold getitem. destruct (l !! i); [congruence | discriminate]. Qed.

Lemma setitem_lt {A : Type} (l : list A) (i : nat) (v : A) :
  (i < length l)%nat -> setitem l i v = Ok (<[i := v]> l).
Proof. intros H. unfold setitem. destruct (decide _); [reflexivity | lia]. Qed.

Lemma rmap_length {A B : Type} (f : A -> result B) (l : list A) (r : list B) :
  rmap f l = Ok r -> length r = length l.
Proof.
  revert r. induction l as [|x l IH]; simpl; intros r H.
  - injection H as <-. reflexivity.
  - destruct (f x) as [y|]; [simpl in H | discriminate].
    destruct (rmap f l) as [ys|]; [simpl in H | discriminate].
    injection H as <-. simpl. f_equal. apply IH. reflexivity.
Qed.

(** [rmap] of a function that never raises is [map]. *)
Lemma rmap_total {A B : Type} (f : A -> result B) (g : A -> B) (l : list A) :
  (forall x, In x l -> f x = Ok (g x)) -> rmap f l = Ok (map g l).
Proof.
  induction l as [|x l IH]; simpl; intros H; [reflexivity|].
  rewrite (H x) by auto. simpl. rewrite IH by auto. reflexivity.
Qed.

Lemma rmap_lookup {A B : Type} (f : A -> result B) (l : list A) (r : list B)
    (i : nat) (x : A) :
  rmap f l = Ok r -> l !! i = Some x -> exists y, r !! i = Some y /\ f x = Ok y.
Proof.
  revert r i. induction l as [|a l IH]; simpl; intros r i H Hi.
  - destruct i; discriminate.
  - destruct (f a) as [y|] eqn:Hy; [simpl in H | discriminate].
    destruct (rmap f l) as [ys|] eqn:Hys; [simpl in H | discriminate].
    injection H as <-. destruct i as [|i]; simpl in *.
    + injection Hi as <-. eauto.
    + eapply IH; eauto.
Qed.

Lemma logical_and_length (a b : list bool) :
  length a = length b -> length (logical_and a b) = length a.
Proof.
  revert b. induction a as [|x a IH]; intros [|y b]; simpl; intros H;
    try reflexivity; try discriminate.
  f_equal. apply IH. lia.
Qed.

Lemma logical_and_map {A : Type} (f g : A -> bool) (l : list A) :
  logical_and (map f l) (map g l) = map (fun x => f x && g x) l.
Proof. induction l as [|x l IH]; simpl; [reflexivity | now rewrite IH]. Qed.

Lemma mask_select_map_filter {A : Type} (f : A -> bool) (l : list A) :
  mask_select l (map f l) = List.filter f l.
Proof.
  induction l as [|x l IH]; simpl; [reflexivity|].
  destruct (f x); now rewrite IH.
Qed.

Lemma mask_sum_map {A : Type} (f : A -> bool) (l : list A) :
  mask_sum (map f l) = Z.of_nat (length (List.filter f l)).
Proof.
  unfold mask_sum. f_equal.
  induction l as [|x l IH]; simpl; [reflexivity|].
  destruct (f x); simpl; now rewrite IH.
Qed.

Lemma lookup_repeat {A : Type} (x : A) (n i : nat) :
  (i < n)%nat -> repeat x n !! i = Some x.
Proof.
  revert i. induction n as [|n IH]; intros i H; [lia|].
  destruct i as [|i]; simpl; [reflexivity|]. apply IH. lia.
Qed.

Lemma string_app_assoc (a b c : string) : (a +:+ b) +:+ c = a +:+ b +:+ c.
Proof.
  induction a as [|ch a IH]; [reflexivity|].
  change (String ch ((a +:+ b) +:+ c) = String ch (a +:+ b +:+ c)).
  f_equal. exact IH.
Qed.

(** ** Rounding to binary64 *)

Lemma digits2_iter_xO (p k : positive) :
  digits2_pos (Pos.iter xO p k) = (digits2_pos p + k)%positive.
Proof.
  induction k as [|k IH] using Pos.peano_ind.
  - simpl. lia.
  - rewrite Pos.iter_succ. simpl. rewrite IH. lia.
Qed.

Lemma binary_round_aux_exact (m : positive) (e : Z) :
  fexp 53 1024 (Zpos (digits2_pos m) + e) = e -> e <= 971 ->
  binary_round_aux 53 1024 false (Zpos m) e loc_Exact = S754_finite false m e.
Proof.
  intros Hf He. unfold binary_round_aux, shr_fexp.
  cbn [Zdigits2]. rewrite Hf, Z.sub_diag. cbn [shr shr_record_of_loc].
  cbn [shr_m loc_of_shr_record round_nearest_even Zdigits2].
  rewrite Hf, Z.sub_diag. cbn [shr shr_m].
  destruct (Z.leb_spec e (1024 - 53)); [reflexivity | lia].
Qed.

Lemma digits2_log2 (p : positive) :
  Zpos (digits2_pos p) = Z.log2 (Zpos p) + 1.
Proof.
  induction p as [p IH|p IH|]; simpl digits2_pos;
    rewrite ?Pos2Z.inj_succ, ?IH; simpl Z.log2.
  - destruct p; simpl; lia.
  - destruct p; simpl; lia.
  - reflexivity.
Qed.

(** ** The order of binary64 numbers is the order of the numbers they
    stand for *)

(** The mantissa and exponent of a binary64 in canonical form. *)
Lemma bounded_canonical (m : positive) (e : Z) :
  bounded 53 1024 m e = true ->
  -1074 <= e /\ Zpos m < 2 ^ 53 /\ (e = -1074 \/ 2 ^ 52 <= Zpos m).
Proof.
  unfold bounded, canonical_mantissa, fexp, emin.
  rewrite andb_true_iff, Z.eqb_eq, digits2_log2. intros [Hc _].
  assert (Hlt : Z.log2 (Zpos m) < 53) by lia.
  split; [lia|]. split; [apply Z.log2_lt_pow2; lia|].
  destruct (Z.eq_dec e (-1074)) as [He|He]; [now left | right].
  apply Z.log2_le_pow2; lia.
Qed.

Lemma pos_compare_scaled (m1 m2 : positive) (e1 e2 : Z) :
  bounded 53 1024 m1 e1 = true -> bounded 53 1024 m2 e2 = true ->
  match e1 ?= e2 with
  | Eq => Pos.compare_cont Eq m1 m2
  | Lt => Lt
  | Gt => Gt
  end
  = (Zpos m1 * 2 ^ (e1 + 1074) ?= Zpos m2 * 2 ^ (e2 + 1074)).
Proof.
  intros H1 H2.
  destruct (bounded_canonical _ _ H1) as (He1 & Hm1 & Hn1).
  destruct (bounded_canonical _ _ H2) as (He2 & Hm2 & Hn2).
  assert (Hstep : forall ma mb ea eb,
             -1074 <= ea -> ea < eb -> Zpos ma < 2 ^ 53 -> 2 ^ 52 <= Zpos mb ->
             Zpos ma * 2 ^ (ea + 1074) < Zpos mb * 2 ^ (eb + 1074)).
  { intros ma mb ea eb Hea Hlt Hma Hmb.
    assert (Hp : 0 < 2 ^ (ea + 1074)) by (apply Z.pow_pos_nonneg; lia).
    replace (eb + 1074) with ((ea + 1074) + (eb - ea)) by lia.
    rewrite (Z.pow_add_r 2 (ea + 1074) (eb - ea)) by lia.
    assert (Hq : 2 <= 2 ^ (eb - ea)).
    { change 2 with (2 ^ 1) at 1. apply Z.pow_le_mono_r; lia. }
    apply Z.lt_le_trans with (2 ^ 53 * 2 ^ (ea + 1074)).
    { apply Z.mul_lt_mono_pos_r; assumption. }
    apply Z.le_trans with (Zpos mb * 2 ^ (ea + 1074) * 2).
    { change (2 ^ 53) with (2 ^ 52 * 2).
      rewrite <- Z.mul_assoc, (Z.mul_comm 2), Z.mul_assoc.
      apply Z.mul_le_mono_nonneg_r; [lia|].
      apply Z.mul_le_mono_nonneg_r; [lia | assumption]. }
    rewrite Z.mul_assoc.
    apply Z.mul_le_mono_nonneg_l; [|assumption].
    apply Z.mul_nonneg_nonneg; lia. }
  destruct (Z.compare_spec e1 e2) as [Heq|Hlt|Hgt].
  - subst e2. change (Pos.compare_cont Eq m1 m2) with (Zpos m1 ?= Zpos m2).
    apply Zmult_compare_compat_r.
    apply Z.lt_gt, Z.pow_pos_nonneg; lia.
  - symmetry. apply Z.compare_lt_iff.
    destruct Hn2 as [Hn2|Hn2]; [lia|].
    apply Hstep; assumption.
  - symmetry. apply Z.compare_gt_iff.
    destruct Hn1 as [Hn1|Hn1]; [lia|].
    apply Hstep; assumption.
Qed.

Lemma SFcompare_scaled (f1 f2 : spec_float) :
  valid_binary f1 = true -> valid_binary f2 = true ->
  SF_finite f1 = true -> SF_finite f2 = true ->
  SFcompare f1 f2 = Some (SF_scaled f1 ?= SF_scaled f2).
Proof.
  assert (Hpos : forall (m : positive) (e : Z),
             -1074 <= e -> 0 < Zpos m * 2 ^ (e + 1074)).
  { intros m e He. apply Z.mul_pos_pos; [lia|]. apply Z.pow_pos_nonneg; lia. }
  destruct f1 as [s1|s1| |s1 m1 e1], f2 as [s2|s2| |s2 m2 e2];
    try discriminate; intros V1 V2 _ _; cbn [SFcompare SF_scaled].
  - reflexivity.
  - destruct (bounded_canonical _ _ V2) as (He & _). specialize (Hpos m2 e2 He).
    f_equal. symmetry.
    destruct s2; [apply Z.compare_gt_iff | apply Z.compare_lt_iff]; lia.
  - destruct (bounded_canonical _ _ V1) as (He & _). specialize (Hpos m1 e1 He).
    f_equal. symmetry.
    destruct s1; [apply Z.compare_lt_iff | apply Z.compare_gt_iff]; lia.
  - pose proof (pos_compare_scaled _ _ _ _ V1 V2) as Hc.
    destruct (bounded_canonical _ _ V1) as (He1 & _).
    destruct (bounded_canonical _ _ V2) as (He2 & _).
    pose proof (Hpos m1 e1 He1). pose proof (Hpos m2 e2 He2).
    f_equal. destruct s1, s2.
    + transitivity (CompOpp (Zpos m1 * 2 ^ (e1 + 1074)
                             ?= Zpos m2 * 2 ^ (e2 + 1074))).
      * rewrite <- Hc. destruct (e1 ?= e2); reflexivity.
      * rewrite <- Z.compare_antisym.
        change (Zneg m1) with (- Zpos m1). change (Zneg m2) with (- Zpos m2).
        rewrite !Z.mul_opp_l, <- Z.compare_opp. reflexivity.
    + symmetry. apply Z.compare_lt_iff. lia.
    + symmetry. apply Z.compare_gt_iff. lia.
    + exact Hc.
Qed.

(** The conversion of an integer below [2^53] in magnitude is exact. *)
Lemma binary_round_exact (p : positive) :
  Zpos (digits2_pos p) <= 53 ->
  exists m e, binary_round 53 1024 false p 0 = S754_finite false m e
              /\ Zpos m * 2 ^ (e + 1074) = Zpos p * 2 ^ 1074.
Proof.
  intros Hd. unfold binary_round.
  assert (Hfexp : fexp 53 1024 (Zpos (digits2_pos p) + 0)
                  = Zpos (digits2_pos p) - 53).
  { unfold fexp, emin. lia. }
  rewrite Hfexp. unfold shl_align.
  destruct (Zpos (digits2_pos p) - 53 - 0) as [|q|k] eqn:Hk; try lia.
  - rewrite binary_round_aux_exact; [ | rewrite Hfexp; lia | lia].
    eexists _, _. split; [reflexivity|]. reflexivity.
  - rewrite binary_round_aux_exact; [ | | lia].
    + eexists _, _. split; [reflexivity|].
      change (Pos.iter xO p k) with (shift_pos k p).
      rewrite shift_pos_correct, Z.pow_pos_fold.
      replace 1074 with (Zpos k + (Zpos (digits2_pos p) - 53 + 1074)) at 2
        by lia.
      rewrite (Z.pow_add_r 2 (Zpos k)) by lia. ring.
    + rewrite digits2_iter_xO. unfold fexp, emin. lia.
Qed.

Lemma Z2F_scaled (z : Z) :
  - 2 ^ 53 < z < 2 ^ 53 ->
  SF_finite (Prim2SF (Z2F z)) = true
  /\ SF_scaled (Prim2SF (Z2F z)) = z * 2 ^ 1074.
Proof.
  intros Hz.
  assert (Hp : forall p, Zpos p < 2 ^ 53 ->
             exists m e, Prim2SF (of_uint63 (Uint63.of_Z (Zpos p)))
                         = S754_finite false m e
                         /\ Zpos m * 2 ^ (e + 1074) = Zpos p * 2 ^ 1074).
  { intros p Hlt. rewrite of_uint63_spec, Uint63.of_Z_spec.
    rewrite Z.mod_small by (unfold Uint63.wB, Uint63.size; simpl; lia).
    cbn [binary_normalize]. apply binary_round_exact.
    rewrite digits2_log2.
    assert (Z.log2 (Zpos p) < 53) by (apply Z.log2_lt_pow2; lia). lia. }
  destruct z as [|p|p]; unfold Z2F.
  - split; reflexivity.
  - destruct (Hp p) as (m & e & -> & Hv); [lia|]. split; [reflexivity|].
    exact Hv.
  - destruct (Hp p) as (m & e & Hm & Hv); [lia|].
    rewrite opp_spec, Hm. split; [reflexivity|]. cbn [SFopp negb SF_scaled].
    change (Zneg m) with (- Zpos m). change (Zneg p) with (- Zpos p). lia.
Qed.

Lemma fcompare_Z_scaled (x : float) (z : Z) :
  SF_finite (Prim2SF x) = true ->
  fcompare_Z x z = Some (SF_scaled (Prim2SF x) ?= z * 2 ^ 1074).
Proof.
  unfold fcompare_Z. pose proof (Prim2SF_valid x) as V.
  destruct (Prim2SF x) as [s|s| |s m e]; try discriminate; intros _;
    cbn [SF_scaled]; f_equal.
  - change 0 with (0 * 2 ^ 1074) at 2. apply Zmult_compare_compat_r. reflexivity.
  - destruct (bounded_canonical _ _ V) as (He & _).
    set (v := if s then Zneg m else Zpos m).
    destruct (Z.leb_spec 0 e) as [Hpos|Hneg].
    + replace (v * 2 ^ (e + 1074)) with (v * 2 ^ e * 2 ^ 1074)
        by (rewrite Z.pow_add_r by lia; ring).
      apply Zmult_compare_compat_r. reflexivity.
    + replace (z * 2 ^ 1074) with (z * 2 ^ (- e) * 2 ^ (e + 1074)).
      * apply Zmult_compare_compat_r. apply Z.lt_gt, Z.pow_pos_nonneg; lia.
      * rewrite <- Z.mul_assoc, <- Z.pow_add_r by lia. do 2 f_equal. lia.
Qed.

(** Comparing a float with the conversion of an integer below [2^53] in
    magnitude compares the number it stands for with that integer. *)
Lemma leb_Z2F (z : Z) (x : float) :
  - 2 ^ 53 < z < 2 ^ 53 ->
  (Z2F z <=? x)%float = true <-> float_ge_Z x z.
Proof.
  intros Hz. destruct (Z2F_scaled z Hz) as [Hf Hs].
  rewrite leb_spec. unfold SFleb, float_ge_Z.
  destruct (SF_finite (Prim2SF x)) eqn:Hx.
  - rewrite (fcompare_Z_scaled x z Hx).
    rewrite (SFcompare_scaled _ _ (Prim2SF_valid _) (Prim2SF_valid _) Hf Hx), Hs.
    rewrite (Z.compare_antisym (SF_scaled (Prim2SF x))).
    destruct (SF_scaled (Prim2SF x) ?= z * 2 ^ 1074); cbn;
      split; intros H; try reflexivity; try discriminate; auto;
      destruct H; discriminate.
  - unfold fcompare_Z.
    destruct (Prim2SF (Z2F z)) as [sc|sc| |sc mc ec]; try discriminate;
      destruct (Prim2SF x) as [s|s| |s m e]; try discriminate;
      cbn; try destruct s; split; intros H; try reflexivity; try discriminate;
      auto; destruct H; discriminate.
Qed.

Lemma ltb_Z2F (z : Z) (x : float) :
  - 2 ^ 53 < z < 2 ^ 53 ->
  (x <? Z2F z)%float = true <-> float_lt_Z x z.
Proof.
  intros Hz. destruct (Z2F_scaled z Hz) as [Hf Hs].
  rewrite ltb_spec. unfold SFltb, float_lt_Z.
  destruct (SF_finite (Prim2SF x)) eqn:Hx.
  - rewrite (fcompare_Z_scaled x z Hx).
    rewrite (SFcompare_scaled _ _ (Prim2SF_valid _) (Prim2SF_valid _) Hx Hf), Hs.
    destruct (SF_scaled (Prim2SF x) ?= z * 2 ^ 1074); cbn;
      split; intros H; try reflexivity; try discriminate.
  - unfold fcompare_Z.
    destruct (Prim2SF (Z2F z)) as [sc|sc| |sc mc ec]; try discriminate;
      destruct (Prim2SF x) as [s|s| |s m e]; try discriminate;
      cbn; try destruct s; split; intros H; try reflexivity; try discriminate.
Qed.
(** ** FOV filter *)

Lemma round_half_even_bounds (n d : Z) :
  n / d <= round_half_even n d <= n / d + 1.
Proof.
  unfold round_half_even.
  destruct (2 * (n mod d) ?= d); [destruct (Z.even (n / d))| |]; lia.
Qed.

(** An integer of at most 24 bits, and [2^24] itself, is a float32. *)
Lemma round_to_24_bits_small (z : Z) :
  Z.abs z <= 2 ^ 24 -> round_to_24_bits z = z.
Proof.
  intros Hz. unfold round_to_24_bits.
  destruct (Z.eq_dec (Z.abs z) (2 ^ 24)) as [Heq|Hne].
  - assert (Hc : z = 2 ^ 24 \/ z = - 2 ^ 24) by lia.
    destruct Hc as [-> | ->]; reflexivity.
  - destruct (Z.eq_dec z 0) as [->|Hnz]; [reflexivity|].
    assert (Hlog : Z.log2 (Z.abs z) < 24) by (apply Z.log2_lt_pow2; lia).
    destruct (Z.leb_spec (Z.log2 (Z.abs z) + 1 - 24) 0); [reflexivity | lia].
Qed.

(** The rounding keeps the sign and, on the range of int32, stays within
    the integers binary64 represents exactly. *)
Lemma round_to_24_bits_range (z : Z) :
  Z.abs z <= 2 ^ 31 ->
  Z.abs (round_to_24_bits z) <= 2 ^ 32
  /\ (z <= 0 -> round_to_24_bits z <= 0)
  /\ (0 <= z -> 0 <= round_to_24_bits z).
Proof.
  intros Hz. unfold round_to_24_bits.
  set (a := Z.abs z). set (k := Z.log2 a + 1 - 24).
  destruct (Z.leb_spec k 0) as [Hk|Hk]; [lia|].
  assert (Ha : 0 < a) by (destruct (Z.eq_dec a 0) as [H0|H0];
                          [unfold k in Hk; rewrite H0 in Hk; simpl in Hk; lia
                          | unfold a in *; lia]).
  assert (Hlog : Z.log2 a < 32) by (apply Z.log2_lt_pow2; lia).
  assert (Hk8 : k <= 8) by (unfold k; lia).
  assert (Hp : 0 < 2 ^ k) by (apply Z.pow_pos_nonneg; lia).
  assert (Hp8 : 2 ^ k <= 2 ^ 8) by (apply Z.pow_le_mono_r; lia).
  assert (Hq : a / 2 ^ k < 2 ^ 24).
  { apply Z.div_lt_upper_bound; [exact Hp|].
    rewrite <- Z.pow_add_r by lia.
    replace (k + 24) with (Z.succ (Z.log2 a)) by (unfold k; lia).
    apply Z.log2_spec. exact Ha. }
  pose proof (round_half_even_bounds a (2 ^ k)) as [Hlo Hhi].
  assert (Hq0 : 0 <= a / 2 ^ k) by (apply Z.div_pos; lia).
  set (r := round_half_even a (2 ^ k)) in *.
  assert (Hr : 0 <= r * 2 ^ k <= 2 ^ 32).
  { split; [apply Z.mul_nonneg_nonneg; lia|].
    change (2 ^ 32) with (2 ^ 24 * 2 ^ 8).
    apply Z.mul_le_mono_nonneg; lia. }
  destruct (Z.sgn_spec z) as [[Hs ->]|[[Hs ->]|[Hs ->]]]; lia.
Qed.

Lemma int_as_range (t : float_dtype) (z : Z) :
  - 2 ^ 31 <= z <= 2 ^ 31 ->
  - 2 ^ 53 < int_as t z < 2 ^ 53
  /\ (z <= 0 -> int_as t z <= 0).
Proof.
  intros Hz. destruct t; cbn [int_as]; [|lia].
  destruct (round_to_24_bits_range z) as (Hr & Hneg & _); [lia|].
  assert (H : 2 ^ 32 < 2 ^ 53) by reflexivity.
  split; [lia | exact Hneg].
Qed.

(** The conversion is exact for a float64 array and, for a float32 one,
    up to [2^24] in magnitude. *)
Lemma int_as_exact (t : float_dtype) (z : Z) :
  t = Float64 \/ Z.abs z <= 2 ^ 24 -> int_as t z = z.
Proof.
  intros [->|Hz]; [reflexivity|].
  destruct t; [apply round_to_24_bits_small, Hz | reflexivity].
Qed.


Lemma is_int32_range (z : Z) :
  is_int32 z = true <-> - 2 ^ 31 <= z <= 2 ^ 31 - 1.
Proof.
  unfold is_int32, int32_min, int32_max.
  rewrite andb_true_iff, !Z.leb_le. reflexivity.
Qed.

Lemma wrap32_range (z : Z) : - 2 ^ 31 <= wrap32 z <= 2 ^ 31 - 1.
Proof.
  unfold wrap32.
  pose proof (Z.mod_pos_bound (z + 2 ^ 31) (2 ^ 32) eq_refl). lia.
Qed.

(** An int32 sum that stays in range is the sum. *)
Lemma wrap32_small (z : Z) : is_int32 z = true -> wrap32 z = z.
Proof.
  rewrite is_int32_range. intros H. unfold wrap32.
  rewrite Z.mod_small; lia.
Qed.

Lemma get_fov_flag_overflow (pts_rect : list vec3) (img_shape : Z * Z)
    (calib : Calib) (margin : Z) :
  is_int32 margin = false ->
  get_fov_flag pts_rect img_shape calib margin = Err OverflowError.
Proof. intros H. unfold get_fov_flag, int32_add. now rewrite H. Qed.

Lemma get_fov_flag_pointwise (pts_rect : list vec3) (img_shape : Z * Z)
    (calib : Calib) (margin : Z) :
  is_int32 margin = true ->
  get_fov_flag pts_rect img_shape calib margin
  = Ok (map (in_fov img_shape calib margin) pts_rect).
Proof.
  intros H. unfold get_fov_flag, int32_add. rewrite H. cbn [rbind].
  rewrite !map_map, !logical_and_map. f_equal.
Qed.

(** The margins of the callers, 0 and 5, are int32. *)
Lemma get_fov_flag_zero (pts_rect : list vec3) (img_shape : Z * Z)
    (calib : Calib) :
  get_fov_flag pts_rect img_shape calib 0
  = Ok (map (in_fov img_shape calib 0) pts_rect).
Proof. now apply get_fov_flag_pointwise. Qed.

Lemma get_fov_flag_five (pts_rect : list vec3) (img_shape : Z * Z)
    (calib : Calib) :
  get_fov_flag pts_rect img_shape calib 5
  = Ok (map (in_fov img_shape calib 5) pts_rect).
Proof. now apply get_fov_flag_pointwise. Qed.

Lemma get_fov_flag_length (pts_rect : list vec3) (img_shape : Z * Z)
    (calib : Calib) (margin : Z) (mask : list bool) :
  get_fov_flag pts_rect img_shape calib margin = Ok mask ->
  mask = map (in_fov img_shape calib margin) pts_rect
  /\ length mask = length pts_rect.
Proof.
  destruct (is_int32 margin) eqn:H.
  - rewrite get_fov_flag_pointwise by exact H. intros Heq.
    injection Heq as <-. split; [reflexivity | apply length_map].
  - now rewrite get_fov_flag_overflow.
Qed.

(** The test of one point compares the numbers the pixel coordinates and
    the depth stand for with the integer ends of the window. *)
Lemma in_fov_true (img_shape : Z * Z) (calib : Calib) (margin : Z) (p : vec3) :
  is_int32 margin = true ->
  in_fov img_shape calib margin p = true <->
  float_ge_Z (fst (fst (rect_to_img calib p))) (int_as pixel_dtype (- margin))
  /\ float_lt_Z (fst (fst (rect_to_img calib p)))
                (wrap32 (snd img_shape + margin))
  /\ float_ge_Z (snd (fst (rect_to_img calib p)))
                (int_as pixel_dtype (- margin))
  /\ float_lt_Z (snd (fst (rect_to_img calib p)))
                (wrap32 (fst img_shape + margin))
  /\ float_ge_Z (snd (rect_to_img calib p)) 0.
Proof.
  intros Hm. apply is_int32_range in Hm.
  pose proof (wrap32_range (snd img_shape + margin)) as Hw.
  pose proof (wrap32_range (fst img_shape + margin)) as Hh.
  destruct (int_as_range pixel_dtype (- margin)) as [Hl _]; [lia|].
  assert (H31 : 2 ^ 31 < 2 ^ 53) by reflexivity.
  unfold in_fov. rewrite Z.sub_0_l, !andb_true_iff.
  rewrite !leb_Z2F, !ltb_Z2F by lia.
  change (0 <=? snd (rect_to_img calib p))%float
    with (Z2F 0 <=? snd (rect_to_img calib p))%float.
  rewrite leb_Z2F by lia. tauto.
Qed.

(** C3 (as amended).  [img_shape] is an int32 pair.  [get_fov_flag]
    raises [OverflowError] for a margin that is not an int32.  For an int32
    margin [m] it returns a mask with one boolean per input point, in
    input order; a point is kept if and only if its pixel x lies in
    [[L, W)], its pixel y in [[L, H)] and its depth is non-negative, where
    [L] is [-m] converted to the element type of the pixel array and [W]
    and [H] are the int32 sums [width + m] and [height + m].  [L] is [-m]
    for a float64 pixel array and whenever [|m| <= 2^24], and [W] and [H]
    are [width + m] and [height + m] when these are int32: the window is
    then [[-m, width + m)] by [[-m, height + m)].  In particular, for
    [m >= 0] and an image of positive width and height whose sums with [m]
    are int32, a point projecting to pixel (0,0) with positive depth is
    kept; a point with negative depth is excluded whatever its pixel. *)
Theorem get_fov_flag_spec (pts_rect : list vec3) (img_shape : Z * Z)
    (calib : Calib) (margin : Z) :
  let height := fst img_shape in
  let width := snd img_shape in
  is_int32 height = true -> is_int32 width = true ->
  (is_int32 margin = false ->
     get_fov_flag pts_rect img_shape calib margin = Err OverflowError)
  /\ (is_int32 margin = true ->
      exists mask : list bool,
        get_fov_flag pts_rect img_shape calib margin = Ok mask
        /\ length mask = length pts_rect
        /\ forall (i : nat) (p : vec3), pts_rect !! i = Some p ->
             let x := fst (fst (rect_to_img calib p)) in
             let y := snd (fst (rect_to_img calib p)) in
             let depth := snd (rect_to_img calib p) in
             exists b : bool,
               mask !! i = Some b
               /\ (b = true <->
                     float_ge_Z x (int_as pixel_dtype (- margin))
                     /\ float_lt_Z x (wrap32 (width + margin))
                     /\ float_ge_Z y (int_as pixel_dtype (- margin))
                     /\ float_lt_Z y (wrap32 (height + margin))
                     /\ float_ge_Z depth 0)
               /\ (pixel_dtype = Float64 \/ Z.abs margin <= 2 ^ 24 ->
                   is_int32 (width + margin) = true ->
                   is_int32 (height + margin) = true ->
                   (b = true <->
                      float_ge_Z x (- margin)
                      /\ float_lt_Z x (width + margin)
                      /\ float_ge_Z y (- margin)
                      /\ float_lt_Z y (height + margin)
                      /\ float_ge_Z depth 0))
               /\ (0 <= margin -> 0 < width -> 0 < height ->
                   is_int32 (width + margin) = true ->
                   is_int32 (height + margin) = true ->
                   float_eq_Z x 0 -> float_eq_Z y 0 ->
                   float_gt_Z depth 0 -> b = true)
               /\ (float_lt_Z depth 0 -> b = false)).
Proof.
  intros height width _ _. split; [apply get_fov_flag_overflow|].
  intros Hm. exists (map (in_fov img_shape calib margin) pts_rect).
  split; [now apply get_fov_flag_pointwise|].
  split; [apply length_map|].
  intros i p Hp x y depth. exists (in_fov img_shape calib margin p).
  pose proof (in_fov_true img_shape calib margin p Hm) as Hiff.
  fold x y depth height width in Hiff.
  split; [now rewrite list_lookup_fmap, Hp|].
  split; [exact Hiff|]. split; [|split].
  - intros Hexact Hw Hh.
    rewrite <- (wrap32_small _ Hw), <- (wrap32_small _ Hh).
    rewrite <- (int_as_exact pixel_dtype (- margin)) at 1 2;
      [exact Hiff | rewrite Z.abs_opp; exact Hexact].
  - intros Hpos Hwpos Hhpos Hw Hh Hx Hy Hd. apply Hiff.
    rewrite (wrap32_small _ Hw), (wrap32_small _ Hh).
    apply is_int32_range in Hm.
    destruct (int_as_range pixel_dtype (- margin)) as [_ Hl]; [lia|].
    specialize (Hl ltac:(lia)).
    unfold float_ge_Z, float_lt_Z, float_eq_Z, float_gt_Z in *.
    assert (Hcmp : forall (f : float) (a b : Z),
               fcompare_Z f a = Some Eq ->
               (b <= a -> fcompare_Z f b = Some Gt \/ fcompare_Z f b = Some Eq)
               /\ (a < b -> fcompare_Z f b = Some Lt)).
    { intros f a b. destruct (SF_finite (Prim2SF f)) eqn:Hf.
      - rewrite !(fcompare_Z_scaled f _ Hf). intros He.
        injection He as He. apply Z.compare_eq_iff in He. rewrite He.
        assert (Hp' : 0 < 2 ^ 1074) by (apply Z.pow_pos_nonneg; lia).
        split; intros Hab.
        + destruct (Z.eq_dec a b) as [->|Hne].
          * right. f_equal. apply Z.compare_refl.
          * left. f_equal. apply Z.compare_gt_iff.
            apply Z.mul_lt_mono_pos_r; lia.
        + f_equal. apply Z.compare_lt_iff. apply Z.mul_lt_mono_pos_r; lia.
      - unfold fcompare_Z. destruct (Prim2SF f) as [s|s| |s m e];
          try discriminate; destruct s; discriminate. }
    destruct (Hcmp x 0 (int_as pixel_dtype (- margin)) Hx) as [Hx1 _].
    destruct (Hcmp x 0 (width + margin) Hx) as [_ Hx2].
    destruct (Hcmp y 0 (int_as pixel_dtype (- margin)) Hy) as [Hy1 _].
    destruct (Hcmp y 0 (height + margin) Hy) as [_ Hy2].
    repeat split; try (apply Hx1; lia); try (apply Hx2; lia);
      try (apply Hy1; lia); try (apply Hy2; lia).
    now left.
  - intros Hd. destruct (in_fov img_shape calib margin p) eqn:Hb;
      [|reflexivity].
    destruct Hiff as [Hiff _]. destruct (Hiff eq_refl) as (_ & _ & _ & _ & Hge).
    unfold float_ge_Z, float_lt_Z in *. rewrite Hd in Hge.
    destruct Hge; discriminate.
Qed.

(** ** Info builder *)

Lemma argwhere_from_select {A : Type} (f : A -> bool) (l pre : list A) :
  rmap (getitem (pre ++ l)) (argwhere_from (length pre) (map f l))
  = Ok (List.filter f l).
Proof.
  revert pre. induction l as [|x l IH]; intros pre; simpl; [reflexivity|].
  assert (Hl : pre ++ x :: l = (pre ++ [x]) ++ l) by now rewrite <- app_assoc.
  assert (Hn : S (length pre) = length (pre ++ [x]))
    by (rewrite length_app; simpl; lia).
  destruct (f x); simpl.
  - rewrite (getitem_lookup _ _ x)
      by (rewrite lookup_app_r, Nat.sub_diag by lia; reflexivity).
    simpl. rewrite Hl, Hn, IH. reflexivity.
  - rewrite Hl, Hn, IH. reflexivity.
Qed.

(** Indexing an array by the positions of the rows that satisfy a test
    selects exactly those rows, in order. *)
Lemma fancy_index_argwhere {A B : Type} (f : A -> bool) (g : A -> B)
    (l : list A) :
  fancy_index (map g l) (argwhere (map f l)) = Ok (map g (List.filter f l)).
Proof.
  unfold fancy_index, argwhere.
  assert (H : forall pre : list B,
             rmap (getitem (pre ++ map g l))
                  (argwhere_from (length pre) (map f l))
             = Ok (map g (List.filter f l))).
  { induction l as [|x l IH]; intros pre; simpl; [reflexivity|].
    assert (Hl : pre ++ g x :: map g l = (pre ++ [g x]) ++ map g l)
      by now rewrite <- app_assoc.
    assert (Hn : S (length pre) = length (pre ++ [g x]))
      by (rewrite length_app; simpl; lia).
    destruct (f x); simpl.
    - rewrite (getitem_lookup _ _ (g x))
        by (rewrite lookup_app_r, Nat.sub_diag by lia; reflexivity).
      simpl. rewrite Hl, Hn, IH. reflexivity.
    - rewrite Hl, Hn, IH. reflexivity. }
  apply (H []).
Qed.

Lemma argwhere_from_length (i : nat) (mask : list bool) :
  length (argwhere_from i mask) = length (List.filter (fun b => b) mask).
Proof.
  revert i. induction mask as [|b mask IH]; intros i; simpl; [reflexivity|].
  destruct b; simpl; now rewrite IH.
Qed.

Lemma filter_map_length {A : Type} (f : A -> bool) (l : list A) :
  length (List.filter (fun b => b) (map f l)) = length (List.filter f l).
Proof.
  induction l as [|x l IH]; simpl; [reflexivity|].
  destruct (f x); simpl; now rewrite IH.
Qed.

(** [index] has one entry per object that is not of the ignore class. *)
Lemma argwhere_length (obj_list : list Object3d) :
  length (argwhere (map not_dontcare obj_list))
  = length (non_ignored obj_list).
Proof.
  unfold argwhere, non_ignored.
  now rewrite argwhere_from_length, filter_map_length.
Qed.

Lemma map3_maps {A B C D E : Type} (f : B -> C -> D -> E)
    (g1 : A -> B) (g2 : A -> C) (g3 : A -> D) (l : list A) :
  map3 f (map g1 l) (map g2 l) (map g3 l)
  = map (fun x => f (g1 x) (g2 x) (g3 x)) l.
Proof. induction l as [|x l IH]; simpl; [reflexivity | now rewrite IH]. Qed.

Lemma base_name_len (obj_list : list Object3d) :
  exists arr, dict_get (base_annotations obj_list) "name" = Ok arr
              /\ len arr = length obj_list.
Proof.
  destruct obj_list as [|o l]; simpl; eexists; split; try reflexivity.
  simpl. now rewrite length_map.
Qed.

Lemma annotations_explicit (obj_list : list Object3d) (I G : ndarray) :
  dict_set (dict_set (base_annotations obj_list) "index" I) "gt_boxes_lidar" G
  = base_annotations obj_list ++ [("index", I); ("gt_boxes_lidar", G)].
Proof. destruct obj_list; reflexivity. Qed.

Lemma annotations_counted (obj_list : list Object3d) (I G N : ndarray) :
  dict_set (base_annotations obj_list ++ [("index", I); ("gt_boxes_lidar", G)])
           "num_points_in_gt" N
  = base_annotations obj_list
    ++ [("index", I); ("gt_boxes_lidar", G); ("num_points_in_gt", N)].
Proof. destruct obj_list; reflexivity. Qed.

(** The equal-length check passes on the dictionary the builder
    assembles. *)
Lemma check_equal_lengths_built (obj_list : list Object3d) (I G : ndarray) :
  check_equal_lengths
    (base_annotations obj_list ++ [("index", I); ("gt_boxes_lidar", G)])
  = Ok (Some "difficulty").
Proof.
  destruct obj_list as [|o l]; [reflexivity|].
  unfold check_equal_lengths, check_step.
  repeat progress (cbn; rewrite ?length_map, ?Nat.eqb_refl).
  reflexivity.
Qed.

(** The counting loop fills the first [length corners] entries and leaves
    the others at the sentinel. *)
Lemma count_loop (pts_fov : list lidar_point) (corners : list Corners)
    (num_gt : nat) :
  (length corners <= num_gt)%nat ->
  rfold (count_step pts_fov corners) (seq 0 (length corners))
        (repeat (-1) num_gt)
  = Ok (map (fun c => mask_sum (map (fun p => in_hull (xyz p) c) pts_fov))
            corners
        ++ repeat (-1) (num_gt - length corners)).
Proof.
  intros Hle.
  set (cnt := fun c => mask_sum (map (fun p => in_hull (xyz p) c) pts_fov)).
  assert (H : forall k j : nat, (j + k = length corners)%nat ->
            rfold (count_step pts_fov corners) (seq j k)
                  (map cnt (take j corners) ++ repeat (-1) (num_gt - j))
            = Ok (map cnt corners ++ repeat (-1) (num_gt - length corners))).
  { induction k as [|k IH]; intros j Hj; simpl.
    - replace j with (length corners) by lia.
      now rewrite firstn_all.
    - destruct (lookup_lt_is_Some_2 corners j) as [c Hc]; [lia|].
      unfold count_step at 1. rewrite (getitem_lookup _ _ _ Hc). simpl.
      rewrite setitem_lt
        by (rewrite length_app, length_map, length_take, repeat_length; lia).
      simpl. rewrite insert_app_r_alt
        by (rewrite length_map, length_take; lia).
      rewrite length_map, length_take.
      replace (j - j `min` length corners)%nat with 0%nat by lia.
      replace (num_gt - j)%nat with (S (num_gt - S j)) by lia.
      simpl.
      specialize (IH (S j) ltac:(lia)).
      rewrite (take_S_r _ _ _ Hc), map_app in IH. simpl in IH.
      rewrite <- app_assoc in IH. simpl in IH. exact IH. }
  specialize (H (length corners) 0%nat ltac:(lia)).
  rewrite Nat.sub_0_r in H. exact H.
Qed.

Lemma filter_length_le {A : Type} (f : A -> bool) (l : list A) :
  (length (List.filter f l) <= length l)%nat.
Proof.
  induction l as [|x l IH]; simpl; [lia|]. destruct (f x); simpl; lia.
Qed.

(** The points that pass the FOV filter with margin 0. *)
Lemma points_in_fov_mask (calib : Calib) (img_shape : Z * Z)
    (points : list lidar_point) :
  points_in_fov calib img_shape points
  = mask_select points
      (map (in_fov img_shape calib 0)
           (map (fun p => lidar_to_rect calib (xyz p)) points)).
Proof. unfold points_in_fov. now rewrite get_fov_flag_zero. Qed.

(** The record the builder returns for a frame whose files are present
    and which is built with labels. *)
Lemma process_single_scene_labelled (self : CODataset) (sample_idx : string)
    (count_inside_pts : bool) (img_shape : Z * Z) (calib : Calib)
    (obj_list : list Object3d) (points : list lidar_point) :
  get_image_shape self sample_idx = Ok img_shape ->
  get_calib self sample_idx = Ok calib ->
  get_label self sample_idx = Ok obj_list ->
  (count_inside_pts = true -> get_lidar self sample_idx = Ok points) ->
  process_single_scene self true count_inside_pts sample_idx
  = Ok (with_annos (bare_info sample_idx img_shape calib)
          (built_annotations calib img_shape obj_list
             (if count_inside_pts then Some points else None))).
Proof.
  intros Hshape Hcalib Hlabel Hlidar.
  unfold process_single_scene.
  rewrite Hshape. cbn [rbind]. rewrite Hcalib. cbn [rbind].
  rewrite Hlabel. cbn [rbind].
  destruct (base_name_len obj_list) as [arr [Harr Hlen]].
  rewrite Harr. cbn [rbind].
  rewrite !fancy_index_argwhere. cbn [rbind].
  rewrite map_map, map3_maps, annotations_explicit.
  rewrite check_equal_lengths_built. cbn [rbind].
  fold (non_ignored obj_list).
  change (map (fun x : Object3d =>
                 lidar_box (rect_to_lidar calib (loc x))
                           (obj_l x, obj_h x, obj_w x) (ry x)))
    with (map (gt_box_of calib)).
  destruct count_inside_pts.
  - rewrite (Hlidar eq_refl). cbn [rbind].
    cbn [image_shape with_annos].
    rewrite get_fov_flag_zero. cbn [rbind].
    rewrite <- points_in_fov_mask.
    set (boxes := map (gt_box_of calib) (non_ignored obj_list)).
    assert (Hn : length (non_ignored obj_list)
                 = length (map boxes_to_corners_3d boxes))
      by (unfold boxes; now rewrite !length_map).
    rewrite Hn, count_loop
      by (rewrite <- Hn, Hlen; apply filter_length_le).
    cbn [rbind]. rewrite <- Hn, Hlen, annotations_counted.
    unfold built_annotations. fold boxes.
    rewrite map_map.
    replace (map (fun x => mask_sum (map (fun p => in_hull (xyz p)
                                          (boxes_to_corners_3d x))
                                     (points_in_fov calib img_shape points)))
                 boxes)
      with (map (count_in_box (points_in_fov calib img_shape points)) boxes)
      by (apply map_ext; intros box; unfold count_in_box;
          symmetry; apply mask_sum_map).
    reflexivity.
  - unfold built_annotations. rewrite app_nil_r. reflexivity.
Qed.

Lemma check_equal_lengths_counted (obj_list : list Object3d) (I G N : ndarray) :
  len N = length obj_list ->
  check_equal_lengths
    (base_annotations obj_list
     ++ [("index", I); ("gt_boxes_lidar", G); ("num_points_in_gt", N)])
  = Ok (Some "num_points_in_gt").
Proof.
  intros HN. destruct obj_list as [|o l];
    unfold check_equal_lengths, check_step;
    repeat progress (cbn; rewrite ?length_map, ?HN, ?Nat.eqb_refl);
    reflexivity.
Qed.

Lemma counts_length (f : list float -> Z) (obj_list : list Object3d)
    (boxes : list (list float)) :
  length boxes = length (non_ignored obj_list) ->
  length (map f boxes
          ++ repeat (-1) (length obj_list - length (non_ignored obj_list)))
  = length obj_list.
Proof.
  intros H. rewrite length_app, length_map, repeat_length, H.
  pose proof (filter_length_le not_dontcare obj_list) as Hle.
  unfold non_ignored. lia.
Qed.

Lemma base_keys_lengths (obj_list : list Object3d) (rest : pydict) (key : string) :
  In key base_keys ->
  exists arr, dict_find (base_annotations obj_list ++ rest) key = Some arr
              /\ len arr = length obj_list.
Proof.
  intros Hin. simpl in Hin.
  destruct obj_list as [|o l];
    repeat (destruct Hin as [ <- | Hin ];
            [eexists; split; [reflexivity | simpl; rewrite ?length_map; reflexivity]|]);
    destruct Hin.
Qed.

Lemma base_annotations_keys (obj_list : list Object3d) :
  dict_keys (base_annotations obj_list) = base_keys.
Proof. destruct obj_list; reflexivity. Qed.

Lemma dict_find_app_r {V : Type} (d1 d2 : odict V) (k : string) :
  ~ In k (dict_keys d1) -> dict_find (d1 ++ d2) k = dict_find d2 k.
Proof.
  induction d1 as [|[k' v] d1 IH]; simpl; intros H; [reflexivity|].
  destruct (String.eqb_spec k k') as [ -> | Hne ]; [ptauto|].
  apply IH. ptauto.
Qed.

Lemma not_in_base_keys (k : string) :
  (k = "index" \/ k = "gt_boxes_lidar" \/ k = "num_points_in_gt") ->
  ~ In k base_keys.
Proof.
  intros [ -> | [ -> | -> ] ]; simpl; intros H;
    repeat (destruct H as [H|H]; [discriminate|]); exact H.
Qed.

(** C1.  For a frame built with labels, every per-object array of the
    Annotation Set (name, truncated, occluded, alpha, bbox, dimensions,
    location, rotation_y, score, difficulty, and num_points_in_gt when it
    is stored) has the length of the raw object list; [index] and
    [gt_boxes_lidar] have the length of the list of objects whose class is
    not DontCare; these are all the fields; and the equal-length check does
    not fail (the builder returns the record, and the check also passes on
    the final dictionary). *)
Theorem annotation_lengths (self : CODataset) (sample_idx : string)
    (count_inside_pts : bool) (img_shape : Z * Z) (calib : Calib)
    (obj_list : list Object3d) (points : list lidar_point) :
  get_image_shape self sample_idx = Ok img_shape ->
  get_calib self sample_idx = Ok calib ->
  get_label self sample_idx = Ok obj_list ->
  (count_inside_pts = true -> get_lidar self sample_idx = Ok points) ->
  exists (info : Info) (a : pydict),
    process_single_scene self true count_inside_pts sample_idx = Ok info
    /\ annos info = Some a
    /\ is_ok (check_equal_lengths a) = true
    /\ dict_keys a
       = base_keys ++ ["index"; "gt_boxes_lidar"]
         ++ (if count_inside_pts then ["num_points_in_gt"] else [])
    /\ (forall key arr, In key per_object_keys ->
          dict_find a key = Some arr -> len arr = length obj_list)
    /\ (forall key, In key base_keys -> dict_find a key <> None)
    /\ (exists index gt_boxes_lidar,
          dict_find a "index" = Some index
          /\ dict_find a "gt_boxes_lidar" = Some gt_boxes_lidar
          /\ len index
             = length (List.filter
                         (fun o => negb (String.eqb (cls_type o) "DontCare"))
                         obj_list)
          /\ len gt_boxes_lidar
             = length (List.filter
                         (fun o => negb (String.eqb (cls_type o) "DontCare"))
                         obj_list)).
Proof.
  intros Hshape Hcalib Hlabel Hlidar.
  eexists _, _. split.
  { apply process_single_scene_labelled; eassumption. }
  split; [reflexivity|].
  set (boxes := map (gt_box_of calib) (non_ignored obj_list)).
  assert (Hcounts : forall f,
            length (map f boxes
                    ++ repeat (-1) (length obj_list
                                    - length (non_ignored obj_list)))
            = length obj_list).
  { intros f. apply counts_length. unfold boxes. apply length_map. }
  unfold built_annotations. fold boxes.
  split; [|split; [|split; [|split]]].
  - destruct count_inside_pts.
    + cbn [app]. rewrite check_equal_lengths_counted; [reflexivity|].
      apply Hcounts.
    + rewrite app_nil_r, check_equal_lengths_built. reflexivity.
  - unfold dict_keys. rewrite !map_app.
    change (map fst (base_annotations obj_list))
      with (dict_keys (base_annotations obj_list)).
    rewrite base_annotations_keys. destruct count_inside_pts; reflexivity.
  - intros key arr Hin Hfind. unfold per_object_keys in Hin.
    apply in_app_or in Hin. destruct Hin as [Hin | [ <- | [] ] ].
    + destruct (base_keys_lengths obj_list
                  ([("index", ArrInt (map Z.of_nat
                                        (argwhere (map not_dontcare obj_list))));
                    ("gt_boxes_lidar", ArrFloat2 7 boxes)]
                   ++ (if count_inside_pts
                       then [("num_points_in_gt",
                              ArrInt (map (count_in_box
                                             (points_in_fov calib img_shape points))
                                          boxes
                                      ++ repeat (-1)
                                           (length obj_list
                                            - length (non_ignored obj_list))))]
                       else [])) key Hin) as [arr' [Hf Hl]].
      destruct count_inside_pts; rewrite Hf in Hfind; congruence.
    + rewrite dict_find_app_r in Hfind
        by (rewrite base_annotations_keys; apply not_in_base_keys; auto).
      destruct count_inside_pts; simpl in Hfind; [|discriminate].
      injection Hfind as <-. apply Hcounts.
  - intros key Hin.
    destruct (base_keys_lengths obj_list
                ([("index", ArrInt (map Z.of_nat
                                      (argwhere (map not_dontcare obj_list))));
                  ("gt_boxes_lidar", ArrFloat2 7 boxes)]
                 ++ (if count_inside_pts
                     then [("num_points_in_gt",
                            ArrInt (map (count_in_box
                                           (points_in_fov calib img_shape points))
                                        boxes
                                    ++ repeat (-1)
                                         (length obj_list
                                          - length (non_ignored obj_list))))]
                     else [])) key Hin) as [arr' [Hf Hl]].
    destruct count_inside_pts; rewrite Hf; discriminate.
  - eexists _, _.
    rewrite (dict_find_app_r _ _ "index"), (dict_find_app_r _ _ "gt_boxes_lidar")
      by (rewrite base_annotations_keys; apply not_in_base_keys; auto).
    split; [reflexivity|]. split; [reflexivity|].
    simpl. unfold boxes.
    rewrite !length_map, argwhere_length. split; reflexivity.
Qed.

(** C2.  With point counting enabled the builder transforms the point
    cloud to the rect frame, keeps the points selected by the FOV filter
    with margin 0 ([points_in_fov]), and stores under [num_points_in_gt] an
    integer array with one entry per raw labeled object: entry [k], for
    [k] below the number of non-ignored objects, is the number of those
    points inside the lidar box of the [k]-th non-ignored object, and
    every later entry is the sentinel -1. *)
Theorem num_points_in_gt_spec (self : CODataset) (sample_idx : string)
    (img_shape : Z * Z) (calib : Calib) (obj_list : list Object3d)
    (points : list lidar_point) :
  get_image_shape self sample_idx = Ok img_shape ->
  get_calib self sample_idx = Ok calib ->
  get_label self sample_idx = Ok obj_list ->
  get_lidar self sample_idx = Ok points ->
  exists fov_flag : list bool,
    get_fov_flag (map (fun p => lidar_to_rect calib (xyz p)) points)
                 img_shape calib 0 = Ok fov_flag
    /\
  let pts_fov := mask_select points fov_flag in
  exists (info : Info) (a : pydict) (counts : list Z),
    process_single_scene self true true sample_idx = Ok info
    /\ annos info = Some a
    /\ dict_find a "num_points_in_gt" = Some (ArrInt counts)
    /\ length counts = length obj_list
    /\ (forall (k : nat) (o : Object3d),
          non_ignored obj_list !! k = Some o ->
          counts !! k
          = Some (Z.of_nat
                    (length
                       (List.filter
                          (fun p => in_hull (xyz p)
                                      (boxes_to_corners_3d (gt_box_of calib o)))
                          pts_fov))))
    /\ (forall k : nat,
          (length (non_ignored obj_list) <= k < length obj_list)%nat ->
          counts !! k = Some (-1)).
Proof.
  intros Hshape Hcalib Hlabel Hlidar.
  eexists. split; [apply get_fov_flag_zero|]. intros pts_fov.
  eexists _, _, _. split.
  { apply (process_single_scene_labelled self sample_idx true img_shape calib
             obj_list points); auto. }
  split; [reflexivity|].
  unfold built_annotations.
  rewrite dict_find_app_r
    by (rewrite base_annotations_keys; apply not_in_base_keys; auto).
  split; [reflexivity|].
  rewrite points_in_fov_mask. fold pts_fov.
  split; [|split].
  - apply counts_length. apply length_map.
  - intros k o Hk.
    rewrite lookup_app_l
      by (rewrite !length_map; eapply lookup_lt_Some; eassumption).
    rewrite !list_lookup_fmap, Hk. reflexivity.
  - intros k [Hlo Hhi].
    rewrite lookup_app_r by (rewrite !length_map; lia).
    rewrite !length_map.
    apply lookup_repeat. lia.
Qed.

(** C8.  A frame whose label file holds no object is built without error:
    every field is present with length 0 and its trailing shape (bbox is
    0 x 4, dimensions and location are 0 x 3), [index] and
    [gt_boxes_lidar] are empty, and with point counting enabled
    [num_points_in_gt] is present as an empty array. *)
Theorem empty_frame_annotations (self : CODataset) (sample_idx : string)
    (count_inside_pts : bool) (img_shape : Z * Z) (calib : Calib)
    (points : list lidar_point) :
  get_image_shape self sample_idx = Ok img_shape ->
  get_calib self sample_idx = Ok calib ->
  get_label self sample_idx = Ok [] ->
  (count_inside_pts = true -> get_lidar self sample_idx = Ok points) ->
  exists (info : Info) (a : pydict),
    process_single_scene self true count_inside_pts sample_idx = Ok info
    /\ annos info = Some a
    /\ dict_shapes a
       = [("name", [0%nat]); ("truncated", [0%nat]); ("occluded", [0%nat]);
          ("alpha", [0%nat]); ("bbox", [0%nat; 4%nat]);
          ("dimensions", [0%nat; 3%nat]); ("location", [0%nat; 3%nat]);
          ("rotation_y", [0%nat]); ("score", [0%nat]);
          ("difficulty", [0%nat]); ("index", [0%nat]);
          ("gt_boxes_lidar", [0%nat; 7%nat])]
         ++ (if count_inside_pts then [("num_points_in_gt", [0%nat])] else [])
    /\ (forall key arr, dict_find a key = Some arr -> len arr = 0%nat)
    /\ dict_find a "index" = Some (ArrInt [])
    /\ dict_find a "gt_boxes_lidar" = Some (ArrFloat2 7 [])
    /\ (count_inside_pts = true ->
        dict_find a "num_points_in_gt" = Some (ArrInt [])).
Proof.
  intros Hshape Hcalib Hlabel Hlidar.
  eexists _, _. split.
  { apply process_single_scene_labelled; eassumption. }
  split; [reflexivity|].
  destruct count_inside_pts; cbn.
  - repeat split; try reflexivity.
    intros key arr.
    repeat (destruct (String.eqb key _);
            [intros H; injection H as <-; reflexivity|]).
    discriminate.
  - repeat split; try reflexivity; try discriminate.
    intros key arr.
    repeat (destruct (String.eqb key _);
            [intros H; injection H as <-; reflexivity|]).
    discriminate.
Qed.

(** ** Per-frame accessors *)

Lemma prefix_append (s t : string) : String.prefix s (s +:+ t) = true.
Proof.
  induction s as [|c s IH]; simpl; [destruct t; reflexivity|].
  destruct (ascii_dec c c); [exact IH | congruence].
Qed.

Lemma prefix_append_r (n h t : string) :
  String.prefix n h = true -> String.prefix n (h +:+ t) = true.
Proof.
  revert n. induction h as [|c h IH]; intros n; simpl.
  - destruct n; [destruct t; reflexivity | discriminate].
  - destruct n as [|a n]; [reflexivity|].
    destruct (ascii_dec a c); [apply IH | discriminate].
Qed.

Lemma contains_append_r (n h t : string) :
  contains n h = true -> contains n (h +:+ t) = true.
Proof.
  induction h as [|c h IH]; simpl; rewrite !orb_true_iff.
  - intros [H|H]; [|discriminate].
    destruct n; [|discriminate]. destruct t; simpl; auto.
  - intros [H|H].
    + left. apply (prefix_append_r n (String c h) t H).
    + right. apply IH. exact H.
Qed.

Lemma contains_append_l (n a h : string) :
  contains n h = true -> contains n (a +:+ h) = true.
Proof.
  intros H. induction a as [|c a IH]; simpl; [exact H|].
  rewrite IH. apply orb_true_r.
Qed.

Lemma prefix_refl (n : string) : String.prefix n n = true.
Proof.
  induction n as [|c n IH]; simpl; [reflexivity|].
  destruct (ascii_dec c c); [exact IH | congruence].
Qed.

Lemma contains_refl (n : string) : contains n n = true.
Proof.
  destruct n as [|c n]; [reflexivity|].
  unfold contains; fold contains. now rewrite prefix_refl.
Qed.

Lemma contains_middle (n a b : string) : contains n (a +:+ n +:+ b) = true.
Proof. apply contains_append_l, contains_append_r, contains_refl. Qed.

Lemma contains_wrapped (n h a b : string) :
  contains n h = true -> contains n (a +:+ h +:+ b) = true.
Proof. intros H. now apply contains_append_l, contains_append_r. Qed.

Lemma contains_idx_in_file (root dir idx ext : string) :
  contains idx (path_join (path_join root dir) (idx +:+ ext)) = true.
Proof.
  unfold path_join. apply contains_append_l, contains_append_l.
  apply contains_append_r, contains_refl.
Qed.

(** A missing point cloud, image or label file makes its accessor raise at
    once, with a message holding the path of the file and so the frame
    id. *)
Lemma get_lidar_missing (self : CODataset) (idx root : string) :
  split_path_of self idx = Ok root ->
  file_exists (lidar_file_of root idx) = false ->
  exists e, get_lidar self idx = Err e
            /\ reports e idx (lidar_file_of root idx) = true.
Proof.
  intros Hroot Hmiss. unfold get_lidar. rewrite Hroot. cbn [rbind].
  rewrite Hmiss. eexists. split; [reflexivity|].
  unfold reports. apply andb_true_iff. split.
  - apply contains_wrapped, contains_idx_in_file.
  - apply contains_middle.
Qed.

Lemma get_image_shape_missing (self : CODataset) (idx root : string) :
  split_path_of self idx = Ok root ->
  file_exists (img_file_of root idx) = false ->
  exists e, get_image_shape self idx = Err e
            /\ reports e idx (img_file_of root idx) = true.
Proof.
  intros Hroot Hmiss. unfold get_image_shape. rewrite Hroot. cbn [rbind].
  rewrite Hmiss. eexists. split; [reflexivity|].
  unfold reports. apply andb_true_iff. split.
  - apply contains_wrapped, contains_idx_in_file.
  - apply contains_middle.
Qed.

Lemma get_label_missing (self : CODataset) (idx root : string) :
  split_path_of self idx = Ok root ->
  file_exists (label_file_of root idx) = false ->
  exists e, get_label self idx = Err e
            /\ reports e idx (label_file_of root idx) = true.
Proof.
  intros Hroot Hmiss. unfold get_label. rewrite Hroot. cbn [rbind].
  rewrite Hmiss. eexists. split; [reflexivity|].
  unfold reports. apply andb_true_iff. split.
  - apply contains_wrapped, contains_idx_in_file.
  - apply contains_middle.
Qed.

(** An exception of one frame is the outcome of the whole batch: no
    record list is returned. *)
Lemma get_infos_aborts (self : CODataset) (has_label count_inside_pts : bool)
    (ids : list string) (idx : string) (e : exn) :
  In idx ids ->
  process_single_scene self has_label count_inside_pts idx = Err e ->
  exists e', get_infos self has_label count_inside_pts ids = Err e'.
Proof.
  unfold get_infos. induction ids as [|i ids IH]; intros Hin Herr; [destruct Hin|].
  simpl.
  destruct (process_single_scene self has_label count_inside_pts i) as [info|e0] eqn:Hi;
    [|eexists; reflexivity].
  destruct Hin as [ -> | Hin]; [congruence|].
  destruct (IH Hin Herr) as [e' He']. rewrite He'. eexists. reflexivity.
Qed.

(** C9 (the code at the failing input).  When the calibration file of a
    frame is missing, [get_calib] raises an [AssertionError] that carries
    no message at all: neither the frame id nor the file is reported.  The
    same exception is what the info builder and the batch end with when the
    image of the frame is present. *)
Theorem get_calib_missing_unreported (self : CODataset) (idx root : string)
    (has_label count_inside_pts : bool) (ids : list string)
    (img_shape : Z * Z) :
  split_path_of self idx = Ok root ->
  file_exists (calib_file_of root idx) = false ->
  get_image_shape self idx = Ok img_shape ->
  get_calib self idx = Err (AssertionError None)
  /\ reports (AssertionError None) idx (calib_file_of root idx) = false
  /\ process_single_scene self has_label count_inside_pts idx
     = Err (AssertionError None)
  /\ get_infos self has_label count_inside_pts [idx]
     = Err (AssertionError None).
Proof.
  intros Hroot Hmiss Hshape.
  assert (Hcalib : get_calib self idx = Err (AssertionError None)).
  { unfold get_calib. rewrite Hroot. cbn [rbind]. now rewrite Hmiss. }
  assert (Hscene : process_single_scene self has_label count_inside_pts idx
                   = Err (AssertionError None)).
  { unfold process_single_scene. rewrite Hshape. cbn [rbind].
    now rewrite Hcalib. }
  repeat split; try assumption.
  unfold get_infos. simpl. now rewrite Hscene.
Qed.

(** ** Evaluation *)

(** On a corpus whose first record has no annotations the evaluation
    returns the empty result. *)
Lemma evaluation_no_annos (self : CODataset) (det_annos : list PredDict)
    (class_names_ : list string) (first : Info) (rest : list Info) :
  coda_infos self = first :: rest ->
  annos first = None ->
  evaluation self det_annos class_names_ = Ok (None, []).
Proof.
  intros Hinfos Hfirst. unfold evaluation. rewrite Hinfos. cbn.
  now rewrite Hfirst.
Qed.

(** C7 (the code at the failing input).  On an empty corpus, which holds
    no ground-truth annotations, the evaluation raises [IndexError] at
    [self.coda_infos[0]] and returns no result. *)
Theorem evaluation_empty_corpus (self : CODataset) (det_annos : list PredDict)
    (class_names_ : list string) :
  coda_infos self = [] ->
  evaluation self det_annos class_names_ = Err IndexError.
Proof. intros Hinfos. unfold evaluation. now rewrite Hinfos. Qed.

(** ** Ground-truth database builder *)

Lemma crop_points_filter (points : list lidar_point) (box : list float)
    (center : vec3) :
  crop_points points
    (map (fun p => points_in_boxes_cpu box (xyz p)) points) center
  = map (recenter center)
        (List.filter (fun p => 0 <? points_in_boxes_cpu box (xyz p)) points).
Proof.
  unfold crop_points. now rewrite map_map, mask_select_map_filter.
Qed.

Lemma imap_from_length {A B : Type} (j : nat) (f : nat -> A -> B) (l : list A) :
  length (imap_from j f l) = length l.
Proof. revert j. induction l; intros j; simpl; auto. Qed.

Lemma imap_from_lookup {A B : Type} (j : nat) (f : nat -> A -> B)
    (l : list A) (i : nat) (x : A) :
  l !! i = Some x -> imap_from j f l !! i = Some (f (j + i)%nat x).
Proof.
  revert j i. induction l as [|a l IH]; intros j i H; [destruct i; discriminate|].
  destruct i as [|i]; simpl in *.
  - injection H as <-. now rewrite Nat.add_0_r.
  - rewrite (IH (S j) i H). do 2 f_equal. lia.
Qed.

Lemma imap_from_In {A B : Type} (j : nat) (f : nat -> A -> B)
    (l : list A) (y : B) :
  In y (imap_from j f l) ->
  exists i x, l !! i = Some x /\ y = f (j + i)%nat x.
Proof.
  revert j. induction l as [|a l IH]; intros j H; [destruct H|].
  destruct H as [ <- | H].
  - exists 0%nat, a. split; [reflexivity | now rewrite Nat.add_0_r].
  - destruct (IH (S j) H) as (i & x & Hi & ->).
    exists (S i), x. split; [exact Hi | f_equal; lia].
Qed.

(** The object loop of one frame, from object [j] on. *)
Lemma db_objects_loop (self : CODataset) (split : string)
    (used_classes : option (list string)) (fr : Frame) (a : pydict)
    (names difficulty bbox score_arr : ndarray) (pre os : list DbObject)
    (st : DbState) :
  f_objects fr = pre ++ os ->
  dict_find a "score" = Some score_arr ->
  (forall (i : nat) (o : DbObject), f_objects fr !! i = Some o ->
     str_at names i = Ok (o_name o)
     /\ int_at difficulty i = Ok (o_difficulty o)
     /\ row_at bbox i = Ok (o_bbox o)
     /\ float_at score_arr i = Ok (o_score o)
     /\ row_xyz (o_box o) = Ok (o_center o)) ->
  rfold (db_object_step self split used_classes (f_idx fr) (f_points fr) a
           names difficulty bbox (map o_box (f_objects fr))
           (map (fun box => map (fun p => points_in_boxes_cpu box (xyz p))
                                (f_points fr))
                (map o_box (f_objects fr))))
        (seq (length pre) (length os)) st
  = Ok {| written := written st
                     ++ imap_from (length pre) (blob_of self split fr) os;
          all_db_infos :=
            fold_left add_entry
              (List.filter (fun e => in_used_classes used_classes (db_name e))
                           (imap_from (length pre) (entry_of split fr) os))
              (all_db_infos st) |}.
Proof.
  intros Hobjs Hscore Hreads.
  revert pre st Hobjs. induction os as [|o os IH]; intros pre st Hobjs.
  - simpl. rewrite app_nil_r. destruct st; reflexivity.
  - assert (Ho : f_objects fr !! length pre = Some o).
    { rewrite Hobjs, lookup_app_r, Nat.sub_diag by lia. reflexivity. }
    destruct (Hreads _ _ Ho) as (Hname & Hdiff & Hbbox & Hsc & Hctr).
    cbn [length seq rfold]. unfold db_object_step at 1.
    rewrite Hname. cbn [rbind].
    rewrite (getitem_lookup _ _
               (map (fun p => points_in_boxes_cpu (o_box o) (xyz p)) (f_points fr)))
      by (rewrite !list_lookup_fmap, Ho; reflexivity).
    cbn [rbind].
    rewrite (getitem_lookup _ _ (o_box o))
      by (rewrite list_lookup_fmap, Ho; reflexivity).
    cbn [rbind]. rewrite Hctr. cbn [rbind].
    rewrite crop_points_filter. fold (object_points fr o).
    assert (Hnext : f_objects fr = (pre ++ [o]) ++ os)
      by now rewrite <- app_assoc.
    assert (Hlen : S (length pre) = length (pre ++ [o]))
      by (rewrite length_app; simpl; lia).
    cbn [imap_from List.filter]. cbn [entry_of db_name].
    destruct (in_used_classes used_classes (o_name o)) eqn:Hused.
    + rewrite Hdiff. cbn [rbind]. rewrite Hbbox. cbn [rbind].
      unfold dict_get. rewrite Hscore. cbn [rbind]. rewrite Hsc. cbn [rbind].
      rewrite Hlen, (IH (pre ++ [o]) _ Hnext). cbn [written all_db_infos].
      rewrite <- Hlen, <- app_assoc. reflexivity.
    + cbn [rbind].
      rewrite Hlen, (IH (pre ++ [o]) _ Hnext). cbn [written all_db_infos].
      rewrite <- Hlen, <- app_assoc. reflexivity.
Qed.

(** One frame: its blobs are appended to the files written and its
    entries that pass the class filter are added to the index. *)
Lemma db_frame_step_spec (self : CODataset) (split : string)
    (used_classes : option (list string)) (st : DbState) (info : Info)
    (fr : Frame) :
  frame_of_info self info fr ->
  db_frame_step self split used_classes st info
  = Ok {| written := written st ++ frame_blobs self split fr;
          all_db_infos :=
            fold_left add_entry (frame_entries split used_classes fr)
                      (all_db_infos st) |}.
Proof.
  intros (Hidx & Hlidar & a & names & difficulty & bbox & score_arr & c
          & Hannos & Hn & Hd & Hb & Hs & Hg & Hreads).
  unfold db_frame_step. rewrite Hidx, Hlidar. cbn [rbind].
  rewrite Hannos. cbn [rbind]. unfold dict_get.
  rewrite Hn, Hd, Hb, Hg. cbn [rbind as_rows].
  rewrite length_map.
  apply (db_objects_loop self split used_classes fr a names difficulty bbox
           score_arr [] (f_objects fr) st eq_refl Hs Hreads).
Qed.

Lemma db_frames_loop (self : CODataset) (split : string)
    (used_classes : option (list string)) (infos : list Info)
    (frames : list Frame) (st : DbState) :
  Forall2 (frame_of_info self) infos frames ->
  rfold (db_frame_step self split used_classes) infos st
  = Ok {| written := written st
                     ++ concat (map (frame_blobs self split) frames);
          all_db_infos :=
            fold_left add_entry
              (concat (map (frame_entries split used_classes) frames))
              (all_db_infos st) |}.
Proof.
  intros H. revert st. induction H as [|info fr infos frames Hf _ IH]; intros st.
  - simpl. rewrite app_nil_r. destruct st; reflexivity.
  - cbn [rfold]. rewrite (db_frame_step_spec _ _ _ _ _ _ Hf). cbn [rbind].
    rewrite IH. cbn [written all_db_infos map concat].
    now rewrite fold_left_app, <- List.app_assoc.
Qed.

(** The index built from a list of entries holds, under each class, the
    entries of that class in the order of the list. *)
Lemma index_lookup (es : list DbInfo) (m : gmap string (list DbInfo))
    (c : string) :
  fold_left add_entry es m !! c
  = match List.filter (fun e => String.eqb (db_name e) c) es with
    | [] => m !! c
    | l => Some (default [] (m !! c) ++ l)
    end.
Proof.
  revert m. induction es as [|e es IH]; intros m; [reflexivity|].
  cbn [fold_left List.filter]. rewrite IH. unfold add_entry.
  destruct (String.eqb_spec (db_name e) c) as [Heq|Hne].
  - rewrite Heq, lookup_insert_eq.
    destruct (List.filter _ es) as [|e' l].
    + destruct (m !! c); reflexivity.
    + destruct (m !! c); simpl; rewrite <- ?List.app_assoc; reflexivity.
  - rewrite lookup_insert_ne by exact Hne. reflexivity.
Qed.

Lemma in_used_classes_iff (used_classes : option (list string)) (name : string) :
  in_used_classes used_classes name = true <->
  used_classes = None \/ exists l, used_classes = Some l /\ In name l.
Proof.
  destruct used_classes as [l|]; simpl.
  - rewrite existsb_exists. split.
    + intros (x & Hin & Heq). apply String.eqb_eq in Heq. subst x.
      right. eauto.
    + intros [H|(l' & Hl & Hin)]; [discriminate|]. injection Hl as <-.
      exists name. split; [exact Hin | apply String.eqb_refl].
  - split; auto.
Qed.

Lemma create_groundtruth_database_run (self : CODataset) (infos : list Info)
    (frames : list Frame) (used_classes : option (list string))
    (split : string) :
  Forall2 (frame_of_info self) infos frames ->
  create_groundtruth_database self infos used_classes split
  = Ok {| written := concat (map (frame_blobs self split) frames);
          all_db_infos :=
            fold_left add_entry
              (concat (map (frame_entries split used_classes) frames)) ∅ |}.
Proof.
  intros H. unfold create_groundtruth_database.
  now rewrite (db_frames_loop _ _ _ _ _ _ H).
Qed.

Lemma blob_written (self : CODataset) (split : string) (frames : list Frame)
    (k : nat) (fr : Frame) (i : nat) (o : DbObject) :
  frames !! k = Some fr -> f_objects fr !! i = Some o ->
  In (blob_of self split fr i o)
     (concat (map (frame_blobs self split) frames)).
Proof.
  intros Hk Hi. apply in_concat. exists (frame_blobs self split fr). split.
  - apply in_map. apply list_elem_of_In. eapply list_elem_of_lookup_2. exact Hk.
  - apply list_elem_of_In. eapply list_elem_of_lookup_2.
    unfold frame_blobs. apply (imap_from_lookup 0 _ _ _ _ Hi).
Qed.

Lemma entry_indexed (split : string) (used_classes : option (list string))
    (frames : list Frame) (e : DbInfo) :
  In e (concat (map (frame_entries split used_classes) frames)) <->
  in_used_classes used_classes (db_name e) = true
  /\ exists fr i o, In fr frames /\ f_objects fr !! i = Some o
                    /\ e = entry_of split fr i o.
Proof.
  rewrite in_concat. split.
  - intros (l & Hl & He). apply in_map_iff in Hl. destruct Hl as (fr & <- & Hfr).
    unfold frame_entries in He. apply filter_In in He. destruct He as [He Hu].
    split; [exact Hu|].
    apply imap_from_In in He. destruct He as (i & o & Hi & ->).
    exists fr, i, o. auto.
  - intros (Hu & fr & i & o & Hfr & Hi & ->).
    exists (frame_entries split used_classes fr). split.
    + apply in_map. exact Hfr.
    + unfold frame_entries. apply filter_In. split; [|exact Hu].
      apply list_elem_of_In. eapply list_elem_of_lookup_2.
      apply (imap_from_lookup 0 _ _ _ _ Hi).
Qed.

Lemma index_entries (es : list DbInfo) (c : string) :
  default [] (fold_left add_entry es ∅ !! c)
  = List.filter (fun e => String.eqb (db_name e) c) es.
Proof.
  rewrite index_lookup, lookup_empty.
  destruct (List.filter _ es); reflexivity.
Qed.

(** The builder on records whose [name], [difficulty], [bbox] and
    [score] arrays are aligned with the rows of [gt_boxes_lidar]
    ([frame_of_info]): the points of the raw cloud whose containment mask
    is positive are extracted, each is translated by subtracting the box
    center (the intensity is kept), and the rows are written to the blob
    file of the object whatever the class filter; the entry of the object
    is in the index exactly when no filter was supplied or the name of the
    object is in the filter. *)
Lemma gt_database_aligned (self : CODataset) (infos : list Info)
    (frames : list Frame) (used_classes : option (list string))
    (split : string) :
  Forall2 (frame_of_info self) infos frames ->
  exists st : DbState,
    create_groundtruth_database self infos used_classes split = Ok st
    /\ written st = concat (map (frame_blobs self split) frames)
    /\ (forall (k : nat) (fr : Frame) (i : nat) (o : DbObject),
          frames !! k = Some fr -> f_objects fr !! i = Some o ->
          In (blob_path self split fr i o,
              map (recenter (o_center o))
                  (List.filter
                     (fun p => 0 <? points_in_boxes_cpu (o_box o) (xyz p))
                     (f_points fr)))
             (written st)
          /\ (In (entry_of split fr i o)
                 (default [] (all_db_infos st !! o_name o))
              <-> used_classes = None
                  \/ exists l, used_classes = Some l /\ In (o_name o) l))
    /\ (forall (cx cy cz x y z w : float),
          recenter (cx, cy, cz) (LidarPoint (x, y, z) w)
          = LidarPoint (to_f32 (x - cx), to_f32 (y - cy), to_f32 (z - cz))%float
                       w)
    /\ (forall w : float,
          recenter (10, 5, 2)%float (LidarPoint (11, 5, 2)%float w)
          = LidarPoint (1, 0, 0)%float w).
Proof.
  intros H. eexists. split; [apply create_groundtruth_database_run, H|].
  cbn [written all_db_infos]. split; [reflexivity|]. split; [|split].
  - intros k fr i o Hk Hi. split.
    + apply (blob_written self split frames k fr i o Hk Hi).
    + rewrite index_entries, filter_In, entry_indexed, <- in_used_classes_iff.
      cbn [entry_of db_name]. split.
      * intros [[Hu _] _]. exact Hu.
      * intros Hu. split; [split; [exact Hu|] | apply String.eqb_refl].
        exists fr, i, o. split; [|split; [exact Hi | reflexivity]].
        apply list_elem_of_In. eapply list_elem_of_lookup_2. exact Hk.
  - reflexivity.
  - intros w. vm_compute. reflexivity.
Qed.

(** Every entry of the index records, as its point count, the number of
    rows written to its blob, and those rows are cropped from the whole
    point cloud of the frame as [get_lidar] returns it. *)
Lemma db_entry_counts (self : CODataset) (infos : list Info)
    (frames : list Frame) (used_classes : option (list string))
    (split : string) :
  Forall2 (frame_of_info self) infos frames ->
  exists st : DbState,
    create_groundtruth_database self infos used_classes split = Ok st
    /\ forall (c : string) (es : list DbInfo) (e : DbInfo),
         all_db_infos st !! c = Some es -> In e es ->
         exists (fr : Frame) (i : nat) (o : DbObject)
                (rows : list lidar_point),
           In fr frames /\ f_objects fr !! i = Some o
           /\ e = entry_of split fr i o
           /\ get_lidar self (f_idx fr) = Ok (f_points fr)
           /\ rows = map (recenter (o_center o))
                         (List.filter
                            (fun p => 0 <? points_in_boxes_cpu (o_box o) (xyz p))
                            (f_points fr))
           /\ In (path_join (root_path self) (db_path e), rows) (written st)
           /\ db_num_points_in_gt e = length rows.
Proof.
  intros H. eexists. split; [apply create_groundtruth_database_run, H|].
  cbn [written all_db_infos]. intros c es e Hc He.
  assert (Hin : In e (List.filter (fun e => String.eqb (db_name e) c)
                        (concat (map (frame_entries split used_classes) frames)))).
  { rewrite <- index_entries, Hc. exact He. }
  apply filter_In in Hin. destruct Hin as [Hin _].
  apply entry_indexed in Hin. destruct Hin as (_ & fr & i & o & Hfr & Hi & ->).
  exists fr, i, o, (object_points fr o).
  split; [exact Hfr|]. split; [exact Hi|]. split; [reflexivity|].
  split.
  { apply list_elem_of_In in Hfr. apply list_elem_of_lookup_1 in Hfr.
    destruct Hfr as [k Hk].
    destruct (Forall2_lookup_r _ _ _ _ _ H Hk) as (info & _ & Hf).
    apply Hf. }
  split; [reflexivity|]. split; [|reflexivity].
  apply list_elem_of_In in Hfr. apply list_elem_of_lookup_1 in Hfr.
  destruct Hfr as [k Hk].
  pose proof (blob_written self split frames k fr i o Hk Hi) as Hb.
  unfold blob_of, blob_path in Hb. cbn [entry_of db_path].
  unfold path_join in *. rewrite string_app_assoc in Hb. exact Hb.
Qed.

(** ** Balanced resampler *)

Lemma dict_find_map {V : Type} (cl : list string) (f : string -> V) (n : string) :
  In n cl -> dict_find (map (fun c => (c, f c)) cl) n = Some (f n).
Proof.
  induction cl as [|c cl IH]; intros Hin; [destruct Hin|]. simpl.
  destruct (String.eqb_spec n c) as [ -> | Hne]; [reflexivity|].
  destruct Hin as [ -> | Hin]; [congruence | auto].
Qed.

Lemma dict_set_map {V : Type} (cl : list string) (f : string -> V)
    (n : string) (v : V) :
  List.NoDup cl -> In n cl ->
  dict_set (map (fun c => (c, f c)) cl) n v
  = map (fun c => (c, if String.eqb c n then v else f c)) cl.
Proof.
  induction cl as [|c cl IH]; intros Hnd Hin; [destruct Hin|].
  apply NoDup_cons_iff in Hnd. destruct Hnd as [Hc Hnd]. simpl.
  destruct (String.eqb_spec n c) as [ -> | Hne].
  - rewrite String.eqb_refl. f_equal. apply map_ext_in. intros c' Hc'.
    destruct (String.eqb_spec c' c) as [ -> | _]; [ptauto | reflexivity].
  - destruct (String.eqb_spec c n) as [ -> | _]; [congruence|].
    f_equal. destruct Hin as [ -> | Hin]; [congruence | auto].
Qed.

Lemma dict_set_fresh {V : Type} (d : odict V) (n : string) (v : V) :
  ~ In n (dict_keys d) -> dict_set d n v = d ++ [(n, v)].
Proof.
  induction d as [|[k w] d IH]; simpl; intros H; [reflexivity|].
  destruct (String.eqb_spec n k) as [ -> | _]; [ptauto|].
  f_equal. apply IH. ptauto.
Qed.

(** The dictionary comprehension over a vocabulary without repetition. *)
Lemma empty_classes (cl : list string) :
  List.NoDup cl ->
  fold_left (fun (d : odict (list Info)) name => dict_set d name []) cl []
  = map (fun c => (c, [])) cl.
Proof.
  intros Hnd.
  assert (H : forall pre : list string, List.NoDup (pre ++ cl) ->
            fold_left (fun (d : odict (list Info)) name => dict_set d name [])
                      cl (map (fun c => (c, [])) pre)
            = map (fun c => (c, [])) (pre ++ cl)).
  { clear Hnd. induction cl as [|c cl IH]; intros pre Hnd; simpl.
    - now rewrite app_nil_r.
    - rewrite dict_set_fresh.
      + replace (map (fun c0 : string => (c0, [])) pre ++ [(c, [])])
          with (map (fun c0 : string => (c0, @nil Info)) (pre ++ [c]))
          by (rewrite map_app; reflexivity).
        rewrite IH by (rewrite <- List.app_assoc; exact Hnd).
        now rewrite <- List.app_assoc.
      + unfold dict_keys. rewrite map_map. simpl. rewrite map_id.
        apply NoDup_remove_2 in Hnd. intros Hin. apply Hnd.
        apply in_or_app. auto. }
  apply (H [] Hnd).
Qed.

Lemma existsb_eqb_In (c : string) (l : list string) :
  existsb (String.eqb c) l = true <-> In c l.
Proof.
  rewrite existsb_exists. split.
  - intros (x & Hx & Heq). apply String.eqb_eq in Heq. now subst.
  - intros H. exists c. split; [exact H | apply String.eqb_refl].
Qed.

Lemma existsb_eqb_ext (c : string) (l l' : list string) :
  (In c l <-> In c l') ->
  existsb (String.eqb c) l = existsb (String.eqb c) l'.
Proof.
  intros H. apply eq_true_iff_eq. now rewrite !existsb_eqb_In.
Qed.

(** The inner loop over the distinct names of one record. *)
Lemma add_names (cl : list string) (info : Info) (ns : list string) :
  List.NoDup cl -> List.NoDup ns ->
  forall f : string -> list Info,
  rfold (add_to_class cl info) ns (map (fun c => (c, f c)) cl)
  = Ok (map (fun c => (c, f c ++ (if existsb (String.eqb c) ns
                                  then [info] else [])))
            cl).
Proof.
  intros Hcl Hns. induction ns as [|n ns IH]; intros f.
  - simpl. f_equal. apply map_ext. intros c. now rewrite app_nil_r.
  - apply NoDup_cons_iff in Hns. destruct Hns as [Hn Hns].
    cbn [rfold]. unfold add_to_class at 1, in_class_names.
    destruct (existsb (String.eqb n) cl) eqn:Hin.
    + apply existsb_eqb_In in Hin.
      unfold dict_get. rewrite (dict_find_map cl f n Hin). cbn [rbind].
      rewrite (dict_set_map cl f n _ Hcl Hin), (IH Hns). f_equal.
      apply map_ext. intros c. f_equal. cbn [existsb].
      destruct (String.eqb_spec c n) as [ -> | Hne].
      * assert (Hf : existsb (String.eqb n) ns = false).
        { apply not_true_is_false. rewrite existsb_eqb_In. exact Hn. }
        rewrite Hf, app_nil_r. reflexivity.
      * reflexivity.
    + cbn [rbind]. rewrite (IH Hns). f_equal.
      apply map_ext_in. intros c Hc. f_equal. cbn [existsb].
      destruct (String.eqb_spec c n) as [ -> | Hne]; [|reflexivity].
      apply existsb_eqb_In in Hc. congruence.
Qed.

Lemma info_names_has_class (info : Info) :
  has_names info ->
  exists ns, info_names info = Ok ns /\ List.NoDup ns
             /\ forall c, existsb (String.eqb c) ns = has_class c info.
Proof.
  intros (a & arr & Ha & Harr). unfold info_names, has_class, dict_get.
  rewrite Ha, Harr. cbn [rbind]. eexists. split; [reflexivity|].
  destruct arr as [l| | |]; simpl; try (split; [constructor | reflexivity]).
  split.
  - apply NoDup_ListNoDup, NoDup_remove_dups.
  - intros c. apply existsb_eqb_ext.
    rewrite <- !list_elem_of_In. apply elem_of_remove_dups.
Qed.

(** The grouping loop computes the record set of every class. *)
Lemma group_by_class_spec (cl : list string) (infos : list Info) :
  List.NoDup cl -> Forall has_names infos ->
  group_by_class cl infos = Ok (map (fun c => (c, class_records infos c)) cl).
Proof.
  intros Hcl Hinfos. unfold group_by_class. rewrite (empty_classes cl Hcl).
  assert (H : forall f : string -> list Info,
            rfold (fun cls_infos info =>
                     names <-- info_names info ;;
                     rfold (add_to_class cl info) names cls_infos)
                  infos (map (fun c => (c, f c)) cl)
            = Ok (map (fun c => (c, f c ++ class_records infos c)) cl)).
  { induction Hinfos as [|info infos Hi _ IH]; intros f.
    - simpl. f_equal. apply map_ext. intros c. now rewrite app_nil_r.
    - destruct (info_names_has_class info Hi) as (ns & Hns & Hnd & Hcls).
      cbn [rfold]. rewrite Hns. cbn [rbind].
      rewrite (add_names cl info ns Hcl Hnd f). cbn [rbind].
      rewrite IH. f_equal. apply map_ext. intros c. f_equal.
      rewrite <- List.app_assoc. f_equal.
      unfold class_records. cbn [List.filter]. rewrite Hcls.
      destruct (has_class c info); reflexivity. }
  apply (H (fun _ => [])).
Qed.

Lemma rmap_In {A B : Type} (f : A -> result B) (l : list A) (r : list B) (y : B) :
  rmap f l = Ok r -> In y r -> exists x, In x l /\ f x = Ok y.
Proof.
  revert r. induction l as [|a l IH]; simpl; intros r H Hy.
  - injection H as <-. destruct Hy.
  - destruct (f a) as [b|] eqn:Hb; [simpl in H | discriminate].
    destruct (rmap f l) as [bs|] eqn:Hbs; [simpl in H | discriminate].
    injection H as <-. destruct Hy as [ <- | Hy]; [eauto|].
    destruct (IH bs eq_refl Hy) as (x & Hx & Hfx). eauto.
Qed.

Lemma draw_indices_length (rng : Rng) (pop_size size : nat) :
  length (fst (draw_indices rng pop_size size)) = size.
Proof.
  revert rng. induction size as [|size IH]; intros rng; simpl; [reflexivity|].
  destruct (randint rng pop_size) as [i rng1].
  specialize (IH rng1). destruct (draw_indices rng1 pop_size size) as [idx rng2].
  simpl in *. now rewrite IH.
Qed.

(** A draw returns the requested number of records, each from the list
    drawn from. *)
Lemma random_choice_spec {A : Type} (rng rng' : Rng) (a xs : list A) (size : Z) :
  random_choice rng a size = Ok (xs, rng') ->
  0 <= size /\ Z.of_nat (length xs) = size /\ forall x, In x xs -> In x a.
Proof.
  unfold random_choice. destruct (size <? 0) eqn:Hneg; [discriminate|].
  apply Z.ltb_ge in Hneg.
  destruct ((length a =? 0)%nat && negb (size =? 0)); [discriminate|].
  pose proof (draw_indices_length rng (length a) (Z.to_nat size)) as Hlen.
  destruct (draw_indices rng (length a) (Z.to_nat size)) as [idx rng1].
  simpl in Hlen. unfold fancy_index.
  destruct (rmap (getitem a) idx) as [ys|] eqn:Hys; [|discriminate].
  cbn [rbind]. intros H. injection H as <- <-.
  split; [exact Hneg|]. split.
  - rewrite (rmap_length _ _ _ Hys), Hlen. lia.
  - intros x Hx. destruct (rmap_In _ _ _ _ Hys Hx) as (i & _ & Hi).
    apply getitem_ok in Hi. apply list_elem_of_In.
    eapply list_elem_of_lookup_2. exact Hi.
Qed.

Lemma resample_rounds (to_int : float -> result Z) (N total : nat)
    (sets : list (list Info)) (acc out : list Info) (rng rng' : Rng) :
  rfold (fun st recs =>
           ratio <-- class_ratio_of N total recs ;;
           sample_class to_int st (recs, ratio))
        sets (acc, rng) = Ok (out, rng') ->
  exists draws, out = acc ++ concat draws
                /\ Forall2 (class_draw to_int N total) sets draws.
Proof.
  revert acc rng. induction sets as [|recs sets IH]; intros acc rng; cbn [rfold].
  - intros H. injection H as <- <-. exists []. simpl.
    rewrite app_nil_r. split; [reflexivity | constructor].
  - unfold class_ratio_of at 1.
    destruct (py_int_div _ _) as [share|] eqn:Hshare; [|discriminate].
    cbn [rbind].
    destruct (class_ratio N share) as [ratio|] eqn:Hratio; [|discriminate].
    cbn [rbind]. unfold sample_class at 1.
    destruct (to_int _) as [k|] eqn:Hk; [|discriminate]. cbn [rbind].
    destruct (random_choice rng recs k) as [[d rng1]|] eqn:Hd; [|discriminate].
    cbn [rbind fst snd]. intros H.
    destruct (IH _ _ H) as (draws & Hout & Hall).
    exists (d :: draws). split.
    + rewrite Hout. simpl. now rewrite <- List.app_assoc.
    + constructor; [|exact Hall].
      destruct (random_choice_spec _ _ _ _ _ Hd) as (_ & Hlen & Hin).
      exists share, ratio, k. auto.
Qed.

Lemma rfold_split {A B S : Type} (h : A -> result B)
    (k : S -> A * B -> result S) (l : list A) (s r : S) :
  rfold (fun st x => y <-- h x ;; k st (x, y)) l s = Ok r ->
  exists ys, rmap h l = Ok ys /\ rfold k (zip l ys) s = Ok r.
Proof.
  revert s. induction l as [|x l IH]; intros s; cbn [rfold rmap].
  - intros H. exists []. split; [reflexivity | exact H].
  - destruct (h x) as [y|] eqn:Hy; [|discriminate]. cbn [rbind].
    destruct (k s (x, y)) as [s'|] eqn:Hs; [|discriminate]. cbn [rbind].
    intros H. destruct (IH _ H) as (ys & Hys & Hfold).
    exists (y :: ys). rewrite Hys. cbn [rbind]. split; [reflexivity|].
    cbn [zip zip_with rfold]. rewrite Hs. exact Hfold.
Qed.

(** Computing all shares, then the fraction, then all ratios gives the
    ratios computed class by class. *)
Lemma ratios_two_phase (N total : nat) (sets : list (list Info))
    (ratios : list float) :
  sets <> [] ->
  rmap (class_ratio_of N total) sets = Ok ratios ->
  (cls_dist <-- rmap (fun v => py_int_div (Z.of_nat (length v))
                                           (Z.of_nat total)) sets ;;
   frac <-- py_float_div_int 1 (Z.of_nat N) ;;
   rmap (fun v => py_float_div frac (v + 0.001)) cls_dist)
  = Ok ratios.
Proof.
  intros Hne H.
  assert (Hfrac : exists frac, py_float_div_int 1 (Z.of_nat N) = Ok frac).
  { destruct sets as [|recs sets]; [congruence|]. cbn [rmap] in H.
    unfold class_ratio_of, class_ratio in H.
    destruct (py_int_div _ _); [|discriminate]. cbn [rbind] in H.
    destruct (py_float_div_int 1 (Z.of_nat N)); [eauto | discriminate]. }
  destruct Hfrac as [frac Hfrac]. clear Hne. revert ratios H.
  induction sets as [|recs sets IH]; intros ratios H; cbn [rmap] in *.
  - injection H as <-. cbn [rbind]. rewrite Hfrac. reflexivity.
  - unfold class_ratio_of at 1, class_ratio in H.
    destruct (py_int_div _ _) as [share|]; [|discriminate]. cbn [rbind] in *.
    rewrite Hfrac in H. cbn [rbind] in H.
    destruct (py_float_div frac (share + 0.001)) as [ratio|] eqn:Hr;
      [|discriminate].
    cbn [rbind] in H.
    destruct (rmap (class_ratio_of N total) sets) as [rs|]; [|discriminate].
    cbn [rbind] in H. injection H as <-.
    specialize (IH rs eq_refl).
    destruct (rmap _ sets) as [cls_dist|]; [|discriminate].
    cbn [rbind] in *. rewrite Hfrac in *. cbn [rbind rmap] in *.
    rewrite Hr, IH. reflexivity.
Qed.

Lemma py_int_div_ok (a b : Z) : b <> 0 -> exists x, py_int_div a b = Ok x.
Proof.
  intros H. unfold py_int_div.
  destruct (Z.eqb_spec b 0); [contradiction | eauto].
Qed.

Lemma rmap_ok {A B : Type} (f : A -> result B) (l : list A) :
  (forall x, exists y, f x = Ok y) -> exists r, rmap f l = Ok r.
Proof.
  intros H. induction l as [|x l [r Hr]]; [exists []; reflexivity|].
  destruct (H x) as [y Hy]. exists (y :: r). simpl. now rewrite Hy, Hr.
Qed.

Lemma Forall2_map_l {A B C : Type} (P : B -> C -> Prop) (f : A -> B)
    (l : list A) (l' : list C) :
  Forall2 P (map f l) l' -> Forall2 (fun x y => P (f x) y) l l'.
Proof.
  revert l'. induction l as [|x l IH]; intros l' H; inversion H; subst;
    constructor; auto.
Qed.

Lemma sample_loop_In (to_int : float -> result Z)
    (l : list (list Info * float)) (acc out : list Info) (rng rng' : Rng) :
  rfold (sample_class to_int) l (acc, rng) = Ok (out, rng') ->
  forall x, In x out ->
            In x acc \/ exists recs ratio, In (recs, ratio) l /\ In x recs.
Proof.
  revert acc rng. induction l as [|[recs ratio] l IH]; intros acc rng; cbn [rfold].
  - intros H. injection H as <- <-. auto.
  - unfold sample_class at 1.
    destruct (to_int _) as [k|]; [|discriminate]. cbn [rbind].
    destruct (random_choice rng recs k) as [[d rng1]|] eqn:Hd; [|discriminate].
    cbn [rbind fst snd]. intros H x Hx.
    destruct (IH _ _ H x Hx) as [Hacc|(recs' & ratio' & Hin & Hx')].
    + apply in_app_or in Hacc. destruct Hacc as [Hacc|Hxd]; [auto|].
      right. exists recs, ratio. split; [left; reflexivity|].
      destruct (random_choice_spec _ _ _ _ _ Hd) as (_ & _ & Hsub). auto.
    + right. exists recs', ratio'. split; [right; exact Hin | exact Hx'].
Qed.

(** C4 (as amended).  For a dataset with a logger, a vocabulary [cl] of
    [N] distinct classes and a corpus of records with name arrays: whenever
    the resampling described with truncation, [resample_spec py_int],
    yields a non-empty corpus, the resampler returns that corpus.  It is the concatenation, in the order
    of the classes, of one draw per class; the draw of a class holds
    [int(|set| * ratio)] records (the product truncated toward zero), each
    taken from the record set of the class, where
    [ratio = (1/N) / (share + 1e-3)] and [share] is the size of the set over
    the total of multiply-counted memberships. *)
Theorem balanced_resampling_spec (self : CODataset) (cl : list string)
    (infos out : list Info) (rng rng' : Rng) :
  class_names self = Some cl ->
  has_logger self = true ->
  List.NoDup cl ->
  Forall has_names infos ->
  resample_spec py_int cl infos rng = Ok (out, rng') ->
  out <> [] ->
  balanced_infos_resampling self infos rng = Ok (out, rng')
  /\ exists draws : list (list Info),
       out = concat draws
       /\ Forall2
            (fun c d =>
               class_draw py_int (length cl)
                 (total_len (map (class_records infos) cl))
                 (class_records infos c) d)
            cl draws.
Proof.
  intros Hcl Hlog Hnd Hnames Hspec Hout. split.
  - unfold balanced_infos_resampling. rewrite Hcl.
    rewrite (group_by_class_spec cl infos Hnd Hnames). cbn [rbind].
    unfold dict_values. rewrite map_map. cbn [snd].
    change (map (fun x : string => class_records infos x) cl)
      with (map (class_records infos) cl).
    unfold resample_spec in Hspec.
    set (sets := map (class_records infos) cl) in *.
    set (total := total_len sets) in *.
    apply rfold_split in Hspec. destruct Hspec as (ratios & Hratios & Hloop).
    assert (Hsets : sets <> []).
    { intros Hnil. rewrite Hnil in Hloop. cbn in Hloop.
      injection Hloop as <- _. congruence. }
    pose proof (ratios_two_phase (length cl) total sets ratios Hsets Hratios)
      as Htwo.
    destruct (rmap (fun v => py_int_div (Z.of_nat (length v)) (Z.of_nat total))
                   sets) as [cls_dist|]; [|discriminate].
    cbn [rbind] in *.
    destruct (py_float_div_int 1 (Z.of_nat (length cl))) as [frac|];
      [|discriminate].
    cbn [rbind] in *. rewrite Htwo. cbn [rbind]. rewrite Hloop.
    cbn [rbind fst snd]. rewrite Hlog. cbn [rbind].
    assert (Hsub : Forall has_names out).
    { apply List.Forall_forall. intros x Hx.
      destruct (sample_loop_In _ _ _ _ _ _ Hloop x Hx)
        as [[]|(recs & ratio & Hin & Hxr)].
      apply list_elem_of_In, elem_of_zip_l, list_elem_of_In in Hin.
      apply in_map_iff in Hin. destruct Hin as (c & <- & _).
      apply filter_In in Hxr. destruct Hxr as [Hxr _].
      rewrite List.Forall_forall in Hnames. auto. }
    rewrite (group_by_class_spec cl out Hnd Hsub). cbn [rbind].
    destruct (rmap_ok (fun v : list Info =>
                         py_int_div (Z.of_nat (length v))
                                    (Z.of_nat (length out)))
                (map snd (map (fun c => (c, class_records out c)) cl)))
      as [r Hr].
    { intros v. apply py_int_div_ok. destruct out; [congruence | simpl; lia]. }
    unfold dict_values. rewrite Hr. reflexivity.
  - unfold resample_spec in Hspec.
    apply resample_rounds in Hspec. destruct Hspec as (draws & Hdraws & Hall).
    exists draws. split; [exact Hdraws|].
    apply Forall2_map_l. exact Hall.
Qed.

(** ** Prediction serializer *)

Lemma string_app_nil_r (s : string) : s +:+ "" = s.
Proof.
  induction s as [|c s IH]; [reflexivity|].
  change (String c (s +:+ "") = String c s). now rewrite IH.
Qed.

Lemma no_space_app (a b : string) :
  no_space (a +:+ b) = no_space a && no_space b.
Proof.
  induction a as [|c a IH]; [reflexivity|].
  change (negb (Ascii.eqb c " ") && no_space (a +:+ b)
          = negb (Ascii.eqb c " ") && no_space a && no_space b).
  rewrite IH. apply andb_assoc.
Qed.

Lemma all_digits_app (a b : string) :
  all_digits (a +:+ b) = all_digits a && all_digits b.
Proof.
  induction a as [|c a IH]; [reflexivity|].
  change (is_digit c && all_digits (a +:+ b)
          = is_digit c && all_digits a && all_digits b).
  rewrite IH. apply andb_assoc.
Qed.

Lemma is_digit_not_space (c : ascii) :
  is_digit c = true -> Ascii.eqb c " " = false.
Proof.
  intros H. destruct (Ascii.eqb_spec c " ") as [ -> | _]; [|reflexivity].
  discriminate H.
Qed.

Lemma all_digits_no_space (s : string) :
  all_digits s = true -> no_space s = true.
Proof.
  induction s as [|c s IH]; [reflexivity|]. simpl.
  rewrite andb_true_iff. intros [Hc Hs].
  now rewrite (is_digit_not_space c Hc), IH.
Qed.

Lemma digit_char_is_digit (d : Z) : 0 <= d < 10 -> is_digit (digit_char d) = true.
Proof.
  intros H.
  assert (Hd : d = 0 \/ d = 1 \/ d = 2 \/ d = 3 \/ d = 4 \/ d = 5 \/ d = 6
               \/ d = 7 \/ d = 8 \/ d = 9) by lia.
  repeat (destruct Hd as [ -> | Hd]; [reflexivity|]). subst d. reflexivity.
Qed.

Lemma pad4_digits (k : Z) :
  all_digits (pad4 k) = true /\ String.length (pad4 k) = 4%nat.
Proof.
  split; [|reflexivity]. unfold pad4. cbn [all_digits].
  rewrite !digit_char_is_digit; [reflexivity | | | |];
    apply Z.mod_pos_bound; lia.
Qed.

Lemma string_of_uint_digits (u : Decimal.uint) :
  all_digits (NilEmpty.string_of_uint u) = true.
Proof. induction u; simpl; auto. Qed.

Lemma string_of_uint_numeral (u : Decimal.uint) :
  all_digits (NilZero.string_of_uint u) = true
  /\ NilZero.string_of_uint u <> "".
Proof.
  destruct u; simpl; (split; [try apply string_of_uint_digits; reflexivity
                             | discriminate]).
Qed.

(** ['%.4f'] of a finite number is a decimal numeral with four digits
    after the point. *)
Lemma format_4f_decimals (x : float) :
  is_finite x = true -> four_decimals (format_4f x).
Proof.
  unfold is_finite, format_4f, four_decimals.
  destruct (Prim2SF x) as [s|s| |s m e]; try discriminate; intros _.
  - exists (if s then "-" else ""), "0", "0000".
    repeat split; try reflexivity; try discriminate.
    destruct s; auto.
  - destruct (magnitude m e) as [num den].
    set (n := round_half_even (num * 10000) den).
    destruct (string_of_uint_numeral (N.to_uint (Z.to_N (n / 10000))))
      as [Hd Hne].
    destruct (pad4_digits (n mod 10000)) as [Hp Hl].
    exists (if s then "-" else ""),
           (NilZero.string_of_uint (N.to_uint (Z.to_N (n / 10000)))),
           (pad4 (n mod 10000)).
    repeat split; try assumption; try reflexivity.
    destruct s; auto.
Qed.

(** ['%.4f'] never produces a space. *)
Lemma format_4f_no_space (x : float) : no_space (format_4f x) = true.
Proof.
  unfold format_4f.
  destruct (Prim2SF x) as [s|s| |s m e]; try (destruct s; reflexivity);
    try reflexivity.
  destruct (magnitude m e) as [num den].
  set (n := round_half_even (num * 10000) den).
  destruct (string_of_uint_numeral (N.to_uint (Z.to_N (n / 10000))))
    as [Hd _].
  destruct (pad4_digits (n mod 10000)) as [Hp _].
  rewrite !no_space_app, (all_digits_no_space _ Hd), (all_digits_no_space _ Hp).
  destruct s; reflexivity.
Qed.

Lemma split_space_prefix (s t : string) :
  no_space s = true -> split_space (s +:+ String " " t) = s :: split_space t.
Proof.
  induction s as [|c s IH]; intros H; [reflexivity|].
  simpl in H. apply andb_true_iff in H. destruct H as [Hc Hs].
  apply negb_true_iff in Hc.
  change (split_space (String c (s +:+ String " " t))
          = String c s :: split_space t).
  cbn [split_space]. rewrite Hc, (IH Hs). reflexivity.
Qed.

Lemma split_space_no_space (s : string) :
  no_space s = true -> split_space s = [s].
Proof.
  induction s as [|c s IH]; intros H; [reflexivity|].
  simpl in H. apply andb_true_iff in H. destruct H as [Hc Hs].
  apply negb_true_iff in Hc.
  cbn [split_space]. rewrite Hc, (IH Hs). reflexivity.
Qed.

Lemma split_space_values (pre : string) (vs : list float) :
  no_space pre = true ->
  split_space
    (pre +:+ fold_right (fun v rest => " " +:+ format_4f v +:+ rest) "" vs)
  = pre :: map format_4f vs.
Proof.
  revert pre. induction vs as [|v vs IH]; intros pre Hpre.
  - simpl. rewrite string_app_nil_r. now apply split_space_no_space.
  - cbn [fold_right map].
    change (" " +:+ format_4f v
            +:+ fold_right (fun v rest => " " +:+ format_4f v +:+ rest) "" vs)
      with (String " " (format_4f v
            +:+ fold_right (fun v rest => " " +:+ format_4f v +:+ rest) "" vs)).
    rewrite (split_space_prefix _ _ Hpre), IH by apply format_4f_no_space.
    reflexivity.
Qed.

(** The text of a line splits at its spaces into the name, the two
    placeholders and the formatted numbers. *)
Lemma format_line_fields (name : string) (values : list float) :
  no_space name = true ->
  split_space (format_line name values)
  = name :: "-1" :: "-1" :: map format_4f values.
Proof.
  intros Hname. unfold format_line.
  set (R := fold_right (fun v rest => " " +:+ format_4f v +:+ rest) "" values).
  change (" -1 -1" +:+ R) with (String " " ("-1" +:+ String " " ("-1" +:+ R))).
  rewrite (split_space_prefix _ _ Hname).
  rewrite (split_space_prefix "-1" _ eq_refl).
  unfold R. rewrite (split_space_values "-1" values eq_refl). reflexivity.
Qed.

Lemma det_line_fields (d : Detection) :
  no_space (det_name d) = true ->
  split_space (det_line d)
  = [det_name d; "-1"; "-1";
     format_4f (det_alpha d);
     format_4f (fst (fst (fst (det_bbox d))));
     format_4f (snd (fst (fst (det_bbox d))));
     format_4f (snd (fst (det_bbox d)));
     format_4f (snd (det_bbox d));
     format_4f (det_h d); format_4f (det_w d); format_4f (det_l d);
     format_4f (fst (fst (det_loc d)));
     format_4f (snd (fst (det_loc d)));
     format_4f (snd (det_loc d));
     format_4f (det_ry d); format_4f (det_score d)].
Proof.
  intros Hname. unfold det_line.
  rewrite (format_line_fields _ _ Hname). unfold det_values.
  destruct (det_bbox d) as [[[x1 y1] x2] y2].
  destruct (det_loc d) as [[lx ly] lz]. reflexivity.
Qed.

(* ===================================================================== *)
(** * Further properties of the operations *)
(* ===================================================================== *)

(** ** Info builder: what a returned record is *)

(** A record the builder returns is the bare record of the frame, with
    the annotations in closed form when labels are read; the files it
    needed were all there. *)
Lemma process_single_scene_inv (self : CODataset)
    (has_label count_inside_pts : bool) (idx : string) (info : Info) :
  process_single_scene self has_label count_inside_pts idx = Ok info ->
  exists (img_shape : Z * Z) (calib : Calib),
    get_image_shape self idx = Ok img_shape
    /\ get_calib self idx = Ok calib
    /\ if has_label then
         exists obj_list : list Object3d,
           get_label self idx = Ok obj_list
           /\ if count_inside_pts then
                exists points : list lidar_point,
                  get_lidar self idx = Ok points
                  /\ info = with_annos (bare_info idx img_shape calib)
                              (built_annotations calib img_shape obj_list
                                 (Some points))
              else
                info = with_annos (bare_info idx img_shape calib)
                         (built_annotations calib img_shape obj_list None)
       else info = bare_info idx img_shape calib.
Proof.
  intros H.
  destruct (get_image_shape self idx) as [s|e] eqn:Hs;
    [|unfold process_single_scene in H; rewrite Hs in H; discriminate].
  destruct (get_calib self idx) as [c|e] eqn:Hc;
    [|unfold process_single_scene in H; rewrite Hs, Hc in H; discriminate].
  exists s, c. split; [reflexivity|]. split; [reflexivity|].
  destruct has_label.
  - destruct (get_label self idx) as [objs|e] eqn:Hl;
      [|unfold process_single_scene in H; rewrite Hs, Hc, Hl in H;
        discriminate].
    exists objs. split; [reflexivity|].
    destruct count_inside_pts.
    + destruct (get_lidar self idx) as [pts|e] eqn:Hp.
      * exists pts. split; [reflexivity|].
        rewrite (process_single_scene_labelled self idx true s c objs pts
                   Hs Hc Hl (fun _ => Hp)) in H.
        congruence.
      * exfalso. unfold process_single_scene in H.
        rewrite Hs in H. cbn [rbind] in H. rewrite Hc in H. cbn [rbind] in H.
        rewrite Hl in H. cbn [rbind] in H.
        destruct (base_name_len objs) as [arr [Harr Hlen]].
        rewrite Harr in H. cbn [rbind] in H.
        rewrite !fancy_index_argwhere in H. cbn [rbind] in H.
        rewrite map_map, map3_maps, annotations_explicit in H.
        rewrite check_equal_lengths_built in H. cbn [rbind] in H.
        rewrite Hp in H. discriminate.
    + rewrite (process_single_scene_labelled self idx false s c objs []
                 Hs Hc Hl ltac:(discriminate)) in H.
      congruence.
  - unfold process_single_scene in H. rewrite Hs, Hc in H.
    cbn [rbind] in H. injection H as <-. reflexivity.
Qed.

(** X1.  The records of a batch line up with the requested frame ids: one
    record per id, in the order of the ids, each carrying its id as lidar
    and image index, four point features, the shape of the image of the
    frame, and annotations exactly when labels were asked for. *)
Theorem get_infos_one_record_per_frame (self : CODataset)
    (has_label count_inside_pts : bool) (ids : list string)
    (infos : list Info) :
  get_infos self has_label count_inside_pts ids = Ok infos ->
  map pc_lidar_idx infos = ids
  /\ map image_idx infos = ids
  /\ Forall (fun info =>
               pc_num_features info = 4
               /\ get_image_shape self (pc_lidar_idx info)
                  = Ok (image_shape info)
               /\ (annos info <> None <-> has_label = true))
            infos.
Proof.
  unfold get_infos. revert infos.
  induction ids as [|idx ids IH]; intros infos H; simpl in H.
  - injection H as <-. repeat split; constructor.
  - destruct (process_single_scene self has_label count_inside_pts idx)
      as [info|e] eqn:Hinfo; [|discriminate].
    cbn [rbind] in H.
    destruct (rmap (process_single_scene self has_label count_inside_pts) ids)
      as [rest|e]; [|discriminate].
    cbn [rbind] in H. injection H as <-.
    destruct (IH rest eq_refl) as (Hl & Hi & Hall).
    apply process_single_scene_inv in Hinfo.
    destruct Hinfo as (s & c & Hs & Hc & Hcase).
    assert (Hrec : pc_lidar_idx info = idx /\ image_idx info = idx
                   /\ pc_num_features info = 4 /\ image_shape info = s
                   /\ (annos info <> None <-> has_label = true)).
    { destruct has_label.
      - destruct Hcase as (objs & _ & Hcase). destruct count_inside_pts.
        + destruct Hcase as (pts & _ & ->). cbn. repeat split; congruence.
        + subst info. cbn. repeat split; congruence.
      - subst info. cbn. repeat split; congruence. }
    destruct Hrec as (H1 & H2 & H3 & H4 & H5).
    cbn [map]. rewrite Hl, Hi, H1, H2. split; [reflexivity|].
    split; [reflexivity|]. constructor; [|exact Hall].
    rewrite H1, H4. auto.
Qed.

(** X2.  Without labels the builder reads neither the label file nor the
    point cloud of a frame: when the image and the calibration of every
    requested frame are there, the batch is built whatever the counting
    flag says, and no record has annotations. *)
Theorem get_infos_without_labels (self : CODataset) (count_inside_pts : bool)
    (ids : list string) :
  (forall idx, In idx ids ->
     is_ok (get_image_shape self idx) = true
     /\ is_ok (get_calib self idx) = true) ->
  exists infos : list Info,
    get_infos self false count_inside_pts ids = Ok infos
    /\ get_infos self false (negb count_inside_pts) ids = Ok infos
    /\ map pc_lidar_idx infos = ids
    /\ Forall (fun info => annos info = None) infos.
Proof.
  unfold get_infos. induction ids as [|idx ids IH]; intros Hfiles.
  - exists []. repeat split; constructor.
  - destruct IH as (rest & Hrest & Hrest' & Hids & Hnone).
    { intros i Hi. apply Hfiles. now right. }
    destruct (Hfiles idx (or_introl eq_refl)) as [Hs Hc].
    destruct (get_image_shape self idx) as [s|] eqn:Es; [|discriminate].
    destruct (get_calib self idx) as [c|] eqn:Ec; [|discriminate].
    assert (Hone : forall b, process_single_scene self false b idx
                             = Ok (bare_info idx s c)).
    { intros b. unfold process_single_scene. rewrite Es, Ec. reflexivity. }
    exists (bare_info idx s c :: rest). cbn [rmap].
    rewrite !Hone, Hrest, Hrest'. cbn [rbind map pc_lidar_idx bare_info].
    rewrite Hids. repeat split. constructor; [reflexivity | exact Hnone].
Qed.

(** ** Accessors: where the files of a frame are looked up *)

(** X3.  With the sorted image set, the directory of a frame comes from the
    map of lidar indices alone: a frame the map does not hold is a
    [KeyError] of every accessor and of the builder, whatever is on disk,
    and a frame it holds is read under [root_path / subdir], not under the
    split directory. *)
Theorem sorted_imageset_lookup (self : CODataset) (idx : string)
    (has_label count_inside_pts : bool) :
  use_sorted_imageset self = true ->
  (lidar_idx_subdir_map self !! idx = None ->
     get_lidar self idx = Err (KeyError idx)
     /\ get_image_shape self idx = Err (KeyError idx)
     /\ get_label self idx = Err (KeyError idx)
     /\ get_calib self idx = Err (KeyError idx)
     /\ forall ids : list string,
          get_infos self has_label count_inside_pts (idx :: ids)
          = Err (KeyError idx))
  /\ (forall subdir : string,
        lidar_idx_subdir_map self !! idx = Some subdir ->
        let dir := path_join (root_path self) subdir in
        file_exists (lidar_file_of dir idx) = true ->
        get_lidar self idx = Ok (fromfile (lidar_file_of dir idx))).
Proof.
  intros Hsorted. split.
  - intros Hnone.
    assert (Hroot : split_path_of self idx = Err (KeyError idx)).
    { unfold split_path_of. now rewrite Hsorted, Hnone. }
    unfold get_lidar, get_image_shape, get_label, get_calib.
    rewrite Hroot. repeat split.
    intros ids. unfold get_infos. cbn [rmap].
    unfold process_single_scene, get_image_shape. rewrite Hroot. reflexivity.
  - intros subdir Hsome dir Hfile.
    unfold get_lidar, split_path_of. rewrite Hsorted, Hsome. cbn [rbind].
    fold dir. now rewrite Hfile.
Qed.

(** X4.  A missing point cloud, image or label file is reported: the accessor
    raises an [AssertionError] whose message holds the path of the file,
    and with it the frame id. *)
Theorem missing_file_reported (self : CODataset) (idx root : string) :
  split_path_of self idx = Ok root ->
  (file_exists (lidar_file_of root idx) = false ->
     exists msg, get_lidar self idx = Err (AssertionError (Some msg))
                 /\ contains (lidar_file_of root idx) msg = true
                 /\ contains idx msg = true)
  /\ (file_exists (img_file_of root idx) = false ->
        exists msg, get_image_shape self idx = Err (AssertionError (Some msg))
                    /\ contains (img_file_of root idx) msg = true
                    /\ contains idx msg = true)
  /\ (file_exists (label_file_of root idx) = false ->
        exists msg, get_label self idx = Err (AssertionError (Some msg))
                    /\ contains (label_file_of root idx) msg = true
                    /\ contains idx msg = true).
Proof.
  intros Hroot.
  assert (Hrep : forall (e : exn) (res : string),
             reports e idx res = true ->
             exists msg, e = AssertionError (Some msg)
                         /\ contains res msg = true
                         /\ contains idx msg = true).
  { intros e res Hr. destruct e as [[msg|]| | | | | | |]; try discriminate.
    cbn in Hr. apply andb_true_iff in Hr. destruct Hr. eauto. }
  split; [|split]; intros Hmiss.
  - destruct (get_lidar_missing self idx root Hroot Hmiss) as (e & He & Hr).
    destruct (Hrep e _ Hr) as (msg & -> & H1 & H2). eauto.
  - destruct (get_image_shape_missing self idx root Hroot Hmiss)
      as (e & He & Hr).
    destruct (Hrep e _ Hr) as (msg & -> & H1 & H2). eauto.
  - destruct (get_label_missing self idx root Hroot Hmiss) as (e & He & Hr).
    destruct (Hrep e _ Hr) as (msg & -> & H1 & H2). eauto.
Qed.

(** ** Info builder: [index] and the lidar boxes *)

Lemma argwhere_from_ge (i : nat) (mask : list bool) (j : nat) :
  In j (argwhere_from i mask) -> (i <= j)%nat.
Proof.
  revert i. induction mask as [|b mask IH]; intros i Hin; [destruct Hin|].
  simpl in Hin. destruct b.
  - destruct Hin as [ <- | Hin ]; [lia|]. apply IH in Hin. lia.
  - apply IH in Hin. lia.
Qed.

Lemma argwhere_from_In (i : nat) (mask : list bool) (j : nat) :
  In j (argwhere_from i mask)
  <-> (i <= j)%nat /\ mask !! (j - i)%nat = Some true.
Proof.
  revert i. induction mask as [|b mask IH]; intros i; simpl.
  - split; [intros [] | intros [_ H]; discriminate].
  - assert (Hstep : In j (argwhere_from (S i) mask)
                    <-> (i < j)%nat /\ (b :: mask) !! (j - i)%nat = Some true).
    { rewrite IH. split; intros [Hle Hl]; (split; [lia|]).
      - replace (j - i)%nat with (S (j - S i)) by lia. exact Hl.
      - replace (j - i)%nat with (S (j - S i)) in Hl by lia. exact Hl. }
    destruct b; simpl; rewrite Hstep.
    + split.
      * intros [ <- | [Hlt Hl] ]; [|split; [lia | exact Hl]].
        split; [lia|]. now rewrite Nat.sub_diag.
      * intros [Hle Hl]. destruct (decide (i = j)) as [ -> | Hne ]; [now left|].
        right. split; [lia | exact Hl].
    + split.
      * intros [Hlt Hl]. split; [lia | exact Hl].
      * intros [Hle Hl]. split; [|exact Hl].
        destruct (decide (i = j)) as [ -> | Hne ]; [|lia].
        rewrite Nat.sub_diag in Hl. discriminate.
Qed.

Lemma argwhere_from_increasing (i : nat) (mask : list bool)
    (k k' j j' : nat) :
  argwhere_from i mask !! k = Some j ->
  argwhere_from i mask !! k' = Some j' ->
  (k < k')%nat -> (j < j')%nat.
Proof.
  revert i k k'. induction mask as [|b mask IH]; intros i k k' Hk Hk' Hlt.
  - destruct k; discriminate.
  - simpl in Hk, Hk'. destruct b; [|eapply IH; eassumption].
    destruct k' as [|k']; [lia|]. cbn in Hk'.
    destruct k as [|k]; cbn in Hk.
    + injection Hk as <-.
      assert (Hin : In j' (argwhere_from (S i) mask))
        by (apply list_elem_of_In; eapply list_elem_of_lookup_2; exact Hk').
      apply argwhere_from_ge in Hin. lia.
    + eapply IH; [exact Hk | exact Hk' | lia].
Qed.

(** The row [rect_to_lidar] and the label give for an object. *)
Lemma gt_box_of_row (calib : Calib) (o : Object3d) (x y z : float) :
  rect_to_lidar calib (loc o) = (x, y, z) ->
  gt_box_of calib o
  = [x; y; loc_store (z + obj_h o / 2)%float; obj_l o; obj_w o; obj_h o;
     (- (half_pi + ry o))%float].
Proof. intros H. unfold gt_box_of, lidar_box. now rewrite H. Qed.

Lemma built_annotations_index (calib : Calib) (img_shape : Z * Z)
    (obj_list : list Object3d) (points : option (list lidar_point)) :
  dict_find (built_annotations calib img_shape obj_list points) "index"
  = Some (ArrInt (map Z.of_nat (argwhere (map not_dontcare obj_list))))
  /\ dict_find (built_annotations calib img_shape obj_list points)
       "gt_boxes_lidar"
     = Some (ArrFloat2 7 (map (gt_box_of calib) (non_ignored obj_list))).
Proof.
  unfold built_annotations.
  rewrite (dict_find_app_r _ _ "index"), (dict_find_app_r _ _ "gt_boxes_lidar")
    by (rewrite base_annotations_keys; apply not_in_base_keys; auto).
  split; reflexivity.
Qed.

(** The annotations a labelled record carries. *)
Lemma labelled_record_annos (self : CODataset) (idx : string)
    (count_inside_pts : bool) (info : Info) :
  process_single_scene self true count_inside_pts idx = Ok info ->
  exists (img_shape : Z * Z) (calib : Calib) (obj_list : list Object3d)
         (points : option (list lidar_point)),
    get_image_shape self idx = Ok img_shape
    /\ get_calib self idx = Ok calib
    /\ get_label self idx = Ok obj_list
    /\ match points with
       | Some pts => count_inside_pts = true /\ get_lidar self idx = Ok pts
       | None => count_inside_pts = false
       end
    /\ info = with_annos (bare_info idx img_shape calib)
                (built_annotations calib img_shape obj_list points).
Proof.
  intros H. apply process_single_scene_inv in H.
  destruct H as (s & c & Hs & Hc & objs & Hl & Hcase).
  destruct count_inside_pts.
  - destruct Hcase as (pts & Hp & ->). exists s, c, objs, (Some pts).
    repeat split; assumption.
  - subst info. exists s, c, objs, None. repeat split; assumption.
Qed.

(** X5.  In a labelled record, [index] lists in increasing order exactly the
    positions of the objects that are not DontCare, and the [k]-th row of
    [gt_boxes_lidar] is the lidar box of the object at position
    [index[k]]: its location moved to the lidar frame, with [z] raised by
    half the height and stored in the element type of the array
    [rect_to_lidar] returned ([loc_store]), then length, width, height, and
    the heading [-(pi/2 + rotation_y)]. *)
Theorem gt_boxes_follow_index (self : CODataset) (idx : string)
    (count_inside_pts : bool) (info : Info) :
  process_single_scene self true count_inside_pts idx = Ok info ->
  exists (calib : Calib) (obj_list : list Object3d) (a : pydict)
         (index : list nat) (boxes : list (list float)),
    get_calib self idx = Ok calib
    /\ get_label self idx = Ok obj_list
    /\ annos info = Some a
    /\ dict_find a "index" = Some (ArrInt (map Z.of_nat index))
    /\ dict_find a "gt_boxes_lidar" = Some (ArrFloat2 7 boxes)
    /\ length index = length boxes
    /\ (forall (k k' j j' : nat),
          index !! k = Some j -> index !! k' = Some j' ->
          (k < k')%nat -> (j < j')%nat)
    /\ (forall (j : nat) (o : Object3d), obj_list !! j = Some o ->
          (In j index <-> cls_type o <> "DontCare"))
    /\ (forall (k j : nat), index !! k = Some j ->
          exists (o : Object3d) (x y z : float),
            obj_list !! j = Some o
            /\ rect_to_lidar calib (loc o) = (x, y, z)
            /\ boxes !! k
               = Some [x; y; loc_store (z + obj_h o / 2)%float; obj_l o;
                       obj_w o; obj_h o; (- (half_pi + ry o))%float]).
Proof.
  intros H. apply labelled_record_annos in H.
  destruct H as (s & c & objs & pts & _ & Hc & Hl & _ & ->).
  destruct (built_annotations_index c s objs pts) as [Hindex Hboxes].
  exists c, objs, (built_annotations c s objs pts),
    (argwhere (map not_dontcare objs)),
    (map (gt_box_of c) (non_ignored objs)).
  split; [exact Hc|]. split; [exact Hl|]. split; [reflexivity|].
  split; [exact Hindex|]. split; [exact Hboxes|].
  split; [now rewrite length_map, argwhere_length|].
  split; [intros k k' j j'; apply argwhere_from_increasing|].
  split.
  - intros j o Hj. unfold argwhere. rewrite argwhere_from_In, Nat.sub_0_r.
    rewrite list_lookup_fmap, Hj. cbn. unfold not_dontcare, DontCare.
    destruct (String.eqb_spec (cls_type o) "DontCare") as [Heq|Hne]; cbn.
    + split; [intros [_ Hf]; discriminate | intros Hn; contradiction].
    + split; [intros _; exact Hne | intros _; split; [lia | reflexivity]].
  - intros k j Hk.
    pose proof (argwhere_from_select not_dontcare objs []) as Hsel.
    cbn [app length] in Hsel. fold (argwhere (map not_dontcare objs)) in Hsel.
    destruct (rmap_lookup _ _ _ _ _ Hsel Hk) as (o & Ho & Hget).
    apply getitem_ok in Hget.
    destruct (rect_to_lidar c (loc o)) as [[x y] z] eqn:Hxyz.
    exists o, x, y, z. split; [exact Hget|]. split; [exact Hxyz|].
    rewrite list_lookup_fmap. unfold non_ignored. rewrite Ho. cbn.
    now rewrite (gt_box_of_row c o x y z Hxyz).
Qed.

(** ** Ground-truth database: the index and the records of the builder *)

(** X6.  The index is well formed: it files every entry under its own class
    name, holds no empty class and no class the filter excludes, and the
    path of an entry is the blob name [<frame>_<class>_<i>.bin] under the
    database directory; one blob is written per lidar box. *)
Theorem db_index_wellformed (self : CODataset) (infos : list Info)
    (frames : list Frame) (used_classes : option (list string))
    (split : string) :
  Forall2 (frame_of_info self) infos frames ->
  exists st : DbState,
    create_groundtruth_database self infos used_classes split = Ok st
    /\ length (written st)
       = list_sum (map (fun fr => length (f_objects fr)) frames)
    /\ forall (c : string) (es : list DbInfo),
         all_db_infos st !! c = Some es ->
         es <> []
         /\ in_used_classes used_classes c = true
         /\ Forall (fun e =>
                      db_name e = c
                      /\ db_path e
                         = path_join (db_dir split)
                             (db_filename (db_image_idx e) c (db_gt_idx e)))
                   es.
Proof.
  intros H. eexists. split; [apply create_groundtruth_database_run, H|].
  cbn [written all_db_infos]. split.
  - clear H. induction frames as [|fr frames IH]; [reflexivity|].
    cbn [map concat list_sum]. rewrite length_app, IH.
    unfold frame_blobs. now rewrite imap_from_length.
  - intros c es Hc. rewrite index_lookup, lookup_empty in Hc.
    destruct (List.filter (fun e => String.eqb (db_name e) c)
                (concat (map (frame_entries split used_classes) frames)))
      as [|e0 l] eqn:Hf; [discriminate|].
    cbn in Hc. injection Hc as <-.
    assert (Hall : forall e, In e (e0 :: l) ->
              db_name e = c
              /\ in_used_classes used_classes c = true
              /\ db_path e
                 = path_join (db_dir split)
                     (db_filename (db_image_idx e) c (db_gt_idx e))).
    { intros e He. rewrite <- Hf in He. apply filter_In in He.
      destruct He as [He Hn]. apply String.eqb_eq in Hn.
      apply entry_indexed in He.
      destruct He as (Hu & fr & i & o & _ & _ & ->).
      cbn [entry_of db_name db_path db_image_idx db_gt_idx] in *.
      subst c. auto. }
    split; [discriminate|]. split.
    + apply (Hall e0). now left.
    + apply List.Forall_forall. intros e He.
      destruct (Hall e He) as (H1 & _ & H3). auto.
Qed.

(** X7.  The builder stops at the first record it cannot read: an exception
    of [get_lidar] for the frame of that record is the outcome, and so is a
    [KeyError] for a record that was built without labels. *)
Theorem db_aborts_on_unreadable_record (self : CODataset)
    (pre post : list Info) (info : Info) (frames : list Frame)
    (used_classes : option (list string)) (split : string) :
  Forall2 (frame_of_info self) pre frames ->
  (forall e : exn,
     get_lidar self (pc_lidar_idx info) = Err e ->
     create_groundtruth_database self (pre ++ info :: post) used_classes split
     = Err e)
  /\ (is_ok (get_lidar self (pc_lidar_idx info)) = true ->
      annos info = None ->
      create_groundtruth_database self (pre ++ info :: post) used_classes split
      = Err (KeyError "annos")).
Proof.
  intros H.
  assert (Hsplit : forall st,
            rfold (db_frame_step self split used_classes)
                  (pre ++ info :: post) st
            = (st' <-- rfold (db_frame_step self split used_classes) pre st ;;
               st'' <-- db_frame_step self split used_classes st' info ;;
               rfold (db_frame_step self split used_classes) post st'')).
  { clear H. induction pre as [|x pre IH]; intros st; [reflexivity|].
    cbn [app rfold].
    destruct (db_frame_step self split used_classes st x); [|reflexivity].
    cbn [rbind]. apply IH. }
  unfold create_groundtruth_database. rewrite Hsplit.
  rewrite (db_frames_loop _ _ _ _ _ _ H). cbn [rbind].
  split.
  - intros e He. unfold db_frame_step. now rewrite He.
  - intros Hok Hnone. unfold db_frame_step.
    destruct (get_lidar self (pc_lidar_idx info)); [|discriminate].
    cbn [rbind]. now rewrite Hnone.
Qed.

Lemma built_annotations_fields (calib : Calib) (img_shape : Z * Z)
    (obj_list : list Object3d) (points : option (list lidar_point)) :
  exists names difficulty bbox score_arr : ndarray,
    dict_find (built_annotations calib img_shape obj_list points) "name"
    = Some names
    /\ dict_find (built_annotations calib img_shape obj_list points)
         "difficulty" = Some difficulty
    /\ dict_find (built_annotations calib img_shape obj_list points) "bbox"
       = Some bbox
    /\ dict_find (built_annotations calib img_shape obj_list points) "score"
       = Some score_arr
    /\ forall (i : nat) (raw : Object3d), obj_list !! i = Some raw ->
         str_at names i = Ok (cls_type raw)
         /\ int_at difficulty i = Ok (level raw)
         /\ row_at bbox i = Ok (box2d_row raw)
         /\ float_at score_arr i = Ok (score raw).
Proof.
  destruct obj_list as [|o0 l].
  - eexists _, _, _, _. repeat (split; [reflexivity|]).
    intros i raw Hi. destruct i; discriminate.
  - eexists _, _, _, _. repeat (split; [reflexivity|]).
    intros i raw Hi. cbn [str_at int_at row_at float_at].
    repeat split; apply getitem_lookup; rewrite list_lookup_fmap, Hi;
      reflexivity.
Qed.

Lemma row_xyz_gt_box (calib : Calib) (o : Object3d) :
  exists c : vec3, row_xyz (gt_box_of calib o) = Ok c.
Proof.
  unfold gt_box_of, lidar_box.
  destruct (rect_to_lidar calib (loc o)) as [[x y] z]. eexists. reflexivity.
Qed.

(** X8.  Info builder and database builder together.  For a frame built with
    labels, the database builder takes its [i]-th object from the [i]-th
    row of [gt_boxes_lidar], the box of the [i]-th object that is not
    DontCare, and names it, with difficulty, 2D box and score, after the
    [i]-th object of the label file: the two are the same object as long
    as no DontCare object comes earlier in the file. *)
Theorem db_objects_by_position (self : CODataset) (idx : string)
    (count_inside_pts : bool) (info : Info) (calib : Calib)
    (obj_list : list Object3d) (points : list lidar_point) (split : string) :
  process_single_scene self true count_inside_pts idx = Ok info ->
  get_calib self idx = Ok calib ->
  get_label self idx = Ok obj_list ->
  get_lidar self idx = Ok points ->
  exists st : DbState,
    create_groundtruth_database self [info] None split = Ok st
    /\ length (written st) = length (non_ignored obj_list)
    /\ forall (i : nat) (raw o : Object3d),
         obj_list !! i = Some raw ->
         non_ignored obj_list !! i = Some o ->
         exists e : DbInfo,
           In e (default [] (all_db_infos st !! cls_type raw))
           /\ db_gt_idx e = i
           /\ db_name e = cls_type raw
           /\ db_box3d_lidar e = gt_box_of calib o
           /\ db_difficulty e = level raw
           /\ db_bbox e = box2d_row raw
           /\ db_score e = score raw.
Proof.
  intros Hinfo Hcalib Hlabel Hlidar.
  apply labelled_record_annos in Hinfo.
  destruct Hinfo as (s & c & objs & pts & _ & Hc & Hl & _ & ->).
  assert (c = calib) by congruence. assert (objs = obj_list) by congruence.
  subst c objs.
  set (mk := fun p : Object3d * Object3d =>
               {| o_name := cls_type (fst p);
                  o_box := gt_box_of calib (snd p);
                  o_center := match row_xyz (gt_box_of calib (snd p)) with
                              | Ok v => v
                              | Err _ => (0, 0, 0)%float
                              end;
                  o_difficulty := level (fst p);
                  o_bbox := box2d_row (fst p);
                  o_score := score (fst p) |}).
  set (fr := {| f_idx := idx; f_points := points;
                f_objects := map mk (zip obj_list (non_ignored obj_list)) |}).
  assert (Hlen : (length (non_ignored obj_list) <= length obj_list)%nat)
    by apply filter_length_le.
  assert (Hfr : frame_of_info self
                  (with_annos (bare_info idx s calib)
                     (built_annotations calib s obj_list pts)) fr).
  { split; [reflexivity|]. split; [exact Hlidar|].
    destruct (built_annotations_fields calib s obj_list pts)
      as (names & difficulty & bbox & score_arr & Hn & Hd & Hb & Hs & Hat).
    destruct (built_annotations_index calib s obj_list pts) as [_ Hboxes].
    exists (built_annotations calib s obj_list pts), names, difficulty, bbox,
      score_arr, 7%nat.
    split; [reflexivity|]. split; [exact Hn|]. split; [exact Hd|].
    split; [exact Hb|]. split; [exact Hs|]. split.
    - rewrite Hboxes. cbn [f_objects fr]. rewrite map_map.
      cbn [o_box mk]. rewrite <- (map_map snd (gt_box_of calib)).
      change (map snd (zip obj_list (non_ignored obj_list)))
        with ((zip obj_list (non_ignored obj_list)).*2).
      now rewrite snd_zip by exact Hlen.
    - intros i o Hi. cbn [f_objects fr] in Hi.
      rewrite list_lookup_fmap in Hi.
      destruct (zip obj_list (non_ignored obj_list) !! i) as [[raw ni]|] eqn:Hz;
        [|discriminate].
      cbn in Hi. injection Hi as <-.
      apply lookup_zip_with_Some in Hz.
      destruct Hz as (raw' & ni' & Heq & Hraw & Hni).
      injection Heq as <- <-.
      destruct (Hat i raw Hraw) as (H1 & H2 & H3 & H4).
      cbn [o_name o_difficulty o_bbox o_score o_box o_center mk fst snd].
      repeat (split; [assumption|]).
      destruct (row_xyz_gt_box calib ni) as [v Hv]. now rewrite Hv. }
  assert (Hall : Forall2 (frame_of_info self)
                   [with_annos (bare_info idx s calib)
                      (built_annotations calib s obj_list pts)] [fr])
    by (constructor; [exact Hfr | constructor]).
  eexists. split; [apply create_groundtruth_database_run, Hall|].
  cbn [written all_db_infos map concat]. rewrite !app_nil_r. split.
  - unfold frame_blobs. rewrite imap_from_length. cbn [f_objects fr].
    rewrite length_map, length_zip_with. lia.
  - intros i raw o Hraw Ho.
    assert (Hobj : f_objects fr !! i = Some (mk (raw, o))).
    { cbn [f_objects fr]. rewrite list_lookup_fmap.
      assert (Hz : zip obj_list (non_ignored obj_list) !! i = Some (raw, o)).
      { apply lookup_zip_with_Some. exists raw, o. auto. }
      now rewrite Hz. }
    exists (entry_of split fr i (mk (raw, o))).
    split; [|cbn; repeat split; reflexivity].
    rewrite index_entries. apply filter_In. split.
    + unfold frame_entries. apply filter_In. split; [|reflexivity].
      apply list_elem_of_In. eapply list_elem_of_lookup_2.
      apply (imap_from_lookup 0 _ _ _ _ Hobj).
    + cbn. apply String.eqb_refl.
Qed.

(** ** Prediction serializer: the records of a batch *)

Lemma bool_index_ok {A : Type} (l : list A) (mask : list bool) (r : list A) :
  bool_index l mask = Ok r ->
  length l = length mask /\ r = mask_select l mask.
Proof.
  unfold bool_index. destruct (Nat.eqb_spec (length l) (length mask));
    [|discriminate].
  intros H. injection H as <-. auto.
Qed.

Lemma mask_select_length {A B : Type} (l : list A) (l' : list B)
    (mask : list bool) :
  length l = length mask -> length l' = length mask ->
  length (mask_select l mask) = length (mask_select l' mask).
Proof.
  revert l l'. induction mask as [|b mask IH]; intros l l' H H'.
  - destruct l, l'; try discriminate. reflexivity.
  - destruct l as [|x l], l' as [|x' l']; try discriminate.
    cbn [mask_select]. injection H as H. injection H' as H'.
    destruct b; cbn [length]; rewrite (IH l l' H H'); reflexivity.
Qed.

Lemma mask_select_length_le {A : Type} (l : list A) (mask : list bool) :
  (length (mask_select l mask) <= length l)%nat.
Proof.
  revert mask. induction l as [|x l IH]; intros mask; [simpl; lia|].
  destruct mask as [|b mask]; [simpl; lia|].
  cbn [mask_select]. specialize (IH mask). destruct b; simpl; lia.
Qed.

(** What [generate_single_sample_dict] computes for a frame that has
    detections: the boxes after the shift, the detections the FOV filter
    keeps, and the record built from them. *)
Lemma generate_single_sample_dict_inv (self : CODataset)
    (batch_dict : BatchDict) (class_names_ : list string) (batch_index : nat)
    (box_dict : BoxDict) (pd : PredDict) :
  generate_single_sample_dict self batch_dict class_names_ batch_index box_dict
  = Ok pd ->
  pred_scores box_dict <> [] ->
  exists (calib : Calib) (img_shape : Z * Z)
         (boxes0 boxes : list (list float)) (labels : list Z)
         (scores : list float) (names : list string),
    bd_calib batch_dict !! batch_index = Some calib
    /\ bd_image_shape batch_dict !! batch_index = Some img_shape
    /\ match cfg_SHIFT_COOR self with
       | Some shift => rmap (shift_box shift) (pred_boxes box_dict) = Ok boxes0
       | None => boxes0 = pred_boxes box_dict
       end
    /\ (if cfg_FOV_FILTER self then
          exists centers : list vec3,
            rmap row_xyz boxes0 = Ok centers
            /\ let fov_flag :=
                 map (in_fov img_shape calib 5)
                     (map (lidar_to_rect calib) centers) in
               get_fov_flag (map (lidar_to_rect calib) centers)
                            img_shape calib 5 = Ok fov_flag
               /\ length boxes0 = length fov_flag
               /\ length (pred_labels box_dict) = length fov_flag
               /\ length (pred_scores box_dict) = length fov_flag
               /\ boxes = mask_select boxes0 fov_flag
               /\ labels = mask_select (pred_labels box_dict) fov_flag
               /\ scores = mask_select (pred_scores box_dict) fov_flag
        else boxes = boxes0 /\ labels = pred_labels box_dict
             /\ scores = pred_scores box_dict)
    /\ rmap (fun l => py_getitem class_names_ (l - 1)) labels = Ok names
    /\ pd_name pd = ArrStr names
    /\ length (pd_alpha pd) = length boxes
    /\ pd_bbox pd
       = map (fun b => boxes3d_kitti_camera_to_imageboxes
                         (boxes3d_lidar_to_kitti_camera b calib) calib
                         img_shape) boxes
    /\ pd_dimensions pd
       = map (fun b => slice 3 6 (boxes3d_lidar_to_kitti_camera b calib)) boxes
    /\ pd_location pd
       = map (fun b => slice 0 3 (boxes3d_lidar_to_kitti_camera b calib)) boxes
    /\ length (pd_rotation_y pd) = length boxes
    /\ pd_score pd = scores
    /\ pd_boxes_lidar pd = boxes
    /\ pd_truncated pd = repeat 0%float (length (pred_scores box_dict))
    /\ pd_occluded pd = repeat 0%float (length (pred_scores box_dict)).
Proof.
  intros H Hne. unfold generate_single_sample_dict in H.
  destruct (Nat.eqb_spec (length (pred_scores box_dict)) 0) as [Hz|_].
  { destruct (pred_scores box_dict); [congruence | discriminate]. }
  destruct (getitem (bd_calib batch_dict) batch_index) as [calib|] eqn:Hcalib;
    [|discriminate].
  cbn [rbind] in H.
  destruct (getitem (bd_image_shape batch_dict) batch_index)
    as [img_shape|] eqn:Hshape; [|discriminate].
  cbn [rbind] in H.
  apply getitem_ok in Hcalib. apply getitem_ok in Hshape.
  apply rbind_ok in H. destruct H as (boxes0 & Hboxes0 & H).
  apply rbind_ok in H. destruct H as ([[boxes labels] scores] & Hfilt & H).
  apply rbind_ok in H. destruct H as (names & Hnames & H).
  apply rbind_ok in H. destruct H as (alphas & Halphas & H).
  apply rbind_ok in H. destruct H as (rots & Hrots & H).
  injection H as <-.
  exists calib, img_shape, boxes0, boxes, labels, scores, names.
  split; [exact Hcalib|]. split; [exact Hshape|]. split.
  { destruct (cfg_SHIFT_COOR self); [exact Hboxes0 | congruence]. }
  split.
  { destruct (cfg_FOV_FILTER self).
    - apply rbind_ok in Hfilt. destruct Hfilt as (centers & Hcenters & Hfilt).
      rewrite get_fov_flag_five in Hfilt. cbn [rbind] in Hfilt.
      apply rbind_ok in Hfilt. destruct Hfilt as (b & Hb & Hfilt).
      apply rbind_ok in Hfilt. destruct Hfilt as (l & Hl & Hfilt).
      apply rbind_ok in Hfilt. destruct Hfilt as (s & Hs & Hfilt).
      injection Hfilt as <- <- <-.
      apply bool_index_ok in Hb, Hl, Hs.
      destruct Hb as [Hb1 Hb2], Hl as [Hl1 Hl2], Hs as [Hs1 Hs2].
      exists centers. split; [exact Hcenters|]. cbv zeta.
      split; [apply get_fov_flag_five|]. auto 10.
    - injection Hfilt as <- <- <-. auto. }
  split; [exact Hnames|]. cbn.
  apply rmap_length in Halphas, Hrots.
  rewrite Halphas, Hrots, length_zip_with, !length_map, map_map, !map_map.
  repeat split; try reflexivity; lia.
Qed.

Lemma py_getitem_class (cl : list string) (l : Z) (n : string) :
  py_getitem cl (l - 1) = Ok n ->
  (1 <= l <= Z.of_nat (length cl) /\ cl !! Z.to_nat (l - 1) = Some n)
  \/ (- Z.of_nat (length cl) < l <= 0
      /\ cl !! Z.to_nat (Z.of_nat (length cl) + l - 1) = Some n).
Proof.
  unfold py_getitem. intros H.
  destruct (Z.ltb_spec (l - 1) 0) as [Hneg|Hpos].
  - destruct (Z.leb_spec (- (l - 1)) (Z.of_nat (length cl))) as [Hin|Hout];
      [|discriminate].
    apply getitem_ok in H. right. split; [lia|].
    now replace (Z.of_nat (length cl) + l - 1)
      with (Z.of_nat (length cl) + (l - 1)) by lia.
  - apply getitem_ok in H. left. split; [|exact H].
    apply lookup_lt_Some in H. lia.
Qed.

Lemma rmap_Forall2 {A B : Type} (f : A -> result B) (l : list A) (r : list B) :
  rmap f l = Ok r -> Forall2 (fun x y => f x = Ok y) l r.
Proof.
  revert r. induction l as [|x l IH]; simpl; intros r H.
  - injection H as <-. constructor.
  - destruct (f x) as [y|] eqn:Hy; [simpl in H | discriminate].
    destruct (rmap f l) as [ys|]; [simpl in H | discriminate].
    injection H as <-. constructor; [exact Hy | apply IH; reflexivity].
Qed.

(** The detections the record of a frame is built from: all of them, or
    with the FOV filter those whose box center, moved to the rect frame,
    passes [get_fov_flag] with margin 5. *)
Lemma kept_labels (self : CODataset) (batch_dict : BatchDict)
    (class_names_ : list string) (batch_index : nat) (box_dict : BoxDict)
    (pd : PredDict) :
  generate_single_sample_dict self batch_dict class_names_ batch_index box_dict
  = Ok pd ->
  pred_scores box_dict <> [] ->
  exists (labels : list Z) (names : list string),
    pd_name pd = ArrStr names
    /\ rmap (fun l => py_getitem class_names_ (l - 1)) labels = Ok names
    /\ (cfg_FOV_FILTER self = false -> labels = pred_labels box_dict)
    /\ forall l, In l labels -> In l (pred_labels box_dict).
Proof.
  intros H Hne.
  destruct (generate_single_sample_dict_inv _ _ _ _ _ _ H Hne)
    as (calib & shape_ & boxes0 & boxes & labels & scores & names
        & _ & _ & _ & Hfilt & Hnames & Hname & _).
  exists labels, names. split; [exact Hname|]. split; [exact Hnames|].
  destruct (cfg_FOV_FILTER self).
  - destruct Hfilt as (centers & _ & _ & _ & _ & _ & _ & -> & _).
    split; [discriminate|].
    generalize (pred_labels box_dict)
      (map (in_fov shape_ calib 5) (map (lidar_to_rect calib) centers)).
    clear. intros l. induction l as [|x l IH]; intros mask y Hy;
      [destruct mask; destruct Hy|].
    destruct mask as [|b mask]; [destruct Hy|]. cbn [mask_select] in Hy.
    destruct b; [destruct Hy as [ <- | Hy ]; [now left|] |];
      right; eapply IH; exact Hy.
  - destruct Hfilt as (_ & -> & _). auto.
Qed.

(** X9.  A detection is named after its label, counted from 1 in the class
    list; the lookup is the indexing of Python, so the label 0 names the
    last class and a label down to [1 - N] counts from the end.  A kept
    label above [N] or at most [-N] is an error of the frame. *)
Theorem prediction_names_by_label (self : CODataset) (batch_dict : BatchDict)
    (class_names_ : list string) (batch_index : nat) (box_dict : BoxDict)
    (pd : PredDict) :
  cfg_FOV_FILTER self = false ->
  pred_scores box_dict <> [] ->
  generate_single_sample_dict self batch_dict class_names_ batch_index box_dict
  = Ok pd ->
  let N := Z.of_nat (length class_names_) in
  exists names : list string,
    pd_name pd = ArrStr names
    /\ Forall2 (fun l n =>
                  (1 <= l <= N /\ class_names_ !! Z.to_nat (l - 1) = Some n)
                  \/ (- N < l <= 0
                      /\ class_names_ !! Z.to_nat (N + l - 1) = Some n))
               (pred_labels box_dict) names
    /\ (forall n, In 0 (pred_labels box_dict) -> last class_names_ = Some n ->
          In n names).
Proof.
  intros Hfov Hne H N.
  destruct (kept_labels _ _ _ _ _ _ H Hne)
    as (labels & names & Hname & Hnames & Hall & _).
  rewrite (Hall Hfov) in Hnames. clear Hall labels.
  exists names. split; [exact Hname|].
  apply rmap_Forall2 in Hnames.
  assert (HF : Forall2 (fun l n =>
                  (1 <= l <= N /\ class_names_ !! Z.to_nat (l - 1) = Some n)
                  \/ (- N < l <= 0
                      /\ class_names_ !! Z.to_nat (N + l - 1) = Some n))
               (pred_labels box_dict) names).
  { eapply Forall2_impl; [exact Hnames|].
    intros l n Hl. apply py_getitem_class. exact Hl. }
  split; [exact HF|].
  intros n Hin Hlast.
  apply list_elem_of_In, list_elem_of_lookup_1 in Hin. destruct Hin as [i Hi].
  destruct (Forall2_lookup_l _ _ _ _ _ HF Hi) as (n' & Hn' & Hcase).
  apply list_elem_of_In. apply (list_elem_of_lookup_2 _ i).
  rewrite Hn'. f_equal.
  destruct Hcase as [[Hr _]|[_ Hl]]; [lia|].
  rewrite last_lookup in Hlast.
  replace (Z.to_nat (N + 0 - 1)) with (Nat.pred (length class_names_)) in Hl
    by (unfold N; lia).
  congruence.
Qed.

Lemma shift_box_rows (shift : vec3) (l l' : list (list float)) :
  rmap (shift_box shift) l = Ok l' ->
  Forall2 (fun row row' =>
             exists (x y z : float) (rest : list float),
               row = x :: y :: z :: rest
               /\ row' = (pred_store (x - fst (fst shift))
                          :: pred_store (y - snd (fst shift))
                          :: pred_store (z - snd shift) :: rest)%float)
          l l'.
Proof.
  intros H. apply rmap_Forall2 in H.
  eapply Forall2_impl; [exact H|].
  intros row row'. unfold shift_box. destruct shift as [[sx sy] sz].
  destruct row as [|x [|y [|z rest]]]; try discriminate.
  intros Heq. injection Heq as <-. exists x, y, z, rest. auto.
Qed.

Lemma row_xyz_rows (l : list (list float)) (centers : list vec3) :
  rmap row_xyz l = Ok centers ->
  Forall2 (fun row c =>
             exists rest : list float,
               row = fst (fst c) :: snd (fst c) :: snd c :: rest)
          l centers.
Proof.
  intros H. apply rmap_Forall2 in H.
  eapply Forall2_impl; [exact H|].
  intros row c. unfold row_xyz.
  destruct row as [|x [|y [|z rest]]]; try discriminate.
  intros Heq. injection Heq as <-. exists rest. reflexivity.
Qed.

(** X10.  With the FOV filter, the arrays of the record of a frame come in two
    lengths.  The boxes of the [N] detections, after the shift by
    [SHIFT_COOR] when one is configured (stored with the element type of
    the box array), give the centers (their first three columns); the mask is [get_fov_flag] with margin 5 on the
    centers moved to the rect frame.  [boxes_lidar] and [score] are the
    boxes and scores the mask selects, and [name], [alpha], [bbox],
    [dimensions], [location], [rotation_y], [score] and [boxes_lidar] have
    one entry per detection whose center passes, while [truncated] and
    [occluded] keep the [N] zeros of the template. *)
Theorem filtered_prediction_lengths (self : CODataset) (batch_dict : BatchDict)
    (class_names_ : list string) (batch_index : nat) (box_dict : BoxDict)
    (pd : PredDict) :
  cfg_FOV_FILTER self = true ->
  pred_scores box_dict <> [] ->
  generate_single_sample_dict self batch_dict class_names_ batch_index box_dict
  = Ok pd ->
  exists (calib : Calib) (img_shape : Z * Z) (boxes0 : list (list float))
         (centers : list vec3) (fov_flag : list bool),
    bd_calib batch_dict !! batch_index = Some calib
    /\ bd_image_shape batch_dict !! batch_index = Some img_shape
    /\ match cfg_SHIFT_COOR self with
       | Some shift =>
           Forall2 (fun row row' =>
                      exists (x y z : float) (rest : list float),
                        row = x :: y :: z :: rest
                        /\ row' = (pred_store (x - fst (fst shift))
                                   :: pred_store (y - snd (fst shift))
                                   :: pred_store (z - snd shift)
                                   :: rest)%float)
                   (pred_boxes box_dict) boxes0
       | None => boxes0 = pred_boxes box_dict
       end
    /\ Forall2 (fun row c =>
                  exists rest : list float,
                    row = fst (fst c) :: snd (fst c) :: snd c :: rest)
               boxes0 centers
    /\ get_fov_flag (map (lidar_to_rect calib) centers) img_shape calib 5
       = Ok fov_flag
    /\ length (pred_boxes box_dict) = length (pred_scores box_dict)
    /\ length (pred_labels box_dict) = length (pred_scores box_dict)
    /\ length fov_flag = length (pred_scores box_dict)
    /\ let kept := length (List.filter (fun b => b) fov_flag) in
       pd_boxes_lidar pd = mask_select boxes0 fov_flag
       /\ pd_score pd = mask_select (pred_scores box_dict) fov_flag
       /\ (exists names : list string,
             pd_name pd = ArrStr names
             /\ rmap (fun l => py_getitem class_names_ (l - 1))
                     (mask_select (pred_labels box_dict) fov_flag)
                = Ok names)
       /\ len (pd_name pd) = kept
       /\ length (pd_alpha pd) = kept
       /\ length (pd_bbox pd) = kept
       /\ length (pd_dimensions pd) = kept
       /\ length (pd_location pd) = kept
       /\ length (pd_rotation_y pd) = kept
       /\ length (pd_score pd) = kept
       /\ length (pd_boxes_lidar pd) = kept
       /\ length (pd_truncated pd) = length (pred_scores box_dict)
       /\ length (pd_occluded pd) = length (pred_scores box_dict)
       /\ (kept <= length (pred_scores box_dict))%nat.
Proof.
  intros Hfov Hne H.
  destruct (generate_single_sample_dict_inv _ _ _ _ _ _ H Hne)
    as (calib & shape_ & boxes0 & boxes & labels & scores & names
        & Hcalib & Hshape & Hshift & Hfilt & Hnames & Hname & Halpha & Hbbox
        & Hdims & Hloc & Hrot & Hscore & Hlidar & Htrunc & Hocc).
  rewrite Hfov in Hfilt.
  destruct Hfilt as (centers & Hcenters & Hflag & Hb & Hl & Hs & -> & -> & ->).
  set (flag := map (in_fov shape_ calib 5) (map (lidar_to_rect calib) centers))
    in *.
  exists calib, shape_, boxes0, centers, flag.
  assert (Hlen0 : length (pred_boxes box_dict) = length boxes0).
  { destruct (cfg_SHIFT_COOR self) as [shift|]; [|now subst boxes0].
    symmetry. eapply rmap_length. exact Hshift. }
  split; [exact Hcalib|]. split; [exact Hshape|]. split.
  { destruct (cfg_SHIFT_COOR self) as [shift|]; [|exact Hshift].
    apply shift_box_rows. exact Hshift. }
  split; [apply row_xyz_rows; exact Hcenters|].
  split; [exact Hflag|].
  split; [congruence|]. split; [congruence|]. split; [congruence|]. cbv zeta.
  assert (Hkept : forall (A : Type) (l : list A),
            length l = length flag ->
            length (mask_select l flag)
            = length (List.filter (fun b => b) flag)).
  { intros A l. generalize flag. clear.
    induction l as [|x l IH]; intros [|b mask] Hlen; try discriminate;
      [reflexivity|].
    cbn [mask_select List.filter]. injection Hlen as Hlen.
    destruct b; cbn [length]; rewrite (IH mask Hlen); reflexivity. }
  pose proof (rmap_length _ _ _ Hnames) as Hnlen.
  split; [exact Hlidar|]. split; [exact Hscore|].
  split; [exists names; split; [exact Hname | exact Hnames]|].
  rewrite Hname, Hbbox, Hdims, Hloc, Hscore, Hlidar, Htrunc, Hocc, Halpha, Hrot.
  cbn [len]. rewrite !length_map, !repeat_length, Hnlen, !Hkept by assumption.
  repeat split; try reflexivity.
  rewrite <- (Hkept _ _ Hs). apply mask_select_length_le.
Qed.

(** The loop over the frames of a batch: what it appends to the records
    and to the files. *)
Lemma prediction_loop (self : CODataset) (batch_dict : BatchDict)
    (class_names_ : list string) (output_path : option string)
    (l : list BoxDict) (j : nat)
    (a0 a : list PredDict) (f0 f : list (string * list string)) :
  rfold (prediction_step self batch_dict class_names_ output_path)
        (zip (seq j (length l)) l) (a0, f0) = Ok (a, f) ->
  exists (recs : list PredDict) (new : list (string * list string)),
    a = a0 ++ recs /\ f = f0 ++ new
    /\ length recs = length l
    /\ (forall (i : nat) (b : BoxDict), l !! i = Some b ->
          exists (fid : string) (single : PredDict),
            bd_frame_id batch_dict !! (j + i)%nat = Some fid
            /\ generate_single_sample_dict self batch_dict class_names_
                 (j + i) b = Ok single
            /\ recs !! i = Some (set_frame_id single fid)
            /\ match output_path with
               | Some out =>
                   exists lines,
                     detection_lines (set_frame_id single fid) = Ok lines
                     /\ new !! i
                        = Some (path_join out (fid +:+ ".txt"), lines)
               | None => True
               end)
    /\ match output_path with
       | Some _ => length new = length l
       | None => new = []
       end.
Proof.
  revert j a0 f0. induction l as [|b0 l IH]; intros j a0 f0 H.
  - cbn in H. injection H as <- <-. exists [], [].
    rewrite !app_nil_r. repeat split; try reflexivity.
    + intros i b Hi. destruct i; discriminate.
    + destruct output_path; reflexivity.
  - cbn [length seq zip zip_with rfold] in H.
    apply rbind_ok in H. destruct H as ([a1 f1] & Hstep & H).
    unfold prediction_step in Hstep.
    apply rbind_ok in Hstep. destruct Hstep as (fid & Hfid & Hstep).
    apply rbind_ok in Hstep. destruct Hstep as (single & Hsingle & Hstep).
    apply getitem_ok in Hfid.
    apply IH in H.
    destruct H as (recs & new & -> & -> & Hlen & Hall & Hnew).
    destruct output_path as [out|].
    + apply rbind_ok in Hstep. destruct Hstep as (lines & Hlines & Hstep).
      injection Hstep as <- <-.
      exists (set_frame_id single fid :: recs),
        ((path_join out (fid +:+ ".txt"), lines) :: new).
      rewrite <- !List.app_assoc. cbn [app length].
      split; [reflexivity|]. split; [reflexivity|]. split; [lia|].
      split; [|lia].
      intros i b Hi. destruct i as [|i]; cbn in Hi.
      * injection Hi as <-. rewrite Nat.add_0_r.
        exists fid, single. repeat split; try assumption. exists lines. auto.
      * replace (j + S i)%nat with (S j + i)%nat by lia.
        apply (Hall i b Hi).
    + injection Hstep as <- <-.
      exists (set_frame_id single fid :: recs), [].
      rewrite <- !List.app_assoc. cbn [app length]. subst new.
      split; [reflexivity|]. split; [reflexivity|]. split; [lia|].
      split; [|reflexivity].
      intros i b Hi. destruct i as [|i]; cbn in Hi.
      * injection Hi as <-. rewrite Nat.add_0_r.
        exists fid, single. repeat split; assumption.
      * replace (j + S i)%nat with (S j + i)%nat by lia.
        destruct (Hall i b Hi) as (fid' & single' & H1 & H2 & H3 & _).
        exists fid', single'. repeat split; assumption.
Qed.

Lemma prediction_loop_without_sink (self : CODataset) (batch_dict : BatchDict)
    (class_names_ : list string) (out : string)
    (l : list (nat * BoxDict))
    (a0 a : list PredDict) (f0 f g0 : list (string * list string)) :
  rfold (prediction_step self batch_dict class_names_ (Some out)) l (a0, f0)
  = Ok (a, f) ->
  rfold (prediction_step self batch_dict class_names_ None) l (a0, g0)
  = Ok (a, g0).
Proof.
  revert a0 f0. induction l as [|[i b] l IH]; intros a0 f0 H.
  - cbn in *. injection H as <- _. reflexivity.
  - cbn [rfold] in *.
    apply rbind_ok in H. destruct H as ([a1 f1] & Hstep & H).
    unfold prediction_step in *.
    destruct (getitem (bd_frame_id batch_dict) i) as [fid|]; [|discriminate].
    cbn [rbind] in *.
    destruct (generate_single_sample_dict self batch_dict class_names_ i b)
      as [single|]; [|discriminate].
    cbn [rbind] in *.
    destruct (detection_lines (set_frame_id single fid)); [|discriminate].
    cbn [rbind] in Hstep. injection Hstep as <- <-.
    cbn [rbind]. eapply IH. exact H.
Qed.

(** X11.  A batch gives one record per frame, in order, each carrying the
    frame id of its position in the batch, so the batch must name at least
    as many frames as it has detections lists; with an output sink there
    is one file per frame, [<frame id>.txt] under the sink, and the records
    returned are the ones the same call returns without a sink, which
    writes no file. *)
Theorem prediction_dicts_per_frame (self : CODataset) (batch_dict : BatchDict)
    (pred_dicts : list BoxDict) (class_names_ : list string)
    (output_path : option string) (annos_ : list PredDict)
    (files : list (string * list string)) :
  generate_prediction_dicts self batch_dict pred_dicts class_names_ output_path
  = Ok (annos_, files) ->
  (length pred_dicts <= length (bd_frame_id batch_dict))%nat
  /\ map pd_frame_id annos_
     = map Some (take (length pred_dicts) (bd_frame_id batch_dict))
  /\ map fst files
     = match output_path with
       | Some out =>
           map (fun fid => path_join out (fid +:+ ".txt"))
               (take (length pred_dicts) (bd_frame_id batch_dict))
       | None => []
       end
  /\ generate_prediction_dicts self batch_dict pred_dicts class_names_ None
     = Ok (annos_, []).
Proof.
  intros H.
  assert (Hnone : generate_prediction_dicts self batch_dict pred_dicts
                    class_names_ None = Ok (annos_, [])).
  { destruct output_path as [out|].
    - unfold generate_prediction_dicts in *.
      eapply prediction_loop_without_sink. exact H.
    - unfold generate_prediction_dicts in H.
      destruct (prediction_loop _ _ _ _ _ _ _ _ _ _ H)
        as (recs & new & _ & -> & _ & _ & ->).
      exact H. }
  unfold generate_prediction_dicts in H.
  destruct (prediction_loop _ _ _ _ _ _ _ _ _ _ H)
    as (recs & new & -> & -> & Hlen & Hall & Hnew).
  cbn [app] in *.
  assert (Hle : (length pred_dicts <= length (bd_frame_id batch_dict))%nat).
  { destruct pred_dicts as [|b0 l] eqn:Hp; [simpl; lia|]. rewrite <- Hp in *.
    assert (Hlast : is_Some (pred_dicts !! (length pred_dicts - 1)%nat)).
    { apply lookup_lt_is_Some. rewrite Hp. simpl. lia. }
    destruct Hlast as [b Hb].
    destruct (Hall _ b Hb) as (fid & _ & Hfid & _).
    apply lookup_lt_Some in Hfid. lia. }
  split; [exact Hle|].
  assert (Hids : forall i, (i < length pred_dicts)%nat ->
            exists fid pd,
              bd_frame_id batch_dict !! i = Some fid
              /\ recs !! i = Some pd /\ pd_frame_id pd = Some fid
              /\ match output_path with
                 | Some out =>
                     exists lines,
                       new !! i = Some (path_join out (fid +:+ ".txt"), lines)
                 | None => True
                 end).
  { intros i Hi. destruct (lookup_lt_is_Some_2 pred_dicts i Hi) as [b Hb].
    destruct (Hall i b Hb) as (fid & single & Hfid & _ & Hrec & Hfile).
    exists fid, (set_frame_id single fid). cbn [Nat.add] in Hfid.
    repeat split; try assumption.
    destruct output_path; [|exact I].
    destruct Hfile as (lines & _ & Hnew'). eauto. }
  split; [|split; [|exact Hnone]].
  - apply list_eq. intros i. rewrite !list_lookup_fmap.
    destruct (decide (i < length pred_dicts)%nat) as [Hi|Hi].
    + destruct (Hids i Hi) as (fid & pd & Hfid & Hrec & Hpd & _).
      rewrite Hrec, lookup_take_lt, Hfid by exact Hi. cbn. now rewrite Hpd.
    + rewrite (lookup_ge_None_2 recs), (lookup_ge_None_2 (take _ _));
        [reflexivity | rewrite length_take; lia | lia].
  - destruct output_path as [out|]; [|now subst new].
    apply list_eq. intros i. rewrite !list_lookup_fmap.
    destruct (decide (i < length pred_dicts)%nat) as [Hi|Hi].
    + destruct (Hids i Hi) as (fid & pd & Hfid & _ & _ & lines & Hnew').
      rewrite Hnew', lookup_take_lt, Hfid by exact Hi. reflexivity.
    + rewrite (lookup_ge_None_2 new), (lookup_ge_None_2 (take _ _));
        [reflexivity | rewrite length_take; lia | lia].
Qed.

(** X12.  A frame without detections still gets its record and its file: the
    record is the template of length 0 with the frame id (its [name] is an
    empty float array), the file has no line, and neither the calibration
    nor the image shape of the frame is looked at.  A batch of such frames
    is serialized without error as soon as it names enough frames. *)
Theorem empty_detections_serialized (self : CODataset) (batch_dict : BatchDict)
    (pred_dicts : list BoxDict) (class_names_ : list string) (out : string) :
  Forall (fun b => pred_scores b = []) pred_dicts ->
  (length pred_dicts <= length (bd_frame_id batch_dict))%nat ->
  let fids := take (length pred_dicts) (bd_frame_id batch_dict) in
  generate_prediction_dicts self batch_dict pred_dicts class_names_ (Some out)
  = Ok (map (set_frame_id (get_template_prediction 0)) fids,
        map (fun fid => (path_join out (fid +:+ ".txt"), [])) fids).
Proof.
  intros Hempty Hle fids. unfold generate_prediction_dicts.
  assert (H : forall (l : list BoxDict) (j : nat) a0 f0,
            Forall (fun b => pred_scores b = []) l ->
            (j + length l <= length (bd_frame_id batch_dict))%nat ->
            rfold (prediction_step self batch_dict class_names_ (Some out))
                  (zip (seq j (length l)) l) (a0, f0)
            = Ok (a0 ++ map (set_frame_id (get_template_prediction 0))
                          (take (length l) (drop j (bd_frame_id batch_dict))),
                  f0 ++ map (fun fid => (path_join out (fid +:+ ".txt"), []))
                          (take (length l)
                             (drop j (bd_frame_id batch_dict))))).
  { induction l as [|b l IH]; intros j a0 f0 Hall Hlen.
    - cbn. now rewrite !app_nil_r.
    - cbn [length seq zip zip_with rfold].
      inversion Hall as [|? ? Hb Hl]; subst.
      cbn [length] in Hlen.
      destruct (lookup_lt_is_Some_2 (bd_frame_id batch_dict) j ltac:(lia))
        as [fid Hfid].
      unfold prediction_step at 1.
      rewrite (getitem_lookup _ _ _ Hfid). cbn [rbind].
      unfold generate_single_sample_dict. rewrite Hb. cbn [length Nat.eqb rbind].
      change (detection_lines (set_frame_id (get_template_prediction 0) fid))
        with (@Ok (list string) []).
      cbn [rbind]. rewrite (IH (S j)) by (try assumption; lia).
      rewrite (drop_S _ _ _ Hfid). cbn [take map].
      now rewrite <- !List.app_assoc. }
  specialize (H pred_dicts 0%nat [] [] Hempty ltac:(lia)).
  rewrite drop_0 in H. exact H.
Qed.

(** ** Evaluation: the guard reads the first record only *)

(** X13.  On a non-empty corpus the evaluation is decided by the first record.
    Without annotations there, the result is empty whatever the other
    records hold; with annotations there, a later record without
    annotations is a [KeyError], and a corpus in which every record has
    annotations is handed, in order, to the official evaluation, whose
    report and metrics are returned. *)
Theorem evaluation_by_first_record (self : CODataset)
    (det_annos : list PredDict) (class_names_ : list string)
    (first : Info) (rest : list Info) :
  coda_infos self = first :: rest ->
  (annos first = None ->
     evaluation self det_annos class_names_ = Ok (None, []))
  /\ (annos first <> None -> Exists (fun info => annos info = None) rest ->
      evaluation self det_annos class_names_ = Err (KeyError "annos"))
  /\ (forall gts : list pydict,
        map annos (first :: rest) = map Some gts ->
        evaluation self det_annos class_names_
        = Ok (Some (fst (get_official_eval_result gts det_annos class_names_)),
              snd (get_official_eval_result gts det_annos class_names_))).
Proof.
  intros Hinfos.
  assert (Hall : forall (l : list Info) (gts : list pydict),
            map annos l = map Some gts ->
            rmap (fun info => match annos info with
                              | Some a => Ok a
                              | None => Err (KeyError "annos")
                              end) l = Ok gts).
  { induction l as [|x l IH]; intros [|g gts] Hmap; try discriminate;
      [reflexivity|].
    cbn in Hmap. injection Hmap as Hx Hmap. cbn [rmap]. rewrite Hx.
    cbn [rbind]. now rewrite (IH gts Hmap). }
  assert (Hsome : forall l : list Info,
            Exists (fun info => annos info = None) l ->
            rmap (fun info => match annos info with
                              | Some a => Ok a
                              | None => Err (KeyError "annos")
                              end) l = Err (KeyError "annos")).
  { induction l as [|x l IH]; intros Hex; [inversion Hex|].
    cbn [rmap]. destruct (annos x) as [a|] eqn:Hx; [|reflexivity].
    cbn [rbind]. inversion Hex as [? ? Hnone|? ? Hex']; subst; [congruence|].
    now rewrite (IH Hex'). }
  split; [|split].
  - intros Hnone. apply (evaluation_no_annos self _ _ first rest Hinfos Hnone).
  - intros Hfirst Hex. unfold evaluation. rewrite Hinfos. cbn [getitem].
    cbn. destruct (annos first) as [a|] eqn:Ha; [|congruence].
    cbn [rbind]. now rewrite (Hsome rest Hex).
  - intros gts Hmap. unfold evaluation. rewrite Hinfos. cbn.
    destruct gts as [|g gts]; [discriminate|].
    cbn in Hmap. injection Hmap as Hfirst Hrest. rewrite Hfirst.
    cbn [rbind]. rewrite (Hall rest gts Hrest). reflexivity.
Qed.

(** ** Balanced resampler: what a run can return *)

(** X14.  A run of the resampler that returns, on a dataset with a class
    vocabulary, returns a non-empty corpus made of records of the input
    corpus that each hold an object of a vocabulary class; the dataset has
    a logger.  A record with no vocabulary class is never drawn. *)
Theorem resampling_returns_members (self : CODataset) (cl : list string)
    (infos out : list Info) (rng rng' : Rng) :
  class_names self = Some cl ->
  List.NoDup cl ->
  Forall has_names infos ->
  balanced_infos_resampling self infos rng = Ok (out, rng') ->
  out <> []
  /\ has_logger self = true
  /\ Forall (fun x => In x infos
                      /\ exists c, In c cl /\ has_class c x = true) out.
Proof.
  intros Hcl Hnd Hnames H. unfold balanced_infos_resampling in H.
  rewrite Hcl, (group_by_class_spec cl infos Hnd Hnames) in H.
  cbn [rbind] in H. unfold dict_values in H. rewrite map_map in H.
  cbn [snd] in H.
  apply rbind_ok in H. destruct H as (cls_dist & _ & H).
  apply rbind_ok in H. destruct H as (frac & Hfrac & H).
  apply rbind_ok in H. destruct H as (ratios & _ & H).
  apply rbind_ok in H. destruct H as ([sampled rng1] & Hloop & H).
  cbn [fst snd] in H.
  apply rbind_ok in H. destruct H as ([] & Hlog & H).
  assert (Hmem : Forall (fun x => In x infos
                           /\ exists c, In c cl /\ has_class c x = true)
                        sampled).
  { apply List.Forall_forall. intros x Hx.
    destruct (sample_loop_In _ _ _ _ _ _ Hloop x Hx)
      as [[]|(recs & ratio & Hin & Hxr)].
    apply list_elem_of_In, elem_of_zip_l, list_elem_of_In in Hin.
    apply in_map_iff in Hin. destruct Hin as (c & <- & Hc).
    apply filter_In in Hxr. destruct Hxr as [Hxi Hxc]. eauto. }
  assert (Hsub : Forall has_names sampled).
  { rewrite List.Forall_forall in *. intros x Hx.
    apply Hnames. now apply Hmem. }
  rewrite (group_by_class_spec cl sampled Hnd Hsub) in H. cbn [rbind] in H.
  apply rbind_ok in H. destruct H as (cls_dist_new & Hnew & H).
  injection H as <- <-.
  split; [|split; [|exact Hmem]].
  - intros ->. destruct cl as [|c cl'].
    + unfold py_float_div_int in Hfrac. cbn in Hfrac. discriminate.
    + cbn in Hnew. unfold py_int_div in Hnew. cbn in Hnew. discriminate.
  - destruct (has_logger self); [reflexivity | discriminate].
Qed.

(** X15.  On a corpus in which no record holds an object of a vocabulary class,
    the empty corpus among them, the resampler raises [ZeroDivisionError]:
    the class shares are fractions of a total of zero. *)
Theorem resampling_without_members (self : CODataset) (cl : list string)
    (infos : list Info) (rng : Rng) :
  class_names self = Some cl ->
  List.NoDup cl ->
  Forall has_names infos ->
  (forall c info, In c cl -> In info infos -> has_class c info = false) ->
  balanced_infos_resampling self infos rng = Err ZeroDivisionError.
Proof.
  intros Hcl Hnd Hnames Hnone. unfold balanced_infos_resampling.
  rewrite Hcl, (group_by_class_spec cl infos Hnd Hnames).
  cbn [rbind]. unfold dict_values. rewrite map_map. cbn [snd].
  assert (Hsets : map (fun c => class_records infos c) cl = map (fun _ => []) cl).
  { apply map_ext_in. intros c Hc. unfold class_records.
    clear Hnames. induction infos as [|x l IH]; [reflexivity|].
    cbn [List.filter]. rewrite (Hnone c x Hc (or_introl eq_refl)).
    apply IH. intros c' i Hc' Hi. apply Hnone; [exact Hc' | now right]. }
  rewrite Hsets.
  assert (Htotal : total_len (map (fun _ : string => @nil Info) cl) = 0%nat).
  { unfold total_len. rewrite map_map. cbn [length].
    clear. induction cl; [reflexivity | exact IHcl]. }
  rewrite Htotal. destruct cl as [|c cl']; reflexivity.
Qed.

(** ** FOV filter: projections that are not numbers *)

Lemma is_nan_Prim2SF (x : float) :
  PrimFloat.is_nan x = true -> Prim2SF x = S754_nan.
Proof.
  unfold PrimFloat.is_nan. rewrite FloatAxioms.eqb_spec. unfold SFeqb.
  destruct (Prim2SF x) as [s|s| |s m e]; cbn; try discriminate;
    try (destruct s; discriminate); [reflexivity|].
  destruct s; rewrite Z.compare_refl, Pos.compare_cont_refl; discriminate.
Qed.

Lemma nan_comparisons (x y : float) :
  PrimFloat.is_nan x = true ->
  (y <=? x)%float = false /\ (x <? y)%float = false.
Proof.
  intros H. apply is_nan_Prim2SF in H.
  rewrite FloatAxioms.leb_spec, FloatAxioms.ltb_spec, H. unfold SFleb, SFltb.
  split; [destruct (Prim2SF y) | ]; reflexivity.
Qed.

(** X16.  A point whose projection has a pixel coordinate or a depth that is
    not a number is never in the field of view, whatever the image and the
    margin: every comparison with it is false.  The mask exists for every
    margin that is an int32, and no mask the function returns keeps the
    point. *)
Theorem get_fov_flag_drops_nan (pts_rect : list vec3) (img_shape : Z * Z)
    (calib : Calib) (margin : Z) (i : nat) (p : vec3) :
  pts_rect !! i = Some p ->
  PrimFloat.is_nan (fst (fst (rect_to_img calib p))) = true
  \/ PrimFloat.is_nan (snd (fst (rect_to_img calib p))) = true
  \/ PrimFloat.is_nan (snd (rect_to_img calib p)) = true ->
  (is_int32 margin = true ->
     exists mask : list bool,
       get_fov_flag pts_rect img_shape calib margin = Ok mask)
  /\ (forall mask : list bool,
        get_fov_flag pts_rect img_shape calib margin = Ok mask ->
        mask !! i = Some false).
Proof.
  intros Hp Hnan. split.
  { intros Hm. eexists. now apply get_fov_flag_pointwise. }
  intros mask Hmask. apply get_fov_flag_length in Hmask.
  destruct Hmask as [-> _]. rewrite list_lookup_fmap, Hp.
  cbn. f_equal. unfold in_fov. cbv zeta.
  destruct Hnan as [H|[H|H]].
  - destruct (nan_comparisons _ (Z2F (int_as pixel_dtype (0 - margin))) H) as [-> _]. reflexivity.
  - destruct (nan_comparisons _ (Z2F (int_as pixel_dtype (0 - margin))) H) as [-> _].
    cbn. now rewrite andb_false_r.
  - destruct (nan_comparisons _ 0%float H) as [-> _]. now rewrite andb_false_r.
Qed.
(** ** Ground-truth database: the records of the info builder *)


(** ** Prediction serializer: the lines of the detection files *)

Lemma take_4_lookups {A : Type} (row : list A) (a b c d : A) :
  row !! 0%nat = Some a -> row !! 1%nat = Some b -> row !! 2%nat = Some c ->
  row !! 3%nat = Some d -> take 4 row = [a; b; c; d].
Proof.
  destruct row as [|a' [|b' [|c' [|d' rest]]]];
    intros H0 H1 H2 H3; simplify_eq/=; reflexivity.
Qed.

Lemma take_3_lookups {A : Type} (row : list A) (a b c : A) :
  row !! 0%nat = Some a -> row !! 1%nat = Some b -> row !! 2%nat = Some c ->
  take 3 row = [a; b; c].
Proof.
  destruct row as [|a' [|b' [|c' rest]]];
    intros H0 H1 H2; simplify_eq/=; reflexivity.
Qed.

(** The line printed for position [idx] of a record is the line of the
    detection read there. *)
Lemma detection_line_inv (pd : PredDict) (idx : nat) (line : string) :
  detection_line pd idx = Ok line ->
  exists d : Detection, detection_at pd idx d /\ line = det_line d.
Proof.
  unfold detection_line. intros H.
  apply rbind_ok in H. destruct H as (name & Hname & H).
  apply rbind_ok in H. destruct H as (alpha_ & Halpha & H).
  apply rbind_ok in H. destruct H as (b & Hb & H).
  apply rbind_ok in H. destruct H as (b0 & Hb0 & H).
  apply rbind_ok in H. destruct H as (b1 & Hb1 & H).
  apply rbind_ok in H. destruct H as (b2 & Hb2 & H).
  apply rbind_ok in H. destruct H as (b3 & Hb3 & H).
  apply rbind_ok in H. destruct H as (dm & Hdm & H).
  apply rbind_ok in H. destruct H as (d1 & Hd1 & H).
  apply rbind_ok in H. destruct H as (d2 & Hd2 & H).
  apply rbind_ok in H. destruct H as (d0 & Hd0 & H).
  apply rbind_ok in H. destruct H as (l & Hl & H).
  apply rbind_ok in H. destruct H as (l0 & Hl0 & H).
  apply rbind_ok in H. destruct H as (l1 & Hl1 & H).
  apply rbind_ok in H. destruct H as (l2 & Hl2 & H).
  apply rbind_ok in H. destruct H as (rot & Hrot & H).
  apply rbind_ok in H. destruct H as (sc & Hsc & H).
  injection H as <-.
  apply getitem_ok in Halpha, Hb, Hb0, Hb1, Hb2, Hb3, Hdm, Hd1, Hd2, Hd0,
    Hl, Hl0, Hl1, Hl2, Hrot, Hsc.
  exists {| det_name := name; det_alpha := alpha_;
            det_bbox := (b0, b1, b2, b3);
            det_l := d0; det_h := d1; det_w := d2;
            det_loc := (l0, l1, l2); det_ry := rot; det_score := sc |}.
  split; [|reflexivity].
  unfold detection_at, det_bbox_row, vec3_row.
  cbn [det_name det_alpha det_bbox det_l det_h det_w det_loc det_ry det_score].
  split; [exact Hname|]. split; [exact Halpha|].
  split; [exists b; split; [exact Hb | now apply take_4_lookups]|].
  split; [exists dm; split; [exact Hdm | now apply take_3_lookups]|].
  split; [exists l; split; [exact Hl | now apply take_3_lookups]|].
  split; assumption.
Qed.

(** The lines of a record: one per row of [bbox], each the line of its
    position. *)
Lemma detection_lines_inv (pd : PredDict) (lines : list string) :
  detection_lines pd = Ok lines ->
  length lines = length (pd_bbox pd)
  /\ forall (idx : nat) (line : string), lines !! idx = Some line ->
       detection_line pd idx = Ok line.
Proof.
  unfold detection_lines. intros H. split.
  - rewrite (rmap_length _ _ _ H). apply length_seq.
  - intros idx line Hline. apply rmap_Forall2 in H.
    destruct (Forall2_lookup_r _ _ _ _ _ H Hline) as (k & Hk & Hrun).
    apply lookup_seq in Hk. destruct Hk as [-> _]. exact Hrun.
Qed.

(** The names of a record are class names. *)
Lemma record_names_in_classes (self : CODataset) (batch_dict : BatchDict)
    (class_names_ : list string) (batch_index : nat) (box_dict : BoxDict)
    (pd : PredDict) (idx : nat) (name : string) :
  generate_single_sample_dict self batch_dict class_names_ batch_index box_dict
  = Ok pd ->
  (idx < length (pd_bbox pd))%nat ->
  str_at (pd_name pd) idx = Ok name ->
  In name class_names_.
Proof.
  intros H Hidx Hname.
  destruct (pred_scores box_dict) as [|s0 ss] eqn:Hs.
  { unfold generate_single_sample_dict in H. rewrite Hs in H. cbn in H.
    injection H as <-. cbn in Hidx. lia. }
  assert (Hne : pred_scores box_dict <> []) by (rewrite Hs; discriminate).
  destruct (generate_single_sample_dict_inv _ _ _ _ _ _ H Hne)
    as (calib & shape_ & boxes0 & boxes & labels & scores & names
        & _ & _ & _ & _ & Hnames & Hpd & _).
  rewrite Hpd in Hname. cbn [str_at] in Hname. apply getitem_ok in Hname.
  apply rmap_Forall2 in Hnames.
  destruct (Forall2_lookup_r _ _ _ _ _ Hnames Hname) as (l & _ & Hl).
  apply py_getitem_class in Hl.
  destruct Hl as [[_ Hl]|[_ Hl]];
    apply list_elem_of_In; eapply list_elem_of_lookup_2; exact Hl.
Qed.

(** C6 (as amended).  With an output sink, the file of a frame is named
    after the frame and holds one line per detection of its record (per
    row of [bbox]), in order; the line at position [idx] is the format
    string applied to the detection read at [idx] from the arrays of the
    record, whose name is a class name.  If the name holds no space, the
    line splits at its spaces into exactly 16 fields: the name, two
    placeholders [-1], alpha, the four 2D box coordinates, height, width,
    length, the three location coordinates, yaw and score (14 values of
    the detection and the two placeholders), each number formatted by
    ['%.4f'], which gives four digits after the point for every finite
    number. *)
Theorem serialized_lines_spec (self : CODataset) (batch_dict : BatchDict)
    (pred_dicts : list BoxDict) (class_names_ : list string) (out : string)
    (annos_ : list PredDict) (files : list (string * list string)) :
  generate_prediction_dicts self batch_dict pred_dicts class_names_ (Some out)
  = Ok (annos_, files) ->
  Forall2 (fun pd file =>
             exists frame_id : string,
               pd_frame_id pd = Some frame_id
               /\ fst file = path_join out (frame_id +:+ ".txt")
               /\ length (snd file) = length (pd_bbox pd)
               /\ forall (idx : nat) (line : string),
                    snd file !! idx = Some line ->
                    exists d : Detection,
                      detection_at pd idx d
                      /\ In (det_name d) class_names_
                      /\ line = format_line (det_name d) (det_values d)
                      /\ (no_space (det_name d) = true ->
                          split_space line
                          = [det_name d; "-1"; "-1";
                             format_4f (det_alpha d);
                             format_4f (fst (fst (fst (det_bbox d))));
                             format_4f (snd (fst (fst (det_bbox d))));
                             format_4f (snd (fst (det_bbox d)));
                             format_4f (snd (det_bbox d));
                             format_4f (det_h d); format_4f (det_w d);
                             format_4f (det_l d);
                             format_4f (fst (fst (det_loc d)));
                             format_4f (snd (fst (det_loc d)));
                             format_4f (snd (det_loc d));
                             format_4f (det_ry d); format_4f (det_score d)]
                          /\ length (split_space line) = 16%nat))
          annos_ files
  /\ (forall v : float, is_finite v = true -> four_decimals (format_4f v)).
Proof.
  intros Hrun. split; [|apply format_4f_decimals].
  unfold generate_prediction_dicts in Hrun.
  apply prediction_loop in Hrun.
  destruct Hrun as (recs & new & -> & -> & Hrecs & Hat & Hnew).
  cbn [app]. apply Forall2_same_length_lookup_2;
    [congruence|].
  { intros i pd file Hpd Hfile.
    destruct (lookup_lt_is_Some_2 pred_dicts i) as [b Hb].
    { rewrite <- Hrecs. eapply lookup_lt_Some. exact Hpd. }
    destruct (Hat i b Hb) as (fid & single & _ & Hsingle & Hrec & lines
                              & Hlines & Hf).
    rewrite Hrec in Hpd. injection Hpd as <-.
    rewrite Hf in Hfile. injection Hfile as <-.
    exists fid. split; [reflexivity|]. split; [reflexivity|].
    destruct (detection_lines_inv _ _ Hlines) as [Hlen Hline].
    split; [exact Hlen|].
    intros idx line Hidx. cbn [snd] in Hidx.
    destruct (detection_line_inv _ _ _ (Hline idx line Hidx))
      as (d & Hd & ->).
    exists d. split; [exact Hd|]. split; [|split; [reflexivity|]].
    - destruct Hd as (Hname & _).
      apply (record_names_in_classes self batch_dict class_names_ (0 + i) b
               single idx (det_name d) Hsingle); [|exact Hname].
      apply lookup_lt_Some in Hidx. cbn [snd] in Hlen.
      rewrite Hlen in Hidx. exact Hidx.
    - intros Hns. fold (det_line d). rewrite (det_line_fields d Hns).
      split; reflexivity. }
Qed.

End Properties.

(* ===================================================================== *)
(** * Properties of construction, road planes and data preparation *)
(* ===================================================================== *)

Section LifecycleProperties.

Context {Ext : Externals} {Sto : Storage}.

Lemma obind_done {A B : Type} (m : outcome A) (k : A -> outcome B) (b : B) :
  obind m k = Done b -> exists a, m = Done a /\ k a = Done b.
Proof. destruct m as [a|e]; simpl; [eauto | discriminate]. Qed.

Lemma lift_done {A : Type} (r : result A) (a : A) :
  lift r = Done a -> r = Ok a.
Proof. destruct r; simpl; congruence. Qed.

(** ** [include_coda_data] *)

(** The records of a list of info files, in order. *)
Lemma include_loop (root : string) (paths : list string) (acc : list Info) :
  fold_left (include_step root) paths acc
  = acc ++ concat (map pickle_load
                       (List.filter file_exists (map (path_join root) paths))).
Proof.
  revert acc. induction paths as [|p paths IH]; intros acc; cbn [fold_left map].
  - cbn. now rewrite app_nil_r.
  - rewrite IH. unfold include_step. cbn [List.filter].
    destruct (file_exists (path_join root p)); cbn [negb concat map].
    + now rewrite <- List.app_assoc.
    + reflexivity.
Qed.

(** X17.  Loading the corpus of a mode appends to the corpus the records of
    the info files of the mode that exist, in the order of the
    configuration; a file that is not there is skipped without an error,
    so with no file at all the corpus is left as it was.  A mode the
    configuration does not list is a [KeyError]. *)
Theorem include_coda_data_skips_missing (self : Dataset) (mode_ : string) :
  (forall paths : list string,
     dict_find (cfg_INFO_PATH (dataset_cfg self)) mode_ = Some paths ->
     let root := root_path (fields self) in
     let present := List.filter file_exists (map (path_join root) paths) in
     include_coda_data self mode_
     = Ok (with_fields self
             (with_coda_infos (fields self)
                (coda_infos (fields self) ++ concat (map pickle_load present))))
     /\ (present = [] ->
         exists self', include_coda_data self mode_ = Ok self'
                       /\ coda_infos (fields self') = coda_infos (fields self)))
  /\ (dict_find (cfg_INFO_PATH (dataset_cfg self)) mode_ = None ->
      include_coda_data self mode_ = Err (KeyError mode_)).
Proof.
  split.
  - intros paths Hpaths root present.
    assert (Hrun : include_coda_data self mode_
                   = Ok (with_fields self
                           (with_coda_infos (fields self)
                              (coda_infos (fields self)
                               ++ concat (map pickle_load present))))).
    { unfold include_coda_data, dict_get. rewrite Hpaths. cbn [rbind].
      now rewrite include_loop. }
    split; [exact Hrun|]. intros Hnone. eexists. split; [exact Hrun|].
    rewrite Hnone. cbn. now rewrite app_nil_r.
  - intros Hnone. unfold include_coda_data, dict_get. now rewrite Hnone.
Qed.

(** ** [build_idx_to_imageset_map] *)

(** The records of the info files [paths], each with the directory of
    the split [mode_] they are listed under. *)
Lemma map_records_loop (subdir : string) (infos : list Info) (st : MapState) :
  fold_left (map_record subdir) infos st
  = {| ms_map := fold_left (fun m info => <[pc_lidar_idx info := subdir]> m)
                   infos (ms_map st);
       ms_infos := ms_infos st;
       ms_ids := ms_ids st ++ map pc_lidar_idx infos |}.
Proof.
  revert st. induction infos as [|info infos IH]; intros st; cbn [fold_left map].
  - rewrite app_nil_r. destruct st; reflexivity.
  - rewrite IH. cbn [map_record ms_map ms_infos ms_ids].
    now rewrite <- List.app_assoc.
Qed.

Lemma extend_map_app (st : MapState) (subdir : string) (l1 l2 : list Info) :
  extend_map (extend_map st subdir l1) subdir l2
  = extend_map st subdir (l1 ++ l2).
Proof.
  unfold extend_map. cbn [ms_map ms_infos ms_ids].
  now rewrite fold_left_app, map_app, <- !List.app_assoc.
Qed.

Lemma extend_map_nil (st : MapState) (subdir : string) :
  extend_map st subdir [] = st.
Proof.
  unfold extend_map. cbn. rewrite !app_nil_r. destruct st; reflexivity.
Qed.

(** The loop over the info files of a split ends with the records of all
    of them in the state, or with the [FileNotFoundError] of one of them
    that is not there. *)
Lemma map_files_loop (self : Dataset) (split_ mode_ : string)
    (paths : list string) (st : MapState) :
  dict_find (cfg_DATA_SPLIT (dataset_cfg self)) split_ = Some mode_ ->
  let root := root_path (fields self) in
  (Forall (fun p => file_exists (path_join root p) = true) paths
   /\ ofold (map_file_step self split_) paths st
      = Done (extend_map st (subdir_of mode_) (loads root paths)))
  \/ (exists q, In q paths /\ file_exists (path_join root q) = false
                /\ ofold (map_file_step self split_) paths st
                   = Failed (FileNotFoundError (path_join root q))).
Proof.
  intros Hmode root. revert st.
  induction paths as [|p paths IH]; intros st.
  - left. split; [constructor|]. cbn. now rewrite extend_map_nil.
  - assert (Hstep : map_file_step self split_ st p
                    = if file_exists (path_join root p)
                      then Done (extend_map st (subdir_of mode_)
                                   (pickle_load (path_join root p)))
                      else Failed (FileNotFoundError (path_join root p))).
    { unfold map_file_step, dict_get. rewrite Hmode. cbn [lift obind].
      fold root. destruct (file_exists (path_join root p)); [|reflexivity].
      now rewrite map_records_loop. }
    cbn [ofold]. rewrite Hstep.
    destruct (file_exists (path_join root p)) eqn:Hp; cbn [obind].
    + destruct (IH (extend_map st (subdir_of mode_)
                      (pickle_load (path_join root p))))
        as [[Hall Hrun]|(q & Hq & Hmiss & Hrun)].
      * left. split; [constructor; assumption|].
        rewrite Hrun, extend_map_app. reflexivity.
      * right. exists q. split; [now right|]. split; [exact Hmiss|exact Hrun].
    + right. exists p. split; [now left|]. split; [exact Hp|reflexivity].
Qed.

Lemma fold_insert_lookup_in (subdir idx : string) (infos : list Info)
    (m : gmap string string) :
  In idx (map pc_lidar_idx infos) ->
  fold_left (fun m info => <[pc_lidar_idx info := subdir]> m) infos m !! idx
  = Some subdir.
Proof.
  revert m. induction infos as [|info infos IH]; intros m Hin; [destruct Hin|].
  cbn [fold_left map] in *.
  destruct (in_dec string_dec idx (map pc_lidar_idx infos)) as [Hl|Hl].
  - now apply IH.
  - destruct Hin as [Heq|Hin]; [|contradiction].
    clear IH. revert m. induction infos as [|x l IHl]; intros m.
    + cbn. rewrite Heq. apply lookup_insert_eq.
    + cbn [fold_left]. cbn [map] in Hl.
      rewrite insert_insert_ne; [apply IHl; intros H; apply Hl; now right|].
      intros E. apply Hl. left. congruence.
Qed.

Lemma fold_insert_lookup_notin (subdir idx : string) (infos : list Info)
    (m : gmap string string) :
  ~ In idx (map pc_lidar_idx infos) ->
  fold_left (fun m info => <[pc_lidar_idx info := subdir]> m) infos m !! idx
  = m !! idx.
Proof.
  revert m. induction infos as [|info infos IH]; intros m Hin; [reflexivity|].
  cbn [fold_left map] in *. rewrite IH by (intros H; apply Hin; now right).
  apply lookup_insert_ne. intros E. apply Hin. now left.
Qed.

(** The outcome of the three loops on a configuration that lists the
    info files and the mode of every split. *)
Lemma map_splits_outcome (self : Dataset)
    (p_train p_test p_val : list string) (m_train m_test m_val : string)
    (st : MapState) :
  dict_find (cfg_INFO_PATH (dataset_cfg self)) "train" = Some p_train ->
  dict_find (cfg_INFO_PATH (dataset_cfg self)) "test" = Some p_test ->
  dict_find (cfg_INFO_PATH (dataset_cfg self)) "val" = Some p_val ->
  dict_find (cfg_DATA_SPLIT (dataset_cfg self)) "train" = Some m_train ->
  dict_find (cfg_DATA_SPLIT (dataset_cfg self)) "test" = Some m_test ->
  dict_find (cfg_DATA_SPLIT (dataset_cfg self)) "val" = Some m_val ->
  let root := root_path (fields self) in
  (Forall (fun p => file_exists (path_join root p) = true)
          (p_train ++ p_test ++ p_val)
   /\ ofold (map_split_step self) ["train"; "test"; "val"] st
      = Done (extend_map
                (extend_map
                   (extend_map st (subdir_of m_train) (loads root p_train))
                   (subdir_of m_test) (loads root p_test))
                (subdir_of m_val) (loads root p_val)))
  \/ (exists q, In q (p_train ++ p_test ++ p_val)
                /\ file_exists (path_join root q) = false
                /\ ofold (map_split_step self) ["train"; "test"; "val"] st
                   = Failed (FileNotFoundError (path_join root q))).
Proof.
  intros Ht Hs Hv Mt Ms Mv root.
  cbn [ofold]. unfold map_split_step, dict_get.
  rewrite Ht, Hs, Hv. cbn [lift obind].
  destruct (map_files_loop self "train" m_train p_train st Mt)
    as [[A1 R1]|(q & Hq & Hmiss & R1)]; fold root in R1; rewrite R1;
    cbn [obind].
  2:{ right. exists q. rewrite in_app_iff. auto. }
  destruct (map_files_loop self "test" m_test p_test
              (extend_map st (subdir_of m_train) (loads root p_train)) Ms)
    as [[A2 R2]|(q & Hq & Hmiss & R2)]; fold root in R2; rewrite R2;
    cbn [obind].
  2:{ right. exists q. rewrite !in_app_iff. auto. }
  destruct (map_files_loop self "val" m_val p_val
              (extend_map
                 (extend_map st (subdir_of m_train) (loads root p_train))
                 (subdir_of m_test) (loads root p_test)) Mv)
    as [[A3 R3]|(q & Hq & Hmiss & R3)]; fold root in R3; rewrite R3;
    cbn [obind].
  2:{ right. exists q. rewrite !in_app_iff. auto. }
  left. split; [|reflexivity].
  rewrite !List.Forall_app. auto.
Qed.

(** X18.  Building the map of lidar indices opens every info file of the three
    splits without testing for it: when one of them is not there, the
    outcome is the [FileNotFoundError] of a listed file that is missing,
    where loading the corpus of a mode skips such a file. *)
Theorem idx_map_needs_every_file (self : Dataset)
    (p_train p_test p_val : list string) (m_train m_test m_val : string)
    (q : string) :
  dict_find (cfg_INFO_PATH (dataset_cfg self)) "train" = Some p_train ->
  dict_find (cfg_INFO_PATH (dataset_cfg self)) "test" = Some p_test ->
  dict_find (cfg_INFO_PATH (dataset_cfg self)) "val" = Some p_val ->
  dict_find (cfg_DATA_SPLIT (dataset_cfg self)) "train" = Some m_train ->
  dict_find (cfg_DATA_SPLIT (dataset_cfg self)) "test" = Some m_test ->
  dict_find (cfg_DATA_SPLIT (dataset_cfg self)) "val" = Some m_val ->
  In q (p_train ++ p_test ++ p_val) ->
  file_exists (path_join (root_path (fields self)) q) = false ->
  exists q' : string,
    In q' (p_train ++ p_test ++ p_val)
    /\ file_exists (path_join (root_path (fields self)) q') = false
    /\ build_idx_to_imageset_map self
       = Failed (FileNotFoundError (path_join (root_path (fields self)) q')).
Proof.
  intros Ht Hs Hv Mt Ms Mv Hq Hmiss. unfold build_idx_to_imageset_map.
  destruct (map_splits_outcome self _ _ _ _ _ _
              {| ms_map := ∅; ms_infos := []; ms_ids := [] |}
              Ht Hs Hv Mt Ms Mv)
    as [[Hall _]|(q' & Hq' & Hmiss' & Hrun)].
  - rewrite List.Forall_forall in Hall. rewrite (Hall q Hq) in Hmiss.
    discriminate.
  - exists q'. split; [exact Hq'|]. split; [exact Hmiss'|].
    now rewrite Hrun.
Qed.

(** The map the three loops build from the empty one. *)
Lemma idx_map_built (self : Dataset)
    (p_train p_test p_val : list string) (m_train m_test m_val : string)
    (ints : list Z) :
  dict_find (cfg_INFO_PATH (dataset_cfg self)) "train" = Some p_train ->
  dict_find (cfg_INFO_PATH (dataset_cfg self)) "test" = Some p_test ->
  dict_find (cfg_INFO_PATH (dataset_cfg self)) "val" = Some p_val ->
  dict_find (cfg_DATA_SPLIT (dataset_cfg self)) "train" = Some m_train ->
  dict_find (cfg_DATA_SPLIT (dataset_cfg self)) "test" = Some m_test ->
  dict_find (cfg_DATA_SPLIT (dataset_cfg self)) "val" = Some m_val ->
  let root := root_path (fields self) in
  let corpus := loads root p_train ++ loads root p_test ++ loads root p_val in
  Forall (fun p => file_exists (path_join root p) = true)
         (p_train ++ p_test ++ p_val) ->
  rmap parse_int (map pc_lidar_idx corpus) = Ok ints ->
  build_idx_to_imageset_map self
  = Done {| fields :=
              with_coda_infos
                (with_subdir_map (fields self)
                   (ms_map
                      (extend_map
                         (extend_map
                            (extend_map
                               {| ms_map := ∅; ms_infos := []; ms_ids := [] |}
                               (subdir_of m_train) (loads root p_train))
                            (subdir_of m_test) (loads root p_test))
                         (subdir_of m_val) (loads root p_val))))
                corpus;
            dataset_cfg := dataset_cfg self;
            training := training self;
            mode := mode self;
            split := split self;
            sample_id_list := sample_id_list self;
            sorted_lidar_idx_map := argsort ints |}.
Proof.
  intros Ht Hs Hv Mt Ms Mv root corpus Hall Hints.
  unfold build_idx_to_imageset_map.
  destruct (map_splits_outcome self _ _ _ _ _ _
              {| ms_map := ∅; ms_infos := []; ms_ids := [] |}
              Ht Hs Hv Mt Ms Mv)
    as [[_ Hrun]|(q & Hq & Hmiss & _)].
  2:{ rewrite List.Forall_forall in Hall. fold root in Hmiss.
      rewrite (Hall q Hq) in Hmiss. discriminate. }
  fold root in Hrun. rewrite Hrun. cbn [obind].
  cbn [extend_map ms_ids ms_infos ms_map app].
  rewrite <- !map_app, <- !List.app_assoc. fold corpus.
  rewrite Hints. reflexivity.
Qed.

(** The keys of that map and the directories it holds. *)
Lemma idx_map_lookup (root : string) (p_train p_test p_val : list string)
    (m_train m_test m_val idx : string) :
  let corpus := loads root p_train ++ loads root p_test ++ loads root p_val in
  let m := ms_map
             (extend_map
                (extend_map
                   (extend_map
                      {| ms_map := ∅; ms_infos := []; ms_ids := [] |}
                      (subdir_of m_train) (loads root p_train))
                   (subdir_of m_test) (loads root p_test))
                (subdir_of m_val) (loads root p_val)) in
  (In idx (map pc_lidar_idx corpus) ->
   exists subdir, m !! idx = Some subdir
                  /\ (subdir = "training" \/ subdir = "testing"))
  /\ (~ In idx (map pc_lidar_idx corpus) -> m !! idx = None).
Proof.
  intros corpus m. unfold m, corpus. cbn [extend_map ms_map].
  rewrite !map_app, !in_app_iff.
  assert (Hsub : forall mode_, subdir_of mode_ = "training"
                               \/ subdir_of mode_ = "testing").
  { intros mode_. unfold subdir_of. destruct (String.eqb mode_ "test"); auto. }
  destruct (in_dec string_dec idx (map pc_lidar_idx (loads root p_val)))
    as [H3|H3].
  { split; [|tauto]. intros _. exists (subdir_of m_val).
    split; [apply fold_insert_lookup_in, H3 | apply Hsub]. }
  destruct (in_dec string_dec idx (map pc_lidar_idx (loads root p_test)))
    as [H2|H2].
  { split; [|tauto]. intros _. exists (subdir_of m_test). split; [|apply Hsub].
    rewrite fold_insert_lookup_notin by exact H3.
    apply fold_insert_lookup_in, H2. }
  destruct (in_dec string_dec idx (map pc_lidar_idx (loads root p_train)))
    as [H1|H1].
  { split; [|tauto]. intros _. exists (subdir_of m_train). split; [|apply Hsub].
    rewrite !fold_insert_lookup_notin by assumption.
    apply fold_insert_lookup_in, H1. }
  split; [tauto|]. intros _.
  rewrite !fold_insert_lookup_notin by assumption. apply lookup_empty.
Qed.

(** X19.  When every info file of the three splits is there, the map is built
    (as soon as every lidar index reads as an integer) and the corpus
    becomes the records of the splits [train], [test] and [val], in that
    order, whatever the corpus was.  Every record of the new corpus has
    its lidar index in the map, under one of the two directories, so with
    the sorted image set no accessor raises [KeyError] on a record of the
    corpus; the map has no other key, and the sorting permutation is the
    argsort of the indices read as integers. *)
Theorem idx_map_covers_corpus (self : Dataset)
    (p_train p_test p_val : list string) (m_train m_test m_val : string)
    (ints : list Z) :
  dict_find (cfg_INFO_PATH (dataset_cfg self)) "train" = Some p_train ->
  dict_find (cfg_INFO_PATH (dataset_cfg self)) "test" = Some p_test ->
  dict_find (cfg_INFO_PATH (dataset_cfg self)) "val" = Some p_val ->
  dict_find (cfg_DATA_SPLIT (dataset_cfg self)) "train" = Some m_train ->
  dict_find (cfg_DATA_SPLIT (dataset_cfg self)) "test" = Some m_test ->
  dict_find (cfg_DATA_SPLIT (dataset_cfg self)) "val" = Some m_val ->
  let root := root_path (fields self) in
  let corpus := loads root p_train ++ loads root p_test ++ loads root p_val in
  Forall (fun p => file_exists (path_join root p) = true)
         (p_train ++ p_test ++ p_val) ->
  rmap parse_int (map pc_lidar_idx corpus) = Ok ints ->
  exists self' : Dataset,
    build_idx_to_imageset_map self = Done self'
    /\ coda_infos (fields self') = corpus
    /\ sorted_lidar_idx_map self' = argsort ints
    /\ root_path (fields self') = root
    /\ use_sorted_imageset (fields self') = use_sorted_imageset (fields self)
    /\ (forall idx : string,
          is_Some (lidar_idx_subdir_map (fields self') !! idx)
          <-> In idx (map pc_lidar_idx corpus))
    /\ (forall info : Info, In info corpus ->
          exists subdir : string,
            lidar_idx_subdir_map (fields self') !! pc_lidar_idx info
            = Some subdir
            /\ (subdir = "training" \/ subdir = "testing")
            /\ (use_sorted_imageset (fields self) = true ->
                split_path_of (fields self') (pc_lidar_idx info)
                = Ok (path_join root subdir))).
Proof.
  intros Ht Hs Hv Mt Ms Mv root corpus Hall Hints.
  eexists. split.
  { apply (idx_map_built self _ _ _ _ _ _ ints Ht Hs Hv Mt Ms Mv Hall Hints). }
  cbn [fields with_coda_infos with_subdir_map coda_infos sorted_lidar_idx_map
       root_path use_sorted_imageset lidar_idx_subdir_map].
  fold root. fold corpus.
  split; [reflexivity|]. split; [reflexivity|]. split; [reflexivity|].
  split; [reflexivity|].
  pose proof (idx_map_lookup root p_train p_test p_val m_train m_test m_val)
    as Hlookup. cbv zeta in Hlookup. fold corpus in Hlookup.
  split.
  - intros idx. split.
    + intros [subdir Hsome].
      destruct (in_dec string_dec idx (map pc_lidar_idx corpus)) as [Hin|Hin];
        [exact Hin|].
      destruct (Hlookup idx) as [_ Hnone]. rewrite (Hnone Hin) in Hsome.
      discriminate.
    + intros Hin. destruct (Hlookup idx) as [Hsome _].
      destruct (Hsome Hin) as (subdir & -> & _). eexists. reflexivity.
  - intros info Hin. destruct (Hlookup (pc_lidar_idx info)) as [Hsome _].
    destruct (Hsome (in_map _ _ _ Hin)) as (subdir & Hm & Hdir).
    exists subdir. split; [exact Hm|]. split; [exact Hdir|].
    intros Hsorted. unfold split_path_of.
    cbn [use_sorted_imageset with_coda_infos with_subdir_map
         lidar_idx_subdir_map root_path].
    now rewrite Hsorted, Hm.
Qed.

(** X20.  A lidar index listed under several splits is kept under the
    directory of the last of them in the order [train], [test], [val]: the
    directory of a frame of a [val] file is that of the mode of [val], that
    of a frame of a [test] file which is in no [val] file is that of the
    mode of [test], and only the remaining frames follow [train].  The
    directory is ['testing'] for the mode ['test'] and ['training'] for any
    other. *)
Theorem idx_map_last_split_wins (self : Dataset)
    (p_train p_test p_val : list string) (m_train m_test m_val : string)
    (ints : list Z) :
  dict_find (cfg_INFO_PATH (dataset_cfg self)) "train" = Some p_train ->
  dict_find (cfg_INFO_PATH (dataset_cfg self)) "test" = Some p_test ->
  dict_find (cfg_INFO_PATH (dataset_cfg self)) "val" = Some p_val ->
  dict_find (cfg_DATA_SPLIT (dataset_cfg self)) "train" = Some m_train ->
  dict_find (cfg_DATA_SPLIT (dataset_cfg self)) "test" = Some m_test ->
  dict_find (cfg_DATA_SPLIT (dataset_cfg self)) "val" = Some m_val ->
  let root := root_path (fields self) in
  let ids := fun paths => map pc_lidar_idx (loads root paths) in
  Forall (fun p => file_exists (path_join root p) = true)
         (p_train ++ p_test ++ p_val) ->
  rmap parse_int (ids p_train ++ ids p_test ++ ids p_val) = Ok ints ->
  exists self' : Dataset,
    build_idx_to_imageset_map self = Done self'
    /\ forall idx : string,
         (In idx (ids p_val) ->
          lidar_idx_subdir_map (fields self') !! idx
          = Some (if String.eqb m_val "test" then "testing" else "training"))
         /\ (~ In idx (ids p_val) -> In idx (ids p_test) ->
             lidar_idx_subdir_map (fields self') !! idx
             = Some (if String.eqb m_test "test" then "testing"
                     else "training"))
         /\ (~ In idx (ids p_val) -> ~ In idx (ids p_test) ->
             In idx (ids p_train) ->
             lidar_idx_subdir_map (fields self') !! idx
             = Some (if String.eqb m_train "test" then "testing"
                     else "training")).
Proof.
  intros Ht Hs Hv Mt Ms Mv root ids Hall Hints.
  unfold ids in Hints. rewrite <- !map_app in Hints.
  eexists. split.
  { apply (idx_map_built self _ _ _ _ _ _ ints Ht Hs Hv Mt Ms Mv Hall Hints). }
  cbn [fields with_coda_infos with_subdir_map lidar_idx_subdir_map
       extend_map ms_map].
  intros idx. fold (subdir_of m_val) (subdir_of m_test) (subdir_of m_train).
  fold root. unfold ids.
  split; [|split].
  - intros H3. apply fold_insert_lookup_in, H3.
  - intros H3 H2. rewrite fold_insert_lookup_notin by exact H3.
    apply fold_insert_lookup_in, H2.
  - intros H3 H2 H1. rewrite !fold_insert_lookup_notin by assumption.
    apply fold_insert_lookup_in, H1.
Qed.

(** ** [__init__] *)

(** The resampler reads the class names and the logger of the object,
    nothing else. *)
Lemma balanced_infos_resampling_fields (s1 s2 : CODataset) (infos : list Info)
    (rng : Rng) :
  class_names s1 = class_names s2 -> has_logger s1 = has_logger s2 ->
  balanced_infos_resampling s1 infos rng
  = balanced_infos_resampling s2 infos rng.
Proof.
  intros Hc Hl. unfold balanced_infos_resampling. now rewrite Hc, Hl.
Qed.

(** The object [__init__] has built when it reaches the test of
    [use_sorted_imageset]. *)
Lemma init_inv (self : Dataset) (sorted : bool) (rng : Rng)
    (r : Dataset * Rng) :
  init self sorted rng = Done r ->
  exists (split_ : string) (paths : list string) (corpus : list Info)
         (rng1 : Rng),
    dict_find (cfg_DATA_SPLIT (dataset_cfg self)) (mode self) = Some split_
    /\ dict_find (cfg_INFO_PATH (dataset_cfg self)) (mode self) = Some paths
    /\ let root := root_path (fields self) in
       let loaded :=
         concat (map pickle_load
                     (List.filter file_exists (map (path_join root) paths))) in
       let mid :=
         {| fields := with_coda_infos
                        (with_split_path (fields self) sorted
                           (path_join root (subdir_of split_)))
                        corpus;
            dataset_cfg := dataset_cfg self;
            training := training self;
            mode := mode self;
            split := split_;
            sample_id_list := read_sample_id_list root split_;
            sorted_lidar_idx_map := sorted_lidar_idx_map self |} in
       (if training self && cfg_BALANCED_RESAMPLING (dataset_cfg self) then
          balanced_infos_resampling (fields self) loaded rng
          = Ok (corpus, rng1)
        else corpus = loaded /\ rng1 = rng)
       /\ if sorted then
            exists self', build_idx_to_imageset_map mid = Done self'
                          /\ r = (self', rng1)
          else r = (mid, rng1).
Proof.
  intros H. unfold init in H.
  apply obind_done in H. destruct H as (split_ & Hsplit & H).
  apply lift_done in Hsplit. unfold dict_get in Hsplit.
  destruct (dict_find (cfg_DATA_SPLIT (dataset_cfg self)) (mode self))
    as [s|] eqn:Hs; [|discriminate].
  injection Hsplit as ->.
  apply obind_done in H. destruct H as (loaded_self & Hload & H).
  apply lift_done in Hload. cbn [mode] in Hload.
  unfold include_coda_data, dict_get in Hload. cbn [dataset_cfg] in Hload.
  destruct (dict_find (cfg_INFO_PATH (dataset_cfg self)) (mode self))
    as [paths|] eqn:Hp; [|discriminate].
  cbn [rbind] in Hload. injection Hload as <-.
  rewrite include_loop in H.
  cbn [fields with_fields with_coda_infos with_split_path coda_infos training
       dataset_cfg root_path app] in H.
  apply obind_done in H. destruct H as ([mid rng1] & Hmid & H).
  exists split_, paths.
  set (root := root_path (fields self)) in *.
  set (loaded := concat (map pickle_load
                   (List.filter file_exists (map (path_join root) paths)))) in *.
  destruct (training self && cfg_BALANCED_RESAMPLING (dataset_cfg self)) eqn:Hb.
  - apply obind_done in Hmid. destruct Hmid as ([out rng2] & Hres & Hmid).
    apply lift_done in Hres. cbn [fst snd] in Hmid. injection Hmid as <- <-.
    exists out, rng2. split; [reflexivity|]. split; [reflexivity|].
    cbv zeta. split.
    + rewrite <- Hres. apply balanced_infos_resampling_fields; reflexivity.
    + cbn [fst snd with_fields with_coda_infos fields dataset_cfg training
           mode split sample_id_list sorted_lidar_idx_map root_path
           root_split_path use_sorted_imageset lidar_idx_subdir_map
           class_names has_logger cfg_SHIFT_COOR cfg_FOV_FILTER] in H.
      destruct sorted.
      * apply obind_done in H. destruct H as (self' & Hbuild & H).
        injection H as <-. exists self'. split; [exact Hbuild | reflexivity].
      * injection H as <-. reflexivity.
  - injection Hmid as <- <-.
    exists loaded, rng. split; [reflexivity|]. split; [reflexivity|].
    cbv zeta. split; [split; reflexivity|].
    cbn [fst snd] in H. destruct sorted.
    + apply obind_done in H. destruct H as (self' & Hbuild & H).
      injection H as <-. exists self'. split; [exact Hbuild | reflexivity].
    + injection H as <-. reflexivity.
Qed.

(** X21.  Without the sorted image set, a constructed dataset holds the corpus
    of its mode: the records of the info files listed for the mode that
    exist, resampled when the dataset is for training and balanced
    resampling is configured, untouched otherwise.  Its split is the one
    configured for the mode, its frames are read under ['testing'] for the
    split ['test'] and under ['training'] for any other, and its sample ids
    are the lines of the image set of the split. *)
Theorem init_corpus_of_mode (self : Dataset) (rng : Rng)
    (self' : Dataset) (rng' : Rng) :
  init self false rng = Done (self', rng') ->
  exists (split_ : string) (paths : list string),
    dict_find (cfg_DATA_SPLIT (dataset_cfg self)) (mode self) = Some split_
    /\ dict_find (cfg_INFO_PATH (dataset_cfg self)) (mode self) = Some paths
    /\ let root := root_path (fields self) in
       let loaded :=
         concat (map pickle_load
                     (List.filter file_exists (map (path_join root) paths))) in
       split self' = split_
       /\ root_split_path (fields self')
          = path_join root
              (if String.eqb split_ "test" then "testing" else "training")
       /\ use_sorted_imageset (fields self') = false
       /\ sample_id_list self' = read_sample_id_list root split_
       /\ if training self && cfg_BALANCED_RESAMPLING (dataset_cfg self) then
            balanced_infos_resampling (fields self) loaded rng
            = Ok (coda_infos (fields self'), rng')
          else coda_infos (fields self') = loaded /\ rng' = rng.
Proof.
  intros H. apply init_inv in H.
  destruct H as (split_ & paths & corpus & rng1 & Hs & Hp & Hcorpus & Hr).
  cbv zeta in Hcorpus, Hr. injection Hr as -> ->.
  exists split_, paths. split; [exact Hs|]. split; [exact Hp|]. cbv zeta.
  cbn [fields with_coda_infos with_split_path split root_split_path
       use_sorted_imageset sample_id_list coda_infos].
  repeat (split; [reflexivity|]). exact Hcorpus.
Qed.

(** X22.  With the sorted image set, the corpus of a constructed dataset is
    the records of the splits [train], [test] and [val], in that order,
    whatever the mode of the dataset: the corpus loaded for the mode, and
    its resampling when there is one, are replaced.  Every record of the
    corpus then has a directory in the map of lidar indices. *)
Theorem init_sorted_corpus (self : Dataset) (rng : Rng)
    (p_train p_test p_val : list string) (m_train m_test m_val : string)
    (self' : Dataset) (rng' : Rng) :
  dict_find (cfg_INFO_PATH (dataset_cfg self)) "train" = Some p_train ->
  dict_find (cfg_INFO_PATH (dataset_cfg self)) "test" = Some p_test ->
  dict_find (cfg_INFO_PATH (dataset_cfg self)) "val" = Some p_val ->
  dict_find (cfg_DATA_SPLIT (dataset_cfg self)) "train" = Some m_train ->
  dict_find (cfg_DATA_SPLIT (dataset_cfg self)) "test" = Some m_test ->
  dict_find (cfg_DATA_SPLIT (dataset_cfg self)) "val" = Some m_val ->
  init self true rng = Done (self', rng') ->
  let root := root_path (fields self) in
  coda_infos (fields self')
  = loads root p_train ++ loads root p_test ++ loads root p_val
  /\ use_sorted_imageset (fields self') = true
  /\ Forall (fun p => file_exists (path_join root p) = true)
            (p_train ++ p_test ++ p_val)
  /\ forall info : Info, In info (coda_infos (fields self')) ->
       exists subdir : string,
         (subdir = "training" \/ subdir = "testing")
         /\ split_path_of (fields self') (pc_lidar_idx info)
            = Ok (path_join root subdir).
Proof.
  intros Ht Hs Hv Mt Ms Mv H root. apply init_inv in H.
  destruct H as (split_ & paths & corpus & rng1 & _ & _ & _ & Hr).
  cbv zeta in Hr. destruct Hr as (built & Hbuild & Hr). injection Hr as -> ->.
  set (mid := {| fields := with_coda_infos
                             (with_split_path (fields self) true
                                (path_join (root_path (fields self))
                                   (subdir_of split_)))
                             corpus;
                 dataset_cfg := dataset_cfg self;
                 training := training self;
                 mode := mode self;
                 split := split_;
                 sample_id_list :=
                   read_sample_id_list (root_path (fields self)) split_;
                 sorted_lidar_idx_map := sorted_lidar_idx_map self |}) in *.
  assert (Hall : Forall (fun p => file_exists (path_join root p) = true)
                        (p_train ++ p_test ++ p_val)).
  { destruct (map_splits_outcome mid _ _ _ _ _ _
                {| ms_map := ∅; ms_infos := []; ms_ids := [] |}
                Ht Hs Hv Mt Ms Mv)
      as [[Hall _]|(q & _ & _ & Hrun)]; [exact Hall|].
    unfold build_idx_to_imageset_map in Hbuild. rewrite Hrun in Hbuild.
    discriminate. }
  assert (Hints : exists ints,
            rmap parse_int
              (map pc_lidar_idx
                 (loads root p_train ++ loads root p_test ++ loads root p_val))
            = Ok ints).
  { destruct (map_splits_outcome mid _ _ _ _ _ _
                {| ms_map := ∅; ms_infos := []; ms_ids := [] |}
                Ht Hs Hv Mt Ms Mv)
      as [[_ Hrun]|(q & _ & _ & Hrun)];
      unfold build_idx_to_imageset_map in Hbuild; rewrite Hrun in Hbuild;
      [|discriminate].
    cbn [obind extend_map ms_ids ms_infos ms_map app] in Hbuild.
    rewrite <- !map_app, <- !List.app_assoc in Hbuild.
    change (root_path (fields mid)) with root in Hbuild.
    destruct (rmap parse_int _) as [ints|]; [eauto | discriminate]. }
  destruct Hints as [ints Hints].
  rewrite (idx_map_built mid _ _ _ _ _ _ ints Ht Hs Hv Mt Ms Mv Hall Hints)
    in Hbuild.
  injection Hbuild as <-.
  cbn [fields with_coda_infos with_subdir_map coda_infos use_sorted_imageset
       with_split_path mid].
  change (root_path (fields mid)) with root.
  split; [reflexivity|]. split; [reflexivity|]. split; [exact Hall|].
  intros info Hin.
  destruct (idx_map_lookup root p_train p_test p_val m_train m_test m_val
              (pc_lidar_idx info)) as [Hsome _].
  destruct (Hsome (in_map _ _ _ Hin)) as (subdir & Hm & Hdir).
  exists subdir. split; [exact Hdir|].
  unfold split_path_of.
  cbn [use_sorted_imageset with_coda_infos with_subdir_map with_split_path
       lidar_idx_subdir_map root_path fields mid].
  cbn [extend_map ms_map] in Hm. unfold root in Hm.
  rewrite Hm. reflexivity.
Qed.

(** ** [get_road_plane] *)

(** The sign of a quotient.  A number is not positive when [0 < x] is
    false, and a number has no sign when [get_sign] is false: it is a
    positive number, [+0], [+inf] or not a number. *)
Lemma not_positive_SF (x : float) :
  (0 <? x)%float = false ->
  match Prim2SF x with
  | S754_finite s _ _ | S754_infinity s => s = true
  | _ => True
  end.
Proof.
  rewrite FloatAxioms.ltb_spec.
  change (Prim2SF 0) with (S754_zero false). unfold SFltb.
  destruct (Prim2SF x) as [s|s| |s m e]; cbn; try exact (fun _ => I);
    destruct s; try discriminate; reflexivity.
Qed.

Lemma positive_SF (x : float) :
  (0 <? x)%float = true ->
  match Prim2SF x with
  | S754_finite s _ _ | S754_infinity s => s = false
  | _ => False
  end.
Proof.
  rewrite FloatAxioms.ltb_spec.
  change (Prim2SF 0) with (S754_zero false). unfold SFltb.
  destruct (Prim2SF x) as [s|s| |s m e]; cbn; try discriminate;
    destruct s; try discriminate; reflexivity.
Qed.

Lemma SF_not_positive (x : float) :
  match Prim2SF x with
  | S754_finite s _ _ | S754_infinity s => s = true
  | _ => True
  end ->
  (0 <? x)%float = false.
Proof.
  rewrite FloatAxioms.ltb_spec.
  change (Prim2SF 0) with (S754_zero false). unfold SFltb.
  destruct (Prim2SF x) as [s|s| |s m e]; cbn; try reflexivity;
    intros ->; reflexivity.
Qed.

Lemma unsigned_SF (n : float) :
  PrimFloat.get_sign n = false ->
  match Prim2SF n with
  | S754_finite s _ _ | S754_infinity s | S754_zero s => s = false
  | S754_nan => True
  end.
Proof.
  unfold PrimFloat.get_sign, PrimFloat.is_zero.
  rewrite FloatAxioms.eqb_spec.
  change (Prim2SF zero) with (S754_zero false).
  destruct (Prim2SF n) as [s|s| |s m e] eqn:Hn; cbn.
  - rewrite FloatAxioms.ltb_spec, FloatAxioms.div_spec, Hn.
    change (Prim2SF one) with (S754_finite false 4503599627370496 (-52)).
    change (Prim2SF zero) with (S754_zero false).
    destruct s; cbn; [discriminate | reflexivity].
  - unfold SFeqb. cbn. destruct s; cbn;
      rewrite FloatAxioms.ltb_spec, Hn;
      change (Prim2SF zero) with (S754_zero false); cbn;
      [discriminate | reflexivity].
  - exact (fun _ => I).
  - unfold SFeqb. cbn. destruct s; cbn;
      rewrite FloatAxioms.ltb_spec, Hn;
      change (Prim2SF zero) with (S754_zero false); cbn;
      [discriminate | reflexivity].
Qed.

Lemma binary_round_aux_sign (prec emax : Z) (s : bool) (m e : Z)
    (l : location) :
  match binary_round_aux prec emax s m e l with
  | S754_finite s' _ _ | S754_infinity s' | S754_zero s' => s' = s
  | S754_nan => True
  end.
Proof.
  unfold binary_round_aux.
  destruct (shr_fexp prec emax m e l) as [mrs' e'].
  destruct (shr_fexp prec emax _ e' loc_Exact) as [mrs'' e''].
  destruct (shr_m mrs''); [reflexivity | | exact I].
  destruct (e'' <=? emax - prec); reflexivity.
Qed.

(** A number that is not positive divided by a number without sign is
    not positive. *)
Lemma div_not_positive (x n : float) :
  (0 <? x)%float = false -> PrimFloat.get_sign n = false ->
  (0 <? x / n)%float = false.
Proof.
  intros Hx Hn. apply not_positive_SF in Hx. apply unsigned_SF in Hn.
  apply SF_not_positive. rewrite FloatAxioms.div_spec.
  unfold SF64div, SFdiv.
  destruct (Prim2SF x) as [sx|sx| |sx mx ex], (Prim2SF n) as [sn|sn| |sn mn en];
    subst; cbn; try exact I; try reflexivity.
  destruct (SFdiv_core_binary prec emax (Z.pos mx) ex (Z.pos mn) en)
    as [[mz ez] lz].
  pose proof (binary_round_aux_sign prec emax true mz ez lz) as Hs.
  cbn [xorb]. destruct (binary_round_aux prec emax true mz ez lz);
    try exact I; exact Hs.
Qed.

Lemma opp_positive (x : float) :
  (0 <? x)%float = true -> (0 <? - x)%float = false.
Proof.
  intros Hx. apply positive_SF in Hx. apply SF_not_positive.
  rewrite FloatAxioms.opp_spec.
  destruct (Prim2SF x) as [s|s| |s m e]; cbn; try exact I; now subst.
Qed.

(** X23.  The road plane is optional: without a plane file the accessor
    returns [None] and raises nothing, where the other accessors fail; a
    plane file with fewer than four lines, or with fewer than two numbers
    on the fourth, is an [IndexError]. *)
Theorem road_plane_optional (self : CODataset) (idx root : string) :
  split_path_of self idx = Ok root ->
  (file_exists (plane_file_of root idx) = false ->
     get_road_plane self idx = Ok None)
  /\ (file_exists (plane_file_of root idx) = true ->
      (length (readlines (plane_file_of root idx)) <= 3)%nat ->
      get_road_plane self idx = Err IndexError)
  /\ (forall (line : string) (values : list float),
        file_exists (plane_file_of root idx) = true ->
        readlines (plane_file_of root idx) !! 3%nat = Some line ->
        parse_floats line = Ok values -> (length values <= 1)%nat ->
        get_road_plane self idx = Err IndexError).
Proof.
  intros Hroot. unfold get_road_plane. rewrite Hroot. cbn [rbind].
  split; [|split].
  - intros ->. reflexivity.
  - intros -> Hlen. cbn [negb]. unfold getitem.
    now rewrite lookup_ge_None_2 by lia.
  - intros line values -> Hline Hvalues Hlen. cbn [negb].
    rewrite (getitem_lookup _ _ _ Hline). cbn [rbind]. rewrite Hvalues.
    cbn [rbind]. unfold getitem. now rewrite lookup_ge_None_2 by lia.
Qed.

(** X24.  The normal of a road plane never points up.  When the norm the
    coefficients are divided by has no sign (it is a positive number,
    [+0], [+inf] or not a number, as a norm is), the plane returned has as
    many coefficients as the fourth line of the file has numbers, each the
    number read, negated when the second one was positive, over the norm
    of the first three; and its second coefficient is not positive. *)
Theorem road_plane_normal_not_up (self : CODataset) (idx : string)
    (plane : list float) :
  (forall v : list float, PrimFloat.get_sign (linalg_norm v) = false) ->
  get_road_plane self idx = Ok (Some plane) ->
  exists (root line : string) (values : list float) (p1 : float),
    split_path_of self idx = Ok root
    /\ readlines (plane_file_of root idx) !! 3%nat = Some line
    /\ parse_floats line = Ok values
    /\ values !! 1%nat = Some p1
    /\ (let flipped :=
          if (0 <? p1)%float then map PrimFloat.opp values else values in
        plane = map (fun x => (x / linalg_norm (take 3 flipped))%float)
                    flipped)
    /\ length plane = length values
    /\ exists b : float, plane !! 1%nat = Some b /\ (0 <? b)%float = false.
Proof.
  intros Hnorm H. unfold get_road_plane in H.
  apply rbind_ok in H. destruct H as (root & Hroot & H).
  destruct (file_exists (plane_file_of root idx)); [|discriminate].
  cbn [negb] in H.
  apply rbind_ok in H. destruct H as (line & Hline & H).
  apply rbind_ok in H. destruct H as (values & Hvalues & H).
  apply rbind_ok in H. destruct H as (p1 & Hp1 & H).
  apply getitem_ok in Hline, Hp1. injection H as <-.
  exists root, line, values, p1.
  repeat (split; [assumption|]). split; [reflexivity|].
  split.
  { rewrite length_map. destruct (0 <? p1)%float; [apply length_map|reflexivity]. }
  rewrite list_lookup_fmap.
  destruct (0 <? p1)%float eqn:Hpos.
  - rewrite list_lookup_fmap, Hp1. cbn. eexists. split; [reflexivity|].
    apply div_not_positive; [apply opp_positive, Hpos | apply Hnorm].
  - rewrite Hp1. cbn. eexists. split; [reflexivity|].
    apply div_not_positive; [exact Hpos | apply Hnorm].
Qed.

(** ** [set_split], [get_infos] on a split, [create_coda_infos] *)

(** A labelled record with point counts was built from a label file and
    a point cloud that are on disk. *)
Lemma labelled_record_files (self : CODataset) (idx : string) (info : Info) :
  use_sorted_imageset self = false ->
  process_single_scene self true true idx = Ok info ->
  pc_lidar_idx info = idx
  /\ annos info <> None
  /\ file_exists (label_file_of (root_split_path self) idx) = true
  /\ file_exists (lidar_file_of (root_split_path self) idx) = true.
Proof.
  intros Hsorted H. unfold process_single_scene in H.
  apply rbind_ok in H. destruct H as (s & _ & H).
  apply rbind_ok in H. destruct H as (c & _ & H).
  apply rbind_ok in H. destruct H as (objs & Hlabel & H).
  apply rbind_ok in H. destruct H as (arr & _ & H).
  apply rbind_ok in H. destruct H as (loc_ & _ & H).
  apply rbind_ok in H. destruct H as (dims & _ & H).
  apply rbind_ok in H. destruct H as (rots & _ & H).
  apply rbind_ok in H. destruct H as (chk & _ & H).
  apply rbind_ok in H. destruct H as (points & Hlidar & H).
  apply rbind_ok in H. destruct H as (c' & _ & H).
  apply rbind_ok in H. destruct H as (flag & _ & H).
  apply rbind_ok in H. destruct H as (counts & _ & H).
  injection H as <-. cbn [pc_lidar_idx annos with_annos].
  split; [reflexivity|]. split; [discriminate|].
  unfold get_label, get_lidar, split_path_of in Hlabel, Hlidar.
  rewrite Hsorted in Hlabel, Hlidar. cbn [rbind] in Hlabel, Hlidar.
  split.
  - destruct (file_exists (label_file_of (root_split_path self) idx));
      [reflexivity | discriminate].
  - destruct (file_exists (lidar_file_of (root_split_path self) idx));
      [reflexivity | discriminate].
Qed.

(** On a dataset without the sorted image set a frame that was built had
    its files under [root_split_path]. *)
Lemma built_record_files (self : CODataset)
    (has_label count_inside_pts : bool) (idx : string) (info : Info) :
  use_sorted_imageset self = false ->
  process_single_scene self has_label count_inside_pts idx = Ok info ->
  let dir := root_split_path self in
  pc_lidar_idx info = idx
  /\ file_exists (img_file_of dir idx) = true
  /\ image_shape info = imread_shape (img_file_of dir idx)
  /\ file_exists (calib_file_of dir idx) = true
  /\ (has_label = true ->
      file_exists (label_file_of dir idx) = true /\ annos info <> None)
  /\ (has_label = true -> count_inside_pts = true ->
      file_exists (lidar_file_of dir idx) = true).
Proof.
  intros Hsorted H dir. apply process_single_scene_inv in H.
  destruct H as (s & c & Hs & Hc & Hcase).
  unfold get_image_shape, get_calib, split_path_of in Hs, Hc.
  rewrite Hsorted in Hs, Hc. cbn [rbind] in Hs, Hc. fold dir in Hs, Hc.
  destruct (file_exists (img_file_of dir idx)); [|discriminate].
  destruct (file_exists (calib_file_of dir idx)); [|discriminate].
  injection Hs as <-.
  assert (Hlabel : forall objs, get_label self idx = Ok objs ->
            file_exists (label_file_of dir idx) = true).
  { intros objs Hl. unfold get_label, split_path_of in Hl.
    rewrite Hsorted in Hl. cbn [rbind] in Hl. fold dir in Hl.
    destruct (file_exists (label_file_of dir idx));
      [reflexivity | discriminate]. }
  assert (Hlidar : forall pts, get_lidar self idx = Ok pts ->
            file_exists (lidar_file_of dir idx) = true).
  { intros pts Hl. unfold get_lidar, split_path_of in Hl.
    rewrite Hsorted in Hl. cbn [rbind] in Hl. fold dir in Hl.
    destruct (file_exists (lidar_file_of dir idx));
      [reflexivity | discriminate]. }
  destruct has_label.
  - destruct Hcase as (objs & Hl & Hcase). destruct count_inside_pts.
    + destruct Hcase as (pts & Hp & ->).
      repeat split; try reflexivity; try discriminate; eauto.
    + subst info. repeat split; try reflexivity; try discriminate; eauto.
  - subst info. repeat split; try reflexivity; discriminate.
Qed.

(** X25.  The frames of a split, on a dataset that does not use the sorted
    image set.  After [set_split], the builder called without a list of
    ids and without the image set file of the split is a [TypeError];
    a call that returns worked on the ids given to it, or without such a
    list on the stripped lines of the image set, and built one record per
    id, in order, from the image, the calibration and, with labels, the
    label file and the point cloud found under ['testing'] for the split
    ['test'] and under ['training'] for any other. *)
Theorem set_split_selects_frames (self : Dataset) (split_ : string)
    (has_label count_inside_pts : bool) (ids_arg : option (list string)) :
  use_sorted_imageset (fields self) = false ->
  let ds := set_split self split_ in
  let root := root_path (fields self) in
  let image_set :=
    path_join (path_join root "ImageSets") (split_ +:+ ".txt") in
  let dir :=
    path_join root
      (if String.eqb split_ "test" then "testing" else "training") in
  (ids_arg = None -> file_exists image_set = false ->
   get_infos_of_split ds has_label count_inside_pts ids_arg = Err TypeError)
  /\ forall infos : list Info,
       get_infos_of_split ds has_label count_inside_pts ids_arg = Ok infos ->
       exists ids : list string,
         match ids_arg with
         | Some l => ids = l
         | None => file_exists image_set = true
                   /\ ids = map str_strip (readlines image_set)
         end
         /\ Forall2
              (fun idx info =>
                 pc_lidar_idx info = idx
                 /\ file_exists (img_file_of dir idx) = true
                 /\ image_shape info = imread_shape (img_file_of dir idx)
                 /\ file_exists (calib_file_of dir idx) = true
                 /\ (has_label = true ->
                     file_exists (label_file_of dir idx) = true
                     /\ annos info <> None)
                 /\ (has_label = true -> count_inside_pts = true ->
                     file_exists (lidar_file_of dir idx) = true))
              ids infos.
Proof.
  intros Hsorted ds root image_set dir. split.
  - intros -> Hmiss. unfold get_infos_of_split, ds, set_split.
    cbn [sample_id_list fields]. unfold read_sample_id_list.
    fold root. fold image_set. now rewrite Hmiss.
  - intros infos H.
    assert (Hbuilt : forall ids,
              get_infos (fields ds) has_label count_inside_pts ids = Ok infos ->
              Forall2
                (fun idx info =>
                   pc_lidar_idx info = idx
                   /\ file_exists (img_file_of dir idx) = true
                   /\ image_shape info = imread_shape (img_file_of dir idx)
                   /\ file_exists (calib_file_of dir idx) = true
                   /\ (has_label = true ->
                       file_exists (label_file_of dir idx) = true
                       /\ annos info <> None)
                   /\ (has_label = true -> count_inside_pts = true ->
                       file_exists (lidar_file_of dir idx) = true))
                ids infos).
    { intros ids Hrun. unfold get_infos in Hrun. apply rmap_Forall2 in Hrun.
      eapply Forall2_impl; [exact Hrun|].
      intros idx info Hinfo. cbv beta in Hinfo.
      apply built_record_files in Hinfo; [exact Hinfo|].
      unfold ds, set_split. cbn [fields with_split_path use_sorted_imageset].
      exact Hsorted. }
    unfold get_infos_of_split in H. destruct ids_arg as [l|].
    + exists l. split; [reflexivity|]. apply Hbuilt. exact H.
    + unfold ds at 1, set_split at 1 in H. cbn [sample_id_list] in H.
      unfold read_sample_id_list in H. fold root in H. fold image_set in H.
      destruct (file_exists image_set); [|discriminate].
      eexists. split; [split; reflexivity|]. apply Hbuilt. exact H.
Qed.

Lemma get_infos_of_split_inv (self : Dataset) (split_ : string)
    (infos : list Info) :
  use_sorted_imageset (fields self) = false ->
  get_infos_of_split (set_split self split_) true true None = Ok infos ->
  exists ids : list string,
    read_sample_id_list (root_path (fields self)) split_ = Some ids
    /\ Forall2 (fun idx info =>
                  pc_lidar_idx info = idx
                  /\ annos info <> None
                  /\ file_exists
                       (label_file_of
                          (path_join (root_path (fields self))
                             (subdir_of split_)) idx) = true
                  /\ file_exists
                       (lidar_file_of
                          (path_join (root_path (fields self))
                             (subdir_of split_)) idx) = true)
               ids infos.
Proof.
  intros Hsorted H. unfold get_infos_of_split, set_split in H.
  cbn [sample_id_list fields] in H.
  destruct (read_sample_id_list (root_path (fields self)) split_)
    as [ids|]; [|discriminate].
  exists ids. split; [reflexivity|].
  unfold get_infos in H. apply rmap_Forall2 in H.
  eapply Forall2_impl; [exact H|].
  intros idx info Hinfo. cbv beta in Hinfo.
  apply labelled_record_files in Hinfo; [|exact Hsorted].
  exact Hinfo.
Qed.

(** X26.  A run of the data preparation that ends well has written four info
    files, in the order train, val, trainval, test, the third holding the
    records of the first followed by those of the second.  Each of the
    three splits has its image set file, and its records are one per
    line of it, in order, all of them labelled: the test split is built
    with labels and point counts like the others, its files read under
    ['testing'], those of train and val under ['training'].  The
    ground-truth database is built from the train records with no class
    filter. *)
Theorem create_coda_infos_files (obj : Dataset) (save_path : string)
    (rng : Rng) (files : list (string * list Info)) (db : DbState) :
  create_coda_infos obj save_path rng = Done (files, db) ->
  let root := root_path (fields obj) in
  let built := fun (subdir : string) (idx : string) (info : Info) =>
    pc_lidar_idx info = idx
    /\ annos info <> None
    /\ file_exists (label_file_of (path_join root subdir) idx) = true
    /\ file_exists (lidar_file_of (path_join root subdir) idx) = true in
  exists (train val test : list Info) (ids_train ids_val ids_test : list string)
         (dataset : CODataset),
    files = [(path_join save_path "coda_infos_train.pkl", train);
             (path_join save_path "coda_infos_val.pkl", val);
             (path_join save_path "coda_infos_trainval.pkl", train ++ val);
             (path_join save_path "coda_infos_test.pkl", test)]
    /\ read_sample_id_list root "train" = Some ids_train
    /\ read_sample_id_list root "val" = Some ids_val
    /\ read_sample_id_list root "test" = Some ids_test
    /\ Forall2 (built "training") ids_train train
    /\ Forall2 (built "training") ids_val val
    /\ Forall2 (built "testing") ids_test test
    /\ create_groundtruth_database dataset train None "train" = Ok db
    /\ root_path dataset = root
    /\ root_split_path dataset = path_join root "training"
    /\ use_sorted_imageset dataset = false.
Proof.
  intros H root built. unfold create_coda_infos in H.
  apply obind_done in H. destruct H as ([ds rng1] & Hinit & H).
  cbn [fst] in H.
  apply init_inv in Hinit.
  destruct Hinit as (split_ & paths & corpus & rng2 & _ & _ & _ & Hr).
  cbv zeta in Hr. injection Hr as Hds _.
  assert (Hroot : root_path (fields ds) = root) by now subst ds.
  assert (Hsorted : use_sorted_imageset (fields ds) = false) by now subst ds.
  clear Hds.
  apply obind_done in H. destruct H as (train & Htrain & H).
  apply obind_done in H. destruct H as (val & Hval & H).
  apply obind_done in H. destruct H as (test & Htest & H).
  apply obind_done in H. destruct H as (db' & Hdb & H).
  apply lift_done in Htrain, Hval, Htest, Hdb.
  injection H as <- <-.
  assert (Hkeep : forall (d : Dataset) (s : string),
            root_path (fields (set_split d s)) = root_path (fields d)
            /\ use_sorted_imageset (fields (set_split d s))
               = use_sorted_imageset (fields d)) by (intros; split; reflexivity).
  set (d1 := set_split ds "train") in *.
  set (d2 := set_split d1 "val") in *.
  set (d3 := set_split d2 "test") in *.
  assert (H1 : root_path (fields d1) = root
               /\ use_sorted_imageset (fields d1) = false).
  { unfold d1. destruct (Hkeep ds "train") as [-> ->]. auto. }
  assert (H2 : root_path (fields d2) = root
               /\ use_sorted_imageset (fields d2) = false).
  { unfold d2. destruct (Hkeep d1 "val") as [-> ->]. exact H1. }
  apply get_infos_of_split_inv in Htrain; [|exact Hsorted].
  apply get_infos_of_split_inv in Hval; [|apply H1].
  apply get_infos_of_split_inv in Htest; [|apply H2].
  destruct Htrain as (ids_train & Itrain & Ftrain).
  destruct Hval as (ids_val & Ival & Fval).
  destruct Htest as (ids_test & Itest & Ftest).
  destruct H1 as [R1 _], H2 as [R2 _].
  rewrite Hroot in Itrain, Ftrain. rewrite R1 in Ival, Fval.
  rewrite R2 in Itest, Ftest.
  exists train, val, test, ids_train, ids_val, ids_test,
    (fields (set_split d3 "train")).
  split; [reflexivity|].
  repeat (split; [assumption|]).
  cbn [set_split fields with_split_path root_path root_split_path
       use_sorted_imageset].
  fold d3 d2 d1.
  destruct (Hkeep d2 "test") as [R3 S3]. fold d3 in R3, S3.
  destruct (Hkeep d1 "val") as [_ S2]. fold d2 in S2.
  destruct (Hkeep ds "train") as [_ S1]. fold d1 in S1.
  split.
  - rewrite R3, R2. reflexivity.
  - rewrite S3, S2, S1. exact Hsorted.
Qed.

(** ** [__getitem__] *)

Context {Pipe : Pipeline}.

Lemma py_getitem_In {A : Type} (l : list A) (i : Z) (x : A) :
  py_getitem l i = Ok x -> In x l.
Proof.
  unfold py_getitem. intros H.
  assert (Hget : forall n, getitem l n = Ok x -> In x l).
  { intros n Hn. apply getitem_ok in Hn. apply list_elem_of_In.
    eapply list_elem_of_lookup_2. exact Hn. }
  destruct (i <? 0); [|eapply Hget; exact H].
  destruct (- i <=? Z.of_nat (length l)); [|discriminate].
  eapply Hget. exact H.
Qed.

Lemma mask_select_none {A : Type} (l : list A) (n : nat) :
  mask_select l (repeat false n) = [].
Proof.
  revert n. induction l as [|x l IH]; intros [|n]; try reflexivity.
  cbn. apply IH.
Qed.

Lemma array_bool_index_none (a r : ndarray) (n : nat) :
  array_bool_index a (repeat false n) = Ok r -> len r = 0%nat.
Proof.
  unfold array_bool_index, bool_index. rewrite repeat_length.
  destruct a as [l|l|l|c l]; cbn [len];
    (destruct (length l =? n)%nat; [|discriminate]);
    cbn [rbind]; rewrite mask_select_none; intros H; injection H as <-;
    reflexivity.
Qed.

(** The record a sample is made from and the dictionary handed on. *)
Lemma getitem_input_dict_inv (self : Loader) (index : Z) (d : InputDict) :
  getitem_input_dict self index = Ok d ->
  let obj := fields (ds self) in
  exists (info : Info) (raw : list lidar_point) (calib : Calib),
    In info (coda_infos obj)
    /\ get_lidar obj (pc_lidar_idx info) = Ok raw
    /\ get_calib obj (pc_lidar_idx info) = Ok calib
    /\ id_frame_id d = pc_lidar_idx info
    /\ id_calib d = calib
    /\ id_image_shape d = image_shape info
    /\ let seen :=
         if cfg_FOV_POINTS_ONLY self
         then points_in_fov calib (image_shape info) raw else raw in
       let points :=
         match cfg_SHIFT_COOR obj with
         | Some shift => map (shift_point shift) seen
         | None => seen
         end in
       match annos info with
       | None =>
           id_points d = points /\ id_gt_names d = None
           /\ id_gt_boxes d = None /\ id_road_plane d = None
       | Some _ =>
           exists (names : ndarray) (boxes : list (list float)),
             id_gt_names d = Some names
             /\ id_gt_boxes d
                = Some (if cfg_USE_PSEUDO_LABEL self && training (ds self)
                        then None else Some boxes)
             /\ get_road_plane obj (pc_lidar_idx info) = Ok (id_road_plane d)
             /\ if cfg_REMOVE_ORIGIN_GTS self && training (ds self) then
                  boxes = [] /\ len names = 0%nat
                  /\ exists gt_boxes,
                       id_points d = remove_points_in_boxes3d points gt_boxes
                else id_points d = points
       end.
Proof.
  intros H obj. unfold getitem_input_dict in H. fold obj in H.
  apply rbind_ok in H. destruct H as (index' & _ & H).
  apply rbind_ok in H. destruct H as (info & Hinfo & H).
  assert (Hin : In info (coda_infos obj)).
  { destruct (use_sorted_imageset obj).
    - apply rbind_ok in Hinfo. destruct Hinfo as (m & _ & Hinfo).
      eapply py_getitem_In. exact Hinfo.
    - eapply py_getitem_In. exact Hinfo. }
  apply rbind_ok in H. destruct H as (raw & Hraw & H).
  apply rbind_ok in H. destruct H as (calib & Hcalib & H).
  exists info, raw, calib.
  split; [exact Hin|]. split; [exact Hraw|]. split; [exact Hcalib|].
  apply rbind_ok in H. destruct H as (seen & Hseen & H).
  assert (Hseen' : seen = if cfg_FOV_POINTS_ONLY self
                          then points_in_fov calib (image_shape info) raw
                          else raw).
  { destruct (cfg_FOV_POINTS_ONLY self).
    - rewrite get_fov_flag_zero in Hseen. cbn [rbind] in Hseen.
      injection Hseen as <-. symmetry. apply points_in_fov_mask.
    - now injection Hseen. }
  subst seen. clear Hseen.
  destruct (annos info) as [a|].
  - apply rbind_ok in H. destruct H as (loc_arr & _ & H).
    apply rbind_ok in H. destruct H as (dims_arr & _ & H).
    apply rbind_ok in H. destruct H as (rots_arr & _ & H).
    apply rbind_ok in H. destruct H as (gt_names & _ & H).
    apply rbind_ok in H. destruct H as (loc_ & _ & H).
    apply rbind_ok in H. destruct H as (dims & _ & H).
    apply rbind_ok in H. destruct H as (rots & _ & H).
    apply rbind_ok in H. destruct H as (cam & _ & H).
    apply rbind_ok in H. destruct H as (gt_boxes & _ & H).
    apply rbind_ok in H. destruct H as ([[pts boxes] names] & Hrem & H).
    apply rbind_ok in H. destruct H as (plane & Hplane & H).
    injection H as <-.
    cbn [id_frame_id id_calib id_image_shape id_points id_gt_names
         id_gt_boxes id_road_plane].
    repeat (split; [reflexivity|]). cbv zeta.
    exists names, boxes. split; [reflexivity|]. split; [reflexivity|].
    split; [exact Hplane|].
    destruct (cfg_REMOVE_ORIGIN_GTS self && training (ds self)).
    + apply rbind_ok in Hrem. destruct Hrem as (b & Hb & Hrem).
      apply rbind_ok in Hrem. destruct Hrem as (n & Hn & Hrem).
      injection Hrem as <- <- <-.
      apply bool_index_ok in Hb. destruct Hb as [_ ->].
      split; [apply mask_select_none|].
      split; [eapply array_bool_index_none; exact Hn|].
      eexists. reflexivity.
    + injection Hrem as <- <- <-. reflexivity.
  - injection H as <-.
    cbn [id_frame_id id_calib id_image_shape id_points id_gt_names
         id_gt_boxes id_road_plane].
    repeat split; reflexivity.
Qed.

(** X27.  The points of a sample.  A sample is made from a record of the
    corpus and carries its frame id, its stored image shape and the
    calibration of its frame; when ground-truth boxes are not removed for
    training, its points are the point cloud of the frame, restricted when
    [FOV_POINTS_ONLY] is set to the points the FOV filter keeps at margin 0
    (the points the info builder counts in [num_points_in_gt]) and then
    moved by [SHIFT_COOR] when there is one.  A record without annotations
    gives a sample without [gt_names], [gt_boxes] and [road_plane]. *)
Theorem getitem_points (self : Loader) (index : Z) (d : InputDict) :
  getitem_input_dict self index = Ok d ->
  let obj := fields (ds self) in
  exists (info : Info) (raw : list lidar_point) (calib : Calib),
    In info (coda_infos obj)
    /\ id_frame_id d = pc_lidar_idx info
    /\ id_image_shape d = image_shape info
    /\ get_lidar obj (pc_lidar_idx info) = Ok raw
    /\ get_calib obj (pc_lidar_idx info) = Ok calib
    /\ id_calib d = calib
    /\ (cfg_REMOVE_ORIGIN_GTS self && training (ds self) = false
        \/ annos info = None ->
        id_points d
        = let seen :=
            if cfg_FOV_POINTS_ONLY self
            then points_in_fov calib (image_shape info) raw else raw in
          match cfg_SHIFT_COOR obj with
          | Some shift => map (shift_point shift) seen
          | None => seen
          end)
    /\ (annos info = None ->
        id_gt_names d = None /\ id_gt_boxes d = None
        /\ id_road_plane d = None).
Proof.
  intros H obj. apply getitem_input_dict_inv in H. fold obj in H.
  destruct H as (info & raw & calib & Hin & Hraw & Hcalib & Hid & Hc & Hs & H).
  exists info, raw, calib. cbv zeta in H.
  repeat (split; [assumption|]).
  destruct (annos info) as [a|].
  - destruct H as (names & boxes & _ & _ & _ & H). split.
    + intros [Hoff|Hnone]; [|discriminate]. rewrite Hoff in H. exact H.
    + discriminate.
  - destruct H as (Hp & Hn & Hb & Hr). split; [intros _; exact Hp | auto].
Qed.

(** X28.  With [REMOVE_ORIGIN_GTS] set on a training dataset, no ground
    truth survives in a sample made from an annotated record: the mask
    applied to [gt_boxes] and [gt_names] is all false, so [gt_names] is
    empty and [gt_boxes] is empty, or [None] with pseudo labels. *)
Theorem getitem_removes_gts (self : Loader) (index : Z) (d : InputDict) :
  cfg_REMOVE_ORIGIN_GTS self = true ->
  training (ds self) = true ->
  getitem_input_dict self index = Ok d ->
  (forall names : ndarray, id_gt_names d = Some names -> len names = 0%nat)
  /\ (forall boxes : list (list float),
        id_gt_boxes d = Some (Some boxes) -> boxes = [])
  /\ (cfg_USE_PSEUDO_LABEL self = true ->
      id_gt_boxes d = None \/ id_gt_boxes d = Some None).
Proof.
  intros Hrem Htrain H. apply getitem_input_dict_inv in H.
  destruct H as (info & raw & calib & _ & _ & _ & _ & _ & _ & H).
  cbv zeta in H. rewrite Hrem, Htrain in H. cbn [andb] in H.
  destruct (annos info) as [a|].
  - destruct H as (names & boxes & Hn & Hb & _ & -> & Hlen & _).
    rewrite Hn, Hb. split; [|split].
    + intros names' E. injection E as <-. exact Hlen.
    + intros boxes' E. destruct (cfg_USE_PSEUDO_LABEL self && true);
        [discriminate|]. now injection E as <-.
    + intros ->. now right.
  - destruct H as (_ & Hn & Hb & _). rewrite Hn, Hb.
    split; [discriminate|]. split; [discriminate|]. intros _. now left.
Qed.

(** X29.  The index of a sample.  On an empty corpus [__getitem__] raises
    [ZeroDivisionError] when all iterations are merged into one epoch
    and [IndexError] otherwise; when they are merged, the index counts
    modulo the length of the corpus. *)
Theorem getitem_index (self : Loader) (index : Z) :
  let infos := coda_infos (fields (ds self)) in
  (infos = [] ->
   getitem_input_dict self index
   = Err (if merge_all_iters_to_one_epoch self
          then ZeroDivisionError else IndexError))
  /\ (merge_all_iters_to_one_epoch self = true ->
      forall k : Z,
        getitem_input_dict self (index + k * Z.of_nat (length infos))
        = getitem_input_dict self index).
Proof.
  intros infos. split.
  - intros Hnil. unfold getitem_input_dict. fold infos. rewrite Hnil.
    destruct (merge_all_iters_to_one_epoch self); [reflexivity|].
    cbn [rbind]. destruct (use_sorted_imageset (fields (ds self))).
    + destruct (py_getitem (sorted_lidar_idx_map (ds self)) index) as [m|e] eqn:Hm.
      * cbn [rbind]. unfold py_getitem. cbn [length].
        destruct (Z.ltb_spec (Z.of_nat m) 0); [lia | reflexivity].
      * cbn [rbind]. unfold py_getitem in Hm.
        destruct (index <? 0).
        -- destruct (- index <=? _); [|now injection Hm as <-].
           unfold getitem in Hm. destruct (_ !! _); [discriminate|].
           now injection Hm as <-.
        -- unfold getitem in Hm. destruct (_ !! _); [discriminate|].
           now injection Hm as <-.
    + unfold py_getitem. cbn [length].
      destruct (index <? 0).
      * destruct (Z.leb_spec (- index) (Z.of_nat 0)); reflexivity.
      * reflexivity.
  - intros Hmerge k. unfold getitem_input_dict. fold infos. rewrite Hmerge.
    destruct (length infos =? 0)%nat eqn:Hlen; [reflexivity|].
    rewrite Z_mod_plus_full. reflexivity.
Qed.

End LifecycleProperties.

(* ===================================================================== *)
(** * The statements on the sample dataset *)
(* ===================================================================== *)

Lemma sample_scene_record : sample_scene true true "000001" = Ok sample_record.
Proof. vm_compute. reflexivity. Qed.

Lemma sample_frame_of_record :
  frame_of_info (Ext := sample_externals) (sample_dataset None [])
    sample_record sample_frame.
Proof.
  split; [reflexivity|]. split; [reflexivity|].
  eexists _, _, _, _, _, _.
  split; [reflexivity|]. split; [reflexivity|]. split; [reflexivity|].
  split; [reflexivity|]. split; [reflexivity|]. split; [reflexivity|].
  intros i o Hi. destruct i as [|[|i]]; simpl in Hi; try discriminate;
    injection Hi as <-; repeat split; reflexivity.
Qed.

(** C3: a point projecting to pixel (0, 0) with depth 1 in a 10 x 10
    image is dropped at margin -1, so the clause on pixel (0, 0) does not
    hold for every margin; it is dropped at margin 2147483640 as well,
    where the int32 sum [width + margin] wraps to -2147483646 and the
    window is no longer [[-m, width + m)]; for the margin [2^31], which is
    not an int32, no mask is returned; and with the float32 pixel array of
    the sample the margin 16777219 is compared as -16777220, so that a
    point at pixel x = -16777220, outside [[-m, width + m)], is kept. *)
Lemma fov_origin_not_kept :
  rect_to_img (Externals := sample_externals) tt (0, 0, 1)%float
  = ((0, 0), 1)%float
  /\ float_gt_Z 1 0
  /\ get_fov_flag (Ext := sample_externals) [(0, 0, 1)%float] (10, 10) tt (-1)
     = Ok [false]
  /\ get_fov_flag (Ext := sample_externals) [(0, 0, 1)%float] (10, 10) tt
       2147483640
     = Ok [false]
  /\ int32_add 10 2147483640 = Ok (-2147483646)
  /\ float_ge_Z 0 (- 2147483640)
  /\ float_lt_Z 0 (10 + 2147483640)
  /\ get_fov_flag (Ext := sample_externals) [(0, 0, 1)%float] (10, 10) tt
       2147483648
     = Err OverflowError
  /\ pixel_dtype (Externals := sample_externals) = Float32
  /\ int_as Float32 (- 16777219) = - 16777220
  /\ get_fov_flag (Ext := sample_externals) [(-16777220, 0, 1)%float]
       (10, 10) tt 16777219
     = Ok [true]
  /\ float_lt_Z (-16777220) (- 16777219).
Proof. vm_compute. repeat split; auto. Qed.

(** The mask of the sample frame: the point behind the image plane and
    the point outside the image are dropped. *)
Example get_fov_flag_sample :
  get_fov_flag (Ext := sample_externals)
    [(1, 1, 2); (3, 3, -2); (8, 8, 8); (12, 1, 1); (0, 0, 1)]%float
    (10, 10) tt 0
  = Ok [true; false; true; false; true].
Proof. vm_compute. reflexivity. Qed.

Lemma get_fov_flag_spec_sample :
  exists mask : list bool,
    get_fov_flag (Ext := sample_externals)
      [(0, 0, 1); (3, 3, -2); (12, 1, 1)]%float (10, 10) tt 5 = Ok mask
    /\ length mask = 3%nat
    /\ mask !! 0%nat = Some true
    /\ mask !! 1%nat = Some false.
Proof.
  destruct (get_fov_flag_spec (Ext := sample_externals)
              [(0, 0, 1); (3, 3, -2); (12, 1, 1)]%float (10, 10) tt 5
              eq_refl eq_refl) as [_ Hmask].
  destruct (Hmask eq_refl) as (mask & Hrun & Hlen & Hpoint).
  exists mask. split; [exact Hrun|]. split; [exact Hlen|]. split.
  - destruct (Hpoint 0%nat (0, 0, 1)%float eq_refl)
      as (b & Hb & _ & _ & Horigin & _).
    rewrite Hb. f_equal.
    apply Horigin; try reflexivity; simpl; lia.
  - destruct (Hpoint 1%nat (3, 3, -2)%float eq_refl)
      as (b & Hb & _ & _ & _ & Hneg).
    rewrite Hb. f_equal. apply Hneg. reflexivity.
Defined.

Lemma annotation_lengths_sample :
  exists (info : Info) (a : pydict),
    sample_scene true true "000001" = Ok info
    /\ annos info = Some a
    /\ is_ok (check_equal_lengths a) = true
    /\ (forall key arr, In key per_object_keys ->
          dict_find a key = Some arr -> len arr = 3%nat)
    /\ (exists index gt_boxes_lidar,
          dict_find a "index" = Some index
          /\ dict_find a "gt_boxes_lidar" = Some gt_boxes_lidar
          /\ len index = 2%nat /\ len gt_boxes_lidar = 2%nat).
Proof.
  destruct (annotation_lengths (Ext := sample_externals)
              (sample_dataset None []) "000001" true (10, 10) tt
              (sample_labels "/data/training/label_0/000001.txt")
              (sample_points "/data/training/velodyne/000001.bin")
              eq_refl eq_refl eq_refl (fun _ => eq_refl))
    as (info & a & Hrun & Ha & Hchk & _ & Hlen & _ & Hidx).
  exists info, a. repeat split; assumption.
Defined.

Lemma num_points_in_gt_sample :
  exists (info : Info) (a : pydict) (counts : list Z),
    sample_scene true true "000001" = Ok info
    /\ annos info = Some a
    /\ dict_find a "num_points_in_gt" = Some (ArrInt counts)
    /\ length counts = 3%nat
    /\ counts !! 0%nat = Some 1
    /\ counts !! 1%nat = Some 0
    /\ counts !! 2%nat = Some (-1).
Proof.
  destruct (num_points_in_gt_spec (Ext := sample_externals)
              (sample_dataset None []) "000001" (10, 10) tt
              (sample_labels "/data/training/label_0/000001.txt")
              (sample_points "/data/training/velodyne/000001.bin")
              eq_refl eq_refl eq_refl eq_refl)
    as (flag & Hflag & info & a & counts & Hrun & Ha & Hfind & Hlen & Hin
        & Hout).
  vm_compute in Hflag. injection Hflag as <-.
  exists info, a, counts.
  split; [exact Hrun|]. split; [exact Ha|]. split; [exact Hfind|].
  split; [exact Hlen|].
  split; [exact (Hin 0%nat (sample_object "Car" 1 1 1) eq_refl)|].
  split; [exact (Hin 1%nat (sample_object "Pedestrian" 3 3 (-3)) eq_refl)|].
  apply (Hout 2%nat). simpl. lia.
Defined.

Lemma empty_frame_sample :
  exists (info : Info) (a : pydict),
    sample_scene true true "000002" = Ok info
    /\ annos info = Some a
    /\ dict_find a "bbox" = Some (ArrFloat2 4 [])
    /\ dict_find a "index" = Some (ArrInt [])
    /\ dict_find a "gt_boxes_lidar" = Some (ArrFloat2 7 [])
    /\ dict_find a "num_points_in_gt" = Some (ArrInt []).
Proof.
  destruct (empty_frame_annotations (Ext := sample_externals)
              (sample_dataset None []) "000002" true (10, 10) tt []
              eq_refl eq_refl eq_refl (fun _ => eq_refl))
    as (info & a & Hrun & Ha & Hshapes & Hlen & Hidx & Hgt & Hnum).
  exists info, a.
  split; [exact Hrun|]. split; [exact Ha|].
  assert (Hrec : annos info = annos (match sample_scene true true "000002" with
                                     | Ok i => i
                                     | Err _ => info
                                     end)).
  { unfold sample_scene. rewrite Hrun. reflexivity. }
  rewrite Ha in Hrec. injection Hrec as ->.
  repeat split; reflexivity.
Defined.

Lemma gt_database_aligned_sample :
  exists st : DbState,
    sample_database [sample_record] (Some ["Car"]) = Ok st
    /\ map fst (written st)
       = ["/data/gt_database/000001_Car_0.bin";
          "/data/gt_database/000001_Pedestrian_1.bin"]
    /\ In ("/data/gt_database/000001_Pedestrian_1.bin",
           [LidarPoint (0, 0, 0)%float 0.25%float])
          (written st)
    /\ (exists e, all_db_infos st !! "Car" = Some [e] /\ db_gt_idx e = 0%nat)
    /\ all_db_infos st !! "Pedestrian" = None.
Proof.
  destruct (gt_database_aligned (Ext := sample_externals)
              (sample_dataset None []) [sample_record]
              [sample_frame] (Some ["Car"]) "train"
              ltac:(constructor; [exact sample_frame_of_record | constructor]))
    as (st & Hrun & Hwritten & Hobj & _).
  exists st. split; [exact Hrun|].
  assert (Hst : st = match sample_database [sample_record] (Some ["Car"]) with
                     | Ok s => s
                     | Err _ => st
                     end).
  { unfold sample_database. rewrite Hrun. reflexivity. }
  rewrite Hst. vm_compute. repeat split; eauto.
Defined.


(** C4: on the sample corpus the set of "Car" has 3 records and a ratio
    just below 2/3, so the product is about 1.997: the resampler draws 1
    record where rounding gives 2, and the resampled corpus has 2 records
    where the description with rounding has 4. *)
Lemma resampling_truncates :
  (exists ratio : float,
     class_ratio_of 2 4 (class_records sample_corpus "Car") = Ok ratio
     /\ py_int (Z2F 3 * ratio)%float = Ok 1
     /\ py_round (Z2F 3 * ratio)%float = Ok 2)
  /\ result_map (fun r => length (fst r))
       (sample_resample None)
     = Ok 2%nat
  /\ result_map (fun r => length (fst r))
       (sample_resample (Some py_round))
     = Ok 4%nat.
Proof.
  split; [|split]; [|vm_compute; reflexivity|vm_compute; reflexivity].
  eexists. split; [vm_compute; reflexivity|].
  split; vm_compute; reflexivity.
Qed.

Lemma balanced_resampling_sample :
  sample_resample None
  = Ok ([named_info "000001" ["Car"]; named_info "000004" ["Pedestrian"]],
        2%nat).
Proof.
  apply (balanced_resampling_spec (Ext := sample_externals)
           (sample_dataset (Some ["Car"; "Pedestrian"]) [])
           ["Car"; "Pedestrian"] sample_corpus).
  - reflexivity.
  - reflexivity.
  - repeat constructor; simpl; intros H;
      repeat (destruct H as [H|H]; [discriminate|]); exact H.
  - repeat constructor; eexists _, _; split; reflexivity.
  - vm_compute. reflexivity.
  - discriminate.
Defined.

(** C6: the line written for the sample detection has 16 fields when
    split at its spaces, not 14; with the class list ['Traffic Light'] the
    line of the same detection has 17; and a number that is not finite is
    written without decimals. *)
Lemma detection_line_has_16_fields :
  sample_serialize (Some "/out")
  = Ok ([sample_pred_dict], [("/out/000001.txt", [sample_line])])
  /\ split_space sample_line
     = ["Car"; "-1"; "-1"; "0.2500"; "1.0000"; "2.0000"; "3.0000"; "4.0000";
        "1.7500"; "1.5000"; "3.5000"; "1.0000"; "0.0000"; "10.0000";
        "0.2500"; "0.8750"]
  /\ length (split_space sample_line) = 16%nat
  /\ length (split_space sample_line) <> 14%nat
  /\ result_map
       (fun r => map (fun file => map split_space (snd file)) (snd r))
       (generate_prediction_dicts (Ext := sample_externals)
          (sample_dataset None []) sample_batch sample_preds
          ["Traffic Light"] (Some "/out"))
     = Ok [[["Traffic"; "Light"; "-1"; "-1"; "0.2500"; "1.0000"; "2.0000";
             "3.0000"; "4.0000"; "1.7500"; "1.5000"; "3.5000"; "1.0000";
             "0.0000"; "10.0000"; "0.2500"; "0.8750"]]]
  /\ format_4f infinity = "inf" /\ format_4f nan = "nan".
Proof. vm_compute. repeat split; discriminate. Qed.

Lemma serialized_lines_sample :
  sample_serialize (Some "/out")
  = Ok ([sample_pred_dict], [("/out/000001.txt", [sample_line])])
  /\ sample_line = det_line sample_detection
  /\ length (split_space sample_line) = 16%nat.
Proof.
  assert (Hrun : sample_serialize (Some "/out")
                 = Ok ([sample_pred_dict], [("/out/000001.txt", [sample_line])]))
    by (vm_compute; reflexivity).
  destruct (serialized_lines_spec (Ext := sample_externals)
              (sample_dataset None []) sample_batch sample_preds
              ["Car"; "Pedestrian"] "/out" _ _ Hrun)
    as (Hfiles & _).
  split; [exact Hrun|]. split; [vm_compute; reflexivity|].
  inversion Hfiles as [|pd file ? ? (fid & _ & _ & _ & Hlines) _]. subst.
  destruct (Hlines 0%nat sample_line eq_refl)
    as (d & (Hname & _) & _ & _ & Hfields).
  cbn in Hname. injection Hname as Hname.
  apply Hfields. now rewrite <- Hname.
Defined.

Lemma evaluation_empty_corpus_sample :
  evaluation (Ext := sample_externals) (sample_dataset None []) [] ["Car"]
  = Err IndexError.
Proof.
  apply (evaluation_empty_corpus (Ext := sample_externals)
           (sample_dataset None []) [] ["Car"] eq_refl).
Defined.

(** Frame 000003 has an image and no calibration file. *)
Lemma get_calib_missing_sample :
  sample_exists "/data/training/calib/000003.txt" = false
  /\ get_calib (Ext := sample_externals) (sample_dataset None []) "000003"
     = Err (AssertionError None)
  /\ sample_scene true true "000003" = Err (AssertionError None).
Proof.
  destruct (get_calib_missing_unreported (Ext := sample_externals)
              (sample_dataset None []) "000003" "/data/training" true true
              ["000003"] (10, 10) eq_refl eq_refl eq_refl)
    as (Hcalib & _ & Hscene & _).
  split; [reflexivity|]. split; [exact Hcalib | exact Hscene].
Defined.

(** The three messages that do report the frame. *)
Example missing_file_messages :
  get_lidar (Ext := sample_externals) (sample_dataset None []) "000003"
  = Err (AssertionError
           (Some "Lidar files /data/training/velodyne/000003.bin "))
  /\ get_label (Ext := sample_externals) (sample_dataset None []) "000003"
     = Err (AssertionError
              (Some "Label file /data/training/label_0/000003.txt does not exist"))
  /\ get_image_shape (Ext := sample_externals) (sample_dataset None []) "000004"
     = Err (AssertionError
              (Some "Image file /data/training/image_0/000004.jpg does not exist")).
Proof. vm_compute. repeat split. Qed.

(** C10.  Every entry of the database index records as
    [num_points_in_gt] the number of rows persisted in its blob, and those
    rows are cropped from the whole point cloud [get_lidar] returns, with
    no FOV filter; the count can therefore exceed the FOV-filtered count
    stored for the same object in the annotations of the frame, as for the
    pedestrian of the sample frame (1 in the database, 0 in the
    annotations). *)
Theorem db_point_count_unfiltered :
  (forall (Ext : Externals) (self : CODataset)
          (infos : list Info) (frames : list Frame)
          (used_classes : option (list string)) (split : string),
     Forall2 (frame_of_info self) infos frames ->
     exists st : DbState,
       create_groundtruth_database self infos used_classes split = Ok st
       /\ forall (c : string) (es : list DbInfo) (e : DbInfo),
            all_db_infos st !! c = Some es -> In e es ->
            exists (fr : Frame) (i : nat) (o : DbObject)
                   (rows : list lidar_point),
              In fr frames /\ f_objects fr !! i = Some o
              /\ db_gt_idx e = i /\ db_image_idx e = f_idx fr
              /\ get_lidar self (f_idx fr) = Ok (f_points fr)
              /\ rows = map (recenter (o_center o))
                            (List.filter
                               (fun p => 0 <? points_in_boxes_cpu (o_box o) (xyz p))
                               (f_points fr))
              /\ In (path_join (root_path self) (db_path e), rows) (written st)
              /\ db_num_points_in_gt e = length rows)
  /\ (exists (info : Info) (a : pydict) (st : DbState) (e : DbInfo),
        sample_scene true true "000001" = Ok info
        /\ annos info = Some a
        /\ dict_find a "name"
           = Some (ArrStr ["Car"; "Pedestrian"; "DontCare"])
        /\ dict_find a "num_points_in_gt" = Some (ArrInt [1; 0; -1])
        /\ sample_database [info] None = Ok st
        /\ all_db_infos st !! "Pedestrian" = Some [e]
        /\ db_gt_idx e = 1%nat
        /\ db_num_points_in_gt e = 1%nat).
Proof.
  split.
  - intros Ext self infos frames used split H.
    destruct (db_entry_counts self infos frames used split H)
      as (st & Hrun & Hall).
    exists st. split; [exact Hrun|]. intros c es e Hc He.
    destruct (Hall c es e Hc He)
      as (fr & i & o & rows & Hfr & Hi & -> & Hl & Hrows & Hin & Hn).
    exists fr, i, o, rows. repeat split; assumption.
  - assert (Hdb : exists st e,
               sample_database [sample_record] None = Ok st
               /\ all_db_infos st !! "Pedestrian" = Some [e]
               /\ db_gt_idx e = 1%nat /\ db_num_points_in_gt e = 1%nat).
    { destruct (sample_database [sample_record] None) as [st|err] eqn:Hst;
        [|vm_compute in Hst; discriminate].
      assert (Hval : st = match sample_database [sample_record] None with
                          | Ok s => s
                          | Err _ => st
                          end) by now rewrite Hst.
      exists st. rewrite Hval. vm_compute. eexists. repeat split. }
    destruct Hdb as (st & e & Hst & Hped & Hidx & Hcount).
    eexists sample_record, _, st, e.
    split; [exact sample_scene_record|]. split; [reflexivity|].
    split; [reflexivity|]. split; [reflexivity|].
    repeat split; assumption.
Qed.

Lemma db_point_count_sample :
  exists st : DbState,
    sample_database [sample_record] None = Ok st
    /\ forall (c : string) (es : list DbInfo) (e : DbInfo),
         all_db_infos st !! c = Some es -> In e es ->
         exists rows : list lidar_point,
           In (path_join "/data" (db_path e), rows) (written st)
           /\ db_num_points_in_gt e = length rows.
Proof.
  destruct (proj1 db_point_count_unfiltered sample_externals
              (sample_dataset None []) [sample_record] [sample_frame]
              None "train"
              ltac:(constructor; [exact sample_frame_of_record | constructor]))
    as (st & Hrun & Hall).
  exists st. split; [exact Hrun|]. intros c es e Hc He.
  destruct (Hall c es e Hc He)
    as (fr & i & o & rows & _ & _ & _ & _ & _ & _ & Hin & Hn).
  exists rows. split; assumption.
Defined.

(** ** Number formatting and conversions on sample values *)

(** The [z] of a lidar box is stored with the element type of the
    location array: in float32, 0.25 + 2^-30 is 0.25. *)
Example lidar_box_stored_z :
  lidar_box (Ext := sample_externals) (0, 0, 0x1p-30)%float (1, 0.5, 1)%float 0
  = [0; 0; 0.25; 1; 1; 0.5; - (half_pi + 0)]%float
  /\ (0x1p-30 + 0.5 / 2 =? 0.25)%float = false.
Proof. vm_compute. split; reflexivity. Qed.

Example format_4f_samples :
  map format_4f [0.5; 1.23456; -0.00001; 0.03125; 1234.56785; -7; 0.99995]%float
  = ["0.5000"; "1.2346"; "-0.0000"; "0.0312"; "1234.5678"; "-7.0000"; "1.0000"].
Proof. vm_compute. reflexivity. Qed.

Example py_int_samples :
  map py_int [1.997; -1.997; 0; 3; 0.25]%float
  = [Ok 1; Ok (-1); Ok 0; Ok 3; Ok 0]
  /\ map py_round [1.997; 0.5; 1.5; 2.5]%float = [Ok 2; Ok 0; Ok 2; Ok 2].
Proof. vm_compute. split; reflexivity. Qed.

Example to_f32_samples :
  map to_f32 [0.1; 1; 0.5; 16777217]%float
  = [0.100000001490116119384765625; 1; 0.5; 16777216]%float.
Proof. vm_compute. reflexivity. Qed.

(* ===================================================================== *)
(** * The further properties on the sample datasets *)
(* ===================================================================== *)

Lemma get_infos_one_record_per_frame_sample :
  exists infos : list Info,
    get_infos (Ext := sample_externals) (sample_dataset None []) true true
      ["000001"; "000002"] = Ok infos
    /\ map pc_lidar_idx infos = ["000001"; "000002"]
    /\ map image_idx infos = ["000001"; "000002"].
Proof.
  destruct (get_infos (Ext := sample_externals) (sample_dataset None [])
              true true ["000001"; "000002"]) as [infos|e] eqn:H;
    [|vm_compute in H; discriminate].
  exists infos. split; [reflexivity|].
  destruct (get_infos_one_record_per_frame (Ext := sample_externals)
              _ _ _ _ _ H) as (H1 & H2 & _).
  split; assumption.
Defined.

Lemma get_infos_without_labels_sample :
  exists infos : list Info,
    get_infos (Ext := sample_externals) (sample_dataset None []) false true
      ["000001"; "000002"] = Ok infos
    /\ Forall (fun info => annos info = None) infos.
Proof.
  destruct (get_infos_without_labels (Ext := sample_externals)
              (sample_dataset None []) true ["000001"; "000002"])
    as (infos & Hrun & _ & _ & Hnone).
  { intros idx [ <- | [ <- | [] ] ]; split; vm_compute; reflexivity. }
  exists infos. split; assumption.
Defined.

Lemma sorted_imageset_lookup_sample :
  get_lidar (Ext := sample_externals) sorted_dataset "000009"
  = Err (KeyError "000009")
  /\ get_infos (Ext := sample_externals) sorted_dataset true true
       ["000009"; "000001"] = Err (KeyError "000009").
Proof.
  destruct (sorted_imageset_lookup (Ext := sample_externals)
              sorted_dataset "000009" true true eq_refl) as [Hnone _].
  destruct (Hnone eq_refl) as (H1 & _ & _ & _ & H5).
  split; [exact H1 | apply H5].
Defined.

Lemma missing_file_reported_sample :
  exists msg : string,
    get_label (Ext := sample_externals) (sample_dataset None []) "000003"
    = Err (AssertionError (Some msg))
    /\ contains "/data/training/label_0/000003.txt" msg = true
    /\ contains "000003" msg = true.
Proof.
  destruct (missing_file_reported (Ext := sample_externals)
              (sample_dataset None []) "000003" "/data/training" eq_refl)
    as (_ & _ & Hlabel).
  apply Hlabel. reflexivity.
Defined.

Lemma gt_boxes_follow_index_sample :
  exists (a : pydict) (index : list nat) (boxes : list (list float)),
    annos sample_record = Some a
    /\ dict_find a "index" = Some (ArrInt (map Z.of_nat index))
    /\ dict_find a "gt_boxes_lidar" = Some (ArrFloat2 7 boxes)
    /\ length index = length boxes.
Proof.
  destruct (gt_boxes_follow_index (Ext := sample_externals)
              (sample_dataset None []) "000001" true sample_record
              sample_scene_record)
    as (c & objs & a & index & boxes & _ & _ & Ha & Hi & Hb & Hlen & _).
  exists a, index, boxes. repeat split; assumption.
Defined.

Lemma db_index_wellformed_sample :
  exists st : DbState,
    sample_database [sample_record] (Some ["Car"]) = Ok st
    /\ length (written st) = 2%nat.
Proof.
  destruct (db_index_wellformed (Ext := sample_externals)
              (sample_dataset None []) [sample_record] [sample_frame]
              (Some ["Car"]) "train"
              ltac:(constructor; [exact sample_frame_of_record | constructor]))
    as (st & Hrun & Hlen & _).
  exists st. split; [exact Hrun | exact Hlen].
Defined.

Lemma db_aborts_on_unreadable_record_sample :
  sample_database [sample_record; unlabelled_record] None
  = Err (KeyError "annos").
Proof.
  destruct (db_aborts_on_unreadable_record (Ext := sample_externals)
              (sample_dataset None []) [sample_record] [] unlabelled_record
              [sample_frame] None "train"
              ltac:(constructor; [exact sample_frame_of_record | constructor]))
    as [_ Hannos].
  apply Hannos; reflexivity.
Defined.

Lemma db_objects_by_position_sample :
  exists (info : Info) (st : DbState) (e : DbInfo),
    process_single_scene (Ext := ignored_first_externals)
      (sample_dataset None []) true true "000001" = Ok info
    /\ create_groundtruth_database (Ext := ignored_first_externals)
         (sample_dataset None []) [info] None "train" = Ok st
    /\ In e (default [] (all_db_infos st !! "DontCare"))
    /\ db_name e = "DontCare"
    /\ db_box3d_lidar e = [1; 1; 2; 2; 2; 2; - (half_pi + 0)]%float.
Proof.
  destruct (process_single_scene (Ext := ignored_first_externals)
              (sample_dataset None []) true true "000001")
    as [info|err] eqn:Hinfo; [|vm_compute in Hinfo; discriminate].
  destruct (db_objects_by_position (Ext := ignored_first_externals)
              (sample_dataset None []) "000001" true info tt
              [sample_object "DontCare" 5 5 5; sample_object "Car" 1 1 1]
              (sample_points "/data/training/velodyne/000001.bin") "train"
              Hinfo eq_refl eq_refl eq_refl)
    as (st & Hrun & _ & Hobj).
  destruct (Hobj 0%nat (sample_object "DontCare" 5 5 5)
              (sample_object "Car" 1 1 1) eq_refl eq_refl)
    as (e & Hin & _ & Hname & Hbox & _).
  exists info, st, e. repeat split; assumption.
Defined.

Lemma prediction_names_by_label_sample :
  exists (pd : PredDict) (names : list string),
    generate_single_sample_dict (Ext := sample_externals)
      (sample_dataset None []) sample_batch ["Car"; "Pedestrian"] 0
      zero_label_preds = Ok pd
    /\ pd_name pd = ArrStr names
    /\ In "Pedestrian" names.
Proof.
  destruct (generate_single_sample_dict (Ext := sample_externals)
              (sample_dataset None []) sample_batch ["Car"; "Pedestrian"] 0
              zero_label_preds) as [pd|err] eqn:Hpd;
    [|vm_compute in Hpd; discriminate].
  destruct (prediction_names_by_label (Ext := sample_externals)
              (sample_dataset None []) sample_batch ["Car"; "Pedestrian"] 0
              zero_label_preds pd eq_refl ltac:(discriminate) Hpd)
    as (names & Hname & _ & Hzero).
  exists pd, names. split; [reflexivity|]. split; [exact Hname|].
  apply Hzero; [now left | reflexivity].
Defined.

Lemma filtered_prediction_lengths_sample :
  exists pd : PredDict,
    generate_single_sample_dict (Ext := sample_externals)
      fov_dataset sample_batch ["Car"; "Pedestrian"] 0 two_preds = Ok pd
    /\ get_fov_flag (Ext := sample_externals)
         [(1, 0, 10); (100, 0, 10)]%float (10, 10) tt 5 = Ok [true; false]
    /\ length (pd_truncated pd) = 2%nat
    /\ length (pd_score pd) = 1%nat.
Proof.
  destruct (generate_single_sample_dict (Ext := sample_externals)
              fov_dataset sample_batch ["Car"; "Pedestrian"] 0 two_preds)
    as [pd|err] eqn:Hpd; [|vm_compute in Hpd; discriminate].
  destruct (filtered_prediction_lengths (Ext := sample_externals)
              fov_dataset sample_batch ["Car"; "Pedestrian"] 0 two_preds pd
              eq_refl ltac:(discriminate) Hpd)
    as (calib & shape_ & boxes0 & centers & flag & _ & _ & _ & _ & _ & _ & _
        & _ & Hlen).
  cbv zeta in Hlen.
  destruct Hlen as (_ & _ & _ & _ & _ & _ & _ & _ & _ & _ & _ & Htrunc & _).
  exists pd. split; [reflexivity|]. split; [vm_compute; reflexivity|].
  split; [exact Htrunc|].
  assert (Hval : pd = match generate_single_sample_dict
                              (Ext := sample_externals) fov_dataset
                              sample_batch ["Car"; "Pedestrian"] 0 two_preds
                      with
                      | Ok p => p
                      | Err _ => pd
                      end) by now rewrite Hpd.
  rewrite Hval. vm_compute. reflexivity.
Defined.

Lemma prediction_dicts_per_frame_sample :
  sample_serialize None = Ok ([sample_pred_dict], [])
  /\ map pd_frame_id [sample_pred_dict] = [Some "000001"].
Proof.
  assert (Hrun : sample_serialize (Some "/out")
                 = Ok ([sample_pred_dict], [("/out/000001.txt", [sample_line])]))
    by (vm_compute; reflexivity).
  destruct (prediction_dicts_per_frame (Ext := sample_externals)
              (sample_dataset None []) sample_batch sample_preds
              ["Car"; "Pedestrian"] (Some "/out") _ _ Hrun)
    as (_ & Hids & _ & Hnone).
  split; [exact Hnone | exact Hids].
Defined.

Lemma empty_detections_serialized_sample :
  generate_prediction_dicts (Ext := sample_externals) (sample_dataset None [])
    sample_batch
    [{| pred_scores := []; pred_boxes := []; pred_labels := [] |}]
    ["Car"; "Pedestrian"] (Some "/out")
  = Ok ([set_frame_id (get_template_prediction 0) "000001"],
        [("/out/000001.txt", [])]).
Proof.
  apply (empty_detections_serialized (Ext := sample_externals)
           (sample_dataset None []) sample_batch
           [{| pred_scores := []; pred_boxes := []; pred_labels := [] |}]
           ["Car"; "Pedestrian"] "/out").
  - repeat constructor.
  - simpl. lia.
Defined.

Lemma evaluation_by_first_record_sample :
  evaluation (Ext := sample_externals)
    (sample_dataset None [unlabelled_record; sample_record]) []
    ["Car"; "Pedestrian"]
  = Ok (None, [])
  /\ evaluation (Ext := sample_externals)
       (sample_dataset None [sample_record; unlabelled_record]) []
       ["Car"; "Pedestrian"]
     = Err (KeyError "annos").
Proof.
  split.
  - destruct (evaluation_by_first_record (Ext := sample_externals)
                (sample_dataset None [unlabelled_record; sample_record]) []
                ["Car"; "Pedestrian"] unlabelled_record [sample_record]
                eq_refl) as (Hnone & _).
    apply Hnone. reflexivity.
  - destruct (evaluation_by_first_record (Ext := sample_externals)
                (sample_dataset None [sample_record; unlabelled_record]) []
                ["Car"; "Pedestrian"] sample_record [unlabelled_record]
                eq_refl) as (_ & Hlater & _).
    apply Hlater; [discriminate | constructor; reflexivity].
Defined.

Lemma resampling_returns_members_sample :
  Forall (fun x => In x sample_corpus
                   /\ exists c, In c ["Car"; "Pedestrian"]
                                /\ has_class c x = true)
         [named_info "000001" ["Car"]; named_info "000004" ["Pedestrian"]].
Proof.
  assert (Hrun : balanced_infos_resampling (Ext := sample_externals)
                   (sample_dataset (Some ["Car"; "Pedestrian"]) [])
                   sample_corpus 0%nat
                 = Ok ([named_info "000001" ["Car"];
                        named_info "000004" ["Pedestrian"]], 2%nat))
    by (vm_compute; reflexivity).
  assert (Hnd : List.NoDup ["Car"; "Pedestrian"]).
  { repeat constructor; simpl; intros H;
      repeat (destruct H as [H|H]; [discriminate|]); exact H. }
  assert (Hnames : Forall has_names sample_corpus).
  { repeat constructor; eexists _, _; split; reflexivity. }
  destruct (resampling_returns_members (Ext := sample_externals)
              (sample_dataset (Some ["Car"; "Pedestrian"]) [])
              ["Car"; "Pedestrian"] sample_corpus
              [named_info "000001" ["Car"]; named_info "000004" ["Pedestrian"]]
              0%nat 2%nat eq_refl Hnd Hnames Hrun)
    as (_ & _ & Hall).
  exact Hall.
Defined.

Lemma resampling_without_members_sample :
  balanced_infos_resampling (Ext := sample_externals)
    (sample_dataset (Some ["Car"; "Pedestrian"]) []) [] 0%nat
  = Err ZeroDivisionError
  /\ balanced_infos_resampling (Ext := sample_externals)
       (sample_dataset (Some ["Cyclist"]) []) sample_corpus 0%nat
     = Err ZeroDivisionError.
Proof.
  split.
  - apply (resampling_without_members (Ext := sample_externals)
             (sample_dataset (Some ["Car"; "Pedestrian"]) [])
             ["Car"; "Pedestrian"] [] 0%nat eq_refl).
    + repeat constructor; simpl; intros H;
        repeat (destruct H as [H|H]; [discriminate|]); exact H.
    + constructor.
    + intros c info _ [].
  - apply (resampling_without_members (Ext := sample_externals)
             (sample_dataset (Some ["Cyclist"]) [])
             ["Cyclist"] sample_corpus 0%nat eq_refl).
    + repeat constructor. intros [].
    + repeat constructor; eexists _, _; split; reflexivity.
    + intros c info [ <- | [] ] Hin.
      repeat (destruct Hin as [ <- | Hin ]; [reflexivity|]). destruct Hin.
Defined.

Lemma get_fov_flag_drops_nan_sample :
  get_fov_flag (Ext := sample_externals) [(1, 1, 2); (nan, 0, 1)]%float
    (10, 10) tt 0
  = Ok [true; false].
Proof.
  destruct (get_fov_flag_drops_nan (Ext := sample_externals)
              [(1, 1, 2); (nan, 0, 1)]%float (10, 10) tt 0 1%nat
              (nan, 0, 1)%float eq_refl) as [Hex Hall].
  { left. vm_compute. reflexivity. }
  destruct (Hex eq_refl) as [mask Hmask].
  pose proof (Hall mask Hmask) as Hi.
  rewrite Hmask. vm_compute in Hmask. injection Hmask as <-. reflexivity.
Defined.

(** ** Construction, road planes and data preparation on the second
    sample *)

Lemma include_coda_data_skips_missing_sample :
  exists self' : Dataset,
    include_coda_data (Ext := prep_externals) (Sto := sample_storage)
      (sample_obj sample_cfg_missing true) "train" = Ok self'
    /\ coda_infos (fields self')
       = [named_info "000001" ["Car"]; named_info "000002" ["Car"; "Car"]].
Proof.
  destruct (include_coda_data_skips_missing (Ext := prep_externals)
              (Sto := sample_storage) (sample_obj sample_cfg_missing true)
              "train") as [Hsome _].
  destruct (Hsome ["coda_infos_train.pkl"; "coda_infos_more.pkl"] eq_refl)
    as [Hrun _].
  eexists. split; [exact Hrun | reflexivity].
Defined.

Lemma idx_map_needs_every_file_sample :
  exists q : string,
    build_idx_to_imageset_map (Ext := prep_externals) (Sto := sample_storage)
      (sample_obj sample_cfg_missing true)
    = Failed (FileNotFoundError (path_join "/data" q)).
Proof.
  destruct (idx_map_needs_every_file (Ext := prep_externals)
              (Sto := sample_storage) (sample_obj sample_cfg_missing true)
              ["coda_infos_train.pkl"; "coda_infos_more.pkl"]
              ["coda_infos_test.pkl"] ["coda_infos_val.pkl"]
              "train" "test" "val" "coda_infos_more.pkl"
              eq_refl eq_refl eq_refl eq_refl eq_refl eq_refl)
    as (q & _ & _ & Hrun).
  - right. now left.
  - reflexivity.
  - exists q. exact Hrun.
Defined.

Lemma idx_map_covers_corpus_sample :
  exists self' : Dataset,
    build_idx_to_imageset_map (Ext := prep_externals) (Sto := sample_storage)
      (sample_obj (sample_cfg false) true) = Done self'
    /\ map pc_lidar_idx (coda_infos (fields self'))
       = ["000001"; "000002"; "000002"; "000005"; "000004"]
    /\ sorted_lidar_idx_map self' = [0; 1; 2; 4; 3]%nat.
Proof.
  destruct (idx_map_covers_corpus (Ext := prep_externals)
              (Sto := sample_storage) (sample_obj (sample_cfg false) true)
              ["coda_infos_train.pkl"] ["coda_infos_test.pkl"]
              ["coda_infos_val.pkl"] "train" "test" "val" [1; 2; 2; 5; 4]
              eq_refl eq_refl eq_refl eq_refl eq_refl eq_refl)
    as (self' & Hrun & Hcorpus & Hsorted & _).
  - repeat constructor.
  - vm_compute. reflexivity.
  - exists self'. split; [exact Hrun|]. rewrite Hcorpus, Hsorted.
    split; vm_compute; reflexivity.
Defined.

Lemma idx_map_last_split_wins_sample :
  exists self' : Dataset,
    build_idx_to_imageset_map (Ext := prep_externals) (Sto := sample_storage)
      (sample_obj (sample_cfg false) true) = Done self'
    /\ lidar_idx_subdir_map (fields self') !! "000002" = Some "testing"
    /\ lidar_idx_subdir_map (fields self') !! "000001" = Some "training".
Proof.
  destruct (idx_map_last_split_wins (Ext := prep_externals)
              (Sto := sample_storage) (sample_obj (sample_cfg false) true)
              ["coda_infos_train.pkl"] ["coda_infos_test.pkl"]
              ["coda_infos_val.pkl"] "train" "test" "val" [1; 2; 2; 5; 4]
              eq_refl eq_refl eq_refl eq_refl eq_refl eq_refl)
    as (self' & Hrun & Hdirs).
  - repeat constructor.
  - vm_compute. reflexivity.
  - exists self'. split; [exact Hrun|]. split.
    + destruct (Hdirs "000002") as (_ & Htest & _). apply Htest.
      * simpl. intros [H|[]]. discriminate.
      * simpl. now left.
    + destruct (Hdirs "000001") as (_ & _ & Htrain). apply Htrain.
      * simpl. intros [H|[]]. discriminate.
      * simpl. intros [H|[H|[]]]; discriminate.
      * simpl. now left.
Defined.

Lemma init_corpus_of_mode_sample :
  exists (self' : Dataset) (rng' : nat),
    init (Ext := prep_externals) (Sto := sample_storage)
      (sample_obj (sample_cfg false) false) false 0%nat = Done (self', rng')
    /\ split self' = "test"
    /\ root_split_path (fields self') = "/data/testing"
    /\ sample_id_list self' = Some ["000005"]
    /\ coda_infos (fields self')
       = [named_info "000002" ["Car"]; named_info "000005" ["Car"]].
Proof.
  destruct (init (Ext := prep_externals) (Sto := sample_storage)
              (sample_obj (sample_cfg false) false) false 0%nat)
    as [[self' rng']|err] eqn:Hinit; [|vm_compute in Hinit; discriminate].
  destruct (init_corpus_of_mode (Ext := prep_externals)
              (Sto := sample_storage) _ _ _ _ Hinit)
    as (split_ & paths & Hs & Hp & Hrest).
  cbv zeta in Hrest.
  destruct Hrest as (Hsplit & Hpath & _ & Hids & Hcorpus).
  injection Hs as <-. injection Hp as <-.
  cbn in Hcorpus. destruct Hcorpus as [Hcorpus _].
  exists self', rng'. split; [reflexivity|].
  rewrite Hsplit, Hpath, Hids, Hcorpus.
  repeat split; vm_compute; reflexivity.
Defined.

Lemma init_sorted_corpus_sample :
  exists (self' : Dataset) (rng' : nat),
    init (Ext := prep_externals) (Sto := sample_storage)
      (sample_obj (sample_cfg false) false) true 0%nat = Done (self', rng')
    /\ map pc_lidar_idx (coda_infos (fields self'))
       = ["000001"; "000002"; "000002"; "000005"; "000004"].
Proof.
  destruct (init (Ext := prep_externals) (Sto := sample_storage)
              (sample_obj (sample_cfg false) false) true 0%nat)
    as [[self' rng']|err] eqn:Hinit; [|vm_compute in Hinit; discriminate].
  destruct (init_sorted_corpus (Ext := prep_externals)
              (Sto := sample_storage) (sample_obj (sample_cfg false) false)
              0%nat ["coda_infos_train.pkl"] ["coda_infos_test.pkl"]
              ["coda_infos_val.pkl"] "train" "test" "val" self' rng'
              eq_refl eq_refl eq_refl eq_refl eq_refl eq_refl Hinit)
    as (Hcorpus & _).
  exists self', rng'. split; [reflexivity|]. rewrite Hcorpus.
  vm_compute. reflexivity.
Defined.

Lemma road_plane_optional_sample :
  get_road_plane (Ext := prep_externals) (Sto := sample_storage)
    (sample_dataset None []) "000009" = Ok None
  /\ get_road_plane (Ext := prep_externals) (Sto := sample_storage)
       (sample_dataset None []) "000002" = Err IndexError.
Proof.
  split.
  - destruct (road_plane_optional (Ext := prep_externals)
                (Sto := sample_storage) (sample_dataset None []) "000009"
                "/data/training" eq_refl) as (Hnone & _).
    apply Hnone. reflexivity.
  - destruct (road_plane_optional (Ext := prep_externals)
                (Sto := sample_storage) (sample_dataset None []) "000002"
                "/data/training" eq_refl) as (_ & Hshort & _).
    apply Hshort; [reflexivity | simpl; lia].
Defined.

Lemma road_plane_normal_not_up_sample :
  exists (plane : list float) (b : float),
    get_road_plane (Ext := prep_externals) (Sto := sample_storage)
      (sample_dataset None []) "000001" = Ok (Some plane)
    /\ length plane = 4%nat
    /\ plane !! 1%nat = Some b
    /\ (0 <? b)%float = false.
Proof.
  destruct (get_road_plane (Ext := prep_externals) (Sto := sample_storage)
              (sample_dataset None []) "000001") as [[plane|]|err] eqn:Hrun;
    [|vm_compute in Hrun; discriminate|vm_compute in Hrun; discriminate].
  destruct (road_plane_normal_not_up (Ext := prep_externals)
              (Sto := sample_storage) (sample_dataset None []) "000001" plane
              ltac:(intros v; vm_compute; reflexivity) Hrun)
    as (root & line & values & p1 & Hroot & Hline & Hvalues & _ & _ & Hlen
        & b & Hb & Hneg).
  exists plane, b. split; [reflexivity|]. split; [|split; assumption].
  rewrite Hlen. cbn in Hroot. injection Hroot as <-.
  cbn in Hline. injection Hline as <-.
  cbn in Hvalues. injection Hvalues as <-. reflexivity.
Defined.

Lemma set_split_selects_frames_sample :
  exists infos : list Info,
    get_infos_of_split (Ext := prep_externals)
      (set_split (Ext := prep_externals) (Sto := sample_storage)
         (sample_obj (sample_cfg false) false) "test")
      true true None = Ok infos
    /\ map pc_lidar_idx infos = ["000005"]
    /\ Forall (fun info =>
                 prep_exists (img_file_of "/data/testing" (pc_lidar_idx info))
                 = true
                 /\ prep_exists
                      (lidar_file_of "/data/testing" (pc_lidar_idx info))
                    = true)
              infos
    /\ get_infos_of_split (Ext := prep_externals)
         (set_split (Ext := prep_externals) (Sto := sample_storage)
            (sample_obj (sample_cfg false) false) "trainval")
         true true None = Err TypeError.
Proof.
  destruct (get_infos_of_split (Ext := prep_externals)
              (set_split (Ext := prep_externals) (Sto := sample_storage)
                 (sample_obj (sample_cfg false) false) "test")
              true true None) as [infos|err] eqn:Hrun;
    [|vm_compute in Hrun; discriminate].
  destruct (set_split_selects_frames (Ext := prep_externals)
              (Sto := sample_storage) (sample_obj (sample_cfg false) false)
              "test" true true None eq_refl) as [_ Hok].
  destruct (Hok infos Hrun) as (ids & [_ Hids] & Hbuilt).
  destruct (set_split_selects_frames (Ext := prep_externals)
              (Sto := sample_storage) (sample_obj (sample_cfg false) false)
              "trainval" true true None eq_refl) as [Hmiss _].
  exists infos. split; [reflexivity|].
  assert (Hmap : map pc_lidar_idx infos = ids).
  { clear Hids Hrun Hok. induction Hbuilt as [|idx info ids infos Hx _ IH];
      [reflexivity|].
    cbn [map]. destruct Hx as [-> _]. now rewrite IH. }
  split; [rewrite Hmap, Hids; vm_compute; reflexivity|].
  split; [|apply Hmiss; reflexivity].
  clear Hmap Hids Hrun Hok. induction Hbuilt as [|idx info ids infos Hx _ IH];
    constructor; [|exact IH].
  destruct Hx as (-> & Himg & _ & _ & _ & Hlidar).
  split; [exact Himg | exact (Hlidar eq_refl eq_refl)].
Defined.

Lemma create_coda_infos_files_sample :
  exists (files : list (string * list Info)) (db : DbState),
    create_coda_infos (Ext := prep_externals) (Sto := sample_storage)
      (sample_obj (sample_cfg false) false) "/data" 0%nat = Done (files, db)
    /\ map fst files
       = ["/data/coda_infos_train.pkl"; "/data/coda_infos_val.pkl";
          "/data/coda_infos_trainval.pkl"; "/data/coda_infos_test.pkl"]
    /\ map (fun f => map pc_lidar_idx (snd f)) files
       = [["000001"]; ["000002"]; ["000001"; "000002"]; ["000005"]].
Proof.
  destruct (create_coda_infos (Ext := prep_externals) (Sto := sample_storage)
              (sample_obj (sample_cfg false) false) "/data" 0%nat)
    as [[files db]|err] eqn:Hrun; [|vm_compute in Hrun; discriminate].
  destruct (create_coda_infos_files (Ext := prep_externals)
              (Sto := sample_storage) _ _ _ _ _ Hrun)
    as (train & val & test & ids_train & ids_val & ids_test & dataset
        & Hfiles & Itrain & Ival & Itest & Ftrain & Fval & Ftest & _).
  exists files, db. split; [reflexivity|]. rewrite Hfiles.
  split; [reflexivity|]. cbn [map snd]. rewrite map_app.
  assert (Hids : forall (dir : string) (ids : list string) (infos : list Info),
            Forall2 (fun idx info =>
                       pc_lidar_idx info = idx
                       /\ annos info <> None
                       /\ file_exists (Externals := prep_externals)
                            (label_file_of (path_join "/data" dir) idx) = true
                       /\ file_exists (Externals := prep_externals)
                            (lidar_file_of (path_join "/data" dir) idx) = true)
                    ids infos ->
            map pc_lidar_idx infos = ids).
  { intros dir ids infos HF. induction HF as [|idx info ids infos Hx _ IH];
      [reflexivity|].
    cbn [map]. destruct Hx as [-> _]. now rewrite IH. }
  rewrite (Hids _ _ _ Ftrain), (Hids _ _ _ Fval), (Hids _ _ _ Ftest).
  cbn in Itrain, Ival, Itest.
  injection Itrain as <-. injection Ival as <-. injection Itest as <-.
  vm_compute. reflexivity.
Defined.

Lemma getitem_points_sample :
  exists d : InputDict (Ext := prep_externals),
    getitem_input_dict (Sto := sample_storage) (Pipe := sample_pipeline)
      (sample_loader false [car_record]) 0 = Ok d
    /\ id_frame_id d = "000001"
    /\ id_points d
       = [LidarPoint (1, 1, 2)%float 0.5%float;
          LidarPoint (8, 8, 8)%float 0.125%float].
Proof.
  destruct (getitem_input_dict (Sto := sample_storage)
              (Pipe := sample_pipeline) (sample_loader false [car_record]) 0)
    as [d|err] eqn:Hd; [|vm_compute in Hd; discriminate].
  destruct (getitem_points (Sto := sample_storage) (Pipe := sample_pipeline)
              _ _ _ Hd)
    as (info & raw & calib & Hin & Hid & _ & Hraw & _ & _ & Hpts & _).
  destruct Hin as [ <- | [] ].
  exists d. split; [reflexivity|]. split; [exact Hid|].
  rewrite Hpts by (left; reflexivity).
  cbn in Hraw. injection Hraw as <-. destruct calib.
  vm_compute. reflexivity.
Defined.

Lemma getitem_removes_gts_sample :
  exists (d : InputDict (Ext := prep_externals)) (names : ndarray),
    getitem_input_dict (Sto := sample_storage) (Pipe := sample_pipeline)
      (sample_loader true [car_record]) 0 = Ok d
    /\ id_gt_names d = Some names
    /\ len names = 0%nat.
Proof.
  destruct (getitem_input_dict (Sto := sample_storage)
              (Pipe := sample_pipeline) (sample_loader true [car_record]) 0)
    as [d|err] eqn:Hd; [|vm_compute in Hd; discriminate].
  destruct (getitem_removes_gts (Sto := sample_storage)
              (Pipe := sample_pipeline) (sample_loader true [car_record]) 0 d
              eq_refl eq_refl Hd)
    as (Hnames & _).
  destruct (id_gt_names d) as [names|] eqn:Hn.
  - exists d, names. split; [reflexivity|]. split; [exact Hn|].
    apply Hnames. reflexivity.
  - exfalso.
    assert (Hval : d = match getitem_input_dict (Sto := sample_storage)
                               (Pipe := sample_pipeline)
                               (sample_loader true [car_record]) 0 with
                       | Ok x => x
                       | Err _ => d
                       end) by now rewrite Hd.
    rewrite Hval in Hn. vm_compute in Hn. discriminate.
Defined.

Lemma getitem_index_sample :
  getitem_input_dict (Ext := prep_externals) (Sto := sample_storage)
    (Pipe := sample_pipeline) (sample_loader false []) 5
  = Err IndexError.
Proof.
  destruct (getitem_index (Ext := prep_externals) (Sto := sample_storage)
              (Pipe := sample_pipeline) (sample_loader false []) 5)
    as [Hempty _].
  apply Hempty. reflexivity.
Defined.
